(** * Session store, session lifecycle and directive resolution of the gateway

    A shallow embedding of the session core of the gateway:

    - the durable session store (config/sessions store: [loadSessionStore],
      [saveSessionStoreUnlocked], [withSessionStoreLock], [updateSessionStore],
      [updateSessionStoreEntry], [updateLastRoute]);
    - session initialisation ([initSessionState], both revisions present in
      the sources);
    - the thinking-level guard of [runPreparedReply] and [handleDirectiveOnly];
    - fuzzy model resolution ([scoreFuzzyMatch], [resolveModelDirectiveSelection]);
    - the [sessions.reset] and [sessions.delete] bridge methods;
    - the usage update of a run, the keys of thread sessions, the store
      targets of the gateway, the model selection state, the start of
      [agentCommand] and [persistInlineDirectives].

    JavaScript objects used as dictionaries are finite maps ([gmap]) from
    property names to values; a property that is present with the value
    [undefined] is a key bound to [JUndef], which is what makes object spread
    and [JSON.stringify] behave differently on it.  The file system, the
    in-process read cache, the clock and the UUID source are threaded
    explicitly through a state-and-exception monad. *)

From stdpp Require Import gmap strings list fin_maps pretty.
From Stdlib Require Import ZArith Ascii String.

Open Scope string_scope.
Open Scope Z_scope.

(** ** JavaScript values and session records *)

(** Values held by the properties of a session record.  Nested arrays and
    objects ([skillsSnapshot], [deliveryContext], ...) are only ever moved
    around as a whole by the code under study, so they are kept as [JTree]
    with their serialised text. *)
Inductive jsval : Type :=
| JUndef
| JNull
| JBool (b : bool)
| JNum (n : Z)
| JStr (s : string)
| JTree (repr : string).

#[global] Instance jsval_eq_dec : EqDecision jsval.
Proof. solve_decision. Defined.

(** A [SessionEntry] is an object: property name to value.  A store is the
    object [Record<string, SessionEntry>]: session key to record. *)
Abbreviation SessionEntry := (gmap string jsval).
Abbreviation Store := (gmap string (gmap string jsval)).

(** [o.p] on a possibly missing object: a missing property reads [undefined]. *)
Definition prop (e : gmap string jsval) (p : string) : jsval :=
  default JUndef (e !! p).

Definition oprop (e : option (gmap string jsval)) (p : string) : jsval :=
  match e with Some o => prop o p | None => JUndef end.

(** [a ?? b] *)
Definition nullish (a b : jsval) : jsval :=
  match a with JUndef | JNull => b | _ => a end.

(** Truthiness of a property value. *)
Definition truthy (v : jsval) : bool :=
  match v with
  | JUndef | JNull => false
  | JBool b => b
  | JNum n => negb (n =? 0)%Z
  | JStr s => negb (String.eqb s "")
  | JTree _ => true
  end.

(** [typeof v === "string"] *)
Definition is_string (v : jsval) : bool :=
  match v with JStr _ => true | _ => false end.

(** Object spread [{ ...a, ...b }]: every own property of [b], also one
    whose value is [undefined], overrides the property of [a]. *)
Definition spread (a b : gmap string jsval) : gmap string jsval := b ∪ a.

(** [{ ...x }] where [x] may be [undefined]. *)
Definition ospread (x : option (gmap string jsval)) : gmap string jsval :=
  default ∅ x.

(** [JSON.stringify] followed by a parse: properties whose value is
    [undefined] are not written. *)
Definition json_entry (e : gmap string jsval) : gmap string jsval :=
  filter (λ kv, kv.2 ≠ JUndef) e.

Definition json_store (s : gmap string (gmap string jsval))
  : gmap string (gmap string jsval) := json_entry <$> s.

(** ** The world: files, lock markers, cache, clock *)

(** What a store file holds, up to JSON5 parsing: text that does not parse,
    a document that is not an object, or an object of records.  The model
    follows the declared type [Record<string, SessionEntry>]: documents with
    a non-object value under some key, and top-level arrays, are not
    represented. *)
Inductive content : Type :=
| Unparseable (raw : string)
| Scalar (v : jsval)
| Document (d : gmap string (gmap string jsval)).

Record file := File { f_content : content; f_mtimeMs : Z }.

(** [SessionStoreCacheEntry] (the [storePath] field repeats the key). *)
Record SessionStoreCacheEntry := CacheEntry {
  c_store : gmap string (gmap string jsval);
  c_loadedAt : Z;
  c_mtimeMs : option Z
}.

(** Observable steps, recorded for ordering properties only. *)
Inductive event : Type :=
| EvLockAcquired (lockPath : string)
| EvLockEvicted (lockPath : string)
| EvLockReleased (lockPath : string)
| EvCacheHit (storePath : string)
| EvDiskRead (storePath : string)
| EvMutator (storePath : string)
| EvStoreWritten (storePath : string).

#[global] Instance event_eq_dec : EqDecision event.
Proof. solve_decision. Defined.

(** Process-level settings read by the store: the resolved cache TTL
    ([getSessionStoreTtl()]), whether that TTL enables the cache
    ([isCacheEnabled], from cache-utils.js, not among the sources),
    [process.platform === "win32"] and [process.pid]. *)
Record Env := MkEnv {
  env_ttlMs : Z;
  env_cacheEnabled : bool;
  env_win32 : bool;
  env_pid : string
}.

(** Store files, lock markers and temporary files live in one directory
    but are kept in three maps keyed by their full path: a store path is
    never itself of the form [<other store>.lock] or [<store>.<pid>.<uuid>.tmp]. *)
Record World := MkWorld {
  w_env : Env;
  w_files : gmap string file;
  w_locks : gmap string Z;
  w_tmps : gmap string file;
  w_dirs : gset string;
  w_cache : gmap string SessionStoreCacheEntry;
  w_now : Z;
  w_entropy : nat → string;
  w_drawn : nat;
  w_trace : list event
}.

(** ** The monad: state over [World] with JavaScript exceptions *)

Inductive errno : Type := ENOENT | EEXIST | EOTHER (code : string).

#[global] Instance errno_eq_dec : EqDecision errno.
Proof. solve_decision. Defined.

(** A thrown value: a Node system error carrying a [code], or a plain
    [Error] with a message. *)
Inductive exn : Type :=
| SysError (code : errno)
| Error (msg : string).

#[global] Instance exn_eq_dec : EqDecision exn.
Proof. solve_decision. Defined.

(** [Diverge] is the result of a loop that was not given enough fuel. *)
Inductive outcome (A : Type) : Type :=
| Ok (a : A)
| Throw (e : exn)
| Diverge.
Arguments Ok {A} a.
Arguments Throw {A} e.
Arguments Diverge {A}.

Definition M (A : Type) : Type := World → outcome A * World.

Definition ret {A} (a : A) : M A := λ w, (Ok a, w).

Definition bind {A B} (m : M A) (k : A → M B) : M B :=
  λ w, match m w with
       | (Ok a, w') => k a w'
       | (Throw e, w') => (Throw e, w')
       | (Diverge, w') => (Diverge, w')
       end.

Definition throw {A} (e : exn) : M A := λ w, (Throw e, w).

(** [try { m } catch (err) { h err }] *)
Definition try_catch {A} (m : M A) (h : exn → M A) : M A :=
  λ w, match m w with
       | (Throw e, w') => h e w'
       | r => r
       end.

(** [try { m } finally { f }] *)
Definition try_finally {A} (m : M A) (f : M unit) : M A :=
  λ w, match m w with
       | (Diverge, w') => (Diverge, w')
       | (r, w') =>
           match f w' with
           | (Ok _, w'') => (r, w'')
           | (Throw e, w'') => (Throw e, w'')
           | (Diverge, w'') => (Diverge, w'')
           end
       end.

Notation "'let*' x ':=' m 'in' k" := (bind m (λ x, k))
  (at level 10, x name, m at level 100, k at level 200, only parsing).
Notation "'let*' ' p ':=' m 'in' k" := (bind m (λ x, match x with p => k end))
  (at level 10, p pattern, m at level 100, k at level 200, only parsing).

(** [err && typeof err === "object" && "code" in err ? String(err.code) : null] *)
Definition err_code (e : exn) : option errno :=
  match e with SysError c => Some c | Error _ => None end.

(** ** File-system, clock and entropy primitives *)

Fixpoint has_slash (s : string) : bool :=
  match s with
  | EmptyString => false
  | String c r => Ascii.eqb c "/" || has_slash r
  end.

(** [path.dirname]: the text before the last separator. *)
Fixpoint dirname (p : string) : string :=
  match p with
  | EmptyString => EmptyString
  | String c r => if has_slash r then String c (dirname r) else EmptyString
  end.

Definition put_files (f : gmap string file → gmap string file) (w : World) : World :=
  MkWorld (w_env w) (f (w_files w)) (w_locks w) (w_tmps w) (w_dirs w)
          (w_cache w) (w_now w) (w_entropy w) (w_drawn w) (w_trace w).
Definition put_locks (f : gmap string Z → gmap string Z) (w : World) : World :=
  MkWorld (w_env w) (w_files w) (f (w_locks w)) (w_tmps w) (w_dirs w)
          (w_cache w) (w_now w) (w_entropy w) (w_drawn w) (w_trace w).
Definition put_tmps (f : gmap string file → gmap string file) (w : World) : World :=
  MkWorld (w_env w) (w_files w) (w_locks w) (f (w_tmps w)) (w_dirs w)
          (w_cache w) (w_now w) (w_entropy w) (w_drawn w) (w_trace w).
Definition put_dirs (f : gset string → gset string) (w : World) : World :=
  MkWorld (w_env w) (w_files w) (w_locks w) (w_tmps w) (f (w_dirs w))
          (w_cache w) (w_now w) (w_entropy w) (w_drawn w) (w_trace w).
Definition put_cache
  (f : gmap string SessionStoreCacheEntry → gmap string SessionStoreCacheEntry)
  (w : World) : World :=
  MkWorld (w_env w) (w_files w) (w_locks w) (w_tmps w) (w_dirs w)
          (f (w_cache w)) (w_now w) (w_entropy w) (w_drawn w) (w_trace w).
Definition put_now (f : Z → Z) (w : World) : World :=
  MkWorld (w_env w) (w_files w) (w_locks w) (w_tmps w) (w_dirs w)
          (w_cache w) (f (w_now w)) (w_entropy w) (w_drawn w) (w_trace w).
Definition put_drawn (f : nat → nat) (w : World) : World :=
  MkWorld (w_env w) (w_files w) (w_locks w) (w_tmps w) (w_dirs w)
          (w_cache w) (w_now w) (w_entropy w) (f (w_drawn w)) (w_trace w).
Definition emit (e : event) (w : World) : World :=
  MkWorld (w_env w) (w_files w) (w_locks w) (w_tmps w) (w_dirs w)
          (w_cache w) (w_now w) (w_entropy w) (w_drawn w) (w_trace w ++ [e]).

Definition get {A} (f : World → A) : M A := λ w, (Ok (f w), w).
Definition modify (f : World → World) : M unit := λ w, (Ok tt, f w).
Definition log (e : event) : M unit := modify (emit e).

(** [Date.now()].  Time passes only while the process sleeps. *)
Definition Date_now : M Z := get w_now.

(** [await new Promise((r) => setTimeout(r, ms))] *)
Definition sleep (ms : Z) : M unit := modify (put_now (λ t, t + ms)).

(** [crypto.randomUUID()]: the next string of the entropy source. *)
Definition randomUUID : M string :=
  λ w, (Ok (w_entropy w (w_drawn w)), put_drawn S w).

(** [fs.promises.mkdir(dir, { recursive: true })] *)
Definition mkdir (dir : string) : M unit := modify (put_dirs (λ d, {[dir]} ∪ d)).

(** [fs.promises.open(lockPath, "wx")], the best-effort write of the
    holder's pid and start time, and [handle.close()].  The marker's text
    is never read back; only its modification time is. *)
Definition open_wx (lockPath : string) : M unit :=
  λ w, if decide (dirname lockPath ∈ w_dirs w) then
         match w_locks w !! lockPath with
         | Some _ => (Throw (SysError EEXIST), w)
         | None => (Ok tt, emit (EvLockAcquired lockPath)
                             (put_locks (insert lockPath (w_now w)) w))
         end
       else (Throw (SysError ENOENT), w).

(** [fs.promises.stat(lockPath)], of which only [mtimeMs] is used. *)
Definition stat_mtimeMs (lockPath : string) : M Z :=
  λ w, match w_locks w !! lockPath with
       | Some t => (Ok t, w)
       | None => (Throw (SysError ENOENT), w)
       end.

(** [fs.promises.unlink(lockPath)] *)
Definition unlink (ev : event) (lockPath : string) : M unit :=
  λ w, match w_locks w !! lockPath with
       | Some _ => (Ok tt, emit ev (put_locks (delete lockPath) w))
       | None => (Throw (SysError ENOENT), w)
       end.

(** Modelled from the spec: [getFileMtimeMs] of cache-utils.js, which is not
    among the sources; the cache is "invalidated automatically when the
    file's modification time changes", so it is the modification time of the
    file, and [undefined] when there is no file. *)
Definition getFileMtimeMs (storePath : string) : M (option Z) :=
  get (λ w, f_mtimeMs <$> w_files w !! storePath).

(** [fs.readFileSync(storePath, "utf-8")] *)
Definition readFileSync (storePath : string) : M content :=
  λ w, match w_files w !! storePath with
       | Some f => (Ok (f_content f), emit (EvDiskRead storePath) w)
       | None => (Throw (SysError ENOENT), w)
       end.

(** [JSON5.parse(raw)]: [None] stands for a parsed value that is not an
    object of records. *)
Definition JSON5_parse (raw : content) : M (option (gmap string (gmap string jsval))) :=
  match raw with
  | Unparseable _ => throw (Error "JSON5: invalid character")
  | Scalar _ => ret None
  | Document d => ret (Some d)
  end.

(** [JSON.stringify(store, null, 2)] *)
Definition JSON_stringify (store : gmap string (gmap string jsval)) : content :=
  Document (json_store store).

(** [fs.promises.writeFile(storePath, json, "utf-8")] *)
Definition writeFile (storePath : string) (json : content) : M unit :=
  λ w, if decide (dirname storePath ∈ w_dirs w) then
         (Ok tt, emit (EvStoreWritten storePath)
                   (put_files (insert storePath (File json (w_now w))) w))
       else (Throw (SysError ENOENT), w).

(** [fs.promises.writeFile(tmp, json, "utf-8")] *)
Definition writeTmp (tmp : string) (json : content) : M unit :=
  λ w, if decide (dirname tmp ∈ w_dirs w) then
         (Ok tt, put_tmps (insert tmp (File json (w_now w))) w)
       else (Throw (SysError ENOENT), w).

(** [fs.promises.rename(tmp, storePath)] *)
Definition rename (tmp storePath : string) : M unit :=
  λ w, match w_tmps w !! tmp with
       | Some f =>
           if decide (dirname storePath ∈ w_dirs w) then
             (Ok tt, emit (EvStoreWritten storePath)
                       (put_files (insert storePath f) (put_tmps (delete tmp) w)))
           else (Throw (SysError ENOENT), w)
       | None => (Throw (SysError ENOENT), w)
       end.

(** [fs.promises.rm(tmp, { force: true })] *)
Definition rm_force (tmp : string) : M unit := modify (put_tmps (delete tmp)).

(** ** Strings, the way the sources use them *)

Definition is_space (c : ascii) : bool :=
  match nat_of_ascii c with
  | 9%nat | 10%nat | 11%nat | 12%nat | 13%nat | 32%nat => true
  | _ => false
  end.

(** [s.trimStart()] *)
Fixpoint trimStart (s : string) : string :=
  match s with
  | EmptyString => EmptyString
  | String c r => if is_space c then trimStart r else s
  end.

(** [s.trimEnd()] *)
Fixpoint trimEnd (s : string) : string :=
  match s with
  | EmptyString => EmptyString
  | String c r =>
      match trimEnd r with
      | EmptyString => if is_space c then EmptyString else String c EmptyString
      | r' => String c r'
      end
  end.

(** [s.trim()] *)
Definition trim (s : string) : string := trimEnd (trimStart s).

Definition lower_ascii (c : ascii) : ascii :=
  let n := nat_of_ascii c in
  if (65 <=? n)%nat && (n <=? 90)%nat then ascii_of_nat (n + 32) else c.

(** [s.toLowerCase()] *)
Fixpoint toLowerCase (s : string) : string :=
  match s with
  | EmptyString => EmptyString
  | String c r => String (lower_ascii c) (toLowerCase r)
  end.

(** [s.startsWith(p)] *)
Fixpoint startsWith (s p : string) {struct p} : bool :=
  match p, s with
  | EmptyString, _ => true
  | String _ _, EmptyString => false
  | String a p', String b s' => Ascii.eqb a b && startsWith s' p'
  end.

(** [s.includes(p)] *)
Fixpoint includes (s p : string) : bool :=
  startsWith s p ||
  match s with
  | EmptyString => false
  | String _ s' => includes s' p
  end.

(** [s.slice(n)] *)
Fixpoint slice_from (n : nat) (s : string) : string :=
  match n, s with
  | O, _ => s
  | S n', String _ r => slice_from n' r
  | S _, EmptyString => EmptyString
  end.

(** [s.slice(0, n)] *)
Fixpoint slice_to (n : nat) (s : string) : string :=
  match n, s with
  | O, _ => EmptyString
  | S n', String c r => String c (slice_to n' r)
  | S _, EmptyString => EmptyString
  end.

(** [s.indexOf("/")], [None] for [-1]. *)
Fixpoint indexOf_slash (s : string) : option nat :=
  match s with
  | EmptyString => None
  | String c r => if Ascii.eqb c "/" then Some O else S <$> indexOf_slash r
  end.

(** [s] between double quotes, as the template literals write it. *)
Definition quoted (s : string) : string :=
  String (ascii_of_nat 34) s +:+ String (ascii_of_nat 34) EmptyString.

(** [s.split(/\s+/)] *)
Fixpoint split_ws_go (cur : string) (in_run : bool) (s : string) : list string :=
  match s with
  | EmptyString => [cur]
  | String c r =>
      if is_space c then
        if in_run then split_ws_go cur true r
        else cur :: split_ws_go EmptyString true r
      else split_ws_go (cur +:+ String c EmptyString) false r
  end.

Definition split_ws (s : string) : list string := split_ws_go EmptyString false s.

(** [parts.join(sep)] *)
Fixpoint js_join (sep : string) (parts : list string) : string :=
  match parts with
  | [] => EmptyString
  | [p] => p
  | p :: rest => p +:+ sep +:+ js_join sep rest
  end.

(** The last character of [s] exists and is not white space. *)
Fixpoint ends_nonspace (s : string) : bool :=
  match s with
  | EmptyString => false
  | String c EmptyString => negb (is_space c)
  | String _ r => ends_nonspace r
  end.

(** The first character of [s] exists and is not white space. *)
Definition starts_nonspace (s : string) : bool :=
  match s with
  | EmptyString => false
  | String c _ => negb (is_space c)
  end.

(** ** The durable session store *)

Module SessionStore.

Definition DEFAULT_SESSION_STORE_TTL_MS : Z := 45000.

(** [getSessionStoreTtl()]: [resolveCacheTtlMs] applied to the environment
    variable and [DEFAULT_SESSION_STORE_TTL_MS]; its result is the
    [env_ttlMs] of the process. *)
Definition getSessionStoreTtl : M Z := get (λ w, env_ttlMs (w_env w)).

Definition isSessionStoreCacheEnabled : M bool :=
  get (λ w, env_cacheEnabled (w_env w)).

Definition isSessionStoreCacheValid (entry : SessionStoreCacheEntry) : M bool :=
  let* now := Date_now in
  let* ttl := getSessionStoreTtl in
  ret (now - c_loadedAt entry <=? ttl).

Definition invalidateSessionStoreCache (storePath : string) : M unit :=
  modify (put_cache (delete storePath)).

(** The body of the migration loop for one record: message provider to
    channel naming.  Every value of a store is an object here, so the
    guard [!entry || typeof entry !== "object"] never skips. *)
Definition migrate_entry (rec : gmap string jsval) : gmap string jsval :=
  let rec1 :=
    if negb (is_string (prop rec "channel")) && is_string (prop rec "provider")
    then delete "provider" (<["channel" := prop rec "provider"]> rec)
    else rec in
  if negb (is_string (prop rec1 "lastChannel")) && is_string (prop rec1 "lastProvider")
  then delete "lastProvider" (<["lastChannel" := prop rec1 "lastProvider"]> rec1)
  else rec1.

Definition migrate (store : gmap string (gmap string jsval))
  : gmap string (gmap string jsval) := migrate_entry <$> store.

(** [loadSessionStore(storePath, { skipCache })].  [structuredClone] is the
    identity on immutable values. *)
Definition loadSessionStore (storePath : string) (skipCache : bool)
  : M (gmap string (gmap string jsval)) :=
  let* enabled := isSessionStoreCacheEnabled in
  let* hit :=
    (if negb skipCache && enabled then
       let* cached := get (λ w, w_cache w !! storePath) in
       match cached with
       | Some c =>
           let* valid := isSessionStoreCacheValid c in
           if valid then
             let* currentMtimeMs := getFileMtimeMs storePath in
             if decide (currentMtimeMs = c_mtimeMs c) then
               let* _ := log (EvCacheHit storePath) in
               ret (Some (c_store c))
             else
               let* _ := invalidateSessionStoreCache storePath in
               ret None
           else ret None
       | None => ret None
       end
     else ret None) in
  match hit with
  | Some store => ret store
  | None =>
      let* mtimeMs0 := getFileMtimeMs storePath in
      let* '(store, mtimeMs) :=
        try_catch
          (let* raw := readFileSync storePath in
           let* parsed := JSON5_parse raw in
           let store := default ∅ parsed in
           let* m := getFileMtimeMs storePath in
           ret (store, match m with Some t => Some t | None => mtimeMs0 end))
          (λ _, ret (∅, mtimeMs0)) in
      let store := migrate store in
      let* enabled' := isSessionStoreCacheEnabled in
      let* _ :=
        (if negb skipCache && enabled' then
           let* now := Date_now in
           modify (put_cache (insert storePath (CacheEntry store now mtimeMs)))
         else ret tt) in
      ret store
  end.

(** [`${storePath}.${process.pid}.${crypto.randomUUID()}.tmp`] *)
Definition tmp_path (storePath pid uuid : string) : string :=
  storePath +:+ "." +:+ pid +:+ "." +:+ uuid +:+ ".tmp".

Definition saveSessionStoreUnlocked (storePath : string)
  (store : gmap string (gmap string jsval)) : M unit :=
  let* _ := invalidateSessionStoreCache storePath in
  let* _ := mkdir (dirname storePath) in
  let json := JSON_stringify store in
  let* win32 := get (λ w, env_win32 (w_env w)) in
  if win32 then
    try_catch (writeFile storePath json)
      (λ err, if decide (err_code err = Some ENOENT) then ret tt else throw err)
  else
    let* pid := get (λ w, env_pid (w_env w)) in
    let* uuid := randomUUID in
    let tmp := tmp_path storePath pid uuid in
    try_finally
      (try_catch
         (let* _ := writeTmp tmp json in rename tmp storePath)
         (λ err,
            if decide (err_code err = Some ENOENT) then
              try_catch
                (let* _ := mkdir (dirname storePath) in writeFile storePath json)
                (λ err2,
                   if decide (err_code err2 = Some ENOENT) then ret tt else throw err2)
            else throw err))
      (rm_force tmp).

Record SessionStoreLockOptions := LockOptions {
  timeoutMs : option Z;
  pollIntervalMs : option Z;
  staleMs : option Z
}.

Definition no_lock_options : SessionStoreLockOptions := LockOptions None None None.

Definition lock_path (storePath : string) : string := storePath +:+ ".lock".

(** One iteration of the [while (true)] loop of [withSessionStoreLock];
    [continue] is the rest of the loop.  A successful [open] breaks out. *)
Definition acquire_attempt (storePath : string)
  (timeout poll stale startedAt : Z) (continue : M unit) : M unit :=
  let lockPath := lock_path storePath in
  try_catch (open_wx lockPath)
    (λ err,
       let code := err_code err in
       if decide (code = Some ENOENT) then
         let* _ := try_catch (mkdir (dirname storePath)) (λ _, ret tt) in
         let* _ := sleep poll in
         continue
       else if decide (code ≠ Some EEXIST) then throw err
       else
         let* now := Date_now in
         if timeout <? now - startedAt then
           throw (Error ("timeout acquiring session store lock: " +:+ lockPath))
         else
           let* evicted :=
             try_catch
               (let* mtime := stat_mtimeMs lockPath in
                let ageMs := now - mtime in
                if stale <? ageMs then
                  let* _ := unlink (EvLockEvicted lockPath) lockPath in
                  ret true
                else ret false)
               (λ _, ret false) in
           if (evicted : bool) then continue
           else
             let* _ := sleep poll in
             continue).

(** The loop itself; one unit of [fuel] per iteration. *)
Fixpoint acquire_loop (fuel : nat) (storePath : string)
  (timeout poll stale startedAt : Z) : M unit :=
  match fuel with
  | O => λ w, (Diverge, w)
  | S fuel' =>
      acquire_attempt storePath timeout poll stale startedAt
        (acquire_loop fuel' storePath timeout poll stale startedAt)
  end.

Definition withSessionStoreLock {T} (fuel : nat) (storePath : string)
  (fn : M T) (opts : SessionStoreLockOptions) : M T :=
  let timeout := default 10000 (timeoutMs opts) in
  let poll := default 25 (pollIntervalMs opts) in
  let stale := default 30000 (staleMs opts) in
  let lockPath := lock_path storePath in
  let* startedAt := Date_now in
  let* _ := mkdir (dirname storePath) in
  let* _ := acquire_loop fuel storePath timeout poll stale startedAt in
  try_finally fn
    (try_catch (unlink (EvLockReleased lockPath) lockPath) (λ _, ret tt)).

Definition saveSessionStore (fuel : nat) (storePath : string)
  (store : gmap string (gmap string jsval)) : M unit :=
  withSessionStoreLock fuel storePath
    (saveSessionStoreUnlocked storePath store) no_lock_options.

(** The function that [updateSessionStore] runs under the lock.  A mutator
    receives the store object and may change it in place; it returns its
    result together with the store as it left it. *)
Definition update_critical_section {T} (storePath : string)
  (mutator : gmap string (gmap string jsval) → M (T * gmap string (gmap string jsval)))
  : M T :=
  let* store := loadSessionStore storePath true in
  let* _ := log (EvMutator storePath) in
  let* '(result, store') := mutator store in
  let* _ := saveSessionStoreUnlocked storePath store' in
  ret result.

Definition updateSessionStore {T} (fuel : nat) (storePath : string)
  (mutator : gmap string (gmap string jsval) → M (T * gmap string (gmap string jsval)))
  : M T :=
  withSessionStoreLock fuel storePath
    (update_critical_section storePath mutator) no_lock_options.

Section WithMerge.

(** [mergeSessionEntry] is imported from ./types.js, which is not among
    the sources. *)
Variable mergeSessionEntry :
  option (gmap string jsval) → gmap string jsval → M (gmap string jsval).

Definition updateSessionStoreEntry (fuel : nat) (storePath sessionKey : string)
  (update : gmap string jsval → M (option (gmap string jsval)))
  : M (option (gmap string jsval)) :=
  withSessionStoreLock fuel storePath
    (let* store := loadSessionStore storePath false in
     match store !! sessionKey with
     | None => ret None
     | Some existing =>
         let* _ := log (EvMutator storePath) in
         let* patch := update existing in
         match patch with
         | None => ret (Some existing)
         | Some patch =>
             let* next := mergeSessionEntry (Some existing) patch in
             let store' := <[sessionKey := next]> store in
             let* _ := saveSessionStoreUnlocked storePath store' in
             ret (Some next)
         end
     end)
    no_lock_options.

(** [x?.trim() ? x.trim() : fallback] *)
Definition trimmed_or (x : option string) (fallback : jsval) : jsval :=
  match x with
  | Some s => if String.eqb (trim s) "" then fallback else JStr (trim s)
  | None => fallback
  end.

(** [Math.max(existing?.updatedAt ?? 0, now)]; [updatedAt] is a number by
    its type, anything else makes the maximum [NaN], written as [null]. *)
Definition max_updatedAt (existing : option (gmap string jsval)) (now : Z) : jsval :=
  match nullish (oprop existing "updatedAt") (JNum 0) with
  | JNum n => JNum (Z.max n now)
  | _ => JNull
  end.

Definition updateLastRoute (fuel : nat) (storePath sessionKey : string)
  (channel : jsval) (to accountId : option string) : M (gmap string jsval) :=
  withSessionStoreLock fuel storePath
    (let* store := loadSessionStore storePath false in
     let existing := store !! sessionKey in
     let* now := Date_now in
     let* next :=
       mergeSessionEntry existing
         (<["lastAccountId" := trimmed_or accountId (oprop existing "lastAccountId")]>
          (<["lastTo" := trimmed_or to JUndef]>
           (<["lastChannel" := channel]>
            (<["updatedAt" := max_updatedAt existing now]> ∅)))) in
     let store' := <[sessionKey := next]> store in
     let* _ := saveSessionStoreUnlocked storePath store' in
     ret next)
    no_lock_options.

End WithMerge.

End SessionStore.

(** ** Vocabulary for the properties of the store *)

Module SessionStoreSpec.
Import SessionStore.

(** What a read from disk yields: the migrated document, or the empty map
    when there is no file, the text does not parse, or the document is not
    an object. *)
Definition disk_store (w : World) (storePath : string)
  : gmap string (gmap string jsval) :=
  match w_files w !! storePath with
  | Some (File (Document d) _) => migrate d
  | _ => ∅
  end.

(** The world right after the lock marker of [storePath] was created. *)
Definition acquired (storePath : string) (w : World) : World :=
  emit (EvLockAcquired (lock_path storePath))
    (put_locks (insert (lock_path storePath) (w_now w)) w).

(** The world after the [finally] of [withSessionStoreLock]. *)
Definition released (storePath : string) (w : World) : World :=
  match w_locks w !! lock_path storePath with
  | Some _ => emit (EvLockReleased (lock_path storePath))
                (put_locks (delete (lock_path storePath)) w)
  | None => w
  end.

(** The world after a stale marker was unlinked. *)
Definition evicted (storePath : string) (w : World) : World :=
  emit (EvLockEvicted (lock_path storePath))
    (put_locks (delete (lock_path storePath)) w).

(** The world in which the function passed to [withSessionStoreLock] runs
    when the marker could be created at once. *)
Definition entered (storePath : string) (w : World) : World :=
  acquired storePath (put_dirs (λ d, {[dirname storePath]} ∪ d) w).

(** The [finally] block applied to what the function returned. *)
Definition finish {T} (storePath : string) (r : outcome T * World)
  : outcome T * World :=
  match r with
  | (Diverge, w') => (Diverge, w')
  | (o, w') => (o, released storePath w')
  end.

(** The trace mark left by a read of the store file. *)
Definition read_mark (storePath : string) (w : World) : World :=
  match w_files w !! storePath with
  | Some _ => emit (EvDiskRead storePath) w
  | None => w
  end.

(** The world in which the mutator of [updateSessionStore] is called, given
    the world [wl] in which the lock was obtained. *)
Definition before_mutator (storePath : string) (wl : World) : World :=
  emit (EvMutator storePath) (read_mark storePath wl).

(** What the cache would answer for [storePath] right now: an entry that
    is within its TTL and was taken at the file's present modification
    time. *)
Definition cache_hit (w : World) (storePath : string)
  : option (gmap string (gmap string jsval)) :=
  if env_cacheEnabled (w_env w) then
    match w_cache w !! storePath with
    | Some c =>
        if w_now w - c_loadedAt c <=? env_ttlMs (w_env w) then
          if decide ((f_mtimeMs <$> w_files w !! storePath) = c_mtimeMs c)
          then Some (c_store c) else None
        else None
    | None => None
    end
  else None.

(** The cache is coherent for a path when what it would answer is what
    is on disk.  Loads establish this and saves keep it; only a write by
    another process that leaves the modification time unchanged breaks it. *)
Definition cache_coherent (w : World) (storePath : string) : bool :=
  match cache_hit w storePath with
  | Some s => bool_decide (s = disk_store w storePath)
  | None => true
  end.

(** The renaming that a loaded record [e'] shows with respect to the
    record [e] of the document. *)
Definition renamed (e e' : gmap string jsval) : Prop :=
  (∀ v, e !! "provider" = Some (JStr v) → is_string (prop e "channel") = false →
        e' !! "channel" = Some (JStr v) ∧ e' !! "provider" = None)
  ∧ (∀ v, e !! "lastProvider" = Some (JStr v) → is_string (prop e "lastChannel") = false →
          e' !! "lastChannel" = Some (JStr v) ∧ e' !! "lastProvider" = None)
  ∧ (∀ p, p ≠ "channel" → p ≠ "provider" → p ≠ "lastChannel" → p ≠ "lastProvider" →
          e' !! p = e !! p).

(** A JSON document has no property whose value is [undefined], and a
    valid record map has records of the current schema: none carries the
    legacy [provider] or [lastProvider] property. *)
Definition json_document (d : gmap string (gmap string jsval)) : Prop :=
  map_Forall (λ _ e, map_Forall (λ _ v, v ≠ JUndef) (e : gmap string jsval)) d.

Definition current_schema (d : gmap string (gmap string jsval)) : Prop :=
  map_Forall (λ _ e, (e : gmap string jsval) !! "provider" = None
                     ∧ e !! "lastProvider" = None) d.

#[global] Instance json_document_dec d : Decision (json_document d).
Proof. unfold json_document. apply _. Defined.

#[global] Instance current_schema_dec d : Decision (current_schema d).
Proof. unfold current_schema. apply _. Defined.

End SessionStoreSpec.

(** ** Concrete states used to exercise the store *)

Module StoreSamples.
Import SessionStore SessionStoreSpec.

Definition sample_path : string := "/state/agents/main/sessions.json".

Definition sample_env : Env := MkEnv 45000 true false "4242".

Definition sample_entropy (n : nat) : string :=
  match n with
  | O => "0b9c7e1a-5d38-4c49-9a53-6f0c3c1e2a11"
  | S O => "7d1f4a02-93be-4f6e-8c7a-2b5e9d0f4c22"
  | _ => "c3a8e6d4-1f27-4b90-b6d1-8e4f7a9b5d33"
  end.

(** A record of the current schema and one that still has the legacy
    naming. *)
Definition main_record : gmap string jsval :=
  <["sessionId" := JStr "s-main"]>
    (<["updatedAt" := JNum 1000]> (<["channel" := JStr "slack"]> ∅)).

Definition legacy_record : gmap string jsval :=
  <["sessionId" := JStr "s-old"]>
    (<["updatedAt" := JNum 500]>
       (<["provider" := JStr "telegram"]> (<["lastProvider" := JStr "telegram"]> ∅))).

Definition migrated_record : gmap string jsval :=
  <["sessionId" := JStr "s-old"]>
    (<["updatedAt" := JNum 500]>
       (<["channel" := JStr "telegram"]> (<["lastChannel" := JStr "telegram"]> ∅))).

Definition sample_store : gmap string (gmap string jsval) :=
  <["agent:main:main" := main_record]> ∅.

Definition legacy_store : gmap string (gmap string jsval) :=
  <["agent:main:main" := main_record]> (<["agent:main:tg" := legacy_record]> ∅).

Definition world_with (files : gmap string file) (locks : gmap string Z)
  (cache : gmap string SessionStoreCacheEntry) (now : Z) : World :=
  MkWorld sample_env files locks ∅ ∅ cache now sample_entropy 0 [].

(** The store file holds [sample_store]; no lock marker, empty cache. *)
Definition sample_world : World :=
  world_with (<[sample_path := File (Document sample_store) 900]> ∅) ∅ ∅ 5000.

(** The store file holds a document with a legacy record. *)
Definition legacy_world : World :=
  world_with (<[sample_path := File (Document legacy_store) 900]> ∅) ∅ ∅ 5000.

(** The store file holds text that is not JSON. *)
Definition corrupt_world : World :=
  world_with (<[sample_path := File (Unparseable "{ agent:main") 900]> ∅) ∅ ∅ 5000.

(** A marker left 40 seconds ago by a holder that crashed. *)
Definition stale_lock_world : World :=
  world_with (<[sample_path := File (Document sample_store) 900]> ∅)
    (<[lock_path sample_path := 5000 - 40000]> ∅) ∅ 5000.

(** A marker created just now by a holder that does not let go. *)
Definition held_lock_world : World :=
  world_with (<[sample_path := File (Document sample_store) 900]> ∅)
    (<[lock_path sample_path := 5000]> ∅) ∅ 5000.

Definition identity_mutator (store : gmap string (gmap string jsval))
  : M (unit * gmap string (gmap string jsval)) := ret (tt, store).

Definition throwing_mutator (store : gmap string (gmap string jsval))
  : M (unit * gmap string (gmap string jsval)) := throw (Error "mutator failed").

(** A mutator that bumps [updatedAt] of the main record. *)
Definition touch_mutator (store : gmap string (gmap string jsval))
  : M (unit * gmap string (gmap string jsval)) :=
  ret (tt, <["agent:main:main" := <["updatedAt" := JNum 5000]> main_record]> store).

(** Modelled from the spec: [mergeSessionEntry] of ./types.js, which is
    not among the sources.  Records are persisted "by shallow-merging onto
    whatever is currently in the store". *)
Definition mergeSessionEntry_model (existing : option (gmap string jsval))
  (patch : gmap string jsval) : M (gmap string jsval) :=
  ret (spread (ospread existing) patch).

(** A record that another process has just added to the store file. *)
Definition thread_key : string := "agent:main:slack:channel:c1:thread:1712".

Definition thread_record : gmap string jsval :=
  <["sessionId" := JStr "s-thread"]>
    (<["updatedAt" := JNum 4900]> (<["channel" := JStr "slack"]> ∅)).

(** This process loaded the store when it held [sample_store] and cached
    it under the file's modification time.  Another process has since
    added [thread_record] under its own lock, and the file system reports
    the same modification time for the rewritten file (coarse timestamps:
    both writes fall into one tick). *)
Definition racing_world : World :=
  world_with
    (<[sample_path := File (Document (<[thread_key := thread_record]> sample_store)) 900]> ∅)
    ∅
    (<[sample_path := CacheEntry sample_store 4000 (Some 900)]> ∅)
    5000.

(** The usage update of a finished turn, reduced to its timestamp. *)
Definition touch_update (entry : gmap string jsval) : M (option (gmap string jsval)) :=
  ret (Some (<["updatedAt" := JNum 5000]> ∅)).

End StoreSamples.

(** ** Session initialisation *)

(** [a || b] on property values. *)
Definition js_or (a b : jsval) : jsval := if truthy a then a else b.

(** An optional string of the message context as a value. *)
Definition ostr (x : option string) : jsval :=
  match x with Some s => JStr s | None => JUndef end.

(** [x?.trim()] as a value. *)
Definition otrim (x : option string) : jsval :=
  match x with Some s => JStr (trim s) | None => JUndef end.

(** The numeric reading of a timestamp property; [None] is [NaN].
    [updatedAt] is a number by its type, so strings are not coerced here. *)
Definition to_number (v : jsval) : option Z :=
  match v with
  | JNum n => Some n
  | JNull => Some 0
  | JBool b => Some (if b then 1 else 0)
  | _ => None
  end.

(** What [initSessionState] returns ([sessionCtx] repeats [sessionId] and
    [isNewSession]; the fields copied from the configuration are left out). *)
Record SessionInitResult := InitResult {
  r_sessionEntry : gmap string jsval;
  r_previousSessionEntry : option (gmap string jsval);
  r_sessionStore : gmap string (gmap string jsval);
  r_sessionKey : string;
  r_sessionId : jsval;
  r_isNewSession : bool;
  r_resetTriggered : bool;
  r_systemSent : jsval;
  r_abortedLastRun : jsval;
  r_bodyStripped : option string
}.

(** The later revision (auto-reply/reply/session.ts). *)
Module SessionInit.
Import SessionStore.

(** One inbound turn as [initSessionState] sees it: the fields of [ctx] it
    reads, and what the helpers it imports resolve from [ctx] and [cfg].
    Those helpers (session-key resolution, command authorization, mention
    and prefix stripping, the reset policy, delivery-field normalisation,
    the transcript manager) are not among the sources. *)
Record Turn := MkTurn {
  t_storePath : string;
  t_sessionKey : string;
  t_resetTriggers : list string;
  t_resetAuthorized : bool;
  t_isGroup : bool;
  t_commandSource : string;
  t_stripStructuralPrefixes : string → string;
  t_stripMentions : string → string;
  t_ParentSessionKey : option string;
  t_derivedParentSessionKey : option string;
  t_fresh : jsval → Z → bool;
  t_OriginatingChannel : option string;
  t_OriginatingTo : option string;
  t_To : option string;
  t_AccountId : option string;
  t_MessageThreadId : option string;
  t_ThreadLabel : option string;
  t_normalizeSessionDeliveryFields : jsval → jsval → jsval → jsval → gmap string jsval;
  t_deriveSessionMetaPatch : gmap string jsval → option (gmap string jsval);
  t_fork : gmap string jsval → option (string * string);
  t_merge : gmap string jsval → gmap string jsval → option (string * string);
  t_resolveSessionTranscriptPath : jsval → string
}.

(** Modelled from the spec: [evaluateSessionFreshness] of config/sessions,
    which is not among the sources: "a record is fresh if
    [now - updatedAt <= resetPolicy.idleThreshold] for the resolved reset
    policy". *)
Definition evaluateSessionFreshness (idleThresholdMs : Z) (updatedAt : jsval)
  (now : Z) : bool :=
  match to_number updatedAt with
  | Some u => now - u <=? idleThresholdMs
  | None => false
  end.

(** The loop over the reset triggers.  [Some body] when a trigger matched,
    [body] being the new [bodyStripped]. *)
Fixpoint match_reset_trigger (resetTriggers : list string) (resetAuthorized : bool)
  (trimmedBody strippedForReset : string) : option string :=
  match resetTriggers with
  | [] => None
  | trigger :: rest =>
      if String.eqb trigger "" then
        match_reset_trigger rest resetAuthorized trimmedBody strippedForReset
      else if negb resetAuthorized then None
      else
        let trimmedBodyLower := toLowerCase trimmedBody in
        let strippedForResetLower := toLowerCase strippedForReset in
        let triggerLower := toLowerCase trigger in
        if String.eqb trimmedBodyLower triggerLower
           || String.eqb strippedForResetLower triggerLower
        then Some ""
        else
          let triggerPrefixLower := triggerLower +:+ " " in
          if startsWith trimmedBodyLower triggerPrefixLower
             || startsWith strippedForResetLower triggerPrefixLower
          then Some (trimStart (slice_from (String.length trigger) strippedForReset))
          else match_reset_trigger rest resetAuthorized trimmedBody strippedForReset
  end.

(** The mutator handed to [updateSessionStore]:
    [store[sessionKey] = { ...store[sessionKey], ...sessionEntry }]. *)
Definition merge_mutator (sessionKey : string) (sessionEntry : gmap string jsval)
  (store : gmap string (gmap string jsval))
  : M (unit * gmap string (gmap string jsval)) :=
  ret (tt, <[sessionKey := spread (ospread (store !! sessionKey)) sessionEntry]> store).

(** [strippedForReset] *)
Definition stripped_for_reset (t : Turn) : string :=
  let triggerBodyNormalized := trim (t_stripStructuralPrefixes t (t_commandSource t)) in
  if t_isGroup t then t_stripMentions t triggerBodyNormalized
  else triggerBodyNormalized.

(** The outcome of the trigger loop for the turn. *)
Definition reset_match (t : Turn) : option string :=
  match_reset_trigger (t_resetTriggers t) (t_resetAuthorized t)
    (trim (t_commandSource t)) (stripped_for_reset t).

(** [freshEntry] *)
Definition freshEntry (t : Turn) (entry : option (gmap string jsval)) (now : Z) : bool :=
  match entry with
  | Some e => t_fresh t (prop e "updatedAt") now
  | None => false
  end.

(** The parent record a fork or merge would start from:
    [parentSessionKey && parentSessionKey !== sessionKey && sessionStore[parentSessionKey]]. *)
Definition parent_entry (t : Turn) (sessionStore : gmap string (gmap string jsval))
  : option (gmap string jsval) :=
  let parentSessionKey := js_or (otrim (t_ParentSessionKey t))
                                (ostr (t_derivedParentSessionKey t)) in
  match parentSessionKey with
  | JStr pk =>
      if truthy parentSessionKey && negb (String.eqb pk (t_sessionKey t))
      then sessionStore !! pk else None
  | _ => None
  end.

(** The record literal [sessionEntry = { ...baseEntry, sessionId, ... }]
    with the metadata patch, the chat type default and the thread label.
    [reuse] is [!isNewSession && freshEntry]. *)
Definition entry_literal (t : Turn) (reuse : bool) (entry : option (gmap string jsval))
  (sessionId0 : jsval) (now2 : Z) : gmap string jsval :=
  let systemSent :=
    if reuse then nullish (oprop entry "systemSent") (JBool false) else JBool false in
  let abortedLastRun :=
    if reuse then nullish (oprop entry "abortedLastRun") (JBool false) else JBool false in
  let persisted (p : string) : jsval := if reuse then oprop entry p else JUndef in
  let baseEntry := if reuse then entry else None in
  let lastChannelRaw := js_or (ostr (t_OriginatingChannel t)) (oprop baseEntry "lastChannel") in
  let lastToRaw :=
    js_or (ostr (t_OriginatingTo t)) (js_or (ostr (t_To t)) (oprop baseEntry "lastTo")) in
  let lastAccountIdRaw := js_or (ostr (t_AccountId t)) (oprop baseEntry "lastAccountId") in
  let lastThreadIdRaw := js_or (ostr (t_MessageThreadId t)) (oprop baseEntry "lastThreadId") in
  let deliveryFields :=
    t_normalizeSessionDeliveryFields t
      lastChannelRaw lastToRaw lastAccountIdRaw lastThreadIdRaw in
  let lastChannel := nullish (prop deliveryFields "lastChannel") lastChannelRaw in
  let lastTo := nullish (prop deliveryFields "lastTo") lastToRaw in
  let lastAccountId := nullish (prop deliveryFields "lastAccountId") lastAccountIdRaw in
  let lastThreadId := nullish (prop deliveryFields "lastThreadId") lastThreadIdRaw in
  let sessionEntry1 : gmap string jsval :=
    <["lastThreadId" := lastThreadId]>
    (<["lastAccountId" := lastAccountId]>
    (<["lastTo" := lastTo]>
    (<["lastChannel" := lastChannel]>
    (<["deliveryContext" := prop deliveryFields "deliveryContext"]>
    (<["space" := oprop baseEntry "space"]>
    (<["groupChannel" := oprop baseEntry "groupChannel"]>
    (<["subject" := oprop baseEntry "subject"]>
    (<["groupId" := oprop baseEntry "groupId"]>
    (<["channel" := oprop baseEntry "channel"]>
    (<["chatType" := oprop baseEntry "chatType"]>
    (<["displayName" := oprop baseEntry "displayName"]>
    (<["queueDrop" := oprop baseEntry "queueDrop"]>
    (<["queueCap" := oprop baseEntry "queueCap"]>
    (<["queueDebounceMs" := oprop baseEntry "queueDebounceMs"]>
    (<["queueMode" := oprop baseEntry "queueMode"]>
    (<["sendPolicy" := oprop baseEntry "sendPolicy"]>
    (<["providerOverride" :=
         nullish (persisted "providerOverride") (oprop baseEntry "providerOverride")]>
    (<["modelOverride" :=
         nullish (persisted "modelOverride") (oprop baseEntry "modelOverride")]>
    (<["responseUsage" := oprop baseEntry "responseUsage"]>
    (<["ttsAuto" := nullish (persisted "ttsAuto") (oprop baseEntry "ttsAuto")]>
    (<["reasoningLevel" :=
         nullish (persisted "reasoningLevel") (oprop baseEntry "reasoningLevel")]>
    (<["verboseLevel" :=
         nullish (persisted "verboseLevel") (oprop baseEntry "verboseLevel")]>
    (<["thinkingLevel" :=
         nullish (persisted "thinkingLevel") (oprop baseEntry "thinkingLevel")]>
    (<["abortedLastRun" := abortedLastRun]>
    (<["systemSent" := systemSent]>
    (<["updatedAt" := JNum now2]>
    (<["sessionId" := sessionId0]>
    (ospread baseEntry)))))))))))))))))))))))))))) in
  let sessionEntry2 :=
    match t_deriveSessionMetaPatch t sessionEntry1 with
    | Some metaPatch => spread sessionEntry1 metaPatch
    | None => sessionEntry1
    end in
  let sessionEntry3 :=
    if truthy (prop sessionEntry2 "chatType") then sessionEntry2
    else <["chatType" := JStr "direct"]> sessionEntry2 in
  let threadLabel := otrim (t_ThreadLabel t) in
  if truthy threadLabel then <["displayName" := threadLabel]> sessionEntry3
  else sessionEntry3.

(** [sessionEntry.sessionId = x.sessionId; sessionEntry.sessionFile = x.sessionFile]
    when a fork or a merge produced [x]. *)
Definition with_transcript (x : option (string * string)) (e : gmap string jsval)
  : gmap string jsval :=
  match x with
  | Some (id, file) => <["sessionFile" := JStr file]> (<["sessionId" := JStr id]> e)
  | None => e
  end.

(** The rest of the adjustments: the transcript path when there is none
    yet, and the compaction state of a new session. *)
Definition finish_entry (t : Turn) (isNewSession : bool) (e : gmap string jsval)
  : gmap string jsval :=
  let e1 :=
    if truthy (prop e "sessionFile") then e
    else <["sessionFile" := JStr (t_resolveSessionTranscriptPath t (prop e "sessionId"))]> e in
  if isNewSession then
    <["memoryFlushAt" := JUndef]>
    (<["memoryFlushCompactionCount" := JUndef]>
    (<["compactionCount" := JNum 0]> e1))
  else e1.

(** [sessionId ?? crypto.randomUUID()] *)
Definition sessionId_or_new (sessionId : jsval) : M jsval :=
  match sessionId with
  | JUndef | JNull => let* uuid := randomUUID in ret (JStr uuid)
  | _ => ret sessionId
  end.

Definition initSessionState (fuel : nat) (t : Turn) : M SessionInitResult :=
  let storePath := t_storePath t in
  let sessionKey := t_sessionKey t in
  let* sessionStore := loadSessionStore storePath false in
  let bodyStripped := reset_match t in
  let resetTriggered := bool_decide (is_Some bodyStripped) in
  let entry := sessionStore !! sessionKey in
  let previousSessionEntry := if resetTriggered then entry else None in
  let* now := Date_now in
  let reuse := negb resetTriggered && freshEntry t entry now in
  let* sessionId0 :=
    (if reuse then ret (oprop entry "sessionId")
     else let* uuid := randomUUID in ret (JStr uuid)) in
  let isNewSession := negb reuse in
  let systemSent :=
    if reuse then nullish (oprop entry "systemSent") (JBool false) else JBool false in
  let abortedLastRun :=
    if reuse then nullish (oprop entry "abortedLastRun") (JBool false) else JBool false in
  let* now2 := Date_now in
  let sessionEntry4 := entry_literal t reuse entry sessionId0 now2 in
  let parentEntry := parent_entry t sessionStore in
  let forked :=
    if isNewSession then
      match parentEntry with Some pe => t_fork t pe | None => None end
    else None in
  let sessionEntry5 := with_transcript forked sessionEntry4 in
  let merged :=
    if negb isNewSession then
      match parentEntry with Some pe => t_merge t pe sessionEntry5 | None => None end
    else None in
  let sessionEntry6 := with_transcript merged sessionEntry5 in
  let sessionId :=
    match merged, forked with
    | Some (mid, _), _ => JStr mid
    | None, Some (fid, _) => JStr fid
    | None, None => sessionId0
    end in
  let sessionEntry := finish_entry t isNewSession sessionEntry6 in
  let sessionStore' :=
    <[sessionKey := spread (ospread (sessionStore !! sessionKey)) sessionEntry]>
      sessionStore in
  let* _ := updateSessionStore fuel storePath (merge_mutator sessionKey sessionEntry) in
  let* sessionIdOut := sessionId_or_new sessionId in
  ret (InitResult sessionEntry previousSessionEntry sessionStore' sessionKey sessionIdOut
         isNewSession resetTriggered systemSent abortedLastRun bodyStripped).

End SessionInit.

(** The earlier revision of the same function (idle timeout computed in
    place, legacy group keys, no compaction counters). *)
Module SessionInitV1.
Import SessionStore.

(** [resolveGroupSessionKey(ctx)], as far as it is used. *)
Record GroupKeyResolution := MkGroup {
  g_channel : option string;
  g_chatType : option string;
  g_legacyKey : option string
}.

Record Turn := MkTurn {
  t_storePath : string;
  t_sessionKey : string;
  t_resetTriggers : list string;
  t_idleMinutes : option Z;
  t_DEFAULT_IDLE_MINUTES : Z;
  t_resetAuthorized : bool;
  t_isGroup : bool;
  t_groupResolution : option GroupKeyResolution;
  t_commandSource : string;
  t_stripStructuralPrefixes : string → string;
  t_stripMentions : string → string;
  t_ParentSessionKey : option string;
  t_OriginatingChannel : option string;
  t_OriginatingTo : option string;
  t_To : option string;
  t_AccountId : option string;
  t_GroupSubject : option string;
  t_GroupSpace : option string;
  t_GroupRoom : option string;
  t_ThreadLabel : option string;
  t_isRoomProvider : bool;
  t_buildGroupDisplayName : jsval → jsval → jsval → jsval → jsval;
  t_fork : gmap string jsval → option (string * string);
  t_resolveSessionTranscriptPath : jsval → string
}.

(** The loop over the reset triggers; this revision compares the body as
    it is with the triggers as configured. *)
Fixpoint match_reset_trigger (resetTriggers : list string) (resetAuthorized : bool)
  (trimmedBody strippedForReset : string) : option string :=
  match resetTriggers with
  | [] => None
  | trigger :: rest =>
      if String.eqb trigger "" then
        match_reset_trigger rest resetAuthorized trimmedBody strippedForReset
      else if negb resetAuthorized then None
      else if String.eqb trimmedBody trigger || String.eqb strippedForReset trigger
      then Some ""
      else
        let triggerPrefix := trigger +:+ " " in
        if startsWith trimmedBody triggerPrefix || startsWith strippedForReset triggerPrefix
        then Some (trimStart (slice_from (String.length trigger) strippedForReset))
        else match_reset_trigger rest resetAuthorized trimmedBody strippedForReset
  end.

(** [groupResolution?.legacyKey && groupResolution.legacyKey !== sessionKey] *)
Definition legacy_key (t : Turn) : option string :=
  match t_groupResolution t with
  | Some g =>
      match g_legacyKey g with
      | Some lk =>
          if negb (String.eqb lk "") && negb (String.eqb lk (t_sessionKey t))
          then Some lk else None
      | None => None
      end
  | None => None
  end.

(** [entry && Date.now() - entry.updatedAt <= idleMs] *)
Definition freshEntry (entry : option (gmap string jsval)) (now idleMs : Z) : bool :=
  match entry with
  | Some e =>
      match to_number (prop e "updatedAt") with
      | Some updatedAt => now - updatedAt <=? idleMs
      | None => false
      end
  | None => false
  end.

(** [idleMs] *)
Definition idle_ms (t : Turn) : Z :=
  Z.max (default (t_DEFAULT_IDLE_MINUTES t) (t_idleMinutes t)) 1 * 60000.

(** [strippedForReset] *)
Definition stripped_for_reset (t : Turn) : string :=
  let triggerBodyNormalized :=
    toLowerCase (trim (t_stripStructuralPrefixes t (t_commandSource t))) in
  if t_isGroup t then t_stripMentions t triggerBodyNormalized
  else triggerBodyNormalized.

(** The outcome of the trigger loop for the turn. *)
Definition reset_match (t : Turn) : option string :=
  match_reset_trigger (t_resetTriggers t) (t_resetAuthorized t)
    (trim (t_commandSource t)) (stripped_for_reset t).

(** The move of a legacy group record in the store just loaded. *)
Definition adopt_legacy (t : Turn) (sessionStore : gmap string (gmap string jsval))
  : gmap string (gmap string jsval) :=
  match legacy_key t with
  | Some lk =>
      match sessionStore !! lk, sessionStore !! t_sessionKey t with
      | Some legacyEntry, None => delete lk (<[t_sessionKey t := legacyEntry]> sessionStore)
      | _, _ => sessionStore
      end
  | None => sessionStore
  end.

(** What the mutator handed to [updateSessionStore] does to the store. *)
Definition persist_store (t : Turn) (sessionEntry : gmap string jsval)
  (store : gmap string (gmap string jsval)) : gmap string (gmap string jsval) :=
  let sessionKey := t_sessionKey t in
  let store1 :=
    match legacy_key t with
    | Some lk =>
        let moved :=
          match store !! lk, store !! sessionKey with
          | Some legacyEntry, None => <[sessionKey := legacyEntry]> store
          | _, _ => store
          end in
        delete lk moved
    | None => store
    end in
  <[sessionKey := spread (ospread (store1 !! sessionKey)) sessionEntry]> store1.

Definition persist_mutator (t : Turn) (sessionEntry : gmap string jsval)
  (store : gmap string (gmap string jsval))
  : M (unit * gmap string (gmap string jsval)) :=
  ret (tt, persist_store t sessionEntry store).

(** The parent record a fork would start from. *)
Definition parent_entry (t : Turn) (sessionStore : gmap string (gmap string jsval))
  : option (gmap string jsval) :=
  let parentSessionKey := otrim (t_ParentSessionKey t) in
  match parentSessionKey with
  | JStr pk =>
      if truthy parentSessionKey && negb (String.eqb pk (t_sessionKey t))
      then sessionStore !! pk else None
  | _ => None
  end.

(** The record literal with the group metadata, the chat type default and
    the thread label.  [reuse] is [!isNewSession && freshEntry]. *)
Definition entry_literal (t : Turn) (reuse : bool) (entry : option (gmap string jsval))
  (sessionId0 : jsval) (now2 : Z) : gmap string jsval :=
  let systemSent :=
    if reuse then nullish (oprop entry "systemSent") (JBool false) else JBool false in
  let abortedLastRun :=
    if reuse then nullish (oprop entry "abortedLastRun") (JBool false) else JBool false in
  let persisted (p : string) : jsval := if reuse then oprop entry p else JUndef in
  let baseEntry := if reuse then entry else None in
  let lastChannel := js_or (otrim (t_OriginatingChannel t)) (oprop baseEntry "lastChannel") in
  let lastTo :=
    js_or (otrim (t_OriginatingTo t)) (js_or (otrim (t_To t)) (oprop baseEntry "lastTo")) in
  let lastAccountId := js_or (otrim (t_AccountId t)) (oprop baseEntry "lastAccountId") in
  let sessionEntry1 : gmap string jsval :=
    <["lastAccountId" := lastAccountId]>
    (<["lastTo" := lastTo]>
    (<["lastChannel" := lastChannel]>
    (<["space" := oprop baseEntry "space"]>
    (<["room" := oprop baseEntry "room"]>
    (<["subject" := oprop baseEntry "subject"]>
    (<["channel" := oprop baseEntry "channel"]>
    (<["chatType" := oprop baseEntry "chatType"]>
    (<["displayName" := oprop baseEntry "displayName"]>
    (<["queueDrop" := oprop baseEntry "queueDrop"]>
    (<["queueCap" := oprop baseEntry "queueCap"]>
    (<["queueDebounceMs" := oprop baseEntry "queueDebounceMs"]>
    (<["queueMode" := oprop baseEntry "queueMode"]>
    (<["sendPolicy" := oprop baseEntry "sendPolicy"]>
    (<["providerOverride" :=
         nullish (persisted "providerOverride") (oprop baseEntry "providerOverride")]>
    (<["modelOverride" :=
         nullish (persisted "modelOverride") (oprop baseEntry "modelOverride")]>
    (<["responseUsage" := oprop baseEntry "responseUsage"]>
    (<["reasoningLevel" :=
         nullish (persisted "reasoningLevel") (oprop baseEntry "reasoningLevel")]>
    (<["verboseLevel" :=
         nullish (persisted "verboseLevel") (oprop baseEntry "verboseLevel")]>
    (<["thinkingLevel" :=
         nullish (persisted "thinkingLevel") (oprop baseEntry "thinkingLevel")]>
    (<["abortedLastRun" := abortedLastRun]>
    (<["systemSent" := systemSent]>
    (<["updatedAt" := JNum now2]>
    (<["sessionId" := sessionId0]>
    (ospread baseEntry)))))))))))))))))))))))) in
  let group_channel :=
    match t_groupResolution t with
    | Some g =>
        match g_channel g with
        | Some c => if String.eqb c "" then None else Some (g, c)
        | None => None
        end
    | None => None
    end in
  let sessionEntry2 :=
    match group_channel with
    | Some (g, channel) =>
        let subject := otrim (t_GroupSubject t) in
        let space := otrim (t_GroupSpace t) in
        let explicitRoom := otrim (t_GroupRoom t) in
        let hashSubject :=
          match subject with
          | JStr sb => if t_isRoomProvider t && truthy subject && startsWith sb "#"
                       then subject else JUndef
          | _ => JUndef
          end in
        let nextRoom := nullish explicitRoom hashSubject in
        let nextSubject := if truthy nextRoom then JUndef else subject in
        let e1 := <["channel" := JStr channel]>
                    (<["chatType" := JStr (default "group" (g_chatType g))]> sessionEntry1) in
        let e2 := if truthy nextSubject then <["subject" := nextSubject]> e1 else e1 in
        let e3 := if truthy nextRoom then <["room" := nextRoom]> e2 else e2 in
        let e4 := if truthy space then <["space" := space]> e3 else e3 in
        <["displayName" :=
            t_buildGroupDisplayName t (prop e4 "channel") (prop e4 "subject")
              (prop e4 "room") (prop e4 "space")]> e4
    | None =>
        if truthy (prop sessionEntry1 "chatType") then sessionEntry1
        else <["chatType" := JStr "direct"]> sessionEntry1
    end in
  let threadLabel := otrim (t_ThreadLabel t) in
  if truthy threadLabel then <["displayName" := threadLabel]> sessionEntry2
  else sessionEntry2.

(** [sessionEntry.sessionId = forked.sessionId; sessionEntry.sessionFile = forked.sessionFile] *)
Definition with_transcript (x : option (string * string)) (e : gmap string jsval)
  : gmap string jsval :=
  match x with
  | Some (id, file) => <["sessionFile" := JStr file]> (<["sessionId" := JStr id]> e)
  | None => e
  end.

(** The transcript path when there is none yet. *)
Definition finish_entry (t : Turn) (e : gmap string jsval) : gmap string jsval :=
  if truthy (prop e "sessionFile") then e
  else <["sessionFile" := JStr (t_resolveSessionTranscriptPath t (prop e "sessionId"))]> e.

(** [sessionId ?? crypto.randomUUID()] *)
Definition sessionId_or_new (sessionId : jsval) : M jsval :=
  match sessionId with
  | JUndef | JNull => let* uuid := randomUUID in ret (JStr uuid)
  | _ => ret sessionId
  end.

(** This revision returns neither [resetTriggered] nor
    [previousSessionEntry]; the result carries the first for reference. *)
Definition initSessionState (fuel : nat) (t : Turn) : M SessionInitResult :=
  let storePath := t_storePath t in
  let sessionKey := t_sessionKey t in
  let* sessionStore0 := loadSessionStore storePath false in
  let bodyStripped := reset_match t in
  let resetTriggered := bool_decide (is_Some bodyStripped) in
  let sessionStore := adopt_legacy t sessionStore0 in
  let entry := sessionStore !! sessionKey in
  let idleMs := idle_ms t in
  let* now := Date_now in
  let reuse := negb resetTriggered && freshEntry entry now idleMs in
  let* sessionId0 :=
    (if reuse then ret (oprop entry "sessionId")
     else let* uuid := randomUUID in ret (JStr uuid)) in
  let isNewSession := negb reuse in
  let systemSent :=
    if reuse then nullish (oprop entry "systemSent") (JBool false) else JBool false in
  let abortedLastRun :=
    if reuse then nullish (oprop entry "abortedLastRun") (JBool false) else JBool false in
  let* now2 := Date_now in
  let sessionEntry3 := entry_literal t reuse entry sessionId0 now2 in
  let forked :=
    if isNewSession then
      match parent_entry t sessionStore with Some pe => t_fork t pe | None => None end
    else None in
  let sessionEntry4 := with_transcript forked sessionEntry3 in
  let sessionId :=
    match forked with Some (fid, _) => JStr fid | None => sessionId0 end in
  let sessionEntry := finish_entry t sessionEntry4 in
  let sessionStore' :=
    <[sessionKey := spread (ospread (sessionStore !! sessionKey)) sessionEntry]>
      sessionStore in
  let* _ := updateSessionStore fuel storePath (persist_mutator t sessionEntry) in
  let* sessionIdOut := sessionId_or_new sessionId in
  ret (InitResult sessionEntry None sessionStore' sessionKey sessionIdOut
         isNewSession resetTriggered systemSent abortedLastRun bodyStripped).

End SessionInitV1.

(** ** The sessions bridge methods *)

Module SessionsBridge.
Import SessionStore.

Inductive ErrorCode : Type := INVALID_REQUEST | UNAVAILABLE.

#[global] Instance ErrorCode_eq_dec : EqDecision ErrorCode.
Proof. solve_decision. Defined.

(** The payload of a successful answer, before [JSON.stringify]. *)
Inductive payload : Type :=
| ResetPayload (key : string) (entry : gmap string jsval)
| DeletePayload (key : string) (deleted : bool) (archived : list string).

(** [{ ok: true, payloadJSON }] or [{ ok: false, error: { code, message } }]. *)
Inductive response : Type :=
| Answer (p : payload)
| Failure (code : ErrorCode) (message : string).

(** [resolveGatewaySessionStoreTarget({ cfg, key })], as far as it is used. *)
Record Target := MkTarget {
  tg_storePath : string;
  tg_canonicalKey : string;
  tg_storeKeys : list string
}.

(** What a bridge call finds around it: the parameters it was sent, the
    verdict of the schema validator, the configuration, and the state of
    the embedded runs.  The validators, the configuration loader, the run
    registry and the transcript archive are not among the sources. *)
Record Call := MkCall {
  c_valid : bool;
  c_validationErrors : string;
  c_key : option string;
  c_deleteTranscript : option bool;
  c_mainKey : string;
  c_target : string → Target;
  c_legacyKey : option string;
  c_runActive : jsval → bool;
  c_runEnded : jsval → bool;
  c_archive : jsval → jsval → list string
}.

(** The common prologue of the store mutators: the record is looked for
    under every candidate key and moved to the primary key. *)
Definition adopt_primary (storeKeys : list string) (key : string)
  (store : gmap string (gmap string jsval))
  : string * gmap string (gmap string jsval) :=
  let primaryKey := default key (head storeKeys) in
  let existingKey := List.find (λ candidate, bool_decide (is_Some (store !! candidate)))
                       storeKeys in
  match existingKey with
  | Some ek =>
      match store !! ek, store !! primaryKey with
      | Some found, None =>
          if negb (String.eqb ek "") && negb (String.eqb ek primaryKey)
          then (primaryKey, delete ek (<[primaryKey := found]> store))
          else (primaryKey, store)
      | _, _ => (primaryKey, store)
      end
  | None => (primaryKey, store)
  end.

(** The mutator of [sessions.reset]. *)
Definition reset_mutator (storeKeys : list string) (key : string)
  (store : gmap string (gmap string jsval))
  : M (gmap string jsval * gmap string (gmap string jsval)) :=
  let '(primaryKey, store1) := adopt_primary storeKeys key store in
  let entry := store1 !! primaryKey in
  let* now := Date_now in
  let* uuid := randomUUID in
  let nextEntry : gmap string jsval :=
    <["skillsSnapshot" := oprop entry "skillsSnapshot"]>
    (<["lastTo" := oprop entry "lastTo"]>
    (<["lastChannel" := oprop entry "lastChannel"]>
    (<["space" := oprop entry "space"]>
    (<["room" := oprop entry "room"]>
    (<["subject" := oprop entry "subject"]>
    (<["channel" := oprop entry "channel"]>
    (<["chatType" := oprop entry "chatType"]>
    (<["displayName" := oprop entry "displayName"]>
    (<["label" := oprop entry "label"]>
    (<["sendPolicy" := oprop entry "sendPolicy"]>
    (<["contextTokens" := oprop entry "contextTokens"]>
    (<["model" := oprop entry "model"]>
    (<["reasoningLevel" := oprop entry "reasoningLevel"]>
    (<["verboseLevel" := oprop entry "verboseLevel"]>
    (<["thinkingLevel" := oprop entry "thinkingLevel"]>
    (<["abortedLastRun" := JBool false]>
    (<["systemSent" := JBool false]>
    (<["updatedAt" := JNum now]>
    (<["sessionId" := JStr uuid]> ∅))))))))))))))))))) in
  ret (nextEntry, <[primaryKey := nextEntry]> store1).

(** [case "sessions.reset"] *)
Definition sessions_reset (fuel : nat) (c : Call) : M response :=
  if negb (c_valid c) then
    ret (Failure INVALID_REQUEST
           ("invalid sessions.reset params: " +:+ c_validationErrors c))
  else
    let key := trim (default "" (c_key c)) in
    if String.eqb key "" then ret (Failure INVALID_REQUEST "key required")
    else
      let target := c_target c key in
      let storePath := tg_storePath target in
      let* next := updateSessionStore fuel storePath
                     (reset_mutator (tg_storeKeys target) key) in
      ret (Answer (ResetPayload key next)).

(** [loadSessionEntry(key)] of the gateway session utilities. *)
Definition loadSessionEntry (c : Call) (sessionKey : string)
  : M (option (gmap string jsval)) :=
  let target := c_target c sessionKey in
  let* store := loadSessionStore (tg_storePath target) false in
  ret (match store !! tg_canonicalKey target with
       | Some e => Some e
       | None =>
           match store !! sessionKey with
           | Some e => Some e
           | None =>
               match c_legacyKey c with
               | Some lk => if String.eqb lk "" then None else store !! lk
               | None => None
               end
           end
       end).

(** What the mutator of [sessions.delete] returns and leaves in the store. *)
Definition delete_result (storeKeys : list string) (key : string)
  (store : gmap string (gmap string jsval))
  : (bool * option (gmap string jsval)) * gmap string (gmap string jsval) :=
  let '(primaryKey, store1) := adopt_primary storeKeys key store in
  let entryToDelete := store1 !! primaryKey in
  let existed := bool_decide (is_Some entryToDelete) in
  ((existed, entryToDelete), if existed then delete primaryKey store1 else store1).

(** The mutator of [sessions.delete]. *)
Definition delete_mutator (storeKeys : list string) (key : string)
  (store : gmap string (gmap string jsval))
  : M ((bool * option (gmap string jsval)) * gmap string (gmap string jsval)) :=
  ret (delete_result storeKeys key store).

(** [case "sessions.delete"].  [clearCommandLane] and [abortEmbeddedPiRun]
    act on the run registry of the process, which is not part of the
    world; what the method does next depends on whether a run is active
    and whether it ended within the wait. *)
Definition sessions_delete (fuel : nat) (c : Call) : M response :=
  if negb (c_valid c) then
    ret (Failure INVALID_REQUEST
           ("invalid sessions.delete params: " +:+ c_validationErrors c))
  else
    let key := trim (default "" (c_key c)) in
    if String.eqb key "" then ret (Failure INVALID_REQUEST "key required")
    else
      let mainKey := c_mainKey c in
      if String.eqb key mainKey then
        ret (Failure INVALID_REQUEST
               ("Cannot delete the main session (" +:+ mainKey +:+ ")."))
      else
        let deleteTranscript := default true (c_deleteTranscript c) in
        let target := c_target c key in
        let storePath := tg_storePath target in
        let* entry := loadSessionEntry c key in
        let sessionId := oprop entry "sessionId" in
        if truthy sessionId && c_runActive c sessionId && negb (c_runEnded c sessionId)
        then
          ret (Failure UNAVAILABLE
                 ("Session " +:+ key +:+ " is still active; try again in a moment."))
        else
          let* deletion := updateSessionStore fuel storePath
                             (delete_mutator (tg_storeKeys target) key) in
          let existed := deletion.1 in
          let archived :=
            if deleteTranscript && truthy sessionId
            then c_archive c sessionId (oprop entry "sessionFile") else [] in
          ret (Answer (DeletePayload key existed archived)).

End SessionsBridge.

(** ** Concrete turns used to exercise session initialisation *)

Module InitSamples.
Import SessionStore SessionStoreSpec StoreSamples.

Definition transcript_path (sessionId : jsval) : string :=
  match sessionId with
  | JStr id => "/state/agents/main/sessions/" +:+ id +:+ ".jsonl"
  | _ => "/state/agents/main/sessions/undefined.jsonl"
  end.

(** A direct message "hello there" on the main session, idle timeout of
    60 minutes, for the earlier revision. *)
Definition hello_turn_v1 : SessionInitV1.Turn :=
  SessionInitV1.MkTurn sample_path "agent:main:main" ["/new"; "/reset"]
    (Some 60) 60 true false None "hello there" (λ s, s) (λ s, s)
    None (Some "slack") None (Some "U42") None None None None None
    false (λ _ _ _ _, JUndef) (λ _, None) transcript_path.

(** The clock reads 10 000 000 ms; the idle threshold is 3 600 000 ms. *)
Definition record_updated_at (updatedAt : Z) : gmap string jsval :=
  <["sessionId" := JStr "s-main"]>
    (<["updatedAt" := JNum updatedAt]> (<["channel" := JStr "slack"]> ∅)).

Definition world_updated_at (updatedAt : Z) : World :=
  world_with
    (<[sample_path :=
         File (Document (<["agent:main:main" := record_updated_at updatedAt]> ∅)) 900]> ∅)
    ∅ ∅ 10000000.

(** A record that carries user overrides and the state of a long session. *)
Definition override_record : gmap string jsval :=
  <["sessionId" := JStr "s-main"]>
  (<["updatedAt" := JNum 9999000]>
  (<["systemSent" := JBool true]>
  (<["abortedLastRun" := JBool true]>
  (<["compactionCount" := JNum 3]>
  (<["modelOverride" := JStr "foo/bar"]>
  (<["providerOverride" := JStr "foo"]>
  (<["thinkingLevel" := JStr "high"]>
  (<["verboseLevel" := JStr "on"]>
  (<["reasoningLevel" := JStr "stream"]>
  (<["elevatedLevel" := JStr "on"]>
  (<["channel" := JStr "slack"]> ∅))))))))))).

Definition override_world : World :=
  world_with
    (<[sample_path := File (Document (<["agent:main:main" := override_record]> ∅)) 900]> ∅)
    ∅ ∅ 10000000.

(** The authorized sender writes "/new" on the main session (later
    revision). *)
Definition reset_turn : SessionInit.Turn :=
  SessionInit.MkTurn sample_path "agent:main:main" ["/new"; "/reset"]
    true false "/new" (λ s, s) (λ s, s) None None
    (SessionInit.evaluateSessionFreshness 3600000)
    (Some "slack") None (Some "U42") None None None
    (λ _ _ _ _, ∅) (λ _, None) (λ _, None) (λ _ _, None) transcript_path.

(** The same turn in the earlier revision. *)
Definition reset_turn_v1 : SessionInitV1.Turn :=
  SessionInitV1.MkTurn sample_path "agent:main:main" ["/new"; "/reset"]
    (Some 60) 60 true false None "/new" (λ s, s) (λ s, s)
    None (Some "slack") None (Some "U42") None None None None None
    false (λ _ _ _ _, JUndef) (λ _, None) transcript_path.

(** A [sessions.reset] call for the main session key. *)
Definition reset_call : SessionsBridge.Call :=
  SessionsBridge.MkCall true "" (Some "agent:main:main") None "agent:main:main"
    (λ key, SessionsBridge.MkTarget sample_path key [key])
    None (λ _, false) (λ _, true) (λ _ _, []).

(** The record that a path leaves in the store file under the main key. *)
Definition persisted_main (r : outcome SessionInitResult * World)
  : option (gmap string jsval) :=
  disk_store r.2 sample_path !! "agent:main:main".

(** A store with the main session and a second session whose run may be
    active. *)
Definition work_record : gmap string jsval :=
  <["sessionId" := JStr "s-work"]>
    (<["updatedAt" := JNum 9000000]> (<["channel" := JStr "slack"]> ∅)).

Definition two_session_world : World :=
  world_with
    (<[sample_path :=
         File (Document (<["agent:main:work" := work_record]>
                           (<["agent:main:main" := main_record]> ∅))) 900]> ∅)
    ∅ ∅ 10000000.

(** [sessions.delete] for the main key, for the second key while no run
    is active, and for the second key while its run is active and does not
    end within the wait. *)
Definition delete_call (key : string) (active ended : bool) : SessionsBridge.Call :=
  SessionsBridge.MkCall true "" (Some key) None "agent:main:main"
    (λ k, SessionsBridge.MkTarget sample_path k [k])
    None (λ _, active) (λ _, ended) (λ _ _, []).

End InitSamples.

(** ** Thinking-level guard of the reply path and of directive-only messages *)

Module Thinking.
Import SessionStore.

(** [o] used as a condition, for an optional string. *)
Definition given (o : option string) : bool :=
  match o with Some s => negb (String.eqb s "") | None => false end.

(** [s === lit] for an optional string. *)
Definition is_level (o : option string) (lit : string) : bool :=
  match o with Some s => String.eqb s lit | None => false end.

(** [InlineDirectives], as parsed from the message. *)
Record InlineDirectives := MkDirectives {
  hasThinkDirective : bool;
  thinkLevel : option string;
  rawThinkLevel : option string;
  hasVerboseDirective : bool;
  verboseLevel : option string;
  rawVerboseLevel : option string;
  hasReasoningDirective : bool;
  reasoningLevel : option string;
  rawReasoningLevel : option string;
  hasElevatedDirective : bool;
  elevatedLevel : option string;
  rawElevatedLevel : option string;
  hasModelDirective : bool;
  hasQueueDirective : bool;
  queueReset : bool;
  queueMode : option string;
  debounceMs : option Z;
  cap : option Z;
  dropPolicy : option string;
  hasStatusDirective : bool
}.

(** Helpers imported from modules that are not among the sources
    (../thinking.js, ./directive-handling.shared.js, level overrides). *)
Record Helpers := MkHelpers {
  supportsXHighThinking : string → string → bool;
  formatXHighModelHint : string;
  normalizeThinkLevel : string → option string;
  formatThinkingLevels : string → string → string;
  withOptions : string → string → string;
  formatElevatedUnavailableText : string;
  formatElevatedRuntimeHint : string;
  formatDirectiveAck : string → string;
  formatElevatedEvent : string → string;
  formatReasoningEvent : string → string;
  applyVerboseOverride : gmap string jsval → string → gmap string jsval
}.

(** [store[sessionKey] = sessionEntry] *)
Definition put_entry_mutator (sessionKey : string) (sessionEntry : gmap string jsval)
  (store : gmap string (gmap string jsval))
  : M (unit * gmap string (gmap string jsval)) :=
  ret (tt, <[sessionKey := sessionEntry]> store).

(** *** [runPreparedReply] *)

(** What [runPreparedReply] has in hand when it reaches the thinking
    level: the parameters it was called with and the body it has prepared
    (session hints, system events, media note, skill snapshot), which come
    from helpers that are not among the sources. *)
Record PreparedReply := MkPrepared {
  p_directives : InlineDirectives;
  p_resolvedThinkLevel : option string;
  p_provider : string;
  p_model : string;
  p_resolveDefaultThinkingLevel : string;
  p_dropUnauthorizedControl : bool;
  p_baseBodyTrimmed : string;
  p_prefixedCommandBody : string;
  p_sessionEntry : option (gmap string jsval);
  p_sessionStore : option (gmap string (gmap string jsval));
  p_sessionKey : string;
  p_storePath : option string
}.

(** How the function ends: without a reply, with a text of its own, or by
    handing the turn to [runReplyAgent] with the resolved level. *)
Inductive prepared_outcome : Type :=
| NoReply
| ReplyText (text : string)
| RunAgent (thinkLevel : string) (commandBody : string)
    (sessionEntry : option (gmap string jsval))
    (sessionStore : option (gmap string (gmap string jsval))).

(** The level the turn will run with, and the body left after a leading
    level word was taken from it: an inline level, else the level passed
    in, else the default of the model. *)
Definition resolve_think_level (h : Helpers) (p : PreparedReply)
  : option string * string :=
  let '(resolvedThinkLevel, prefixedCommandBody) :=
    if negb (given (p_resolvedThinkLevel p))
       && negb (String.eqb (p_prefixedCommandBody p) "")
    then
      let parts := split_ws (p_prefixedCommandBody p) in
      let maybeLevel := normalizeThinkLevel h (default "" (head parts)) in
      if given maybeLevel
         && (negb (is_level maybeLevel "xhigh")
             || supportsXHighThinking h (p_provider p) (p_model p))
      then (maybeLevel, trim (js_join " " (tail parts)))
      else (p_resolvedThinkLevel p, p_prefixedCommandBody p)
    else (p_resolvedThinkLevel p, p_prefixedCommandBody p) in
  (if negb (given resolvedThinkLevel) then Some (p_resolveDefaultThinkingLevel p)
   else resolvedThinkLevel,
   prefixedCommandBody).

(** [directives.hasThinkDirective && directives.thinkLevel !== undefined] *)
Definition explicitThink (directives : InlineDirectives) : bool :=
  hasThinkDirective directives && bool_decide (is_Some (thinkLevel directives)).

Definition runPreparedReply (fuel : nat) (h : Helpers) (p : PreparedReply)
  : M prepared_outcome :=
  if p_dropUnauthorizedControl p then ret NoReply
  else if String.eqb (p_baseBodyTrimmed p) "" then
    ret (ReplyText
           "I didn't receive any text in your message. Please resend or add a caption.")
  else
    let '(resolvedThinkLevel, prefixedCommandBody) := resolve_think_level h p in
    if is_level resolvedThinkLevel "xhigh"
       && negb (supportsXHighThinking h (p_provider p) (p_model p))
    then
      if explicitThink (p_directives p) then
        ret (ReplyText
               ("Thinking level " +:+ quoted "xhigh" +:+ " is only supported for "
                +:+ formatXHighModelHint h
                +:+ ". Use /think high or switch to one of those models."))
      else
        match p_sessionEntry p, p_sessionStore p with
        | Some sessionEntry, Some sessionStore =>
            if negb (String.eqb (p_sessionKey p) "")
               && bool_decide (prop sessionEntry "thinkingLevel" = JStr "xhigh")
            then
              let* now := Date_now in
              let sessionEntry' :=
                <["updatedAt" := JNum now]>
                  (<["thinkingLevel" := JStr "high"]> sessionEntry) in
              let sessionStore' := <[p_sessionKey p := sessionEntry']> sessionStore in
              let* _ :=
                (if given (p_storePath p) then
                   updateSessionStore fuel (default "" (p_storePath p))
                     (put_entry_mutator (p_sessionKey p) sessionEntry')
                 else ret tt) in
              ret (RunAgent "high" prefixedCommandBody (Some sessionEntry')
                     (Some sessionStore'))
            else
              ret (RunAgent "high" prefixedCommandBody (p_sessionEntry p)
                     (p_sessionStore p))
        | _, _ =>
            ret (RunAgent "high" prefixedCommandBody (p_sessionEntry p)
                   (p_sessionStore p))
        end
    else
      ret (RunAgent (default "" resolvedThinkLevel) prefixedCommandBody
             (p_sessionEntry p) (p_sessionStore p)).

(** *** [handleDirectiveOnly] *)

(** [ModelDirectiveSelection] *)
Record ModelSelection := MkSelection {
  ms_provider : string;
  ms_model : string;
  ms_isDefault : bool;
  ms_alias : option string
}.

(** The parameters of [handleDirectiveOnly] and what the model-directive
    and queue-directive helpers (not among the sources) answer for them. *)
Record DirectiveOnly := MkDirectiveOnly {
  d_directives : InlineDirectives;
  d_sessionEntry : option (gmap string jsval);
  d_sessionStore : option (gmap string (gmap string jsval));
  d_sessionKey : string;
  d_storePath : option string;
  d_elevatedEnabled : bool;
  d_elevatedAllowed : bool;
  d_runtimeIsSandboxed : bool;
  d_provider : string;
  d_model : string;
  d_initialModelLabel : string;
  d_formatModelSwitchEvent : string → option string → string;
  d_currentThinkLevel : option string;
  d_currentVerboseLevel : option string;
  d_currentReasoningLevel : option string;
  d_currentElevatedLevel : option string;
  d_modelInfo : option string;
  d_modelErrorText : option string;
  d_modelSelection : option ModelSelection;
  d_profileOverride : option string;
  d_queueAck : option string
}.

(** What the caller sees afterwards: the reply, the record and the store
    it passed in (changed in place), and the system events enqueued, each
    with its context key. *)
Record DirectiveResult := MkDirectiveResult {
  dr_reply : option string;
  dr_sessionEntry : option (gmap string jsval);
  dr_sessionStore : option (gmap string (gmap string jsval));
  dr_events : list (string * string)
}.

(** [x ?? y] for optional strings. *)
Definition or_else (x y : option string) : option string :=
  match x with Some _ => x | None => y end.

(** A level property of the record read as a string. *)
Definition level_of (e : gmap string jsval) (p : string) : option string :=
  match prop e p with JStr s => Some s | _ => None end.

(** [if (lvl === "off") delete entry[p]; else entry[p] = lvl] *)
Definition set_or_clear (p : string) (lvl : string) (e : gmap string jsval)
  : gmap string jsval :=
  if String.eqb lvl "off" then delete p e else <[p := JStr lvl]> e.

(** The changes made to the session record (lines from
    [if (directives.hasThinkDirective && directives.thinkLevel)] to the
    queue settings). *)
Definition apply_directives (h : Helpers) (d : DirectiveOnly)
  (shouldDowngradeXHigh : bool) (sessionEntry : gmap string jsval)
  : gmap string jsval :=
  let directives := d_directives d in
  let e1 :=
    if hasThinkDirective directives && given (thinkLevel directives)
    then set_or_clear "thinkingLevel" (default "" (thinkLevel directives)) sessionEntry
    else sessionEntry in
  let e2 := if shouldDowngradeXHigh then <["thinkingLevel" := JStr "high"]> e1 else e1 in
  let e3 :=
    if hasVerboseDirective directives && given (verboseLevel directives)
    then applyVerboseOverride h e2 (default "" (verboseLevel directives))
    else e2 in
  let e4 :=
    if hasReasoningDirective directives && given (reasoningLevel directives)
    then set_or_clear "reasoningLevel" (default "" (reasoningLevel directives)) e3
    else e3 in
  let e5 :=
    if hasElevatedDirective directives && given (elevatedLevel directives)
    then <["elevatedLevel" := JStr (default "" (elevatedLevel directives))]> e4
    else e4 in
  let e6 :=
    match d_modelSelection d with
    | Some sel =>
        let m1 :=
          if ms_isDefault sel then delete "modelOverride" (delete "providerOverride" e5)
          else <["modelOverride" := JStr (ms_model sel)]>
                 (<["providerOverride" := JStr (ms_provider sel)]> e5) in
        if given (d_profileOverride d)
        then <["authProfileOverride" := JStr (default "" (d_profileOverride d))]> m1
        else if hasModelDirective directives then delete "authProfileOverride" m1
        else m1
    | None => e5
    end in
  if hasQueueDirective directives && queueReset directives then
    delete "queueDrop" (delete "queueCap" (delete "queueDebounceMs" (delete "queueMode" e6)))
  else if hasQueueDirective directives then
    let q1 := if given (queueMode directives)
              then <["queueMode" := JStr (default "" (queueMode directives))]> e6 else e6 in
    let q2 := match debounceMs directives with
              | Some n => <["queueDebounceMs" := JNum n]> q1 | None => q1 end in
    let q3 := match cap directives with
              | Some n => <["queueCap" := JNum n]> q2 | None => q2 end in
    if given (dropPolicy directives)
    then <["queueDrop" := JStr (default "" (dropPolicy directives))]> q3 else q3
  else e6.

(** The acknowledgement text ([parts.join(" ").trim()]). *)
Definition ack_parts (h : Helpers) (d : DirectiveOnly) (shouldDowngradeXHigh : bool)
  (resolvedProvider resolvedModel : string) : list string :=
  let directives := d_directives d in
  let shouldHintDirectRuntime :=
    hasElevatedDirective directives && negb (d_runtimeIsSandboxed d) in
  (if hasThinkDirective directives && given (thinkLevel directives) then
     [if is_level (thinkLevel directives) "off" then "Thinking disabled."
      else "Thinking level set to " +:+ default "" (thinkLevel directives) +:+ "."]
   else [])
  ++ (if hasVerboseDirective directives && given (verboseLevel directives) then
        [if is_level (verboseLevel directives) "off"
         then formatDirectiveAck h "Verbose logging disabled."
         else formatDirectiveAck h "Verbose logging enabled."]
      else [])
  ++ (if hasReasoningDirective directives && given (reasoningLevel directives) then
        [if is_level (reasoningLevel directives) "off"
         then formatDirectiveAck h "Reasoning visibility disabled."
         else if is_level (reasoningLevel directives) "stream"
         then formatDirectiveAck h "Reasoning stream enabled (Telegram only)."
         else formatDirectiveAck h "Reasoning visibility enabled."]
      else [])
  ++ (if hasElevatedDirective directives && given (elevatedLevel directives) then
        (if is_level (elevatedLevel directives) "off"
         then formatDirectiveAck h "Elevated mode disabled."
         else formatDirectiveAck h "Elevated mode enabled.")
        :: (if shouldHintDirectRuntime then [formatElevatedRuntimeHint h] else [])
      else [])
  ++ (if shouldDowngradeXHigh then
        ["Thinking level set to high (xhigh not supported for "
         +:+ resolvedProvider +:+ "/" +:+ resolvedModel +:+ ")."]
      else [])
  ++ (match d_modelSelection d with
      | Some sel =>
          let label := ms_provider sel +:+ "/" +:+ ms_model sel in
          let labelWithAlias :=
            if given (ms_alias sel)
            then default "" (ms_alias sel) +:+ " (" +:+ label +:+ ")" else label in
          (if ms_isDefault sel
           then "Model reset to default (" +:+ labelWithAlias +:+ ")."
           else "Model set to " +:+ labelWithAlias +:+ ".")
          :: (if given (d_profileOverride d)
              then ["Auth profile set to " +:+ default "" (d_profileOverride d) +:+ "."]
              else [])
      | None => []
      end)
  ++ (if hasQueueDirective directives && given (queueMode directives) then
        [formatDirectiveAck h
           ("Queue mode set to " +:+ default "" (queueMode directives) +:+ ".")]
      else if hasQueueDirective directives && queueReset directives then
        [formatDirectiveAck h "Queue mode reset to default."]
      else [])
  ++ (match debounceMs directives with
      | Some n =>
          if hasQueueDirective directives
          then [formatDirectiveAck h
                  ("Queue debounce set to " +:+ pretty n +:+ "ms.")]
          else []
      | None => []
      end)
  ++ (match cap directives with
      | Some n =>
          if hasQueueDirective directives
          then [formatDirectiveAck h ("Queue cap set to " +:+ pretty n +:+ ".")]
          else []
      | None => []
      end)
  ++ (if hasQueueDirective directives && given (dropPolicy directives) then
        [formatDirectiveAck h
           ("Queue drop set to " +:+ default "" (dropPolicy directives) +:+ ".")]
      else []).

(** The system events enqueued after the record was persisted. *)
Definition directive_events (h : Helpers) (d : DirectiveOnly)
  (before after : gmap string jsval) : list (string * string) :=
  let directives := d_directives d in
  let prevElevatedLevel :=
    or_else (d_currentElevatedLevel d)
      (or_else (level_of before "elevatedLevel")
         (Some (if d_elevatedAllowed d then "on" else "off"))) in
  let prevReasoningLevel :=
    or_else (d_currentReasoningLevel d)
      (or_else (level_of before "reasoningLevel") (Some "off")) in
  let elevatedChanged0 :=
    hasElevatedDirective directives && bool_decide (is_Some (elevatedLevel directives))
    && d_elevatedEnabled d && d_elevatedAllowed d in
  let reasoningChanged0 :=
    hasReasoningDirective directives && bool_decide (is_Some (reasoningLevel directives)) in
  let reasoningChanged :=
    if hasReasoningDirective directives && given (reasoningLevel directives)
    then negb (bool_decide (reasoningLevel directives = prevReasoningLevel))
    else reasoningChanged0 in
  let elevatedChanged :=
    if hasElevatedDirective directives && given (elevatedLevel directives)
    then elevatedChanged0
         || negb (bool_decide (elevatedLevel directives = prevElevatedLevel))
    else elevatedChanged0 in
  (match d_modelSelection d with
   | Some sel =>
       let nextLabel := ms_provider sel +:+ "/" +:+ ms_model sel in
       if negb (String.eqb nextLabel (d_initialModelLabel d))
       then [(d_formatModelSwitchEvent d nextLabel (ms_alias sel), "model:" +:+ nextLabel)]
       else []
   | None => []
   end)
  ++ (if elevatedChanged
      then [(formatElevatedEvent h (default "off" (level_of after "elevatedLevel")),
             "mode:elevated")]
      else [])
  ++ (if reasoningChanged
      then [(formatReasoningEvent h (default "off" (level_of after "reasoningLevel")),
             "mode:reasoning")]
      else []).

(** [modelSelection?.provider ?? provider] and [modelSelection?.model ?? model] *)
Definition resolvedProvider (d : DirectiveOnly) : string :=
  match d_modelSelection d with Some sel => ms_provider sel | None => d_provider d end.

Definition resolvedModel (d : DirectiveOnly) : string :=
  match d_modelSelection d with Some sel => ms_model sel | None => d_model d end.

(** The replies that end the function before the thinking tier is
    looked at: model information or a model error, a level directive
    without an argument (answered with the current value) or with an
    unknown one, elevated mode that is not available, a queue directive
    that was answered. *)
Definition early_reply (h : Helpers) (d : DirectiveOnly) : option string :=
  let directives := d_directives d in
  let shouldHintDirectRuntime :=
    hasElevatedDirective directives && negb (d_runtimeIsSandboxed d) in
  match d_modelInfo d, d_modelErrorText d with
  | Some info, _ => Some info
  | None, Some errorText => Some errorText
  | None, None =>
      if hasThinkDirective directives && negb (given (thinkLevel directives)) then
        if negb (given (rawThinkLevel directives)) then
          Some (withOptions h
            ("Current thinking level: " +:+ default "off" (d_currentThinkLevel d) +:+ ".")
            (formatThinkingLevels h (resolvedProvider d) (resolvedModel d)))
        else
          Some ("Unrecognized thinking level "
            +:+ quoted (default "" (rawThinkLevel directives))
            +:+ ". Valid levels: "
            +:+ formatThinkingLevels h (resolvedProvider d) (resolvedModel d) +:+ ".")
      else if hasVerboseDirective directives && negb (given (verboseLevel directives)) then
        if negb (given (rawVerboseLevel directives)) then
          Some (withOptions h
            ("Current verbose level: " +:+ default "off" (d_currentVerboseLevel d) +:+ ".")
            "on, off")
        else
          Some ("Unrecognized verbose level "
            +:+ quoted (default "" (rawVerboseLevel directives))
            +:+ ". Valid levels: off, on.")
      else if hasReasoningDirective directives && negb (given (reasoningLevel directives))
      then
        if negb (given (rawReasoningLevel directives)) then
          Some (withOptions h
            ("Current reasoning level: "
             +:+ default "off" (d_currentReasoningLevel d) +:+ ".")
            "on, off, stream")
        else
          Some ("Unrecognized reasoning level "
            +:+ quoted (default "" (rawReasoningLevel directives))
            +:+ ". Valid levels: on, off, stream.")
      else if hasElevatedDirective directives && negb (given (elevatedLevel directives))
      then
        if negb (given (rawElevatedLevel directives)) then
          if negb (d_elevatedEnabled d) || negb (d_elevatedAllowed d) then
            Some (formatElevatedUnavailableText h)
          else
            Some (js_join (String (ascii_of_nat 10) EmptyString)
              (withOptions h
                 ("Current elevated level: "
                  +:+ default "off" (d_currentElevatedLevel d) +:+ ".")
                 "on, off"
               :: (if shouldHintDirectRuntime then [formatElevatedRuntimeHint h] else [])))
        else
          Some ("Unrecognized elevated level "
            +:+ quoted (default "" (rawElevatedLevel directives))
            +:+ ". Valid levels: off, on.")
      else if hasElevatedDirective directives
              && (negb (d_elevatedEnabled d) || negb (d_elevatedAllowed d)) then
        Some (formatElevatedUnavailableText h)
      else d_queueAck d
  end.

(** [nextThinkLevel] *)
Definition nextThinkLevel (d : DirectiveOnly) : option string :=
  if hasThinkDirective (d_directives d) then thinkLevel (d_directives d)
  else or_else
         (match d_sessionEntry d with
          | Some e => level_of e "thinkingLevel"
          | None => None
          end)
         (d_currentThinkLevel d).

(** [shouldDowngradeXHigh] *)
Definition shouldDowngradeXHigh (h : Helpers) (d : DirectiveOnly) : bool :=
  negb (hasThinkDirective (d_directives d))
  && is_level (nextThinkLevel d) "xhigh"
  && negb (supportsXHighThinking h (resolvedProvider d) (resolvedModel d)).

(** The sentence of the acknowledgement that reports the downgrade. *)
Definition downgrade_notice (d : DirectiveOnly) : string :=
  "Thinking level set to high (xhigh not supported for "
  +:+ resolvedProvider d +:+ "/" +:+ resolvedModel d +:+ ").".

Definition handleDirectiveOnly (fuel : nat) (h : Helpers) (d : DirectiveOnly)
  : M DirectiveResult :=
  let directives := d_directives d in
  let reply_only (text : option string) : M DirectiveResult :=
    ret (MkDirectiveResult text (d_sessionEntry d) (d_sessionStore d) []) in
  match early_reply h d with
  | Some text => reply_only (Some text)
  | None =>
      if hasThinkDirective directives
         && is_level (thinkLevel directives) "xhigh"
         && negb (supportsXHighThinking h (resolvedProvider d) (resolvedModel d))
      then
        reply_only (Some ("Thinking level " +:+ quoted "xhigh"
                          +:+ " is only supported for "
                          +:+ formatXHighModelHint h +:+ "."))
      else
        let downgrade := shouldDowngradeXHigh h d in
        let* '(entry', store', events) :=
          (match d_sessionEntry d, d_sessionStore d with
           | Some sessionEntry, Some sessionStore =>
               if negb (String.eqb (d_sessionKey d) "") then
                 let changed := apply_directives h d downgrade sessionEntry in
                 let* now := Date_now in
                 let sessionEntry' := <["updatedAt" := JNum now]> changed in
                 let sessionStore' := <[d_sessionKey d := sessionEntry']> sessionStore in
                 let* _ :=
                   (if given (d_storePath d) then
                      updateSessionStore fuel (default "" (d_storePath d))
                        (put_entry_mutator (d_sessionKey d) sessionEntry')
                    else ret tt) in
                 ret (Some sessionEntry', Some sessionStore',
                      directive_events h d sessionEntry sessionEntry')
               else ret (d_sessionEntry d, d_sessionStore d, [])
           | _, _ => ret (d_sessionEntry d, d_sessionStore d, [])
           end) in
        let ack :=
          trim (js_join " "
                  (ack_parts h d downgrade (resolvedProvider d) (resolvedModel d))) in
        if String.eqb ack "" && hasStatusDirective directives
        then ret (MkDirectiveResult None entry' store' events)
        else ret (MkDirectiveResult
                    (Some (if String.eqb ack "" then "OK." else ack))
                    entry' store' events)
  end.

End Thinking.

(** ** Concrete turns used to exercise the thinking-level guard *)

Module ThinkingSamples.
Import SessionStore SessionStoreSpec StoreSamples Thinking.

(** A provider whose models do not take the highest tier. *)
Definition sample_helpers : Helpers :=
  MkHelpers (λ provider _, String.eqb provider "openai") "openai/gpt-5.2"
    (λ word, if String.eqb word "xhigh" then Some "xhigh"
             else if String.eqb word "high" then Some "high" else None)
    (λ _ _, "off, minimal, low, medium, high") (λ line options, line +:+ " Options: " +:+ options)
    "Elevated mode is not available." "Runtime is direct." (λ line, line)
    (λ level, "Elevated " +:+ level) (λ level, "Reasoning " +:+ level)
    (λ entry level, <["verboseLevel" := JStr level]> entry).

Definition no_directives : InlineDirectives :=
  MkDirectives false None None false None None false None None false None None
    false false false None None None None false.

(** The user wrote [/think xhigh]. *)
Definition think_xhigh_directive : InlineDirectives :=
  MkDirectives true (Some "xhigh") (Some "xhigh") false None None false None None
    false None None false false false None None None None false.

(** The user wrote [/verbose on]. *)
Definition verbose_on_directive : InlineDirectives :=
  MkDirectives false None None true (Some "on") (Some "on") false None None
    false None None false false false None None None None false.

(** A plain message on a session that stores no thinking level, for a
    model whose default level is the highest tier but which runs on a
    provider that does not support it. *)
Definition default_xhigh_turn : PreparedReply :=
  MkPrepared no_directives None "anthropic" "claude-opus-4-5" "xhigh"
    false "hello" "hello"
    (Some main_record) (Some sample_store) "agent:main:main" (Some sample_path).

(** The same message on a session that stores the highest tier. *)
Definition stored_xhigh_record : gmap string jsval :=
  <["thinkingLevel" := JStr "xhigh"]> main_record.

Definition stored_xhigh_world : World :=
  world_with
    (<[sample_path :=
         File (Document (<["agent:main:main" := stored_xhigh_record]> ∅)) 900]> ∅)
    ∅ ∅ 5000.

Definition stored_xhigh_turn : PreparedReply :=
  MkPrepared no_directives (Some "xhigh") "anthropic" "claude-opus-4-5" "off"
    false "hello" "hello"
    (Some stored_xhigh_record) (Some (<["agent:main:main" := stored_xhigh_record]> ∅))
    "agent:main:main" (Some sample_path).

(** The message [/think xhigh hello]. *)
Definition explicit_xhigh_turn : PreparedReply :=
  MkPrepared think_xhigh_directive (Some "xhigh") "anthropic" "claude-opus-4-5" "off"
    false "hello" "hello"
    (Some main_record) (Some sample_store) "agent:main:main" (Some sample_path).

(** Directive-only messages on the session that stores the highest tier:
    [/think xhigh] and [/verbose on]. *)
Definition directive_only (directives : InlineDirectives) : DirectiveOnly :=
  MkDirectiveOnly directives
    (Some stored_xhigh_record) (Some (<["agent:main:main" := stored_xhigh_record]> ∅))
    "agent:main:main" (Some sample_path) false false true
    "anthropic" "claude-opus-4-5" "anthropic/claude-opus-4-5" (λ label _, label)
    (Some "xhigh") None None None None None None None None.

End ThinkingSamples.

(** ** Resolving a model directive ([auto-reply/reply/model-selection.ts]) *)

Module ModelDirective.

(** [{ provider, model }] *)
Record ModelRef := MkModelRef { ref_provider : string; ref_model : string }.

(** An entry of [aliasIndex.byAlias]. *)
Record AliasEntry := MkAliasEntry { ae_alias : string; ae_ref : ModelRef }.

(** [ModelAliasIndex]: two [Map]s, kept as lists of pairs in insertion
    order, which is the order the loops below walk them in. *)
Record ModelAliasIndex := MkAliasIndex {
  byAlias : list (string * AliasEntry);
  byKey : list (string * list string)
}.

(** [map.get(k)] *)
Definition map_get {V : Type} (m : list (string * V)) (k : string) : option V :=
  snd <$> List.find (λ kv, String.eqb kv.1 k) m.

(** [set.has(k)] on a [Set] kept in insertion order. *)
Definition set_has (s : list string) (k : string) : bool :=
  existsb (String.eqb k) s.

(** What [resolveModelRefFromString] returns when it resolves. *)
Record ResolvedRef := MkResolved { rr_ref : ModelRef; rr_alias : option string }.

(** The functions this file imports from [agents/model-selection.js],
    and the comparison of the host that [localeCompare] stands for. Their
    code is not part of the sources at hand: every definition below takes
    them as given. *)
Record Imports := MkImports {
  modelKey : string → string → string;
  normalizeProviderId : string → string;
  resolveModelRefFromString : string → string → ModelAliasIndex → option ResolvedRef;
  localeCompare : string → string → Z
}.

(** [ModelDirectiveSelection] *)
Record ModelDirectiveSelection := MkSelection {
  sel_provider : string;
  sel_model : string;
  sel_isDefault : bool;
  sel_alias : option string
}.

(** [{ selection?, error? }] *)
Record Resolution := MkResolution {
  selection : option ModelDirectiveSelection;
  error : option string
}.

Definition FUZZY_VARIANT_TOKENS : list string :=
  ["lightning"; "preview"; "mini"; "fast"; "turbo"; "lite"; "beta"; "small"; "nano"].

(** [scoreFragment(value, weights)] for the lowered [fragment]. *)
Definition scoreFragment (fragment value : string) (exact starts incl : Z) : Z :=
  if String.eqb fragment "" then 0
  else
    let score := 0 in
    let score := if String.eqb value fragment then Z.max score exact else score in
    let score := if startsWith value fragment then Z.max score starts else score in
    let score := if includes value fragment then Z.max score incl else score in
    score.

(** What [scoreFuzzyMatch] returns. *)
Record FuzzyScore := MkFuzzyScore {
  fs_score : Z;
  fs_isDefault : bool;
  fs_variantCount : nat;
  fs_variantMatchCount : nat;
  fs_modelLength : nat;
  fs_key : string
}.

Definition scoreFuzzyMatch (im : Imports) (provider0 model fragment0 : string)
  (aliasIndex : ModelAliasIndex) (defaultProvider0 defaultModel : string) : FuzzyScore :=
  let provider := normalizeProviderId im provider0 in
  let fragment := toLowerCase (trim fragment0) in
  let providerLower := toLowerCase provider in
  let modelLower := toLowerCase model in
  let haystack := providerLower +:+ "/" +:+ modelLower in
  let key := modelKey im provider model in
  let score := 0 in
  let score := score + scoreFragment fragment haystack 220 140 110 in
  let score := score + scoreFragment fragment providerLower 180 120 90 in
  let score := score + scoreFragment fragment modelLower 160 110 80 in
  let aliases := default [] (map_get (byKey aliasIndex) key) in
  let score :=
    fold_left
      (λ score alias, score + scoreFragment fragment (toLowerCase alias) 140 90 60)
      aliases score in
  let score := if startsWith modelLower providerLower then score + 30 else score in
  let fragmentVariants := List.filter (λ token, includes fragment token) FUZZY_VARIANT_TOKENS in
  let modelVariants := List.filter (λ token, includes modelLower token) FUZZY_VARIANT_TOKENS in
  let variantMatchCount :=
    List.length (List.filter (λ token, includes modelLower token) fragmentVariants) in
  let variantCount := List.length modelVariants in
  let score :=
    if (List.length fragmentVariants =? 0)%nat && (0 <? variantCount)%nat then
      score - Z.of_nat variantCount * 30
    else if (0 <? List.length fragmentVariants)%nat then
      let score :=
        if (0 <? variantMatchCount)%nat then score + Z.of_nat variantMatchCount * 40
        else score in
      if (variantMatchCount =? 0)%nat then score - 20 else score
    else score in
  let defaultProvider := normalizeProviderId im defaultProvider0 in
  let isDefault := String.eqb provider defaultProvider && String.eqb model defaultModel in
  let score := if isDefault then score + 20 else score in
  MkFuzzyScore score isDefault variantCount variantMatchCount (String.length modelLower) key.

(** The comparator handed to [sort]: negative when [a] goes first. *)
Definition compare_scored (im : Imports) (a b : FuzzyScore) : Z :=
  if negb (fs_score b =? fs_score a) then fs_score b - fs_score a
  else if negb (Bool.eqb (fs_isDefault a) (fs_isDefault b)) then
    (if fs_isDefault a then -1 else 1)
  else if negb (fs_variantMatchCount a =? fs_variantMatchCount b)%nat then
    Z.of_nat (fs_variantMatchCount b) - Z.of_nat (fs_variantMatchCount a)
  else if negb (fs_variantCount a =? fs_variantCount b)%nat then
    Z.of_nat (fs_variantCount a) - Z.of_nat (fs_variantCount b)
  else if negb (fs_modelLength a =? fs_modelLength b)%nat then
    Z.of_nat (fs_modelLength a) - Z.of_nat (fs_modelLength b)
  else localeCompare im (fs_key a) (fs_key b).

(** [Array.prototype.sort], which is stable: an element goes before the
    first one it does not come after, and ties keep their order. *)
Fixpoint insert_sorted {A : Type} (cmp : A → A → Z) (x : A) (l : list A) : list A :=
  match l with
  | [] => [x]
  | y :: r => if cmp x y <=? 0 then x :: l else y :: insert_sorted cmp x r
  end.

Definition sort_by {A : Type} (cmp : A → A → Z) (l : list A) : list A :=
  foldr (insert_sorted cmp) [] l.

(** A string that is present and not empty. *)
Definition present (o : option string) : bool :=
  match o with Some s => negb (String.eqb s "") | None => false end.

(** [pickAliasForKey] and [buildSelection] *)
Definition pickAliasForKey (im : Imports) (aliasIndex : ModelAliasIndex)
  (provider model : string) : option string :=
  map_get (byKey aliasIndex) (modelKey im provider model) ≫= head.

Definition buildSelection (im : Imports) (aliasIndex : ModelAliasIndex)
  (defaultProvider defaultModel provider model : string) : ModelDirectiveSelection :=
  let alias := pickAliasForKey im aliasIndex provider model in
  MkSelection provider model
    (String.eqb provider defaultProvider && String.eqb model defaultModel)
    (if present alias then alias else None).

(** One turn of the loop over [allowedModelKeys]: the candidate the key
    contributes, if any. *)
Definition key_candidate (im : Imports) (provider_filter : option string)
  (fragment key : string) : option ModelRef :=
  match indexOf_slash key with
  | None | Some O => None
  | Some slash =>
      let provider := normalizeProviderId im (slice_to slash key) in
      let model := slice_from (S slash) key in
      if present provider_filter
         && negb (String.eqb provider
                    (normalizeProviderId im (default "" provider_filter)))
      then None
      else
        let haystack := toLowerCase (provider +:+ "/" +:+ model) in
        if includes haystack fragment || includes (toLowerCase model) fragment
        then Some (MkModelRef provider model)
        else None
  end.

(** The second loop: an alias match joins the candidates when its model
    is allowed and not among them yet. *)
Definition add_alias_match (im : Imports) (allowedModelKeys : list string)
  (candidates : list ModelRef) (m : ModelRef) : list ModelRef :=
  let key := modelKey im (ref_provider m) (ref_model m) in
  if negb (set_has allowedModelKeys key) then candidates
  else if existsb (λ c, String.eqb (ref_provider c) (ref_provider m)
                        && String.eqb (ref_model c) (ref_model m)) candidates
  then candidates
  else candidates ++ [m].

Definition fuzzy_candidates (im : Imports) (aliasIndex : ModelAliasIndex)
  (allowedModelKeys : list string) (provider_filter : option string)
  (fragment : string) : list ModelRef :=
  let candidates := omap (key_candidate im provider_filter fragment) allowedModelKeys in
  if negb (present provider_filter) then
    let aliasMatches :=
      (λ kv, ae_ref kv.2)
        <$> List.filter (λ kv : string * AliasEntry, includes kv.1 fragment)
              (byAlias aliasIndex) in
    fold_left (add_alias_match im allowedModelKeys) aliasMatches candidates
  else candidates.

Definition resolveFuzzy (im : Imports) (defaultProvider defaultModel : string)
  (aliasIndex : ModelAliasIndex) (allowedModelKeys : list string)
  (provider_filter : option string) (fragment0 : string) : Resolution :=
  let fragment := toLowerCase (trim fragment0) in
  if String.eqb fragment "" then MkResolution None None
  else
    let build := buildSelection im aliasIndex defaultProvider defaultModel in
    match fuzzy_candidates im aliasIndex allowedModelKeys provider_filter fragment with
    | [] => MkResolution None None
    | [m] => MkResolution (Some (build (ref_provider m) (ref_model m))) None
    | candidates =>
        let scored :=
          sort_by (λ a b, compare_scored im a.2 b.2)
            ((λ candidate,
                (candidate,
                 scoreFuzzyMatch im (ref_provider candidate) (ref_model candidate)
                   fragment aliasIndex defaultProvider defaultModel))
               <$> candidates) in
        match scored with
        | (best, _) :: _ =>
            MkResolution (Some (build (ref_provider best) (ref_model best))) None
        | [] => MkResolution None None
        end
    end.

(** [fuzzy.selection || fuzzy.error] *)
Definition settled (r : Resolution) : bool :=
  bool_decide (is_Some (selection r)) || present (error r).

Definition resolveModelDirectiveSelection (im : Imports) (raw : string)
  (defaultProvider defaultModel : string) (aliasIndex : ModelAliasIndex)
  (allowedModelKeys : list string) : Resolution :=
  let rawTrimmed := trim raw in
  let rawLower := toLowerCase rawTrimmed in
  let fuzzy_of := resolveFuzzy im defaultProvider defaultModel aliasIndex allowedModelKeys in
  match resolveModelRefFromString im rawTrimmed defaultProvider aliasIndex with
  | None =>
      let fuzzy := fuzzy_of None rawTrimmed in
      if settled fuzzy then fuzzy
      else MkResolution None
             (Some ("Unrecognized model " +:+ quoted rawTrimmed
                    +:+ ". Use /model to list available models."))
  | Some resolved =>
      let ref := rr_ref resolved in
      let resolvedKey := modelKey im (ref_provider ref) (ref_model ref) in
      if (List.length allowedModelKeys =? 0)%nat || set_has allowedModelKeys resolvedKey then
        MkResolution
          (Some (MkSelection (ref_provider ref) (ref_model ref)
                   (String.eqb (ref_provider ref) defaultProvider
                    && String.eqb (ref_model ref) defaultModel)
                   (rr_alias resolved)))
          None
      else
        let scoped :=
          match indexOf_slash rawTrimmed with
          | Some slash =>
              if includes rawLower "/" then
                let provider := normalizeProviderId im (trim (slice_to slash rawTrimmed)) in
                let fragment := trim (slice_from (S slash) rawTrimmed) in
                Some (fuzzy_of (Some provider) fragment)
              else None
          | None => None
          end in
        match scoped with
        | Some fuzzy' =>
            if settled fuzzy' then fuzzy'
            else
              let fuzzy := fuzzy_of None rawTrimmed in
              if settled fuzzy then fuzzy
              else MkResolution None
                     (Some ("Model " +:+ quoted (ref_provider ref +:+ "/" +:+ ref_model ref)
                            +:+ " is not allowed. Use /model to list available models."))
        | None =>
            let fuzzy := fuzzy_of None rawTrimmed in
            if settled fuzzy then fuzzy
            else MkResolution None
                   (Some ("Model " +:+ quoted (ref_provider ref +:+ "/" +:+ ref_model ref)
                          +:+ " is not allowed. Use /model to list available models."))
        end
  end.

End ModelDirective.

(** ** A sample configuration for the resolution of model directives *)

Module ModelSamples.
Import ModelDirective.

(** Stand-ins for the imported functions, used to run the resolution on
    concrete input: keys are [provider/model], provider ids are lowered, a
    string without a slash names a model of the default provider, and
    keys are compared as lists of character codes. *)
Fixpoint compare_codes (a b : string) : Z :=
  match a, b with
  | EmptyString, EmptyString => 0
  | EmptyString, String _ _ => -1
  | String _ _, EmptyString => 1
  | String x a', String y b' =>
      if Ascii.eqb x y then compare_codes a' b'
      else Z.of_nat (nat_of_ascii x) - Z.of_nat (nat_of_ascii y)
  end.

Definition sample_imports : Imports :=
  MkImports
    (λ provider model, provider +:+ "/" +:+ model)
    (λ provider, toLowerCase (trim provider))
    (λ raw defaultProvider _,
       if String.eqb raw "" then None
       else match indexOf_slash raw with
            | Some slash =>
                Some (MkResolved
                        (MkModelRef (toLowerCase (trim (slice_to slash raw)))
                           (trim (slice_from (S slash) raw)))
                        None)
            | None => Some (MkResolved (MkModelRef defaultProvider raw) None)
            end)
    compare_codes.

Definition no_aliases : ModelAliasIndex := MkAliasIndex [] [].

Definition gpt5_models : list string := ["openai/gpt-5"; "openai/gpt-5-mini"].

End ModelSamples.

(** ** Text within ASCII *)

Module TextSpec.

(** Every character of [s] is an ASCII character.  On such a text the
    white space that [trim] removes, the line terminators that [.] of a
    regular expression refuses and the letters that a comparison without
    case identifies are those of the string helpers of this file. *)
Fixpoint ascii_only (s : string) : bool :=
  match s with
  | EmptyString => true
  | String c r => (nat_of_ascii c <? 128)%nat && ascii_only r
  end.

End TextSpec.

(** ** Persisting the usage of a finished run ([persistSessionUsageUpdate]) *)

Module SessionUsage.
Import SessionStore.

(** The parameters.  [usage] is a [NormalizedUsage] object; the values
    that the function tests for presence or truthiness are kept as
    values. *)
Record UsageParams := MkUsageParams {
  up_storePath : option string;
  up_sessionKey : option string;
  up_usage : option (gmap string jsval);
  up_modelUsed : jsval;
  up_providerUsed : jsval;
  up_contextTokensUsed : jsval;
  up_systemPromptReport : jsval;
  up_cliSessionId : jsval;
  up_logLabel : option string;
  up_compactionCount : jsval
}.

(** The functions imported from agents/usage.js and agents/cli-session.js,
    which are not among the sources.  [setCliSessionId] changes the record
    it is given in place; here it returns the changed record. *)
Record UsageImports := MkUsageImports {
  hasNonzeroUsage : option (gmap string jsval) → bool;
  deriveSessionTotalTokens : option (gmap string jsval) → jsval → jsval;
  setCliSessionId : gmap string jsval → jsval → jsval → gmap string jsval
}.

(** [(entry.compactionCount ?? 0) + params.compactionCount] for a stored
    count that is a number, as its type says, or absent.  For a stored
    value of another kind JavaScript concatenates or coerces; that case is
    outside the model, the result is written [JNull] here and nothing is
    stated about it. *)
Definition add_compactions (stored : jsval) (n : Z) : jsval :=
  match nullish stored (JNum 0) with
  | JNum c => JNum (c + n)
  | _ => JNull
  end.

(** The end of both update functions: the patch, extended with the CLI
    session ids when a CLI session id and a provider are known. *)
Definition with_cli_session (ui : UsageImports) (params : UsageParams)
  (entry patch : gmap string jsval) : gmap string jsval :=
  let cliProvider := nullish (up_providerUsed params) (prop entry "modelProvider") in
  if truthy (up_cliSessionId params) && truthy cliProvider then
    let nextEntry :=
      setCliSessionId ui (spread entry patch) cliProvider (up_cliSessionId params) in
    <["claudeCliSessionId" := prop nextEntry "claudeCliSessionId"]>
      (<["cliSessionIds" := prop nextEntry "cliSessionIds"]> patch)
  else patch.

(** The update function of the branch with usage. *)
Definition usage_update (ui : UsageImports) (params : UsageParams)
  (entry : gmap string jsval) : M (option (gmap string jsval)) :=
  let input := nullish (oprop (up_usage params) "input") (JNum 0) in
  let output := nullish (oprop (up_usage params) "output") (JNum 0) in
  let resolvedContextTokens :=
    nullish (up_contextTokensUsed params) (prop entry "contextTokens") in
  let* now := Date_now in
  let patch : gmap string jsval :=
    <["updatedAt" := JNum now]>
    (<["systemPromptReport" :=
         nullish (up_systemPromptReport params) (prop entry "systemPromptReport")]>
    (<["contextTokens" := resolvedContextTokens]>
    (<["model" := nullish (up_modelUsed params) (prop entry "model")]>
    (<["modelProvider" := nullish (up_providerUsed params) (prop entry "modelProvider")]>
    (<["totalTokens" :=
         nullish (deriveSessionTotalTokens ui (up_usage params) resolvedContextTokens)
           input]>
    (<["outputTokens" := output]>
    (<["inputTokens" := input]> ∅))))))) in
  let patch :=
    match up_compactionCount params with
    | JNum n =>
        if 0 <? n
        then <["compactionCount" := add_compactions (prop entry "compactionCount") n]> patch
        else patch
    | _ => patch
    end in
  ret (Some (with_cli_session ui params entry patch)).

(** The update function of the branch with a model or a context size
    only. *)
Definition model_update (ui : UsageImports) (params : UsageParams)
  (entry : gmap string jsval) : M (option (gmap string jsval)) :=
  let* now := Date_now in
  let patch : gmap string jsval :=
    <["updatedAt" := JNum now]>
    (<["systemPromptReport" :=
         nullish (up_systemPromptReport params) (prop entry "systemPromptReport")]>
    (<["contextTokens" :=
         nullish (up_contextTokensUsed params) (prop entry "contextTokens")]>
    (<["model" := nullish (up_modelUsed params) (prop entry "model")]>
    (<["modelProvider" := nullish (up_providerUsed params) (prop entry "modelProvider")]>
       ∅)))) in
  ret (Some (with_cli_session ui params entry patch)).

(** [String(err)] *)
Definition exn_text (e : exn) : string :=
  match e with
  | Error msg => "Error: " +:+ msg
  | SysError ENOENT => "Error: ENOENT"
  | SysError EEXIST => "Error: EEXIST"
  | SysError (EOTHER code) => "Error: " +:+ code
  end.

(** [logVerbose(...)]: the log is not part of the world. *)
Definition logVerbose (line : string) : M unit := ret tt.

Section WithMerge.
Variable mergeSessionEntry :
  option (gmap string jsval) → gmap string jsval → M (gmap string jsval).

Definition persistSessionUsageUpdate (fuel : nat) (ui : UsageImports)
  (params : UsageParams) : M unit :=
  match up_storePath params, up_sessionKey params with
  | Some storePath, Some sessionKey =>
      if String.eqb storePath "" || String.eqb sessionKey "" then ret tt
      else
        let label :=
          match up_logLabel params with
          | Some l => if String.eqb l "" then "" else l +:+ " "
          | None => ""
          end in
        if hasNonzeroUsage ui (up_usage params) then
          try_catch
            (let* _ := updateSessionStoreEntry mergeSessionEntry fuel storePath sessionKey
                         (usage_update ui params) in
             ret tt)
            (λ err, logVerbose ("failed to persist " +:+ label +:+ "usage update: "
                                +:+ exn_text err))
        else if truthy (up_modelUsed params) || truthy (up_contextTokensUsed params) then
          try_catch
            (let* _ := updateSessionStoreEntry mergeSessionEntry fuel storePath sessionKey
                         (model_update ui params) in
             ret tt)
            (λ err, logVerbose ("failed to persist " +:+ label
                                +:+ "model/context update: " +:+ exn_text err))
        else ret tt
  | _, _ => ret tt
  end.

End WithMerge.

End SessionUsage.

(** ** Vocabulary for the properties of the usage update *)

Module SessionUsageSpec.

(** [Number.MAX_SAFE_INTEGER]: up to it a double holds every integer
    exactly. *)
Definition MAX_SAFE_INTEGER : Z := 9007199254740991.

End SessionUsageSpec.

(** ** Concrete runs used to exercise the usage update *)

Module UsageSamples.
Import SessionStore StoreSamples SessionUsage.

(** Stand-ins for the imported functions: usage is nonzero when it
    reports input or output tokens, the total is input plus output, and
    the CLI session id is stored under [claudeCliSessionId]. *)
Definition sample_usage_imports : UsageImports :=
  MkUsageImports
    (λ usage, truthy (oprop usage "input") || truthy (oprop usage "output"))
    (λ usage _,
       match oprop usage "input", oprop usage "output" with
       | JNum i, JNum o => JNum (i + o)
       | _, _ => JUndef
       end)
    (λ entry _ id, <["claudeCliSessionId" := id]> entry).

(** A run that used 1200 input and 300 output tokens and compacted the
    transcript twice. *)
Definition run_params : UsageParams :=
  MkUsageParams (Some sample_path) (Some "agent:main:main")
    (Some (<["input" := JNum 1200]> (<["output" := JNum 300]> ∅)))
    (JStr "claude-opus-4-5") (JStr "anthropic") (JNum 200000) JUndef JUndef
    (Some "reply") (JNum 2).

(** The main record after three earlier compactions. *)
Definition compacted_record : gmap string jsval :=
  <["compactionCount" := JNum 3]> main_record.

Definition compacted_world : World :=
  world_with
    (<[sample_path := File (Document (<["agent:main:main" := compacted_record]> ∅)) 900]> ∅)
    ∅ ∅ 5000.

(** A merge that throws. *)
Definition failing_merge (existing : option (gmap string jsval))
  (patch : gmap string jsval) : M (gmap string jsval) :=
  throw (Error "merge failed").

End UsageSamples.

(** ** Thread sessions: the parent key and the messages taken over
    ([auto-reply/reply/session.ts]) *)

Module SessionThread.

(** The text before and after the last [":"] of [s]. *)
Fixpoint split_last_colon (s : string) : option (string * string) :=
  match s with
  | EmptyString => None
  | String c r =>
      match split_last_colon r with
      | Some (before, after) => Some (String c before, after)
      | None => if Ascii.eqb c ":" then Some (EmptyString, r) else None
      end
  end.

(** [s] without its ending [suffix], compared without regard to case
    ([suffix] is in lower case). *)
Definition strip_suffix_ci (s suffix : string) : option string :=
  let n := (String.length s - String.length suffix)%nat in
  if (String.length suffix <=? String.length s)%nat
     && String.eqb (toLowerCase (slice_from n s)) suffix
  then Some (slice_to n s) else None.

(** The characters that [.] does not match. *)
Definition is_line_terminator (c : ascii) : bool :=
  match nat_of_ascii c with
  | 10%nat | 13%nat => true
  | _ => false
  end.

Fixpoint no_line_terminator (s : string) : bool :=
  match s with
  | EmptyString => true
  | String c r => negb (is_line_terminator c) && no_line_terminator r
  end.

(** The first group of a match of [THREAD_SESSION_SUFFIX_REGEX]: from the
    start a group of any characters on one line, then a colon, [thread]
    or [topic] in any case, a colon, and one or more characters other
    than a colon up to the end.  The last segment has no colon, so it
    starts after the last colon of the text, and the match is unique. *)
Definition THREAD_SESSION_SUFFIX_REGEX_exec (s : string) : option string :=
  match split_last_colon s with
  | Some (rest, last) =>
      if String.eqb last "" then None
      else
        match strip_suffix_ci rest ":thread", strip_suffix_ci rest ":topic" with
        | Some group, _ | None, Some group =>
            if no_line_terminator group then Some group else None
        | None, None => None
        end
  | None => None
  end.

Definition inferParentSessionKey (sessionKey : option string) : option string :=
  match sessionKey with
  | Some key =>
      let trimmed := trim key in
      if String.eqb trimmed "" then None
      else
        match THREAD_SESSION_SUFFIX_REGEX_exec trimmed with
        | Some group =>
            let parentKey := trim group in
            if String.eqb parentKey "" then None else Some parentKey
        | None => None
        end
  | None => None
  end.

(** A content block of a message: an object with its [type] property and
    the rest of it, or a value that is not an object. *)
Inductive block : Type :=
| Block (type : jsval) (rest : string)
| BlockValue (v : jsval).

(** [message.content]: an array of blocks or anything else. *)
Inductive message_content : Type :=
| ContentBlocks (blocks : list block)
| ContentValue (v : jsval).

(** An element of the message list: an object with its [role] and
    [content] and the rest of it, or a value that is not an object. *)
Inductive agent_message : Type :=
| Message (role : jsval) (content : message_content) (rest : string)
| MessageValue (v : jsval).

#[global] Instance block_eq_dec : EqDecision block.
Proof. solve_decision. Defined.
#[global] Instance message_content_eq_dec : EqDecision message_content.
Proof. solve_decision. Defined.
#[global] Instance agent_message_eq_dec : EqDecision agent_message.
Proof. solve_decision. Defined.

Definition role_is (role : jsval) (name : string) : bool :=
  bool_decide (role = JStr name).

Definition isPiMessage (value : agent_message) : bool :=
  match value with
  | Message role _ _ =>
      role_is role "user" || role_is role "assistant" || role_is role "toolResult"
  | MessageValue _ => false
  end.

(** The predicate of the filter in [stripAssistantToolCalls]. *)
Definition keeps_block (b : block) : bool :=
  match b with
  | Block type _ =>
      negb (bool_decide (type = JStr "toolCall"))
      && negb (bool_decide (type = JStr "toolUse"))
      && negb (bool_decide (type = JStr "functionCall"))
  | BlockValue _ => true
  end.

(** [stripAssistantToolCalls(message)], for the role, the content and the
    rest of an assistant message; [None] is [null]. *)
Definition stripAssistantToolCalls (role : jsval) (content : message_content)
  (rest : string) : option agent_message :=
  match content with
  | ContentValue _ => Some (Message role content rest)
  | ContentBlocks blocks =>
      let nextContent := List.filter keeps_block blocks in
      if (List.length nextContent =? 0)%nat then None
      else if (List.length nextContent =? List.length blocks)%nat
      then Some (Message role content rest)
      else Some (Message role (ContentBlocks nextContent) rest)
  end.

(** The loop of [filterParentMessages] when tool results are left out. *)
Fixpoint filter_messages (messages : list agent_message) : list agent_message :=
  match messages with
  | [] => []
  | message :: more =>
      match message with
      | MessageValue _ => filter_messages more
      | Message role content rest =>
          if role_is role "toolResult" then filter_messages more
          else if role_is role "assistant" then
            match stripAssistantToolCalls role content rest with
            | Some stripped => stripped :: filter_messages more
            | None => filter_messages more
            end
          else if role_is role "user" then message :: filter_messages more
          else filter_messages more
      end
  end.

Definition filterParentMessages (messages : list agent_message)
  (includeToolResults : bool) : list agent_message :=
  if includeToolResults then messages else filter_messages messages.

(** ** Sample thread *)

(** A user turn, an assistant turn that calls a tool, the result of the
    tool, and the assistant's answer. *)
Definition sample_thread : list agent_message :=
  [ Message (JStr "user") (ContentValue (JStr "what changed?")) "";
    Message (JStr "assistant")
      (ContentBlocks [Block (JStr "text") "Let me look."; Block (JStr "toolCall") "git log"])
      "";
    Message (JStr "toolResult") (ContentValue (JStr "3 commits")) "";
    Message (JStr "assistant") (ContentBlocks [Block (JStr "toolCall") "git show"]) "";
    Message (JStr "assistant") (ContentBlocks [Block (JStr "text") "Three commits."]) "" ].

End SessionThread.

(** ** Vocabulary for the properties of thread sessions *)

Module SessionThreadSpec.
Import SessionThread.

(** [s] has no colon. *)
Fixpoint no_colon (s : string) : bool :=
  match s with
  | EmptyString => true
  | String c r => negb (Ascii.eqb c ":") && no_colon r
  end.

(** What may be handed to a thread that inherits its parent without tool
    results: a user message, or an assistant message whose content, when
    it is an array, is not empty and has no tool-call block. *)
Definition without_tool_traffic (m : agent_message) : bool :=
  match m with
  | Message role content _ =>
      role_is role "user"
      || (role_is role "assistant"
          && match content with
             | ContentBlocks blocks =>
                 negb (List.length blocks =? 0)%nat && forallb keeps_block blocks
             | ContentValue _ => true
             end)
  | MessageValue _ => false
  end.

Definition is_user (m : agent_message) : bool :=
  match m with
  | Message role _ _ => role_is role "user"
  | MessageValue _ => false
  end.

End SessionThreadSpec.

(** ** Vocabulary for the properties of session initialisation *)

Module SessionInitSpec.

(** The properties that [initSessionState] computes anew on a turn that
    continues a session; every other property of the record is taken
    over. *)
Definition recomputed_on_reuse : list string :=
  ["sessionId"; "updatedAt"; "systemSent"; "abortedLastRun"; "deliveryContext";
   "lastChannel"; "lastTo"; "lastAccountId"; "lastThreadId"; "chatType";
   "displayName"; "sessionFile"].

End SessionInitSpec.

(** ** More turns for session initialisation *)

Module InitSamplesMore.
Import SessionStore StoreSamples InitSamples.

(** "hello there" on the main session, from an authorized sender. *)
Definition hello_turn : SessionInit.Turn :=
  SessionInit.MkTurn sample_path "agent:main:main" ["/new"; "/reset"]
    true false "hello there" (λ s, s) (λ s, s) None None
    (SessionInit.evaluateSessionFreshness 3600000)
    (Some "slack") None (Some "U42") None None None
    (λ _ _ _ _, ∅) (λ _, None) (λ _, None) (λ _ _, None) transcript_path.

(** "/new" from a sender who is not authorized. *)
Definition unauthorized_reset_turn : SessionInit.Turn :=
  SessionInit.MkTurn sample_path "agent:main:main" ["/new"; "/reset"]
    false false "/new" (λ s, s) (λ s, s) None None
    (SessionInit.evaluateSessionFreshness 3600000)
    (Some "slack") None (Some "U42") None None None
    (λ _ _ _ _, ∅) (λ _, None) (λ _, None) (λ _ _, None) transcript_path.

End InitSamplesMore.

(** ** Vocabulary for the properties of the sessions bridge *)

Module SessionsBridgeSpec.

(** The properties that [sessions.reset] takes over from the record it
    replaces. *)
Definition kept_by_reset : list string :=
  ["thinkingLevel"; "verboseLevel"; "reasoningLevel"; "model"; "contextTokens";
   "sendPolicy"; "label"; "displayName"; "chatType"; "channel"; "subject"; "room";
   "space"; "lastChannel"; "lastTo"; "skillsSnapshot"].

(** The properties it sets itself. *)
Definition set_by_reset : list string :=
  ["sessionId"; "updatedAt"; "systemSent"; "abortedLastRun"].

End SessionsBridgeSpec.

(** ** Gateway session keys and store targets *)

Module GatewayTarget.
Import SessionsBridge.

(** What the key helpers find around them.  The configuration is fixed;
    the parser of agent keys, the normalisers, the main-key helpers and
    the store-path resolver are not among the sources. *)
Record KeyImports := MkKeyImports {
  (** [parseAgentSessionKey(key)]: [{ agentId, rest }] or [null]. *)
  parseAgentSessionKey : string → option (string * string);
  normalizeAgentId : string → string;
  (** [canonicalizeMainSessionAlias({ cfg, agentId, sessionKey })] *)
  canonicalizeMainSessionAlias : string → string → string;
  (** [normalizeMainKey(cfg.session?.mainKey)] *)
  normalizedMainKey : string;
  (** [resolveMainSessionKey(cfg)] *)
  resolveMainSessionKey : string;
  (** [resolveDefaultAgentId(cfg)] *)
  resolveDefaultAgentId : string;
  (** [resolveStorePath(cfg.session?.store, { agentId })] *)
  resolveStorePath : string → string
}.

Definition is_global_or_unknown (key : string) : bool :=
  String.eqb key "global" || String.eqb key "unknown".

Section WithImports.
Variable im : KeyImports.

Definition canonicalizeSessionKeyForAgent (agentId key : string) : string :=
  if is_global_or_unknown key then key
  else if startsWith key "agent:" then key
  else "agent:" +:+ normalizeAgentId im agentId +:+ ":" +:+ key.

Definition resolveDefaultStoreAgentId : string :=
  normalizeAgentId im (resolveDefaultAgentId im).

Definition resolveSessionStoreKey (sessionKey : string) : string :=
  let raw := trim sessionKey in
  if String.eqb raw "" then raw
  else if is_global_or_unknown raw then raw
  else
    match parseAgentSessionKey im raw with
    | Some (parsedAgentId, _) =>
        let agentId := normalizeAgentId im parsedAgentId in
        let canonical := canonicalizeMainSessionAlias im agentId raw in
        if negb (String.eqb canonical raw) then canonical else raw
    | None =>
        let rawMainKey := normalizedMainKey im in
        if String.eqb raw "main" || String.eqb raw rawMainKey
        then resolveMainSessionKey im
        else canonicalizeSessionKeyForAgent resolveDefaultStoreAgentId raw
    end.

Definition resolveSessionStoreAgentId (canonicalKey : string) : string :=
  if is_global_or_unknown canonicalKey then resolveDefaultStoreAgentId
  else
    match parseAgentSessionKey im canonicalKey with
    | Some (parsedAgentId, _) =>
        if negb (String.eqb parsedAgentId "") then normalizeAgentId im parsedAgentId
        else resolveDefaultStoreAgentId
    | None => resolveDefaultStoreAgentId
    end.

(** [set.add(k)] on a [Set] kept in insertion order. *)
Definition set_add (k : string) (keys : list string) : list string :=
  if bool_decide (k ∈ keys) then keys else keys ++ [k].

(** [resolveGatewaySessionStoreTarget({ cfg, key })]; the agent id is used
    for the store path. *)
Definition resolveGatewaySessionStoreTarget (key0 : string) : Target :=
  let key := trim key0 in
  let canonicalKey := resolveSessionStoreKey key in
  let agentId := resolveSessionStoreAgentId canonicalKey in
  let storePath := resolveStorePath im agentId in
  if is_global_or_unknown canonicalKey then
    let storeKeys :=
      if negb (String.eqb key "") && negb (String.eqb key canonicalKey)
      then [canonicalKey; key] else [key] in
    MkTarget storePath canonicalKey storeKeys
  else
    let parsed := parseAgentSessionKey im canonicalKey in
    let storeKeys0 := set_add canonicalKey [] in
    let storeKeys1 :=
      match parsed with
      | Some (_, rest) =>
          if negb (String.eqb rest "") then set_add rest storeKeys0 else storeKeys0
      | None => storeKeys0
      end in
    let storeKeys2 :=
      if negb (String.eqb key "") && negb (String.eqb key canonicalKey)
      then set_add key storeKeys1 else storeKeys1 in
    MkTarget storePath canonicalKey storeKeys2.

End WithImports.

(** Agent keys of the form [agent:<id>:<rest>], for the examples. *)
Fixpoint index_of_colon (s : string) : option nat :=
  match s with
  | EmptyString => None
  | String c r => if Ascii.eqb c ":" then Some O else S <$> index_of_colon r
  end.

Definition sample_parse (key : string) : option (string * string) :=
  if startsWith key "agent:" then
    let tail := slice_from 6 key in
    match index_of_colon tail with
    | Some i => Some (slice_to i tail, slice_from (S i) tail)
    | None => None
    end
  else None.

Definition sample_key_imports : KeyImports :=
  MkKeyImports sample_parse toLowerCase (λ _ key, key) "main" "agent:main:main" "main"
    (λ agentId, "/state/agents/" +:+ agentId +:+ "/sessions/sessions.json").

End GatewayTarget.

(** ** The model a turn runs on ([createModelSelectionState]) *)

Module ModelSelectionState.
Import SessionStore ModelDirective.

(** [v?.trim()]: nothing for [undefined] and [null], the trimmed text for a
    string; any other value has no [trim] method and the call throws. *)
Definition optional_trim (v : jsval) : M (option string) :=
  match v with
  | JUndef | JNull => ret None
  | JStr s => ret (Some (trim s))
  | _ => throw (Error "TypeError: trim is not a function")
  end.

(** [o] used as a condition, for an optional string. *)
Definition nonblank (o : option string) : bool :=
  match o with Some s => negb (String.eqb s "") | None => false end.

(** [o || d] *)
Definition or_else (o : option string) (d : string) : string :=
  match o with Some s => if String.eqb s "" then d else s | None => d end.

Section WithCatalog.
(** An entry of the model catalog; its fields are not looked at here. *)
Variable ModelCatalogEntry : Type.

(** What the function finds around it: the catalog loader and the
    allow-list builder of the agents module, and the auth-profile store,
    which are not among the sources. *)
Record StateImports := MkStateImports {
  (** [await loadModelCatalog({ config: cfg })] *)
  loadModelCatalog : list ModelCatalogEntry;
  (** [buildAllowedModelSet({ cfg, catalog, defaultProvider, defaultModel })]:
      [allowedCatalog] and [allowedKeys]. *)
  buildAllowedModelSet :
    list ModelCatalogEntry → string → string → list ModelCatalogEntry * list string;
  (** [store.profiles[id]?.provider] of the auth-profile store. *)
  profile_provider : jsval → option string
}.

Record Params := MkParams {
  (** [agentCfg?.models && Object.keys(agentCfg.models).length > 0] *)
  p_hasAllowlist : bool;
  p_sessionEntry : option (gmap string jsval);
  p_sessionStore : option (gmap string (gmap string jsval));
  p_sessionKey : option string;
  p_storePath : option string;
  p_defaultProvider : string;
  p_defaultModel : string;
  p_provider : string;
  p_model : string;
  p_hasModelDirective : bool
}.

(** [ModelSelectionState], without the closure that resolves the default
    thinking level. *)
Record ModelSelectionState := MkState {
  st_provider : string;
  st_model : string;
  st_allowedModelKeys : list string;
  st_allowedModelCatalog : list ModelCatalogEntry;
  st_resetModelOverride : bool;
  st_needsModelCatalog : bool
}.

(** The function changes the record and the store it was handed; the
    caller sees both afterwards. *)
Record Outcome := MkOutcome {
  o_state : ModelSelectionState;
  o_sessionEntry : option (gmap string jsval);
  o_sessionStore : option (gmap string (gmap string jsval))
}.

Variable im : Imports.
Variable si : StateImports.

(** [if (storePath) await updateSessionStore(storePath, (store) => {
    store[sessionKey] = sessionEntry; })] *)
Definition persist_entry (fuel : nat) (storePath : option string) (sessionKey : string)
  (sessionEntry : gmap string jsval) : M unit :=
  if nonblank storePath then
    updateSessionStore fuel (default "" storePath)
      (λ store, ret (tt, <[sessionKey := sessionEntry]> store))
  else ret tt.

(** [sessionEntry && sessionStore && sessionKey] *)
Definition shared_record (ps : Params)
  (sessionEntry : option (gmap string jsval))
  (sessionStore : option (gmap string (gmap string jsval)))
  : option (gmap string jsval * gmap string (gmap string jsval) * string) :=
  match sessionEntry, sessionStore, p_sessionKey ps with
  | Some e, Some s, Some k => if String.eqb k "" then None else Some (e, s, k)
  | _, _, _ => None
  end.

(** The stored override, when there is one and the allow-list has it;
    the provider and model handed in otherwise. *)
Definition stored_choice (ps : Params) (allowedModelKeys : list string)
  (storedProviderOverride storedModelOverride : option string) : string * string :=
  if nonblank storedModelOverride then
    let candidateProvider := or_else storedProviderOverride (p_defaultProvider ps) in
    let key := modelKey im candidateProvider (default "" storedModelOverride) in
    if bool_decide (allowedModelKeys = []) || set_has allowedModelKeys key
    then (candidateProvider, default "" storedModelOverride)
    else (p_provider ps, p_model ps)
  else (p_provider ps, p_model ps).

Definition createModelSelectionState (fuel : nat) (ps : Params) : M Outcome :=
  let sessionEntry := p_sessionEntry ps in
  let sessionStore := p_sessionStore ps in
  let storePath := p_storePath ps in
  let defaultProvider := p_defaultProvider ps in
  let defaultModel := p_defaultModel ps in
  let hasStoredOverride :=
    truthy (oprop sessionEntry "modelOverride")
    || truthy (oprop sessionEntry "providerOverride") in
  let needsModelCatalog :=
    p_hasModelDirective ps || p_hasAllowlist ps || hasStoredOverride in
  let allowed :=
    if needsModelCatalog
    then buildAllowedModelSet si (loadModelCatalog si) defaultProvider defaultModel
    else ([], []) in
  let allowedModelCatalog := allowed.1 in
  let allowedModelKeys := allowed.2 in
  let* '(sessionEntry1, sessionStore1, resetModelOverride) :=
    match shared_record ps sessionEntry sessionStore with
    | Some (e, s, sessionKey) =>
        if hasStoredOverride then
          let* providerOverride := optional_trim (prop e "providerOverride") in
          let overrideProvider := or_else providerOverride defaultProvider in
          let* overrideModel := optional_trim (prop e "modelOverride") in
          if nonblank overrideModel then
            let key := modelKey im overrideProvider (default "" overrideModel) in
            if negb (bool_decide (allowedModelKeys = []))
               && negb (set_has allowedModelKeys key)
            then
              let* now := Date_now in
              let e' :=
                <["updatedAt" := JNum now]>
                  (delete "modelOverride" (delete "providerOverride" e)) in
              let* _ := persist_entry fuel storePath sessionKey e' in
              ret (Some e', Some (<[sessionKey := e']> s), true)
            else ret (sessionEntry, sessionStore, false)
          else ret (sessionEntry, sessionStore, false)
        else ret (sessionEntry, sessionStore, false)
    | None => ret (sessionEntry, sessionStore, false)
    end in
  let* storedProviderOverride := optional_trim (oprop sessionEntry1 "providerOverride") in
  let* storedModelOverride := optional_trim (oprop sessionEntry1 "modelOverride") in
  let choice :=
    stored_choice ps allowedModelKeys storedProviderOverride storedModelOverride in
  let provider := choice.1 in
  let model := choice.2 in
  let* '(sessionEntry2, sessionStore2) :=
    match shared_record ps sessionEntry1 sessionStore1 with
    | Some (e, s, sessionKey) =>
        if truthy (prop e "authProfileOverride") then
          let profile := profile_provider si (prop e "authProfileOverride") in
          if match profile with
             | Some profileProvider => negb (String.eqb profileProvider provider)
             | None => true
             end
          then
            let* now := Date_now in
            let e' := <["updatedAt" := JNum now]> (delete "authProfileOverride" e) in
            let* _ := persist_entry fuel storePath sessionKey e' in
            ret (Some e', Some (<[sessionKey := e']> s))
          else ret (sessionEntry1, sessionStore1)
        else ret (sessionEntry1, sessionStore1)
    | None => ret (sessionEntry1, sessionStore1)
    end in
  ret (MkOutcome
         (MkState provider model allowedModelKeys allowedModelCatalog
            resetModelOverride needsModelCatalog)
         sessionEntry2 sessionStore2).

End WithCatalog.

Arguments MkStateImports {_} _ _ _.
Arguments loadModelCatalog {_} _.
Arguments buildAllowedModelSet {_} _ _ _ _.
Arguments profile_provider {_} _ _.
Arguments MkState {_} _ _ _ _ _ _.
Arguments st_provider {_} _.
Arguments st_model {_} _.
Arguments st_allowedModelKeys {_} _.
Arguments st_allowedModelCatalog {_} _.
Arguments st_resetModelOverride {_} _.
Arguments st_needsModelCatalog {_} _.
Arguments MkOutcome {_} _ _ _.
Arguments o_state {_} _.
Arguments o_sessionEntry {_} _.
Arguments o_sessionStore {_} _.
Arguments createModelSelectionState {_} _ _ _ _.

End ModelSelectionState.

(** ** Concrete turns used to exercise the model selection state *)

Module SelectionSamples.
Import SessionStore StoreSamples InitSamples ModelDirective ModelSamples ModelSelectionState.

(** An allow-list with the two GPT-5 models, and one that also has the
    model of [override_record]; no auth profiles. *)
Definition gpt5_only : StateImports unit :=
  MkStateImports [] (λ _ _ _, ([], gpt5_models)) (λ _, None).

Definition with_foo_bar : StateImports unit :=
  MkStateImports [] (λ _ _ _, ([], "foo/foo/bar" :: gpt5_models)) (λ _, None).

(** A turn on the main session, whose record carries the override
    [foo] / [foo/bar]. *)
Definition override_params : Params :=
  MkParams true (Some override_record)
    (Some (<["agent:main:main" := override_record]> ∅))
    (Some "agent:main:main") (Some sample_path)
    "anthropic" "claude-opus-4-5" "anthropic" "claude-opus-4-5" false.

End SelectionSamples.

(** ** Vocabulary for the properties of the thinking directives *)

Module ThinkingSpec.
Import Thinking.

(** The sentence that acknowledges a thinking level. *)
Definition think_sentence (lvl : string) : string :=
  if String.eqb lvl "off" then "Thinking disabled."
  else "Thinking level set to " +:+ lvl +:+ ".".

(** What the record stores for a thinking level: nothing for [off]. *)
Definition stored_level (lvl : string) : option jsval :=
  if String.eqb lvl "off" then None else Some (JStr lvl).

End ThinkingSpec.

(** ** More turns for the thinking directives *)

Module ThinkingSamplesMore.
Import SessionStore SessionStoreSpec StoreSamples Thinking ThinkingSamples.

(** The user wrote [/think off]. *)
Definition think_off_directive : InlineDirectives :=
  MkDirectives true (Some "off") (Some "off") false None None false None None
    false None None false false false None None None None false.

(** The message [/think xhigh hello] on a model that has the highest tier. *)
Definition openai_xhigh_turn : PreparedReply :=
  MkPrepared think_xhigh_directive (Some "xhigh") "openai" "gpt-5.2" "off"
    false "hello" "hello"
    (Some main_record) (Some sample_store) "agent:main:main" (Some sample_path).

End ThinkingSamplesMore.

(** ** More states for the store lock *)

Module LockSamples.
Import SessionStore SessionStoreSpec StoreSamples.

(** The clock reads 5 000 ms; a marker was left [age] ms ago by a holder
    that does not remove it. *)
Definition marker_world (age : Z) : World :=
  world_with (<[sample_path := File (Document sample_store) 900]> ∅)
    (<[lock_path sample_path := 5000 - age]> ∅) ∅ 5000.

End LockSamples.

(** ** The bridge methods behind the gateway's key helpers *)

Module GatewayBridge.
Import SessionStore SessionsBridge GatewayTarget.

(** What a bridge call finds around it when the store target is the one
    of [resolveGatewaySessionStoreTarget] and the legacy key of
    [loadSessionEntry] the one it computes from the parsed keys
    ([parsed?.rest ?? parseAgentSessionKey(sessionKey)?.rest]).  [mainKey]
    is what [resolveMainSessionKeyFromConfig()] returns. *)
Definition gateway_call (im : KeyImports) (mainKey : string)
  (valid : bool) (validationErrors : string)
  (key : option string) (deleteTranscript : option bool)
  (runActive runEnded : jsval → bool) (archive : jsval → jsval → list string) : Call :=
  let sessionKey := trim (default "" key) in
  MkCall valid validationErrors key deleteTranscript mainKey
    (resolveGatewaySessionStoreTarget im)
    (match parseAgentSessionKey im (resolveSessionStoreKey im sessionKey) with
     | Some (_, rest) => Some rest
     | None =>
         match parseAgentSessionKey im sessionKey with
         | Some (_, rest) => Some rest
         | None => None
         end
     end)
    runActive runEnded archive.

(** The key helpers of the examples, with every store at [sample_path]. *)
Definition bridge_key_imports : KeyImports :=
  MkKeyImports sample_parse toLowerCase (λ _ key, key) "main" "agent:main:main" "main"
    (λ _, StoreSamples.sample_path).

(** [sessions.delete] with the given key while no run is active. *)
Definition gateway_delete (key : string) : Call :=
  gateway_call bridge_key_imports "agent:main:main" true "" (Some key) None
    (λ _, false) (λ _, true) (λ _ _, []).

End GatewayBridge.

(** ** The agent command ([agentCommand] of commands/agent.ts) *)

Module AgentCommand.
Import SessionStore ModelDirective.

(** [o] used as a condition, for an optional string. *)
Definition nonblank (o : option string) : bool :=
  match o with Some s => negb (String.eqb s "") | None => false end.

(** [x ?? y] for optional strings. *)
Definition coalesce (x y : option string) : option string :=
  match x with Some _ => x | None => y end.

(** [x || d] for an optional string. *)
Definition or_default (x : option string) (d : string) : string :=
  match x with Some s => if String.eqb s "" then d else s | None => d end.

(** [v?.trim()]: nothing for [undefined] and [null], the trimmed text for a
    string; any other value has no [trim] method and the call throws. *)
Definition optional_trim (v : jsval) : M (option string) :=
  match v with
  | JUndef | JNull => ret None
  | JStr s => ret (Some (trim s))
  | _ => throw (Error "TypeError: trim is not a function")
  end.

Definition is_digit (c : ascii) : bool :=
  let n := nat_of_ascii c in (48 <=? n)%nat && (n <=? 57)%nat.

Fixpoint digits_value (acc : Z) (s : string) : Z :=
  match s with
  | String c r =>
      if is_digit c then digits_value (10 * acc + (Z.of_nat (nat_of_ascii c) - 48)) r
      else acc
  | EmptyString => acc
  end.

(** [Number.parseInt(s, 10)]: leading white space, a sign, then the
    decimal digits up to the first other character; [None] is [NaN]. *)
Definition parseInt10 (s : string) : option Z :=
  let unsigned (r : string) : option Z :=
    match r with
    | String c _ => if is_digit c then Some (digits_value 0 r) else None
    | EmptyString => None
    end in
  match trimStart s with
  | String "-" r => Z.opp <$> unsigned r
  | String "+" r => unsigned r
  | r => unsigned r
  end.

(** The options of the call that are read before the run starts. *)
Record AgentCommandOpts := MkOpts {
  message : option string;
  to : option string;
  sessionId : option string;
  sessionKey : option string;
  thinking : option string;
  thinkingOnce : option string;
  verbose : option string;
  (** [String(opts.timeout)] when [opts.timeout !== undefined] *)
  timeout : option string;
  deliver : option bool
}.

(** What [resolveSession] (./agent/session.js, not among the sources)
    answers. *)
Record SessionResolution := MkSessionResolution {
  sr_sessionId : string;
  sr_sessionKey : option string;
  sr_sessionEntry : option (gmap string jsval);
  sr_sessionStore : option (gmap string (gmap string jsval));
  sr_storePath : string;
  sr_isNewSession : bool;
  sr_persistedThinking : option string;
  sr_persistedVerbose : option string
}.

Section WithCatalog.
(** An entry of the model catalog; its fields are not looked at here. *)
Variable ModelCatalogEntry : Type.

(** The configuration as the function reads it, and the helpers it
    imports from modules that are not among the sources.  They are taken
    to return, and to leave the session store file and its lock marker
    alone. *)
Record AgentImports := MkAgentImports {
  (** [cfg.agents?.defaults?.thinkingDefault] and [verboseDefault] *)
  thinkingDefault : option string;
  verboseDefault : option string;
  (** [agentCfg?.models && Object.keys(agentCfg.models).length > 0] *)
  hasAllowlist : bool;
  (** [resolveConfiguredModelRef] on the configuration as loaded *)
  configuredModel : string * string;
  (** [resolveConfiguredModelRef] on [cfgForModelSelection] *)
  resolveConfiguredModelRef : string * string;
  normalizeThinkLevel : option string → option string;
  normalizeVerboseLevel : option string → option string;
  formatThinkingLevels : string → string → string;
  formatXHighModelHint : string;
  supportsXHighThinking : string → string → bool;
  resolveSession : AgentCommandOpts → SessionResolution;
  (** [resolveSendPolicy] for the record and key of the session *)
  resolveSendPolicy : option (gmap string jsval) → option string → string;
  (** [buildWorkspaceSkillSnapshot(workspaceDir, { config: cfg })] *)
  buildWorkspaceSkillSnapshot : jsval;
  applyVerboseOverride : gmap string jsval → option string → gmap string jsval;
  (** [await loadModelCatalog({ config: cfg })] *)
  loadModelCatalog : list ModelCatalogEntry;
  (** [buildAllowedModelSet]: [allowedCatalog] and [allowedKeys] *)
  buildAllowedModelSet :
    list ModelCatalogEntry → string → string → list ModelCatalogEntry * list string;
  isCliProvider : string → bool;
  modelKey : string → string → string;
  (** [ensureAuthProfileStore().profiles[id]?.provider] *)
  profile_provider : jsval → option string;
  resolveThinkingDefault : string → string → list ModelCatalogEntry → option string
}.

(** What the function hands to the agent runtime ([runWithModelFallback])
    once the levels and the model are settled, with the record and the
    store as it has changed them. *)
Record AgentRun := MkAgentRun {
  run_body : string;
  run_provider : string;
  run_model : string;
  run_thinkLevel : option string;
  run_verboseLevel : option string;
  run_sessionEntry : option (gmap string jsval);
  run_sessionStore : option (gmap string (gmap string jsval))
}.

Variable im : AgentImports.

(** [await updateSessionStore(storePath, (store) => {
    store[sessionKey] = entry; })] *)
Definition put_entry (fuel : nat) (storePath sessionKey : string)
  (entry : gmap string jsval) : M unit :=
  updateSessionStore fuel storePath
    (λ store, ret (tt, <[sessionKey := entry]> store)).

(** [entry ?? { sessionId, updatedAt: Date.now() }] *)
Definition entry_or_fresh (entry : option (gmap string jsval)) (sessionId : string)
  : M (gmap string jsval) :=
  match entry with
  | Some e => ret e
  | None =>
      let* now := Date_now in
      ret (<["updatedAt" := JNum now]> (<["sessionId" := JStr sessionId]> ∅))
  end.

(** The checks on the options, before the session is resolved. *)
Definition check_opts (opts : AgentCommandOpts) : M (option string * option string * option string) :=
  let body := trim (default "" (message opts)) in
  if String.eqb body "" then throw (Error "Message (--message) is required")
  else if negb (nonblank (to opts)) && negb (nonblank (sessionId opts))
          && negb (nonblank (sessionKey opts))
  then throw (Error "Pass --to <E.164> or --session-id to choose a session")
  else
    let thinkingLevelsHint :=
      formatThinkingLevels im (configuredModel im).1 (configuredModel im).2 in
    let thinkOverride := normalizeThinkLevel im (thinking opts) in
    let thinkOnce := normalizeThinkLevel im (thinkingOnce opts) in
    if nonblank (thinking opts) && negb (nonblank thinkOverride)
    then throw (Error ("Invalid thinking level. Use one of: " +:+ thinkingLevelsHint +:+ "."))
    else if nonblank (thinkingOnce opts) && negb (nonblank thinkOnce)
    then throw (Error ("Invalid one-shot thinking level. Use one of: "
                       +:+ thinkingLevelsHint +:+ "."))
    else
      let verboseOverride := normalizeVerboseLevel im (verbose opts) in
      if nonblank (verbose opts) && negb (nonblank verboseOverride)
      then throw (Error ("Invalid verbose level. Use " +:+ quoted "on" +:+ " or "
                         +:+ quoted "off" +:+ "."))
      else
        if match timeout opts with
           | Some text =>
               match parseInt10 text with
               | Some timeoutSecondsRaw => timeoutSecondsRaw <=? 0
               | None => true
               end
           | None => false
           end
        then throw (Error "--timeout must be a positive integer (seconds)")
        else ret (thinkOverride, thinkOnce, verboseOverride).

(** The function up to the point where it starts the run: the checks, the
    session, the overrides written to the session store, the model and
    the thinking level.  The body of [try] is followed by
    [clearAgentRunContext], which touches only the registry of runs. *)
Definition agentCommand (fuel : nat) (opts : AgentCommandOpts) : M AgentRun :=
  let body := trim (default "" (message opts)) in
  let* '(thinkOverride, thinkOnce, verboseOverride) := check_opts opts in
  let sessionResolution := resolveSession im opts in
  let sessionId := sr_sessionId sessionResolution in
  let sessionKey := sr_sessionKey sessionResolution in
  let key := default "" sessionKey in
  let storePath := sr_storePath sessionResolution in
  let sessionEntry := sr_sessionEntry sessionResolution in
  let sessionStore := sr_sessionStore sessionResolution in
  if bool_decide (deliver opts = Some true)
     && String.eqb (resolveSendPolicy im sessionEntry sessionKey) "deny"
  then throw (Error "send blocked by session policy")
  else
  let resolvedThinkLevel :=
    coalesce thinkOnce
      (coalesce thinkOverride
         (coalesce (sr_persistedThinking sessionResolution) (thinkingDefault im))) in
  let resolvedVerboseLevel :=
    coalesce verboseOverride
      (coalesce (sr_persistedVerbose sessionResolution) (verboseDefault im)) in
  let needsSkillsSnapshot :=
    sr_isNewSession sessionResolution
    || negb (truthy (oprop sessionEntry "skillsSnapshot")) in
  let skillsSnapshot :=
    if needsSkillsSnapshot then buildWorkspaceSkillSnapshot im
    else oprop sessionEntry "skillsSnapshot" in
  let* '(sessionEntry1, sessionStore1) :=
    match sessionStore with
    | Some store =>
        if truthy skillsSnapshot && nonblank sessionKey && needsSkillsSnapshot then
          let* current := entry_or_fresh sessionEntry sessionId in
          let* now := Date_now in
          let next :=
            <["skillsSnapshot" := skillsSnapshot]>
              (<["updatedAt" := JNum now]> (<["sessionId" := JStr sessionId]> current)) in
          let* _ := put_entry fuel storePath key next in
          ret (Some next, Some (<[key := next]> store))
        else ret (sessionEntry, sessionStore)
    | None => ret (sessionEntry, sessionStore)
    end in
  let* sessionStore2 :=
    match sessionStore1 with
    | Some store =>
        if nonblank sessionKey then
          let* entry :=
            match store !! key with
            | Some e => ret e
            | None => entry_or_fresh sessionEntry1 sessionId
            end in
          let* now := Date_now in
          let next0 := <["updatedAt" := JNum now]> (<["sessionId" := JStr sessionId]> entry) in
          let next1 :=
            if nonblank thinkOverride then
              if String.eqb (default "" thinkOverride) "off"
              then delete "thinkingLevel" next0
              else <["thinkingLevel" := JStr (default "" thinkOverride)]> next0
            else next0 in
          let next := applyVerboseOverride im next1 verboseOverride in
          let* _ := put_entry fuel storePath key next in
          ret (Some (<[key := next]> store))
        else ret sessionStore1
    | None => ret sessionStore1
    end in
  let defaultProvider := (resolveConfiguredModelRef im).1 in
  let defaultModel := (resolveConfiguredModelRef im).2 in
  let hasStoredOverride :=
    truthy (oprop sessionEntry1 "modelOverride")
    || truthy (oprop sessionEntry1 "providerOverride") in
  let needsModelCatalog := hasAllowlist im || hasStoredOverride in
  let modelCatalog :=
    if needsModelCatalog then Some (loadModelCatalog im) else None in
  let allowed :=
    if needsModelCatalog
    then buildAllowedModelSet im (loadModelCatalog im) defaultProvider defaultModel
    else ([], []) in
  let allowedModelCatalog := allowed.1 in
  let allowedModelKeys := allowed.2 in
  let* '(sessionEntry2, sessionStore3) :=
    match sessionEntry1, sessionStore2 with
    | Some e, Some store =>
        if nonblank sessionKey && hasStoredOverride then
          let* providerOverride := optional_trim (prop e "providerOverride") in
          let overrideProvider := or_default providerOverride defaultProvider in
          let* overrideModel := optional_trim (prop e "modelOverride") in
          if nonblank overrideModel then
            let k := modelKey im overrideProvider (default "" overrideModel) in
            if negb (isCliProvider im overrideProvider)
               && negb (bool_decide (allowedModelKeys = []))
               && negb (set_has allowedModelKeys k)
            then
              let* now := Date_now in
              let e' :=
                <["updatedAt" := JNum now]>
                  (delete "modelOverride" (delete "providerOverride" e)) in
              let* _ := put_entry fuel storePath key e' in
              ret (Some e', Some (<[key := e']> store))
            else ret (sessionEntry1, sessionStore2)
          else ret (sessionEntry1, sessionStore2)
        else ret (sessionEntry1, sessionStore2)
    | _, _ => ret (sessionEntry1, sessionStore2)
    end in
  let* storedProviderOverride := optional_trim (oprop sessionEntry2 "providerOverride") in
  let* storedModelOverride := optional_trim (oprop sessionEntry2 "modelOverride") in
  let '(provider, model) :=
    if nonblank storedModelOverride then
      let candidateProvider := or_default storedProviderOverride defaultProvider in
      let k := modelKey im candidateProvider (default "" storedModelOverride) in
      if isCliProvider im candidateProvider
         || bool_decide (allowedModelKeys = [])
         || set_has allowedModelKeys k
      then (candidateProvider, default "" storedModelOverride)
      else (defaultProvider, defaultModel)
    else (defaultProvider, defaultModel) in
  let* '(sessionEntry3, sessionStore4) :=
    match sessionEntry2 with
    | Some e =>
        if truthy (prop e "authProfileOverride") then
          if match profile_provider im (prop e "authProfileOverride") with
             | Some profileProvider => negb (String.eqb profileProvider provider)
             | None => true
             end
          then
            let* now := Date_now in
            let e' := <["updatedAt" := JNum now]> (delete "authProfileOverride" e) in
            match sessionStore3 with
            | Some store =>
                if nonblank sessionKey then
                  let* _ := put_entry fuel storePath key e' in
                  ret (Some e', Some (<[key := e']> store))
                else ret (Some e', sessionStore3)
            | None => ret (Some e', sessionStore3)
            end
          else ret (sessionEntry2, sessionStore3)
        else ret (sessionEntry2, sessionStore3)
    | None => ret (sessionEntry2, sessionStore3)
    end in
  let resolvedThinkLevel1 :=
    if negb (nonblank resolvedThinkLevel) then
      let catalogForThinking := default allowedModelCatalog modelCatalog in
      resolveThinkingDefault im provider model
        (match catalogForThinking with
         | [] => loadModelCatalog im
         | _ => catalogForThinking
         end)
    else resolvedThinkLevel in
  if bool_decide (resolvedThinkLevel1 = Some "xhigh")
     && negb (supportsXHighThinking im provider model)
  then
    if nonblank thinkOnce || nonblank thinkOverride then
      throw (Error ("Thinking level " +:+ quoted "xhigh" +:+ " is only supported for "
                    +:+ formatXHighModelHint im +:+ "."))
    else
      match sessionEntry3, sessionStore4 with
      | Some e, Some store =>
          if nonblank sessionKey && bool_decide (prop e "thinkingLevel" = JStr "xhigh")
          then
            let* now := Date_now in
            let e' := <["updatedAt" := JNum now]> (<["thinkingLevel" := JStr "high"]> e) in
            let* _ := put_entry fuel storePath key e' in
            ret (MkAgentRun body provider model (Some "high") resolvedVerboseLevel
                   (Some e') (Some (<[key := e']> store)))
          else
            ret (MkAgentRun body provider model (Some "high") resolvedVerboseLevel
                   sessionEntry3 sessionStore4)
      | _, _ =>
          ret (MkAgentRun body provider model (Some "high") resolvedVerboseLevel
                 sessionEntry3 sessionStore4)
      end
  else
    ret (MkAgentRun body provider model resolvedThinkLevel1 resolvedVerboseLevel
           sessionEntry3 sessionStore4).

End WithCatalog.

Arguments MkAgentImports {_} _ _ _ _ _ _ _ _ _ _ _ _ _ _ _ _ _ _ _ _.
Arguments thinkingDefault {_} _.
Arguments verboseDefault {_} _.
Arguments hasAllowlist {_} _.
Arguments configuredModel {_} _.
Arguments resolveConfiguredModelRef {_} _.
Arguments normalizeThinkLevel {_} _ _.
Arguments normalizeVerboseLevel {_} _ _.
Arguments formatThinkingLevels {_} _ _ _.
Arguments formatXHighModelHint {_} _.
Arguments supportsXHighThinking {_} _ _ _.
Arguments resolveSession {_} _ _.
Arguments resolveSendPolicy {_} _ _ _.
Arguments buildWorkspaceSkillSnapshot {_} _.
Arguments applyVerboseOverride {_} _ _ _.
Arguments loadModelCatalog {_} _.
Arguments buildAllowedModelSet {_} _ _ _ _.
Arguments isCliProvider {_} _ _.
Arguments modelKey {_} _ _ _.
Arguments profile_provider {_} _ _.
Arguments resolveThinkingDefault {_} _ _ _ _.
Arguments check_opts {_} _ _.
Arguments agentCommand {_} _ _ _.

End AgentCommand.

(** ** A concrete request used to exercise [agentCommand] *)

Module AgentSamples.
Import SessionStore StoreSamples AgentCommand.

(** The main session as [sample_world] stores it. *)
Definition main_resolution : SessionResolution :=
  MkSessionResolution "s-main" (Some "agent:main:main") (Some main_record) (Some sample_store)
    sample_path false None None.

(** The configured model is [anthropic/claude-opus-4-5]; only models of
    [openai] take the highest tier; no allow-list, no auth profiles. *)
Definition sample_agent_imports : AgentImports unit :=
  MkAgentImports None None false
    ("anthropic", "claude-opus-4-5") ("anthropic", "claude-opus-4-5")
    (λ raw, match raw with
            | Some word => if String.eqb word "xhigh" then Some "xhigh"
                           else if String.eqb word "high" then Some "high" else None
            | None => None
            end)
    (λ raw, match raw with
            | Some word => if String.eqb word "on" then Some "on"
                           else if String.eqb word "off" then Some "off" else None
            | None => None
            end)
    (λ _ _, "off, minimal, low, medium, high") "openai/gpt-5.2"
    (λ provider _, String.eqb provider "openai")
    (λ _, main_resolution) (λ _ _, "allow") (JTree "skills")
    (λ entry level, match level with
                    | Some l => <["verboseLevel" := JStr l]> entry
                    | None => entry
                    end)
    [] (λ _ _ _, ([], [])) (λ _, false) (λ provider model, provider +:+ "/" +:+ model)
    (λ _, None) (λ _ _ _, Some "off").

(** [agent --session-key agent:main:main --thinking xhigh --message hello] *)
Definition xhigh_request : AgentCommandOpts :=
  MkOpts (Some "hello") None None (Some "agent:main:main") (Some "xhigh")
    None None None None.

End AgentSamples.

(** ** Inline directives written to the session ([persistInlineDirectives]) *)

Module DirectivePersist.
Import SessionStore Thinking ModelDirective.

(** The helpers the file imports from modules that are not among the
    sources. *)
Record PersistImports := MkPersistImports {
  applyVerboseOverride : gmap string jsval → string → gmap string jsval;
  (** [resolveProfileOverride({ rawProfile, provider, cfg, agentDir })]:
      [error] and [profileId] *)
  resolveProfileOverride : string → string → option string * option string;
  formatElevatedEvent : jsval → string;
  formatReasoningEvent : jsval → string;
  lookupContextTokens : string → option Z;
  DEFAULT_CONTEXT_TOKENS : Z
}.

Record PersistParams := MkPersistParams {
  pp_directives : InlineDirectives;
  (** [directives.rawModelProfile] *)
  pp_rawModelProfile : option string;
  pp_effectiveModelDirective : option string;
  pp_sessionEntry : option (gmap string jsval);
  pp_sessionStore : option (gmap string (gmap string jsval));
  pp_sessionKey : option string;
  pp_storePath : option string;
  pp_elevatedEnabled : bool;
  pp_elevatedAllowed : bool;
  pp_defaultProvider : string;
  pp_defaultModel : string;
  pp_aliasIndex : ModelAliasIndex;
  pp_allowedModelKeys : list string;
  pp_provider : string;
  pp_model : string;
  pp_initialModelLabel : string;
  pp_formatModelSwitchEvent : string → option string → string;
  (** [agentCfg?.elevatedDefault] and [agentCfg?.contextTokens] *)
  pp_elevatedDefault : option string;
  pp_contextTokens : option Z
}.

(** What the caller has afterwards: the value returned, the record and
    the store it passed in (changed in place), and the system events
    enqueued, each with its context key. *)
Record PersistResult := MkPersistResult {
  pr_provider : string;
  pr_model : string;
  pr_contextTokens : Z;
  pr_sessionEntry : option (gmap string jsval);
  pr_sessionStore : option (gmap string (gmap string jsval));
  pr_events : list (string * string)
}.

(** The state of the block under [if (sessionEntry && sessionStore &&
    sessionKey)] as it goes from one directive to the next. *)
Record Progress := MkProgress {
  g_entry : gmap string jsval;
  g_updated : bool;
  g_elevatedChanged : bool;
  g_reasoningChanged : bool;
  g_provider : string;
  g_model : string;
  g_events : list (string * string)
}.

Section WithImports.
Variable mi : Imports.
Variable pi : PersistImports.

(** The think, verbose, reasoning and elevated directives. *)
Definition persist_levels (ps : PersistParams) (sessionEntry : gmap string jsval)
  : Progress :=
  let directives := pp_directives ps in
  let prevElevatedLevel :=
    nullish (prop sessionEntry "elevatedLevel")
      (match pp_elevatedDefault ps with
       | Some level => JStr level
       | None => JStr (if pp_elevatedAllowed ps then "on" else "off")
       end) in
  let prevReasoningLevel := nullish (prop sessionEntry "reasoningLevel") (JStr "off") in
  let elevatedChanged :=
    hasElevatedDirective directives && bool_decide (is_Some (elevatedLevel directives))
    && pp_elevatedEnabled ps && pp_elevatedAllowed ps in
  let reasoningChanged :=
    hasReasoningDirective directives && bool_decide (is_Some (reasoningLevel directives)) in
  let '(e1, updated1) :=
    if hasThinkDirective directives && given (thinkLevel directives)
    then (set_or_clear "thinkingLevel" (default "" (thinkLevel directives)) sessionEntry,
          true)
    else (sessionEntry, false) in
  let '(e2, updated2) :=
    if hasVerboseDirective directives && given (verboseLevel directives)
    then (applyVerboseOverride pi e1 (default "" (verboseLevel directives)), true)
    else (e1, updated1) in
  let '(e3, reasoningChanged3, updated3) :=
    if hasReasoningDirective directives && given (reasoningLevel directives)
    then (set_or_clear "reasoningLevel" (default "" (reasoningLevel directives)) e2,
          reasoningChanged
          || negb (bool_decide
                     (JStr (default "" (reasoningLevel directives)) = prevReasoningLevel)),
          true)
    else (e2, reasoningChanged, updated2) in
  let '(e4, elevatedChanged4, updated4) :=
    if hasElevatedDirective directives && given (elevatedLevel directives)
       && pp_elevatedEnabled ps && pp_elevatedAllowed ps
    then (<["elevatedLevel" := JStr (default "" (elevatedLevel directives))]> e3,
          elevatedChanged
          || negb (bool_decide
                     (JStr (default "" (elevatedLevel directives)) = prevElevatedLevel)),
          true)
    else (e3, elevatedChanged, updated3) in
  MkProgress e4 updated4 elevatedChanged4 reasoningChanged3
    (pp_provider ps) (pp_model ps) [].

(** The model directive; a profile that does not resolve throws. *)
Definition persist_model (ps : PersistParams) (g : Progress) : M Progress :=
  let directives := pp_directives ps in
  let modelDirective :=
    if hasModelDirective directives && given (pp_effectiveModelDirective ps)
    then pp_effectiveModelDirective ps else None in
  match modelDirective with
  | Some raw =>
      match resolveModelRefFromString mi raw (pp_defaultProvider ps) (pp_aliasIndex ps) with
      | Some resolved =>
          let ref := rr_ref resolved in
          let key := modelKey mi (ref_provider ref) (ref_model ref) in
          if bool_decide (pp_allowedModelKeys ps = []) || set_has (pp_allowedModelKeys ps) key
          then
            let* profileOverride :=
              (if given (pp_rawModelProfile ps) then
                 let profileResolved :=
                   resolveProfileOverride pi (default "" (pp_rawModelProfile ps))
                     (ref_provider ref) in
                 if given profileResolved.1
                 then throw (Error (default "" profileResolved.1))
                 else ret profileResolved.2
               else ret None) in
            let isDefault :=
              String.eqb (ref_provider ref) (pp_defaultProvider ps)
              && String.eqb (ref_model ref) (pp_defaultModel ps) in
            let e1 :=
              if isDefault
              then delete "modelOverride" (delete "providerOverride" (g_entry g))
              else <["modelOverride" := JStr (ref_model ref)]>
                     (<["providerOverride" := JStr (ref_provider ref)]> (g_entry g)) in
            let e2 :=
              if given profileOverride
              then <["authProfileOverride" := JStr (default "" profileOverride)]> e1
              else if hasModelDirective directives then delete "authProfileOverride" e1
              else e1 in
            let nextLabel := ref_provider ref +:+ "/" +:+ ref_model ref in
            let events :=
              if negb (String.eqb nextLabel (pp_initialModelLabel ps))
              then [(pp_formatModelSwitchEvent ps nextLabel (rr_alias resolved),
                     "model:" +:+ nextLabel)]
              else [] in
            ret (MkProgress e2 true (g_elevatedChanged g) (g_reasoningChanged g)
                   (ref_provider ref) (ref_model ref) (g_events g ++ events)%list)
          else ret g
      | None => ret g
      end
  | None => ret g
  end.

(** [/queue reset] *)
Definition persist_queue_reset (ps : PersistParams) (g : Progress) : Progress :=
  if hasQueueDirective (pp_directives ps) && queueReset (pp_directives ps) then
    MkProgress
      (delete "queueDrop"
         (delete "queueCap" (delete "queueDebounceMs" (delete "queueMode" (g_entry g)))))
      true (g_elevatedChanged g) (g_reasoningChanged g)
      (g_provider g) (g_model g) (g_events g)
  else g.

(** [agentCfg?.contextTokens ?? lookupContextTokens(model) ??
    DEFAULT_CONTEXT_TOKENS] *)
Definition context_tokens (ps : PersistParams) (model : string) : Z :=
  match pp_contextTokens ps with
  | Some n => n
  | None => default (DEFAULT_CONTEXT_TOKENS pi) (lookupContextTokens pi model)
  end.

Definition persistInlineDirectives (fuel : nat) (ps : PersistParams) : M PersistResult :=
  match pp_sessionEntry ps, pp_sessionStore ps with
  | Some sessionEntry, Some sessionStore =>
      if given (pp_sessionKey ps) then
        let sessionKey := default "" (pp_sessionKey ps) in
        let* g := persist_model ps (persist_levels ps sessionEntry) in
        let g := persist_queue_reset ps g in
        if g_updated g then
          let* now := Date_now in
          let sessionEntry' := <["updatedAt" := JNum now]> (g_entry g) in
          let sessionStore' := <[sessionKey := sessionEntry']> sessionStore in
          let* _ :=
            (if given (pp_storePath ps) then
               updateSessionStore fuel (default "" (pp_storePath ps))
                 (put_entry_mutator sessionKey sessionEntry')
             else ret tt) in
          let events :=
            (g_events g
             ++ (if g_elevatedChanged g
                 then [(formatElevatedEvent pi
                          (nullish (prop sessionEntry' "elevatedLevel") (JStr "off")),
                        "mode:elevated")]
                 else [])
             ++ (if g_reasoningChanged g
                 then [(formatReasoningEvent pi
                          (nullish (prop sessionEntry' "reasoningLevel") (JStr "off")),
                        "mode:reasoning")]
                 else []))%list in
          ret (MkPersistResult (g_provider g) (g_model g)
                 (context_tokens ps (g_model g))
                 (Some sessionEntry') (Some sessionStore') events)
        else
          ret (MkPersistResult (g_provider g) (g_model g)
                 (context_tokens ps (g_model g))
                 (Some (g_entry g)) (pp_sessionStore ps) (g_events g))
      else
        ret (MkPersistResult (pp_provider ps) (pp_model ps)
               (context_tokens ps (pp_model ps))
               (pp_sessionEntry ps) (pp_sessionStore ps) [])
  | _, _ =>
      ret (MkPersistResult (pp_provider ps) (pp_model ps)
             (context_tokens ps (pp_model ps))
             (pp_sessionEntry ps) (pp_sessionStore ps) [])
  end.

End WithImports.

End DirectivePersist.

(** ** An inline [/think xhigh] used to exercise [persistInlineDirectives] *)

Module PersistSamples.
Import SessionStore StoreSamples Thinking ThinkingSamples ModelDirective DirectivePersist.

Definition sample_persist_imports : PersistImports :=
  MkPersistImports (λ entry level, <["verboseLevel" := JStr level]> entry)
    (λ _ _, (None, None))
    (λ level, match level with JStr l => "Elevated " +:+ l | _ => "Elevated" end)
    (λ level, match level with JStr l => "Reasoning " +:+ l | _ => "Reasoning" end)
    (λ _, None) 200000.

Definition no_model_imports : Imports :=
  MkImports (λ provider model, provider +:+ "/" +:+ model) (λ provider, provider)
    (λ _ _ _, None) (λ _ _, 0).

(** The message [/think xhigh hello] on the main session, for the model
    [anthropic/claude-opus-4-5]. *)
Definition inline_xhigh : PersistParams :=
  MkPersistParams think_xhigh_directive None None
    (Some main_record) (Some sample_store) (Some "agent:main:main") (Some sample_path)
    false false "anthropic" "claude-opus-4-5" (MkAliasIndex [] []) []
    "anthropic" "claude-opus-4-5" "anthropic/claude-opus-4-5" (λ label _, label)
    None None.

End PersistSamples.
(** * Properties *)

(** ** Sanity checks of the string helpers *)

Example trim_ex : trim "  /new  x " = "/new  x".
Proof. reflexivity. Qed.
Example includes_ex : includes "openai/gpt-5-mini" "mini" = true ∧ includes "openai/gpt-5" "mini" = false.
Proof. split; reflexivity. Qed.
Example dirname_ex : dirname "/home/u/.state/agents/main/sessions.json" = "/home/u/.state/agents/main".
Proof. reflexivity. Qed.

(** ** Substrings, joins and trimming *)

Module StringFacts.

Lemma startsWith_nil_inv (x : string) : startsWith "" x = true → x = "".
Proof. by destruct x. Qed.

Lemma startsWith_refl (x : string) : startsWith x x = true.
Proof. induction x as [|c x IH]; cbn; [done|]. by rewrite Ascii.eqb_refl. Qed.

Lemma startsWith_app (a b x : string) :
  startsWith a x = true → startsWith (a +:+ b) x = true.
Proof.
  revert a. induction x as [|c x IH]; intros a; [done|].
  destruct a as [|c' a]; simpl; [done|].
  intros [-> Hx]%andb_true_iff. by rewrite IH.
Qed.

Lemma includes_of_startsWith (s x : string) :
  startsWith s x = true → includes s x = true.
Proof. intros H. destruct s; cbn in *; by rewrite H. Qed.

Lemma includes_nil_inv (x : string) : includes "" x = true → x = "".
Proof. cbn. rewrite orb_false_r. apply startsWith_nil_inv. Qed.

Lemma includes_app_l (a b x : string) :
  includes a x = true → includes (a +:+ b) x = true.
Proof.
  induction a as [|c a IH].
  - intros ->%includes_nil_inv. by destruct b.
  - cbn [includes]. intros [H|H]%orb_true_iff.
    + apply includes_of_startsWith. by apply startsWith_app.
    + change (String c a +:+ b) with (String c (a +:+ b)).
      cbn [includes]. by rewrite (IH H), orb_true_r.
Qed.

Lemma includes_app_r (a b x : string) :
  includes b x = true → includes (a +:+ b) x = true.
Proof.
  intros H. induction a as [|c a IH]; [done|].
  change (String c a +:+ b) with (String c (a +:+ b)).
  cbn [includes]. by rewrite IH, orb_true_r.
Qed.

Lemma includes_join (sep x : string) (parts : list string) :
  In x parts → includes (js_join sep parts) x = true.
Proof.
  induction parts as [|p parts IH]; [done|].
  intros [->|Hin].
  - destruct parts as [|q parts]; cbn [js_join].
    + apply includes_of_startsWith, startsWith_refl.
    + apply includes_app_l, includes_of_startsWith, startsWith_refl.
  - destruct parts as [|q parts]; [done|].
    cbn [js_join]. apply includes_app_r, includes_app_r. by apply IH.
Qed.

Lemma includes_trimStart (s x : string) :
  starts_nonspace x = true → includes s x = true → includes (trimStart s) x = true.
Proof.
  intros Hx. induction s as [|c s IH]; [done|].
  cbn [trimStart]. destruct (is_space c) eqn:Hc; [|done].
  cbn [includes]. intros [H|H]%orb_true_iff; [|by apply IH].
  destruct x as [|a x]; [done|]. cbn in H, Hx.
  apply andb_true_iff in H as [->%Ascii.eqb_eq _]. by rewrite Hc in Hx.
Qed.

Lemma ends_nonspace_nonempty (x : string) : ends_nonspace x = true → x ≠ "".
Proof. by destruct x. Qed.

Lemma startsWith_trimEnd (s x : string) :
  ends_nonspace x = true → startsWith s x = true → startsWith (trimEnd s) x = true.
Proof.
  revert x. induction s as [|c s IH]; intros x Hx Hs.
  - apply startsWith_nil_inv in Hs. by subst.
  - destruct x as [|a x]; [done|]. cbn in Hs.
    apply andb_true_iff in Hs as [Hac Hs].
    destruct x as [|b x].
    + cbn in Hx. apply Ascii.eqb_eq in Hac as ->.
      cbn [trimEnd]. destruct (trimEnd s); cbn.
      * destruct (is_space c); [done|]. cbn. by rewrite Ascii.eqb_refl.
      * by rewrite Ascii.eqb_refl.
    + assert (ends_nonspace (String b x) = true) as Hx' by done.
      specialize (IH _ Hx' Hs).
      cbn [trimEnd]. destruct (trimEnd s) as [|d t] eqn:Ht; [done|].
      cbn [startsWith]. cbn [startsWith] in IH. by rewrite Hac, IH.
Qed.

Lemma includes_trimEnd (s x : string) :
  ends_nonspace x = true → includes s x = true → includes (trimEnd s) x = true.
Proof.
  intros Hx. induction s as [|c s IH]; [done|].
  cbn [includes]. intros [H|H]%orb_true_iff.
  - by apply includes_of_startsWith, startsWith_trimEnd.
  - specialize (IH H). cbn [trimEnd].
    destruct (trimEnd s) as [|d t] eqn:Ht.
    + apply includes_nil_inv in IH. by apply ends_nonspace_nonempty in Hx.
    + cbn [includes]. cbn [includes] in IH. by rewrite IH, orb_true_r.
Qed.

(** A part of a joined and trimmed text that has no white space at its
    ends is still in it. *)
Lemma includes_trim_join (sep x : string) (parts : list string) :
  starts_nonspace x = true → ends_nonspace x = true → In x parts →
  includes (trim (js_join sep parts)) x = true.
Proof.
  intros Hs He Hin. unfold trim.
  by apply includes_trimEnd, includes_trimStart, includes_join.
Qed.

Lemma ends_nonspace_app (a b : string) :
  ends_nonspace b = true → ends_nonspace (a +:+ b) = true.
Proof.
  intros Hb. induction a as [|c a IH]; [done|].
  change (String c a +:+ b) with (String c (a +:+ b)).
  cbn [ends_nonspace]. by destruct (a +:+ b).
Qed.

End StringFacts.

(** ** The durable session store *)

Module SessionStoreFacts.
Import SessionStore SessionStoreSpec.

(** Equations between closed terms, settled by evaluation. *)
Ltac vm_refl :=
  match goal with
  | |- ?a = ?b => vm_cast_no_check (@eq_refl _ b)
  end.

(** Splits a conjunction of closed equations and evaluates each. *)
Ltac vm_conj :=
  repeat match goal with |- _ ∧ _ => split end; vm_refl.

Ltac io_unfold :=
  unfold bind, ret, throw, get, modify, log, try_catch, try_finally,
    Date_now, sleep, mkdir, getFileMtimeMs, invalidateSessionStoreCache,
    isSessionStoreCacheEnabled, isSessionStoreCacheValid, getSessionStoreTtl,
    rm_force in *.

Lemma dirname_in_after_mkdir (p : string) (d : gset string) :
  dirname p ∈ ({[dirname p]} ∪ d : gset string).
Proof. set_solver. Qed.

(** Saving always succeeds once the directory has been made: the store
    file holds the serialised store, stamped with the current time, and the
    cache entry of the path is gone. *)
Lemma saveSessionStoreUnlocked_spec (storePath : string)
  (store : gmap string (gmap string jsval)) (w : World) :
  ∃ w', saveSessionStoreUnlocked storePath store w = (Ok tt, w')
    ∧ w_files w' = <[storePath := File (JSON_stringify store) (w_now w)]> (w_files w)
    ∧ w_cache w' = delete storePath (w_cache w)
    ∧ w_locks w' = w_locks w
    ∧ w_now w' = w_now w
    ∧ w_env w' = w_env w
    ∧ dirname storePath ∈ w_dirs w'
    ∧ w_trace w' = (w_trace w ++ [EvStoreWritten storePath])%list.
Proof.
  unfold saveSessionStoreUnlocked, writeFile, randomUUID, writeTmp, rename.
  io_unfold. cbn.
  destruct (env_win32 (w_env w)) eqn:Hwin; cbn.
  - case_decide as Hin; [|exfalso; apply Hin, dirname_in_after_mkdir].
    eexists. split; [reflexivity|]. cbn. repeat split; try done.
  - set (tmp := tmp_path storePath (env_pid (w_env w)) (w_entropy w (w_drawn w))).
    destruct (decide (dirname tmp ∈ {[dirname storePath]} ∪ w_dirs w)) as [Ht|Ht]; cbn.
    + rewrite lookup_insert_eq. cbn.
      case_decide as Hin; [|exfalso; apply Hin, dirname_in_after_mkdir].
      cbn. eexists. split; [reflexivity|]. cbn. repeat split; try done.
    + repeat (case_decide; cbn); try done; try (exfalso; set_solver).
      eexists. split; [reflexivity|]. cbn. repeat split; try done.
Qed.

Lemma has_slash_app (p s : string) :
  has_slash (p +:+ s) = has_slash p || has_slash s.
Proof.
  induction p as [|c p IH]; simpl; [done|].
  rewrite IH. by rewrite orb_assoc.
Qed.

Lemma dirname_no_slash (s : string) : has_slash s = false → dirname s = "".
Proof.
  destruct s as [|c s]; cbn; [done|].
  intros [_ ->]%orb_false_iff. done.
Qed.

(** A suffix without a separator names a file of the same directory. *)
Lemma dirname_app (p s : string) :
  has_slash s = false → dirname (p +:+ s) = dirname p.
Proof.
  intros Hs. induction p as [|c p IH]; simpl.
  - by apply dirname_no_slash.
  - rewrite has_slash_app, Hs, orb_false_r, IH. done.
Qed.

Lemma dirname_lock_path (storePath : string) :
  dirname (lock_path storePath) = dirname storePath.
Proof. unfold lock_path. by apply dirname_app. Qed.

Lemma release_spec (storePath : string) (w : World) :
  try_catch (unlink (EvLockReleased (lock_path storePath)) (lock_path storePath))
    (λ _, ret tt) w = (Ok tt, released storePath w).
Proof.
  unfold try_catch, unlink, released, ret.
  by destruct (w_locks w !! lock_path storePath).
Qed.

(** When no marker exists the first attempt creates it. *)
Lemma acquire_loop_free (fuel : nat) (storePath : string)
  (timeout poll stale startedAt : Z) (w : World) :
  dirname storePath ∈ w_dirs w →
  w_locks w !! lock_path storePath = None →
  acquire_loop (S fuel) storePath timeout poll stale startedAt w
  = (Ok tt, acquired storePath w).
Proof.
  intros Hdir Hfree. cbn [acquire_loop]. unfold acquire_attempt, try_catch, open_wx.
  rewrite dirname_lock_path, Hfree.
  by destruct (decide (dirname storePath ∈ w_dirs w)).
Qed.

(** A marker older than [stale], met before the total wait is over, is
    unlinked and the next attempt creates the new marker. *)
Lemma acquire_loop_stale (fuel : nat) (storePath : string)
  (timeout poll stale startedAt mtime : Z) (w : World) :
  dirname storePath ∈ w_dirs w →
  w_locks w !! lock_path storePath = Some mtime →
  w_now w - startedAt <= timeout →
  stale < w_now w - mtime →
  acquire_loop (S (S fuel)) storePath timeout poll stale startedAt w
  = (Ok tt, acquired storePath (evicted storePath w)).
Proof.
  intros Hdir Hheld Hwait Hstale.
  cbn [acquire_loop]. unfold acquire_attempt at 1.
  unfold try_catch at 1. unfold open_wx.
  rewrite dirname_lock_path, Hheld.
  destruct (decide (dirname storePath ∈ w_dirs w)) as [_|]; [|done].
  cbn [err_code]. rewrite decide_False by done.
  rewrite decide_False by (intros H; by apply H).
  unfold bind at 1. unfold Date_now, get.
  replace (timeout <? w_now w - startedAt) with false by (symmetry; apply Z.ltb_ge; lia).
  unfold bind at 1. unfold try_catch at 1. unfold bind at 1.
  unfold stat_mtimeMs. rewrite Hheld.
  replace (stale <? w_now w - mtime) with true by (symmetry; apply Z.ltb_lt; lia).
  unfold bind at 1. unfold unlink. rewrite Hheld. unfold ret.
  change (acquire_attempt storePath timeout poll stale startedAt
            (acquire_loop fuel storePath timeout poll stale startedAt))
    with (acquire_loop (S fuel) storePath timeout poll stale startedAt).
  rewrite acquire_loop_free; [done|done|].
  cbn. apply lookup_delete_eq.
Qed.

Lemma put_now_same (w : World) (t : Z) : t = w_now w → put_now (λ _, t) w = w.
Proof. intros ->. by destruct w. Qed.

(** A marker that is there and stays younger than [stale]: the loop polls
    [n] times, [n] being the first number of polls after which more than
    [timeout] has elapsed, and then throws.  Nothing but the clock moves. *)
Lemma acquire_loop_timeout (n : nat) :
  ∀ (fuel : nat) (storePath : string) (timeout poll stale startedAt mtime : Z)
    (w : World),
  (n < fuel)%nat →
  0 < poll →
  dirname storePath ∈ w_dirs w →
  w_locks w !! lock_path storePath = Some mtime →
  timeout < w_now w - startedAt + Z.of_nat n * poll →
  (n = 0%nat ∨ w_now w - startedAt + (Z.of_nat n - 1) * poll <= timeout) →
  w_now w + Z.of_nat n * poll - mtime <= stale →
  acquire_loop fuel storePath timeout poll stale startedAt w
  = (Throw (Error ("timeout acquiring session store lock: " +:+ lock_path storePath)),
     put_now (λ _, w_now w + Z.of_nat n * poll) w).
Proof.
  induction n as [|n IH]; intros fuel storePath timeout poll stale startedAt mtime w
    Hfuel Hpoll Hdir Hheld Hover Hunder Hfresh;
    (destruct fuel as [|fuel]; [lia|]);
    cbn [acquire_loop]; unfold acquire_attempt at 1;
    unfold try_catch at 1; unfold open_wx;
    rewrite dirname_lock_path, Hheld;
    (destruct (decide (dirname storePath ∈ w_dirs w)) as [_|]; [|done]);
    cbn [err_code]; rewrite decide_False by done;
    rewrite decide_False by (intros H; by apply H);
    unfold bind at 1; unfold Date_now, get.
  - replace (timeout <? w_now w - startedAt) with true
      by (symmetry; apply Z.ltb_lt; lia).
    unfold throw. f_equal. symmetry. apply put_now_same. lia.
  - destruct Hunder as [|Hunder]; [lia|].
    replace (timeout <? w_now w - startedAt) with false
      by (symmetry; apply Z.ltb_ge; nia).
    unfold bind at 1. unfold try_catch at 1. unfold bind at 1.
    unfold stat_mtimeMs. rewrite Hheld.
    replace (stale <? w_now w - mtime) with false
      by (symmetry; apply Z.ltb_ge; nia).
    unfold ret. unfold bind at 1. unfold sleep, modify.
    rewrite (IH fuel storePath timeout poll stale startedAt mtime
               (put_now (λ t, t + poll) w)); cbn; try done; try lia.
    unfold put_now. cbn. do 2 f_equal. lia.
Qed.

Lemma try_finally_release {T} (storePath : string) (fn : M T) (w : World) :
  try_finally fn
    (try_catch (unlink (EvLockReleased (lock_path storePath)) (lock_path storePath))
       (λ _, ret tt)) w
  = finish storePath (fn w).
Proof.
  unfold try_finally, finish. destruct (fn w) as [[r|e|] w'];
    rewrite ?release_spec; done.
Qed.

(** With no marker in place, the function runs at once under the lock and
    the marker is removed whatever it returns or throws. *)
Lemma withSessionStoreLock_free {T} (fuel : nat) (storePath : string)
  (fn : M T) (opts : SessionStoreLockOptions) (w : World) :
  w_locks w !! lock_path storePath = None →
  withSessionStoreLock (S fuel) storePath fn opts w
  = finish storePath (fn (entered storePath w)).
Proof.
  intros Hfree. unfold withSessionStoreLock.
  unfold bind at 1. unfold Date_now, get.
  unfold bind at 1. unfold mkdir, modify.
  unfold bind at 1.
  rewrite acquire_loop_free; [|apply dirname_in_after_mkdir|done].
  apply try_finally_release.
Qed.

(** A marker older than the staleness threshold is evicted on the first
    attempt and the function runs under a marker of its own. *)
Lemma withSessionStoreLock_stale {T} (fuel : nat) (storePath : string)
  (fn : M T) (opts : SessionStoreLockOptions) (mtime : Z) (w : World) :
  w_locks w !! lock_path storePath = Some mtime →
  0 <= default 10000 (timeoutMs opts) →
  default 30000 (staleMs opts) < w_now w - mtime →
  withSessionStoreLock (S (S fuel)) storePath fn opts w
  = finish storePath
      (fn (acquired storePath
             (evicted storePath (put_dirs (λ d, {[dirname storePath]} ∪ d) w)))).
Proof.
  intros Hheld Htimeout Hstale. unfold withSessionStoreLock.
  unfold bind at 1. unfold Date_now, get.
  unfold bind at 1. unfold mkdir, modify.
  unfold bind at 1.
  rewrite (acquire_loop_stale _ _ _ _ _ _ mtime);
    [|apply dirname_in_after_mkdir|done|cbn; lia|done].
  apply try_finally_release.
Qed.

(** A marker that stays younger than the staleness threshold for the
    whole wait makes the acquisition throw after [n] polls; the function
    is not run. *)
Lemma withSessionStoreLock_timeout {T} (n fuel : nat) (storePath : string)
  (fn : M T) (opts : SessionStoreLockOptions) (mtime : Z) (w : World) :
  let timeout := default 10000 (timeoutMs opts) in
  let poll := default 25 (pollIntervalMs opts) in
  let stale := default 30000 (staleMs opts) in
  (n < fuel)%nat →
  0 < poll →
  w_locks w !! lock_path storePath = Some mtime →
  timeout < Z.of_nat n * poll →
  (n = 0%nat ∨ (Z.of_nat n - 1) * poll <= timeout) →
  w_now w + Z.of_nat n * poll - mtime <= stale →
  withSessionStoreLock fuel storePath fn opts w
  = (Throw (Error ("timeout acquiring session store lock: " +:+ lock_path storePath)),
     put_now (λ _, w_now w + Z.of_nat n * poll)
       (put_dirs (λ d, {[dirname storePath]} ∪ d) w)).
Proof.
  intros timeout poll stale Hfuel Hpoll Hheld Hover Hunder Hfresh.
  unfold withSessionStoreLock.
  unfold bind at 1. unfold Date_now, get.
  unfold bind at 1. unfold mkdir, modify.
  unfold bind at 1.
  rewrite (acquire_loop_timeout n _ _ _ _ _ _ mtime); cbn; try done; try lia.
  apply dirname_in_after_mkdir.
Qed.

(** A load that skips the cache returns what is on disk, whatever the
    cache holds, and leaves the cache alone. *)
Lemma loadSessionStore_skipCache (storePath : string) (w : World) :
  loadSessionStore storePath true w
  = (Ok (disk_store w storePath), read_mark storePath w).
Proof.
  unfold loadSessionStore, disk_store, read_mark, readFileSync, JSON5_parse.
  io_unfold. cbn.
  destruct (w_files w !! storePath) as [[[raw|v|d] t]|] eqn:Hfile; cbn;
    rewrite ?Hfile; cbn; try done.
Qed.

Lemma loadSessionStore_cached (storePath : string) (w : World)
  (s : gmap string (gmap string jsval)) :
  cache_hit w storePath = Some s →
  loadSessionStore storePath false w = (Ok s, emit (EvCacheHit storePath) w).
Proof.
  unfold cache_hit, loadSessionStore. io_unfold. cbn.
  destruct (env_cacheEnabled (w_env w)); [|done].
  destruct (w_cache w !! storePath) as [c|]; [|done]. cbn.
  destruct (w_now w - c_loadedAt c <=? env_ttlMs (w_env w)); [|done].
  destruct (decide ((f_mtimeMs <$> w_files w !! storePath) = c_mtimeMs c)); [|done].
  by intros [= ->].
Qed.

Lemma loadSessionStore_uncached (storePath : string) (skipCache : bool) (w : World) :
  cache_hit w storePath = None →
  ∃ w', loadSessionStore storePath skipCache w = (Ok (disk_store w storePath), w')
        ∧ w_files w' = w_files w ∧ w_locks w' = w_locks w
        ∧ w_now w' = w_now w ∧ w_env w' = w_env w.
Proof.
  destruct skipCache.
  { intros _. rewrite loadSessionStore_skipCache. eexists. split; [done|].
    unfold read_mark. by destruct (w_files w !! storePath). }
  unfold cache_hit, loadSessionStore, disk_store, readFileSync, JSON5_parse.
  io_unfold. cbn.
  destruct (env_cacheEnabled (w_env w)) eqn:Hen; cbn.
  - destruct (w_cache w !! storePath) as [c|] eqn:Hc; cbn.
    + destruct (w_now w - c_loadedAt c <=? env_ttlMs (w_env w)); cbn.
      * destruct (decide ((f_mtimeMs <$> w_files w !! storePath) = c_mtimeMs c));
          [done|]. intros _. cbn.
        destruct (w_files w !! storePath) as [[[raw|v|d] t]|] eqn:Hfile; cbn;
          rewrite ?Hfile, ?Hen; cbn; eexists; (split; [reflexivity|done]).
      * intros _.
        destruct (w_files w !! storePath) as [[[raw|v|d] t]|] eqn:Hfile; cbn;
          rewrite ?Hfile, ?Hen; cbn; eexists; (split; [reflexivity|done]).
    + intros _.
      destruct (w_files w !! storePath) as [[[raw|v|d] t]|] eqn:Hfile; cbn;
        rewrite ?Hfile, ?Hen; cbn; eexists; (split; [reflexivity|done]).
  - intros _.
    destruct (w_files w !! storePath) as [[[raw|v|d] t]|] eqn:Hfile; cbn;
      rewrite ?Hfile, ?Hen; cbn; eexists; (split; [reflexivity|done]).
Qed.

(** What the migration does to one record. *)
Lemma migrate_entry_provider (e : gmap string jsval) (v : string) :
  e !! "provider" = Some (JStr v) →
  is_string (prop e "channel") = false →
  migrate_entry e !! "channel" = Some (JStr v)
  ∧ migrate_entry e !! "provider" = None.
Proof.
  intros Hp Hc. unfold migrate_entry.
  assert (prop e "provider" = JStr v) as Hpv by (unfold prop; by rewrite Hp).
  rewrite Hc, Hpv. cbn [negb andb is_string].
  set (e1 := delete "provider" (<["channel":=JStr v]> e)).
  assert (e1 !! "channel" = Some (JStr v) ∧ e1 !! "provider" = None) as [H1 H2].
  { subst e1. split; [by simplify_map_eq|by simplify_map_eq]. }
  destruct (negb (is_string (prop e1 "lastChannel"))
            && is_string (prop e1 "lastProvider")); by simplify_map_eq.
Qed.

Lemma migrate_entry_lastProvider (e : gmap string jsval) (v : string) :
  e !! "lastProvider" = Some (JStr v) →
  is_string (prop e "lastChannel") = false →
  migrate_entry e !! "lastChannel" = Some (JStr v)
  ∧ migrate_entry e !! "lastProvider" = None.
Proof.
  intros Hp Hc. unfold migrate_entry.
  set (e1 := if negb (is_string (prop e "channel")) && is_string (prop e "provider")
             then delete "provider" (<["channel":=prop e "provider"]> e) else e).
  assert (e1 !! "lastProvider" = Some (JStr v) ∧ e1 !! "lastChannel" = e !! "lastChannel")
    as [H1 H2].
  { subst e1. destruct (negb (is_string (prop e "channel")) && is_string (prop e "provider"));
      split; by simplify_map_eq. }
  assert (prop e1 "lastProvider" = JStr v) as -> by (unfold prop; by rewrite H1).
  assert (prop e1 "lastChannel" = prop e "lastChannel") as -> by (unfold prop; by rewrite H2).
  rewrite Hc. cbn [negb andb is_string]. by simplify_map_eq.
Qed.

(** Properties other than the four names of the migration are untouched. *)
Lemma migrate_entry_other (e : gmap string jsval) (p : string) :
  p ≠ "channel" → p ≠ "provider" → p ≠ "lastChannel" → p ≠ "lastProvider" →
  migrate_entry e !! p = e !! p.
Proof.
  intros. unfold migrate_entry.
  repeat case_match; by simplify_map_eq.
Qed.

(** A record without the legacy properties is left as it is. *)
Lemma migrate_entry_current (e : gmap string jsval) :
  e !! "provider" = None → e !! "lastProvider" = None → migrate_entry e = e.
Proof.
  intros H1 H2. unfold migrate_entry, prop. rewrite H1. cbn.
  rewrite andb_false_r, H2. cbn. by rewrite andb_false_r.
Qed.

Lemma disk_store_before_mutator (storePath : string) (wl : World) :
  w_files (before_mutator storePath wl) = w_files wl
  ∧ w_cache (before_mutator storePath wl) = w_cache wl
  ∧ w_locks (before_mutator storePath wl) = w_locks wl
  ∧ w_now (before_mutator storePath wl) = w_now wl
  ∧ w_env (before_mutator storePath wl) = w_env wl.
Proof.
  unfold before_mutator, read_mark. by destruct (w_files wl !! storePath).
Qed.

(** Under the lock the mutator is applied to what is on disk, whatever
    the cache holds. *)
Lemma update_critical_section_eq {T} (storePath : string)
  (mutator : gmap string (gmap string jsval) → M (T * gmap string (gmap string jsval)))
  (wl : World) :
  update_critical_section storePath mutator wl
  = (let* '(result, store') := mutator (disk_store wl storePath) in
     let* _ := saveSessionStoreUnlocked storePath store' in
     ret result) (before_mutator storePath wl).
Proof.
  unfold update_critical_section. unfold bind at 1.
  rewrite loadSessionStore_skipCache. done.
Qed.

Lemma update_critical_section_ok {T} (storePath : string)
  (mutator : gmap string (gmap string jsval) → M (T * gmap string (gmap string jsval)))
  (wl w2 : World) (r : T) (s' : gmap string (gmap string jsval)) :
  mutator (disk_store wl storePath) (before_mutator storePath wl) = (Ok (r, s'), w2) →
  ∃ w3, update_critical_section storePath mutator wl = (Ok r, w3)
    ∧ w_files w3 = <[storePath := File (JSON_stringify s') (w_now w2)]> (w_files w2)
    ∧ w_cache w3 = delete storePath (w_cache w2)
    ∧ w_locks w3 = w_locks w2
    ∧ w_now w3 = w_now w2
    ∧ w_env w3 = w_env w2
    ∧ w_trace w3 = (w_trace w2 ++ [EvStoreWritten storePath])%list.
Proof.
  intros Hmut. rewrite update_critical_section_eq.
  unfold bind at 1. rewrite Hmut.
  destruct (saveSessionStoreUnlocked_spec storePath s' w2)
    as (w3 & Hsave & Hf & Hc & Hl & Hn & He & _ & Ht).
  exists w3. unfold bind, ret. rewrite Hsave. done.
Qed.

Lemma update_critical_section_throw {T} (storePath : string)
  (mutator : gmap string (gmap string jsval) → M (T * gmap string (gmap string jsval)))
  (wl w2 : World) (e : exn) :
  mutator (disk_store wl storePath) (before_mutator storePath wl) = (Throw e, w2) →
  update_critical_section storePath mutator wl = (Throw e, w2).
Proof.
  intros Hmut. rewrite update_critical_section_eq.
  unfold bind at 1. by rewrite Hmut.
Qed.

Lemma disk_store_ext (w w' : World) (storePath : string) :
  w_files w' = w_files w → disk_store w' storePath = disk_store w storePath.
Proof. unfold disk_store. by intros ->. Qed.

Lemma cache_hit_ext (w w' : World) (storePath : string) :
  w_files w' = w_files w → w_cache w' = w_cache w →
  w_now w' = w_now w → w_env w' = w_env w →
  cache_hit w' storePath = cache_hit w storePath.
Proof. unfold cache_hit. by intros -> -> -> ->. Qed.

(** What a load returns depends on the files, the cache, the clock and
    the process settings only. *)
Lemma loadSessionStore_ext (w w' : World) (storePath : string) (skipCache : bool) :
  w_files w' = w_files w → w_cache w' = w_cache w →
  w_now w' = w_now w → w_env w' = w_env w →
  (loadSessionStore storePath skipCache w').1 = (loadSessionStore storePath skipCache w).1.
Proof.
  intros Hf Hc Hn He.
  destruct skipCache.
  { rewrite !loadSessionStore_skipCache. cbn. by rewrite (disk_store_ext w w'). }
  pose proof (cache_hit_ext w w' storePath Hf Hc Hn He) as Hhit.
  destruct (cache_hit w storePath) as [s|] eqn:Hw.
  - rewrite (loadSessionStore_cached _ _ s Hw), (loadSessionStore_cached _ _ s Hhit). done.
  - destruct (loadSessionStore_uncached storePath false w Hw) as (w1 & -> & _).
    destruct (loadSessionStore_uncached storePath false w' Hhit) as (w1' & -> & _).
    cbn. by rewrite (disk_store_ext w w').
Qed.

Lemma entered_frame (storePath : string) (w : World) :
  w_files (entered storePath w) = w_files w
  ∧ w_cache (entered storePath w) = w_cache w
  ∧ w_now (entered storePath w) = w_now w
  ∧ w_env (entered storePath w) = w_env w
  ∧ w_locks (entered storePath w) = <[lock_path storePath := w_now w]> (w_locks w).
Proof. done. Qed.

Lemma released_frame (storePath : string) (w : World) :
  w_files (released storePath w) = w_files w
  ∧ w_cache (released storePath w) = w_cache w
  ∧ w_now (released storePath w) = w_now w
  ∧ w_env (released storePath w) = w_env w
  ∧ w_locks (released storePath w) = delete (lock_path storePath) (w_locks w).
Proof.
  unfold released. destruct (w_locks w !! lock_path storePath) eqn:Hl; cbn.
  - done.
  - repeat split; try done. symmetry. by apply delete_id.
Qed.

(** *** Loading never throws and migrates (C9) *)

(** C9.  [loadSessionStore] returns a store for every path, every option
    and every state of the file system and of the cache: it never throws.
    When the cache is bypassed or agrees with the disk, the store is empty
    if the file is absent or its text does not parse, and for a parsed
    document it is the migrated document: in every record the legacy
    [provider] / [lastProvider] string has moved to [channel] /
    [lastChannel] (when that is not already a string) and the other
    properties are as in the document. *)
Theorem loadSessionStore_never_throws_and_migrates
  (storePath : string) (skipCache : bool) (w : World) :
  ∃ s w',
    loadSessionStore storePath skipCache w = (Ok s, w')
    ∧ (skipCache = true ∨ cache_coherent w storePath = true →
         (w_files w !! storePath = None → s = ∅)
         ∧ (∀ raw t, w_files w !! storePath = Some (File (Unparseable raw) t) → s = ∅)
         ∧ (∀ d t, w_files w !! storePath = Some (File (Document d) t) →
              s = migrate d
              ∧ ∀ k e, d !! k = Some e → ∃ e', s !! k = Some e' ∧ renamed e e')).
Proof.
  assert (∀ s, s = disk_store w storePath →
            (w_files w !! storePath = None → s = ∅)
            ∧ (∀ raw t, w_files w !! storePath = Some (File (Unparseable raw) t) → s = ∅)
            ∧ (∀ d t, w_files w !! storePath = Some (File (Document d) t) →
                 s = migrate d
                 ∧ ∀ k e, d !! k = Some e → ∃ e', s !! k = Some e' ∧ renamed e e'))
    as Hdisk.
  { intros s ->. unfold disk_store. repeat split.
    - by intros ->.
    - by intros raw t ->.
    - by rewrite H.
    - rewrite H. intros k e Hk. exists (migrate_entry e). split.
      + unfold migrate. by rewrite lookup_fmap, Hk.
      + split; [|split].
        * intros v. apply migrate_entry_provider.
        * intros v. apply migrate_entry_lastProvider.
        * apply migrate_entry_other. }
  destruct skipCache.
  { rewrite loadSessionStore_skipCache. eexists _, _. split; [done|].
    intros _. by apply Hdisk. }
  destruct (cache_hit w storePath) as [s|] eqn:Hhit.
  - rewrite (loadSessionStore_cached _ _ s Hhit). eexists _, _. split; [done|].
    intros [|Hco]; [done|]. apply Hdisk.
    unfold cache_coherent in Hco. rewrite Hhit in Hco.
    by apply bool_decide_eq_true in Hco.
  - destruct (loadSessionStore_uncached storePath false w Hhit) as (w1 & -> & _).
    eexists _, _. split; [done|]. intros _. by apply Hdisk.
Qed.

(** *** An update with a free lock *)

Lemma updateSessionStore_free {T} (fuel : nat) (storePath : string)
  (mutator : gmap string (gmap string jsval) → M (T * gmap string (gmap string jsval)))
  (w : World) :
  w_locks w !! lock_path storePath = None →
  updateSessionStore (S fuel) storePath mutator w
  = finish storePath (update_critical_section storePath mutator (entered storePath w)).
Proof. intros Hfree. unfold updateSessionStore. by apply withSessionStoreLock_free. Qed.

(** The state an update leaves behind when its mutator returns. *)
Lemma updateSessionStore_returns {T} (fuel : nat) (storePath : string)
  (mutator : gmap string (gmap string jsval) → M (T * gmap string (gmap string jsval)))
  (w w2 : World) (r : T) (s' : gmap string (gmap string jsval)) :
  w_locks w !! lock_path storePath = None →
  mutator (disk_store w storePath) (before_mutator storePath (entered storePath w))
  = (Ok (r, s'), w2) →
  ∃ w3, updateSessionStore (S fuel) storePath mutator w = (Ok r, w3)
    ∧ w_files w3 = <[storePath := File (JSON_stringify s') (w_now w2)]> (w_files w2)
    ∧ w_cache w3 = delete storePath (w_cache w2)
    ∧ w_locks w3 = delete (lock_path storePath) (w_locks w2)
    ∧ w_now w3 = w_now w2
    ∧ w_env w3 = w_env w2.
Proof.
  intros Hfree Hmut. rewrite updateSessionStore_free by done.
  destruct (update_critical_section_ok storePath mutator (entered storePath w) w2 r s')
    as (w3 & -> & Hf & Hc & Hl & Hn & He & _); [done|].
  cbn [finish]. eexists. split; [done|].
  destruct (released_frame storePath w3) as (-> & -> & -> & -> & ->).
  by rewrite Hl.
Qed.

Lemma json_store_id (d : gmap string (gmap string jsval)) :
  json_document d → json_store d = d.
Proof.
  intros Hd. apply map_eq. intros k. unfold json_store. rewrite lookup_fmap.
  destruct (d !! k) as [e|] eqn:Hk; [|done]. cbn. f_equal.
  unfold json_entry. apply map_filter_id. intros p v Hp. cbn.
  by apply (map_Forall_lookup_1 _ _ _ _ (map_Forall_lookup_1 _ _ _ _ Hd Hk) Hp).
Qed.

Lemma migrate_id (d : gmap string (gmap string jsval)) :
  current_schema d → migrate d = d.
Proof.
  intros Hd. apply map_eq. intros k. unfold migrate. rewrite lookup_fmap.
  destruct (d !! k) as [e|] eqn:Hk; [|done]. cbn. f_equal.
  destruct (map_Forall_lookup_1 _ _ _ _ Hd Hk). by apply migrate_entry_current.
Qed.

(** Loading after an update that wrote [s'] returns the migrated JSON
    image of [s']: the cache entry of the path is gone, so the load reads
    the file. *)
Lemma load_after_write (storePath : string) (skipCache : bool) (w3 : World)
  (s' : gmap string (gmap string jsval)) (t : Z) :
  w_files w3 !! storePath = Some (File (JSON_stringify s') t) →
  w_cache w3 !! storePath = None →
  ∃ w4, loadSessionStore storePath skipCache w3 = (Ok (migrate (json_store s')), w4).
Proof.
  intros Hf Hc.
  assert (cache_hit w3 storePath = None) as Hhit.
  { unfold cache_hit. rewrite Hc. by destruct (env_cacheEnabled (w_env w3)). }
  destruct (loadSessionStore_uncached storePath skipCache w3 Hhit) as (w4 & -> & _).
  exists w4. unfold disk_store. by rewrite Hf.
Qed.

(** C3.  Store round trip.  Let a valid map of session records [d] be
    persisted at [storePath] and let no lock marker be in the way.  The
    locked update with the identity mutator returns, and a load of the
    path afterwards returns exactly [d]. *)
Theorem store_round_trip (fuel : nat) (storePath : string)
  (d : gmap string (gmap string jsval)) (t : Z) (w : World) :
  w_files w !! storePath = Some (File (Document d) t) →
  json_document d →
  current_schema d →
  w_locks w !! lock_path storePath = None →
  ∃ w1 w2,
    updateSessionStore (S fuel) storePath (λ store, ret (tt, store)) w = (Ok tt, w1)
    ∧ loadSessionStore storePath false w1 = (Ok d, w2).
Proof.
  intros Hfile Hjson Hschema Hfree.
  assert (disk_store w storePath = d) as Hdisk.
  { unfold disk_store. rewrite Hfile. by apply migrate_id. }
  destruct (updateSessionStore_returns fuel storePath (λ store, ret (tt, store)) w
              (before_mutator storePath (entered storePath w)) tt d Hfree)
    as (w1 & Hupd & Hf & Hc & _).
  { by rewrite Hdisk. }
  destruct (load_after_write storePath false w1 d
              (w_now (before_mutator storePath (entered storePath w))))
    as (w2 & Hload).
  { rewrite Hf. apply lookup_insert_eq. }
  { rewrite Hc. apply lookup_delete_eq. }
  exists w1, w2. split; [done|].
  by rewrite Hload, json_store_id, migrate_id.
Qed.



(** *** A throwing mutator (C10) *)

(** C10.  Let no lock marker be in the way and let the mutator throw [e]
    when it is run on the store read from disk while the marker of this
    call is in place; nothing is asked of the mutator in a world without
    that marker.  Then the update throws [e], so the mutator was run
    under the marker.  The marker is created before the store is read
    and the mutator is called, and it is removed after the mutator has
    thrown: the trace is the acquisition, the read of the file (if there
    is one), the call of the mutator and the release, in this order, with
    no write of the store.  The store file, the cache and the clock are
    as before, so a load returns what it returned before the failed
    update; the lock markers are those of before, none for this path; and
    an update of the same path with a mutator that returns succeeds and
    persists the store that mutator left. *)
Theorem update_with_throwing_mutator_is_atomic {T} (fuel : nat) (storePath : string)
  (mutator : gmap string (gmap string jsval) → M (T * gmap string (gmap string jsval)))
  (e : exn) (w : World) :
  w_locks w !! lock_path storePath = None →
  (∀ w0, w_locks w0 !! lock_path storePath = Some (w_now w) →
         mutator (disk_store w storePath) w0 = (Throw e, w0)) →
  ∃ w',
    updateSessionStore (S fuel) storePath mutator w = (Throw e, w')
    ∧ w_trace w'
      = (w_trace w ++ [EvLockAcquired (lock_path storePath)]
           ++ match w_files w !! storePath with
              | Some _ => [EvDiskRead storePath]
              | None => []
              end
           ++ [EvMutator storePath; EvLockReleased (lock_path storePath)])%list
    ∧ w_files w' = w_files w
    ∧ (∀ skipCache, (loadSessionStore storePath skipCache w').1
                    = (loadSessionStore storePath skipCache w).1)
    ∧ w_locks w' = w_locks w
    ∧ w_locks w' !! lock_path storePath = None
    ∧ ∀ (mutator2 : gmap string (gmap string jsval)
                    → M (T * gmap string (gmap string jsval)))
        (r : T) (s' : gmap string (gmap string jsval)),
        (∀ w0, mutator2 (disk_store w storePath) w0 = (Ok (r, s'), w0)) →
        ∃ w'', updateSessionStore (S fuel) storePath mutator2 w' = (Ok r, w'')
               ∧ f_content <$> w_files w'' !! storePath = Some (JSON_stringify s').
Proof.
  intros Hfree Hthrow.
  rewrite updateSessionStore_free by done.
  assert (w_locks (before_mutator storePath (entered storePath w)) !! lock_path storePath
          = Some (w_now w)) as Hheld.
  { destruct (disk_store_before_mutator storePath (entered storePath w))
      as (_ & _ & -> & _).
    destruct (entered_frame storePath w) as (_ & _ & _ & _ & ->).
    apply lookup_insert_eq. }
  rewrite (update_critical_section_throw storePath mutator (entered storePath w)
             (before_mutator storePath (entered storePath w)) e)
    by (rewrite (disk_store_ext w) by done; by apply Hthrow).
  cbn [finish].
  set (w' := released storePath (before_mutator storePath (entered storePath w))).
  destruct (released_frame storePath (before_mutator storePath (entered storePath w)))
    as (Hf & Hc & Hn & He & Hl). fold w' in Hf, Hc, Hn, He, Hl.
  destruct (disk_store_before_mutator storePath (entered storePath w))
    as (Hf1 & Hc1 & Hl1 & Hn1 & He1).
  rewrite Hf1 in Hf. rewrite Hc1 in Hc. rewrite Hn1 in Hn. rewrite He1 in He.
  rewrite Hl1 in Hl.
  destruct (entered_frame storePath w) as (Hf2 & Hc2 & Hn2 & He2 & Hl2).
  rewrite Hf2 in Hf. rewrite Hc2 in Hc. rewrite Hn2 in Hn. rewrite He2 in He.
  assert (w_locks w' !! lock_path storePath = None) as Hfree'.
  { rewrite Hl. apply lookup_delete_eq. }
  exists w'. split_and!; try done.
  - subst w'. unfold released, before_mutator, read_mark, entered, acquired. cbn.
    destruct (w_files w !! storePath); cbn; rewrite lookup_insert_eq; cbn;
      by rewrite <- !app_assoc.
  - intros skipCache. by apply loadSessionStore_ext.
  - rewrite Hl, Hl2. by apply delete_insert_id.
  - intros mutator2 r s' Hok.
    destruct (updateSessionStore_returns fuel storePath mutator2 w'
                (before_mutator storePath (entered storePath w')) r s' Hfree')
      as (w'' & Hupd & Hf'' & _).
    { rewrite (disk_store_ext w w') by done. apply Hok. }
    exists w''. split; [done|]. rewrite Hf''. by rewrite lookup_insert_eq.
Qed.


(** *** Stale markers and the total wait (C4) *)

Lemma finish_critical_section_ok {T} (storePath : string)
  (mutator : gmap string (gmap string jsval) → M (T * gmap string (gmap string jsval)))
  (wl w2 : World) (r : T) (s' : gmap string (gmap string jsval)) :
  mutator (disk_store wl storePath) (before_mutator storePath wl) = (Ok (r, s'), w2) →
  ∃ w3, finish storePath (update_critical_section storePath mutator wl) = (Ok r, w3)
    ∧ w_files w3 = <[storePath := File (JSON_stringify s') (w_now w2)]> (w_files w2)
    ∧ w_locks w3 = delete (lock_path storePath) (w_locks w2)
    ∧ w_now w3 = w_now w2.
Proof.
  intros Hmut.
  destruct (update_critical_section_ok storePath mutator wl w2 r s')
    as (w3 & -> & Hf & Hc & Hl & Hn & He & _); [done|].
  cbn [finish]. eexists. split; [done|].
  destruct (released_frame storePath w3) as (-> & _ & -> & _ & ->).
  by rewrite Hl.
Qed.

(** One attempt that finds a marker: the timeout test, then the
    staleness test, then the poll. *)
Lemma acquire_attempt_held (storePath : string) (timeout poll stale startedAt mtime : Z)
  (continue : M unit) (w : World) :
  dirname storePath ∈ w_dirs w →
  w_locks w !! lock_path storePath = Some mtime →
  acquire_attempt storePath timeout poll stale startedAt continue w
  = if timeout <? w_now w - startedAt then
      (Throw (Error ("timeout acquiring session store lock: " +:+ lock_path storePath)), w)
    else if stale <? w_now w - mtime then continue (evicted storePath w)
    else continue (put_now (λ t, t + poll) w).
Proof.
  intros Hdir Hheld. unfold acquire_attempt.
  unfold try_catch at 1. unfold open_wx.
  rewrite dirname_lock_path, Hheld.
  destruct (decide (dirname storePath ∈ w_dirs w)) as [_|]; [|done].
  cbn [err_code]. rewrite decide_False by done.
  rewrite decide_False by (intros H; by apply H).
  unfold bind at 1. unfold Date_now, get.
  destruct (timeout <? w_now w - startedAt); [done|].
  unfold bind at 1. unfold try_catch at 1. unfold bind at 1.
  unfold stat_mtimeMs. rewrite Hheld.
  destruct (stale <? w_now w - mtime).
  - unfold bind at 1. unfold unlink. rewrite Hheld. done.
  - done.
Qed.

(** The loop in front of a marker that nobody removes.  Let [k] polls
    pass at which the wait is not over and the marker is not stale.  At
    the next attempt the loop throws if the wait is over, whatever the
    age of the marker; otherwise, if the marker is stale by then, it
    unlinks it and creates its own. *)
Lemma acquire_loop_first_poll (k : nat) :
  ∀ (fuel : nat) (storePath : string) (timeout poll stale startedAt mtime : Z)
    (w : World),
  (S k < fuel)%nat →
  dirname storePath ∈ w_dirs w →
  w_locks w !! lock_path storePath = Some mtime →
  (∀ j : nat, (j < k)%nat →
     w_now w + Z.of_nat j * poll - startedAt <= timeout
     ∧ w_now w + Z.of_nat j * poll - mtime <= stale) →
  let wk := put_now (λ _, w_now w + Z.of_nat k * poll) w in
  (timeout < w_now wk - startedAt →
     acquire_loop fuel storePath timeout poll stale startedAt w
     = (Throw (Error ("timeout acquiring session store lock: "
                      +:+ lock_path storePath)), wk))
  ∧ (w_now wk - startedAt <= timeout → stale < w_now wk - mtime →
     acquire_loop fuel storePath timeout poll stale startedAt w
     = (Ok tt, acquired storePath (evicted storePath wk))).
Proof.
  induction k as [|k IH]; intros fuel storePath timeout poll stale startedAt mtime w
    Hfuel Hdir Hheld Hquiet wk;
    (destruct fuel as [|fuel]; [lia|]);
    cbn [acquire_loop]; rewrite (acquire_attempt_held _ _ _ _ _ mtime) by done.
  - assert (wk = w) as -> by (apply put_now_same; lia).
    split.
    + intros Hover. by rewrite (proj2 (Z.ltb_lt _ _) Hover).
    + intros Hunder Hstale.
      rewrite (proj2 (Z.ltb_ge _ _) Hunder), (proj2 (Z.ltb_lt _ _) Hstale).
      destruct fuel as [|fuel]; [lia|].
      apply acquire_loop_free; [done|]. cbn. apply lookup_delete_eq.
  - destruct (Hquiet 0%nat ltac:(lia)) as [Hunder0 Hfresh0].
    assert (w_now w - startedAt <= timeout) as Hunder by lia.
    assert (w_now w - mtime <= stale) as Hfresh by lia.
    rewrite (proj2 (Z.ltb_ge _ _) Hunder), (proj2 (Z.ltb_ge _ _) Hfresh).
    destruct (IH fuel storePath timeout poll stale startedAt mtime
                (put_now (λ t, t + poll) w)) as [Hthrow Hevict];
      [lia|done|done| |].
    { intros j Hj. destruct (Hquiet (S j) ltac:(lia)) as [H1 H2]. cbn. lia. }
    assert (put_now (λ _, w_now (put_now (λ t, t + poll) w) + Z.of_nat k * poll)
              (put_now (λ t, t + poll) w) = wk) as Hwk.
    { subst wk. unfold put_now. cbn. f_equal. lia. }
    rewrite Hwk in Hthrow, Hevict. by split.
Qed.

(** C4, as the code has it.  Let a lock marker that nobody removes be in
    place when a locked update starts, with the default options (poll
    every 25 ms, total wait 10 000 ms, staleness threshold 30 000 ms).
    The clock of the model advances by the 25 ms of each poll and not
    otherwise: [elapsed k] is the time since the start at poll [k] and
    [age k] the age of the marker then.  The file system of the model
    has no permissions: [stat] and [unlink] of the marker succeed.
    Every attempt that finds the marker first tests the wait
    ([now - startedAt > timeoutMs]) and only then the age of the marker.
    So there is a first poll [k] that decides, all polls before it
    having found the wait not over and the marker not stale, and it is
    one of two.
    - At poll [k] the wait is not over and the marker is stale (it was
      stale from the start, or it has become stale while the update
      waited): the marker is unlinked, the update takes the lock, and an
      update whose mutator returns succeeds, persists the mutator's store
      and leaves no marker.
    - At poll [k] the wait is over: the acquisition throws the timeout
      error, also when the marker has become stale by then; more than
      10 000 ms have passed; the store file and the marker are
      untouched. *)
Theorem stale_lock_evicted_or_timeout_after_wait {T} (fuel : nat) (storePath : string)
  (mutator : gmap string (gmap string jsval) → M (T * gmap string (gmap string jsval)))
  (mtime : Z) (w : World) :
  let elapsed (k : nat) := 25 * Z.of_nat k in
  let age (k : nat) := w_now w + elapsed k - mtime in
  w_locks w !! lock_path storePath = Some mtime →
  (402 < fuel)%nat →
  ∃ k : nat,
    (∀ j : nat, (j < k)%nat → elapsed j <= 10000 ∧ age j <= 30000)
    ∧ ((elapsed k <= 10000 ∧ 30000 < age k
        ∧ ∀ r s', (∀ w0, mutator (disk_store w storePath) w0 = (Ok (r, s'), w0)) →
            ∃ w', updateSessionStore fuel storePath mutator w = (Ok r, w')
                  ∧ f_content <$> w_files w' !! storePath = Some (JSON_stringify s')
                  ∧ w_locks w' = delete (lock_path storePath) (w_locks w)
                  ∧ w_now w' = w_now w + elapsed k)
       ∨ (10000 < elapsed k
          ∧ ∃ w', updateSessionStore fuel storePath mutator w
                  = (Throw (Error ("timeout acquiring session store lock: "
                                   +:+ lock_path storePath)), w')
                  ∧ 10000 < w_now w' - w_now w
                  ∧ w_files w' = w_files w
                  ∧ w_locks w' = w_locks w)).
Proof.
  intros elapsed age Hheld Hfuel. subst elapsed. cbv beta in age.
  set (w0 := put_dirs (λ d, {[dirname storePath]} ∪ d) w).
  assert (∀ k : nat, (k ≤ 401)%nat →
            (∀ j : nat, (j < k)%nat → (j ≤ 400)%nat ∧ age j <= 30000) →
            let wk := put_now (λ _, w_now w + Z.of_nat k * 25) w0 in
            (10000 < Z.of_nat k * 25 →
               updateSessionStore fuel storePath mutator w
               = (Throw (Error ("timeout acquiring session store lock: "
                                +:+ lock_path storePath)), wk))
            ∧ (Z.of_nat k * 25 <= 10000 → 30000 < age k →
               updateSessionStore fuel storePath mutator w
               = finish storePath
                   (update_critical_section storePath mutator
                      (acquired storePath (evicted storePath wk))))) as Hloop.
  { intros k Hk Hquiet wk.
    destruct (acquire_loop_first_poll k fuel storePath 10000 25 30000 (w_now w) mtime w0)
      as [Hthrow Hevict]; [lia|apply dirname_in_after_mkdir|done| |].
    { intros j Hj. destruct (Hquiet j Hj) as [Hj' Hage]. subst age. cbn in *. lia. }
    change (put_now (λ _, w_now w0 + Z.of_nat k * 25) w0) with wk in Hthrow, Hevict.
    assert (updateSessionStore fuel storePath mutator w
            = match acquire_loop fuel storePath 10000 25 30000 (w_now w) w0 with
              | (Ok _, w1) => finish storePath (update_critical_section storePath mutator w1)
              | (Throw e, w1) => (Throw e, w1)
              | (Diverge, w1) => (Diverge, w1)
              end) as Hupd.
    { unfold updateSessionStore, withSessionStoreLock.
      unfold bind at 1. unfold Date_now, get.
      unfold bind at 1. unfold mkdir, modify.
      unfold bind at 1. cbn [default timeoutMs pollIntervalMs staleMs no_lock_options].
      fold w0.
      destruct (acquire_loop _ _ _ _ _ _ _) as [[[]|e|] w1]; try done.
      apply try_finally_release. }
    rewrite Hupd. split.
    - intros Hover. by rewrite Hthrow by (cbn; lia).
    - intros Hunder Hstale. by rewrite Hevict by (subst age; cbn in *; lia). }
  assert (∀ k : nat, (k ≤ 400)%nat →
            (∀ j : nat, (j < k)%nat → age j <= 30000) → 30000 < age k →
            ∀ r s', (∀ w1, mutator (disk_store w storePath) w1 = (Ok (r, s'), w1)) →
              ∃ w', updateSessionStore fuel storePath mutator w = (Ok r, w')
                    ∧ f_content <$> w_files w' !! storePath = Some (JSON_stringify s')
                    ∧ w_locks w' = delete (lock_path storePath) (w_locks w)
                    ∧ w_now w' = w_now w + 25 * Z.of_nat k) as Hevicted.
  { intros k Hk Hquiet Hstale r s' Hok.
    destruct (Hloop k ltac:(lia)) as [_ Hrun].
    { intros j Hj. split; [lia|by apply Hquiet]. }
    rewrite Hrun by (first [lia|done]).
    set (wl := acquired storePath
                 (evicted storePath (put_now (λ _, w_now w + Z.of_nat k * 25) w0))).
    destruct (finish_critical_section_ok storePath mutator wl
                (before_mutator storePath wl) r s')
      as (w3 & -> & Hf & Hl & Hn).
    { rewrite (disk_store_ext w wl) by done. apply Hok. }
    exists w3. split; [done|]. rewrite Hf, Hl, Hn.
    destruct (disk_store_before_mutator storePath wl) as (_ & _ & -> & -> & _).
    split_and!.
    - by rewrite lookup_insert_eq.
    - cbn. by rewrite delete_insert_eq, delete_delete_eq.
    - cbn. lia. }
  destruct (Z_lt_le_dec 30000 (age 0%nat)) as [Hstale0|Hfresh0].
  { exists 0%nat. split; [intros j Hj; lia|]. left.
    split; [lia|]. split; [done|]. apply Hevicted; [lia|intros j Hj; lia|done]. }
  destruct (Z_le_gt_dec (age 400%nat) 30000) as [Hfresh|Hturns].
  { exists 401%nat.
    assert (∀ j : nat, (j < 401)%nat → age j <= 30000) as Hquiet
      by (intros j Hj; subst age; cbn in *; lia).
    split; [intros j Hj; split; [lia|by apply Hquiet]|]. right. split; [lia|].
    destruct (Hloop 401%nat ltac:(lia)) as [Hrun _].
    { intros j Hj. split; [lia|by apply Hquiet]. }
    rewrite Hrun by lia. eexists. split; [done|]. cbn. split_and!; [lia|done|done]. }
  set (q := (30000 - (w_now w - mtime)) / 25).
  assert (25 * q <= 30000 - (w_now w - mtime) < 25 * (q + 1)) as Hq.
  { subst q. pose proof (Z.mul_div_le (30000 - (w_now w - mtime)) 25 ltac:(lia)).
    pose proof (Z.mul_succ_div_gt (30000 - (w_now w - mtime)) 25 ltac:(lia)). lia. }
  assert (0 <= q < 400) as Hrange by (subst age; cbn in *; lia).
  exists (Z.to_nat (q + 1)).
  split; [intros j Hj; subst age; cbn; lia|]. left.
  split; [lia|]. split; [subst age; cbn; lia|].
  apply Hevicted; [lia| |subst age; cbn; lia].
  intros j Hj. subst age. cbn. lia.
Qed.


(** *** The properties at concrete states *)

Import StoreSamples LockSamples.

Lemma store_round_trip_witness :
  ∃ w1 w2,
    updateSessionStore 1 sample_path (λ store, ret (tt, store)) sample_world = (Ok tt, w1)
    ∧ loadSessionStore sample_path false w1 = (Ok sample_store, w2).
Proof.
  apply (store_round_trip 0 sample_path sample_store 900 sample_world).
  - vm_compute. reflexivity.
  - apply (bool_decide_unpack _). vm_compute. exact I.
  - apply (bool_decide_unpack _). vm_compute. exact I.
  - vm_compute. reflexivity.
Defined.


Lemma loadSessionStore_never_throws_and_migrates_witness :
  (∃ w', loadSessionStore sample_path false legacy_world
         = (Ok (<["agent:main:main" := main_record]>
                  (<["agent:main:tg" := migrated_record]> ∅)), w'))
  ∧ (∃ w', loadSessionStore sample_path false corrupt_world = (Ok ∅, w'))
  ∧ (∃ w', loadSessionStore "/nowhere/sessions.json" false sample_world = (Ok ∅, w')).
Proof.
  split; [|split].
  - destruct (loadSessionStore_never_throws_and_migrates sample_path false legacy_world)
      as (s & w' & Hload & Hspec).
    destruct Hspec as (_ & _ & Hdoc); [right; vm_compute; reflexivity|].
    destruct (Hdoc legacy_store 900) as [-> _]; [vm_compute; reflexivity|].
    exists w'. rewrite Hload. do 2 f_equal.
  - destruct (loadSessionStore_never_throws_and_migrates sample_path false corrupt_world)
      as (s & w' & Hload & Hspec).
    destruct Hspec as (_ & Hbad & _); [right; vm_compute; reflexivity|].
    rewrite (Hbad "{ agent:main" 900) in Hload by (vm_compute; reflexivity).
    exists w'. exact Hload.
  - destruct (loadSessionStore_never_throws_and_migrates "/nowhere/sessions.json" false
                sample_world) as (s & w' & Hload & Hspec).
    destruct Hspec as (Habsent & _); [right; vm_compute; reflexivity|].
    rewrite Habsent in Hload by (vm_compute; reflexivity).
    exists w'. exact Hload.
Defined.

Lemma update_with_throwing_mutator_is_atomic_witness :
  ∃ w', updateSessionStore 1 sample_path throwing_mutator sample_world
        = (Throw (Error "mutator failed"), w')
        ∧ w_trace w'
          = [EvLockAcquired (lock_path sample_path); EvDiskRead sample_path;
             EvMutator sample_path; EvLockReleased (lock_path sample_path)]
        ∧ w_files w' = w_files sample_world
        ∧ w_locks w' !! lock_path sample_path = None
        ∧ ∃ w'', updateSessionStore 1 sample_path touch_mutator w' = (Ok tt, w'').
Proof.
  destruct (update_with_throwing_mutator_is_atomic 0 sample_path throwing_mutator
              (Error "mutator failed") sample_world)
    as (w' & Hupd & Htrace & Hfiles & _ & _ & Hlock & Hnext).
  - vm_compute. reflexivity.
  - intros w0 _. reflexivity.
  - exists w'. split; [exact Hupd|]. split; [exact Htrace|].
    split; [exact Hfiles|]. split; [exact Hlock|].
    destruct (Hnext touch_mutator tt
                (<["agent:main:main" := <["updatedAt" := JNum 5000]> main_record]>
                   (disk_store sample_world sample_path)))
      as (w'' & Hok & _).
    + intros w0. reflexivity.
    + exists w''. exact Hok.
Defined.

(** A marker left 40 seconds ago is evicted at once; a marker left 25
    seconds ago is evicted at the first poll after it has turned 30
    seconds old, 5 025 ms into the wait; a marker created just now and a
    marker left 19 990 ms ago both make the acquisition time out, the
    second although it is stale by then. *)
Lemma stale_lock_evicted_or_timeout_after_wait_witness :
  (∃ w', updateSessionStore 403 sample_path identity_mutator (marker_world 40000)
         = (Ok tt, w')
         ∧ w_locks w' !! lock_path sample_path = None
         ∧ w_now w' = w_now (marker_world 40000))
  ∧ (∃ w', updateSessionStore 403 sample_path identity_mutator (marker_world 25000)
           = (Ok tt, w')
           ∧ w_locks w' !! lock_path sample_path = None
           ∧ w_now w' = w_now (marker_world 25000) + 5025)
  ∧ (∃ w', updateSessionStore 403 sample_path identity_mutator (marker_world 0)
           = (Throw (Error ("timeout acquiring session store lock: "
                            +:+ lock_path sample_path)), w')
           ∧ 10000 < w_now w' - w_now (marker_world 0))
  ∧ (∃ w', updateSessionStore 403 sample_path identity_mutator (marker_world 19990)
           = (Throw (Error ("timeout acquiring session store lock: "
                            +:+ lock_path sample_path)), w')
           ∧ w_locks w' = w_locks (marker_world 19990)).
Proof.
  assert (∀ age : Z,
            w_locks (marker_world age) !! lock_path sample_path = Some (5000 - age))
    as Hheld by (intros age; apply lookup_insert_eq).
  split_and!.
  - destruct (stale_lock_evicted_or_timeout_after_wait 403 sample_path identity_mutator
                (5000 - 40000) (marker_world 40000) (Hheld 40000) ltac:(lia))
      as (k & Hquiet & [(Hk & Hstale & Hrun)|(Hover & _)]).
    + assert (k = 0%nat) as ->.
      { destruct k as [|k]; [done|]. destruct (Hquiet 0%nat ltac:(lia)) as [_ Hage].
        cbn in Hage. lia. }
      destruct (Hrun tt (disk_store (marker_world 40000) sample_path))
        as (w' & Hupd & _ & Hlock & Hnow); [intros w0; reflexivity|].
      exists w'. split; [exact Hupd|]. split; [|rewrite Hnow; cbn; lia].
      rewrite Hlock. apply lookup_delete_eq.
    + destruct (Hquiet 0%nat ltac:(lia)) as [_ Hage]. cbn in Hage. lia.
  - destruct (stale_lock_evicted_or_timeout_after_wait 403 sample_path identity_mutator
                (5000 - 25000) (marker_world 25000) (Hheld 25000) ltac:(lia))
      as (k & Hquiet & [(Hk & Hstale & Hrun)|(Hover & _)]).
    + assert (k = 201%nat) as ->.
      { cbn in Hstale. destruct (decide (k ≤ 201)%nat) as [Hle|Hgt]; [lia|].
        destruct (Hquiet 201%nat ltac:(lia)) as [_ Hage]. cbn in Hage. lia. }
      destruct (Hrun tt (disk_store (marker_world 25000) sample_path))
        as (w' & Hupd & _ & Hlock & Hnow); [intros w0; reflexivity|].
      exists w'. split; [exact Hupd|]. split; [|rewrite Hnow; cbn; lia].
      rewrite Hlock. apply lookup_delete_eq.
    + destruct (Hquiet 400%nat ltac:(lia)) as [_ Hage]. cbn in Hage. lia.
  - destruct (stale_lock_evicted_or_timeout_after_wait 403 sample_path identity_mutator
                (5000 - 0) (marker_world 0) (Hheld 0) ltac:(lia))
      as (k & Hquiet & [(Hk & Hstale & _)|(Hover & w' & Hupd & Hlate & _)]).
    + cbn in Hstale. lia.
    + exists w'. by split.
  - destruct (stale_lock_evicted_or_timeout_after_wait 403 sample_path identity_mutator
                (5000 - 19990) (marker_world 19990) (Hheld 19990) ltac:(lia))
      as (k & Hquiet & [(Hk & Hstale & _)|(Hover & w' & Hupd & _ & _ & Hlocks)]).
    + cbn in Hstale. lia.
    + exists w'. by split.
Defined.

(** C4 as stated fails on the length of the wait.  With a marker that was
    created at the moment the update starts and that nobody removes, the
    acquisition gives up 10 025 ms after it started: that is not within
    single-digit seconds (less than 10 000 ms). *)
Lemma lock_timeout_exceeds_single_digit_seconds :
  let r := updateSessionStore 500 sample_path identity_mutator held_lock_world in
  r.1 = Throw (Error "timeout acquiring session store lock: /state/agents/main/sessions.json.lock")
  ∧ w_now r.2 - w_now held_lock_world = 10025
  ∧ ¬ (w_now r.2 - w_now held_lock_world < 10 * 1000).
Proof.
  assert (updateSessionStore 500 sample_path identity_mutator held_lock_world
          = (Throw (Error ("timeout acquiring session store lock: "
                           +:+ lock_path sample_path)),
             put_now (λ _, w_now held_lock_world + Z.of_nat 401 * 25)
               (put_dirs (λ d, {[dirname sample_path]} ∪ d) held_lock_world))) as Hrun.
  { unfold updateSessionStore.
    apply (withSessionStoreLock_timeout 401 500 sample_path _ no_lock_options 5000);
      cbn; try done; try lia. }
  cbv zeta. rewrite Hrun. cbn. repeat split; lia.
Qed.


(** *** Reading under the lock (C1) *)

(** [updateSessionStore] does what C1 says: with the lock taken, the
    mutator is applied to the store read from disk, whatever the cache
    holds, and the trace shows the lock, then the read, then the mutator. *)
Lemma updateSessionStore_reads_disk_under_lock {T} (fuel : nat) (storePath : string)
  (mutator : gmap string (gmap string jsval) → M (T * gmap string (gmap string jsval)))
  (w : World) :
  w_locks w !! lock_path storePath = None →
  let wm := before_mutator storePath (entered storePath w) in
  updateSessionStore (S fuel) storePath mutator w
  = finish storePath
      ((let* '(result, store') := mutator (disk_store w storePath) in
        let* _ := saveSessionStoreUnlocked storePath store' in
        ret result) wm)
  ∧ w_trace wm
    = (w_trace w ++ [EvLockAcquired (lock_path storePath)]
         ++ match w_files w !! storePath with
            | Some _ => [EvDiskRead storePath]
            | None => []
            end
         ++ [EvMutator storePath])%list.
Proof.
  intros Hfree wm. split.
  - rewrite updateSessionStore_free by done.
    rewrite update_critical_section_eq.
    by rewrite (disk_store_ext w (entered storePath w)).
  - subst wm. unfold before_mutator, read_mark, entered, acquired. cbn.
    destruct (w_files w !! storePath); cbn; by rewrite <- !app_assoc.
Qed.

(** C1 fails for [updateSessionStoreEntry] and [updateLastRoute]: they
    take the lock but then call [loadSessionStore(storePath)] without
    [skipCache].  In [racing_world] the cache answers with the store as it
    was before another process added [thread_record]; the entry update
    merges into that stale copy and writes it back, and the concurrent
    writer's record is gone from the file.  [updateSessionStore], run on
    the same state, reads the file and keeps the record. *)
Theorem updateSessionStoreEntry_reads_through_cache :
  let lp := lock_path sample_path in
  let by_entry :=
    (updateSessionStoreEntry mergeSessionEntry_model 1 sample_path "agent:main:main"
       touch_update racing_world).2 in
  let by_route :=
    (updateLastRoute mergeSessionEntry_model 1 sample_path "agent:main:main"
       (JStr "slack") (Some "C123") None racing_world).2 in
  let by_update :=
    (updateSessionStore 1 sample_path touch_mutator racing_world).2 in
  disk_store racing_world sample_path !! thread_key = Some thread_record
  ∧ w_trace by_entry
    = [EvLockAcquired lp; EvCacheHit sample_path; EvMutator sample_path;
       EvStoreWritten sample_path; EvLockReleased lp]
  ∧ disk_store by_entry sample_path !! thread_key = None
  ∧ w_trace by_route
    = [EvLockAcquired lp; EvCacheHit sample_path;
       EvStoreWritten sample_path; EvLockReleased lp]
  ∧ disk_store by_route sample_path !! thread_key = None
  ∧ w_trace by_update
    = [EvLockAcquired lp; EvDiskRead sample_path; EvMutator sample_path;
       EvStoreWritten sample_path; EvLockReleased lp]
  ∧ disk_store by_update sample_path !! thread_key = Some thread_record.
Proof.
  cbv zeta. vm_conj.
Qed.


(** *** Facts used by the callers of the store *)

(** A load returns a store and touches nothing but the cache and the
    trace. *)
Lemma loadSessionStore_frame (storePath : string) (skipCache : bool) (w : World) :
  ∃ s w', loadSessionStore storePath skipCache w = (Ok s, w')
    ∧ w_files w' = w_files w ∧ w_locks w' = w_locks w
    ∧ w_now w' = w_now w ∧ w_env w' = w_env w
    ∧ w_entropy w' = w_entropy w ∧ w_drawn w' = w_drawn w.
Proof.
  destruct skipCache.
  { rewrite loadSessionStore_skipCache. eexists _, _. split; [done|].
    unfold read_mark. by destruct (w_files w !! storePath). }
  destruct (cache_hit w storePath) as [s|] eqn:Hhit.
  - rewrite (loadSessionStore_cached _ _ s Hhit). by eexists _, _.
  - revert Hhit.
    unfold cache_hit, loadSessionStore, disk_store, readFileSync, JSON5_parse.
    io_unfold. cbn.
    destruct (env_cacheEnabled (w_env w)) eqn:Hen; cbn;
      [destruct (w_cache w !! storePath) as [c|] eqn:Hc; cbn;
       [destruct (w_now w - c_loadedAt c <=? env_ttlMs (w_env w)); cbn;
        [destruct (decide ((f_mtimeMs <$> w_files w !! storePath) = c_mtimeMs c));
         [done|]|]|]|];
      intros _; cbn;
      destruct (w_files w !! storePath) as [[[raw|v|d] t]|] eqn:Hfile; cbn;
      rewrite ?Hfile, ?Hen; cbn; eexists _, _; (split; [reflexivity|done]).
Qed.

(** An update whose mutator computes its result and the new store from
    the store alone: with the lock free it returns that result and the
    file holds the new store. *)
Lemma updateSessionStore_pure {T} (fuel : nat) (storePath : string)
  (g : gmap string (gmap string jsval) → T * gmap string (gmap string jsval))
  (w : World) :
  w_locks w !! lock_path storePath = None →
  ∃ w', updateSessionStore (S fuel) storePath (λ store, ret (g store)) w
        = (Ok (g (disk_store w storePath)).1, w')
    ∧ w_files w' = <[storePath := File (JSON_stringify (g (disk_store w storePath)).2)
                                    (w_now w)]> (w_files w)
    ∧ w_locks w' = w_locks w
    ∧ w_now w' = w_now w
    ∧ w_env w' = w_env w.
Proof.
  intros Hfree.
  destruct (g (disk_store w storePath)) as [r s'] eqn:Hg.
  destruct (updateSessionStore_returns fuel storePath (λ store, ret (g store)) w
              (before_mutator storePath (entered storePath w)) r s' Hfree)
    as (w' & Hupd & Hf & Hc & Hl & Hn & He).
  { unfold ret. by rewrite Hg. }
  exists w'. split; [done|].
  destruct (disk_store_before_mutator storePath (entered storePath w))
    as (Hf1 & _ & Hl1 & Hn1 & He1).
  rewrite Hf, Hl, Hn, He, Hf1, Hl1, Hn1, He1. cbn.
  repeat split; try done. apply delete_insert_id. done.
Qed.

End SessionStoreFacts.

(** ** Session initialisation: the freshness boundary (C5) *)

Module SessionInitV1Facts.
Import SessionStore SessionStoreSpec SessionStoreFacts SessionInitV1.

(** C5.  Take the earlier revision of [initSessionState], whose idle test
    is in the function itself.  Let the store hold a record for the
    session key with a numeric [updatedAt] and a [sessionId], let the
    message carry no reset trigger and no parent session, and let the lock
    be free.  Then the function returns, and the record is judged fresh
    exactly when [now - updatedAt <= idleMs]: the existing [sessionId] is
    reused in that case and a new one is drawn otherwise.  In particular a
    record with [updatedAt = now - idleMs - 1] gets a new [sessionId] and
    one with [updatedAt = now - idleMs + 1] keeps its own. *)
Theorem freshness_boundary (fuel : nat) (t : Turn) (w : World)
  (store : gmap string (gmap string jsval)) (entry : gmap string jsval)
  (updatedAt : Z) (sid : string) :
  (loadSessionStore (t_storePath t) false w).1 = Ok store →
  adopt_legacy t store !! t_sessionKey t = Some entry →
  prop entry "updatedAt" = JNum updatedAt →
  prop entry "sessionId" = JStr sid →
  reset_match t = None →
  t_ParentSessionKey t = None →
  w_locks w !! lock_path (t_storePath t) = None →
  ∃ r w',
    initSessionState (S fuel) t w = (Ok r, w')
    ∧ (r_isNewSession r = false ↔ w_now w - updatedAt <= idle_ms t)
    ∧ (w_now w - updatedAt <= idle_ms t → r_sessionId r = JStr sid)
    ∧ (idle_ms t < w_now w - updatedAt →
         r_sessionId r = JStr (w_entropy w (w_drawn w)))
    ∧ (updatedAt = w_now w - idle_ms t - 1 →
         r_isNewSession r = true ∧ r_sessionId r = JStr (w_entropy w (w_drawn w)))
    ∧ (updatedAt = w_now w - idle_ms t + 1 →
         r_isNewSession r = false ∧ r_sessionId r = JStr sid).
Proof.
  intros Hload Hentry Hupd Hsid Hmatch Hparent Hfree.
  destruct (loadSessionStore_frame (t_storePath t) false w)
    as (s & w1 & Hl & Hf1 & Hlk1 & Hn1 & He1 & Hen1 & Hd1).
  rewrite Hl in Hload. cbn in Hload. injection Hload as ->.
  assert (freshEntry (Some entry) (w_now w) (idle_ms t)
          = (w_now w - updatedAt <=? idle_ms t)) as Hfresh.
  { unfold freshEntry. by rewrite Hupd. }
  assert (parent_entry t (adopt_legacy t store) = None) as Hpar.
  { unfold parent_entry. by rewrite Hparent. }
  unfold initSessionState.
  unfold bind at 1. rewrite Hl.
  rewrite Hmatch, Hentry.
  unfold bind at 1. unfold Date_now at 1. unfold get. rewrite Hn1, Hfresh.
  change (bool_decide (is_Some (@None string))) with false.
  cbn [negb andb]. rewrite Hpar.
  destruct (w_now w - updatedAt <=? idle_ms t) eqn:Hcmp.
  - (* fresh: the record is reused *)
    apply Z.leb_le in Hcmp.
    unfold bind at 1. unfold ret at 1.
    unfold bind at 1. unfold Date_now at 1. unfold get.
    cbn [negb oprop]. rewrite Hsid.
    unfold bind at 1. unfold persist_mutator.
    destruct (updateSessionStore_pure fuel (t_storePath t)
                (λ store0, (tt, persist_store t
                   (finish_entry t (with_transcript None
                      (entry_literal t true (Some entry) (JStr sid) (w_now w1)))) store0))
                w1) as (w2 & -> & _); [by rewrite Hlk1|].
    cbn [fst sessionId_or_new]. unfold bind at 1. unfold ret.
    eexists _, _. split; [reflexivity|]. cbn [r_isNewSession r_sessionId].
    repeat split; try done; try lia.
  - (* stale: a new session id is drawn *)
    apply Z.leb_gt in Hcmp.
    unfold bind at 1. unfold bind at 1. unfold randomUUID at 1. unfold ret at 1.
    unfold bind at 1. unfold Date_now at 1. unfold get.
    cbn [negb]. rewrite Hen1, Hd1.
    unfold bind at 1. unfold persist_mutator.
    destruct (updateSessionStore_pure fuel (t_storePath t)
                (λ store0, (tt, persist_store t
                   (finish_entry t (with_transcript None
                      (entry_literal t false (Some entry)
                         (JStr (w_entropy w (w_drawn w)))
                         (w_now (put_drawn S w1))))) store0))
                (put_drawn S w1)) as (w2 & -> & _); [cbn; by rewrite Hlk1|].
    cbn [fst sessionId_or_new]. unfold bind at 1. unfold ret.
    eexists _, _. split; [reflexivity|]. cbn [r_isNewSession r_sessionId].
    repeat split; try done; try lia.
Qed.


Import StoreSamples InitSamples.

Lemma freshness_boundary_witness :
  (∃ r w', initSessionState 1 hello_turn_v1 (world_updated_at (10000000 - 3600000 - 1))
           = (Ok r, w')
           ∧ r_isNewSession r = true
           ∧ r_sessionId r = JStr "0b9c7e1a-5d38-4c49-9a53-6f0c3c1e2a11")
  ∧ (∃ r w', initSessionState 1 hello_turn_v1 (world_updated_at (10000000 - 3600000 + 1))
             = (Ok r, w')
             ∧ r_isNewSession r = false
             ∧ r_sessionId r = JStr "s-main").
Proof.
  split.
  - destruct (freshness_boundary 0 hello_turn_v1 (world_updated_at (10000000 - 3600000 - 1))
                (<["agent:main:main" := record_updated_at (10000000 - 3600000 - 1)]> ∅)
                (record_updated_at (10000000 - 3600000 - 1)) (10000000 - 3600000 - 1) "s-main")
      as (r & w' & Hrun & _ & _ & _ & Hstale & _); try vm_refl.
    destruct Hstale as [Hnew Hid]; [vm_refl|].
    exists r, w'. exact (conj Hrun (conj Hnew Hid)).
  - destruct (freshness_boundary 0 hello_turn_v1 (world_updated_at (10000000 - 3600000 + 1))
                (<["agent:main:main" := record_updated_at (10000000 - 3600000 + 1)]> ∅)
                (record_updated_at (10000000 - 3600000 + 1)) (10000000 - 3600000 + 1) "s-main")
      as (r & w' & Hrun & _ & _ & _ & _ & Hfresh); try vm_refl.
    destruct Hfresh as [Hold Hid]; [vm_refl|].
    exists r, w'. exact (conj Hrun (conj Hold Hid)).
Defined.

End SessionInitV1Facts.

(** ** Reset and the persisted overrides (C2) *)

Module ResetFacts.
Import SessionStore SessionStoreSpec SessionStoreFacts StoreSamples InitSamples.

(** A property of a record that is present with the value [undefined]
    overrides the stored one in a spread, and is then not written. *)
Lemma spread_undefined_clears (old new : gmap string jsval) (p : string) :
  new !! p = Some JUndef →
  json_entry (spread old new) !! p = None.
Proof.
  intros Hp. unfold json_entry, spread.
  apply map_lookup_filter_None. right. intros v Hv.
  rewrite lookup_union_l' in Hv by (by rewrite Hp).
  rewrite Hp in Hv. injection Hv as <-. cbn. by intros H.
Qed.

(** On a reset the record literal of [initSessionState] has the five
    override properties present and [undefined], whatever the stored
    record holds. *)
Lemma entry_literal_reset_overrides (t : SessionInit.Turn)
  (entry : option (gmap string jsval)) (sessionId0 : jsval) (now2 : Z) (p : string) :
  p ∈ ["thinkingLevel"; "verboseLevel"; "reasoningLevel"; "modelOverride"; "providerOverride"] →
  SessionInit.t_deriveSessionMetaPatch t
    = (λ _, None) →
  SessionInit.t_ThreadLabel t = None →
  SessionInit.entry_literal t false entry sessionId0 now2 !! p = Some JUndef.
Proof.
  intros Hp Hmeta Hlabel. unfold SessionInit.entry_literal.
  rewrite Hmeta, Hlabel. cbn [otrim truthy].
  rewrite !elem_of_cons, elem_of_nil in Hp.
  destruct Hp as [->|[->|[->|[->|[->|[]]]]]]; vm_compute; reflexivity.
Qed.

(** C2 fails on the overrides.  [override_record] carries
    [modelOverride = "foo/bar"], [providerOverride], and the thinking,
    verbose and reasoning levels.
    - The reset trigger "/new" through [initSessionState] (either
      revision) persists a record with a new [sessionId], cleared flags
      and, in the later revision, [compactionCount = 0]; the five override
      properties are gone from the persisted record, while a property that
      the record literal does not name ([elevatedLevel]) survives the
      merge.
    - [sessions.reset] persists a record with a new [sessionId] and
      cleared flags that keeps the three levels and has neither
      [modelOverride] nor [providerOverride]. *)
Theorem reset_drops_model_override :
  let before := disk_store override_world sample_path !! "agent:main:main" in
  let by_trigger := SessionInit.initSessionState 1 reset_turn override_world in
  let by_trigger_v1 := SessionInitV1.initSessionState 1 reset_turn_v1 override_world in
  let by_bridge := SessionsBridge.sessions_reset 1 reset_call override_world in
  let after (w : World) (p : string) :=
    (disk_store w sample_path !! "agent:main:main") ≫= (λ e, e !! p) in
  (before ≫= (λ e, e !! "modelOverride")) = Some (JStr "foo/bar")
  ∧ (r_isNewSession <$> (match by_trigger.1 with Ok r => Some r | _ => None end)) = Some true
  ∧ after by_trigger.2 "sessionId" = Some (JStr "0b9c7e1a-5d38-4c49-9a53-6f0c3c1e2a11")
  ∧ after by_trigger.2 "systemSent" = Some (JBool false)
  ∧ after by_trigger.2 "abortedLastRun" = Some (JBool false)
  ∧ after by_trigger.2 "compactionCount" = Some (JNum 0)
  ∧ after by_trigger.2 "elevatedLevel" = Some (JStr "on")
  ∧ after by_trigger.2 "modelOverride" = None
  ∧ after by_trigger.2 "providerOverride" = None
  ∧ after by_trigger.2 "thinkingLevel" = None
  ∧ after by_trigger.2 "verboseLevel" = None
  ∧ after by_trigger.2 "reasoningLevel" = None
  ∧ after by_trigger_v1.2 "sessionId" = Some (JStr "0b9c7e1a-5d38-4c49-9a53-6f0c3c1e2a11")
  ∧ after by_trigger_v1.2 "modelOverride" = None
  ∧ after by_trigger_v1.2 "thinkingLevel" = None
  ∧ after by_bridge.2 "sessionId" = Some (JStr "0b9c7e1a-5d38-4c49-9a53-6f0c3c1e2a11")
  ∧ after by_bridge.2 "systemSent" = Some (JBool false)
  ∧ after by_bridge.2 "abortedLastRun" = Some (JBool false)
  ∧ after by_bridge.2 "compactionCount" = None
  ∧ after by_bridge.2 "thinkingLevel" = Some (JStr "high")
  ∧ after by_bridge.2 "verboseLevel" = Some (JStr "on")
  ∧ after by_bridge.2 "reasoningLevel" = Some (JStr "stream")
  ∧ after by_bridge.2 "modelOverride" = None
  ∧ after by_bridge.2 "providerOverride" = None.
Proof.
  cbv zeta. vm_conj.
Qed.

End ResetFacts.

(** ** Deleting a session *)

Module SessionsBridgeFacts.
Import SessionStore SessionStoreSpec SessionStoreFacts SessionsBridge.

Lemma adopt_primary_self (key : string) (store : gmap string (gmap string jsval)) :
  adopt_primary [key] key store = (key, store).
Proof.
  unfold adopt_primary. cbn.
  destruct (store !! key) as [e|] eqn:Hk; cbn; by rewrite ?Hk.
Qed.

(** When the target resolves to the key itself, the mutator removes the
    record of that key and nothing else. *)
Lemma delete_result_self (key : string) (store : gmap string (gmap string jsval)) :
  delete_result [key] key store
  = ((bool_decide (is_Some (store !! key)), store !! key), delete key store).
Proof.
  unfold delete_result. rewrite adopt_primary_self.
  case_bool_decide as Hk; [done|].
  rewrite delete_id; [done|].
  destruct (store !! key) eqn:E; [|done]. exfalso. apply Hk. eauto.
Qed.

Lemma loadSessionEntry_frame (c : Call) (key : string) (w : World) :
  ∃ entry w', loadSessionEntry c key w = (Ok entry, w')
    ∧ w_files w' = w_files w ∧ w_locks w' = w_locks w ∧ w_now w' = w_now w.
Proof.
  unfold loadSessionEntry.
  destruct (loadSessionStore_frame (tg_storePath (c_target c key)) false w)
    as (s & w' & Hl & Hf & Hlk & Hn & _).
  unfold bind. rewrite Hl. unfold ret. by eexists _, _.
Qed.

(** What [sessions.delete] does with the key as it is written in the
    request.
    - A delete request whose key is the configured main session key is
      answered with an invalid-request error and leaves the world as it
      was: nothing is read and nothing is written.
    - For a well-formed request with another key and the lock free: if a
      run of the session is active and does not end within the wait, the
      answer is an unavailable error and the store file is untouched;
      otherwise the locked update runs the delete mutator and the file
      holds what it left.  When the target resolves to the key itself the
      file holds the store read under the lock without the record of that
      key, and [deleted] tells whether there was one. *)
Theorem delete_refuses_main_and_removes_other (fuel : nat) (c : Call) (w : World) :
  let key := trim (default "" (c_key c)) in
  let target := c_target c key in
  let storePath := tg_storePath target in
  (key = c_mainKey c →
     ∃ msg, sessions_delete fuel c w = (Ok (Failure INVALID_REQUEST msg), w))
  ∧ (c_valid c = true → key ≠ "" → key ≠ c_mainKey c →
     w_locks w !! lock_path storePath = None →
     ∀ entry, (loadSessionEntry c key w).1 = Ok entry →
       let sessionId := oprop entry "sessionId" in
       let stuck :=
         truthy sessionId && c_runActive c sessionId && negb (c_runEnded c sessionId) in
       (stuck = true →
          ∃ msg w', sessions_delete (S fuel) c w = (Ok (Failure UNAVAILABLE msg), w')
                    ∧ w_files w' = w_files w)
       ∧ (stuck = false →
            ∃ archived w',
              sessions_delete (S fuel) c w
              = (Ok (Answer (DeletePayload key
                       (delete_result (tg_storeKeys target) key (disk_store w storePath)).1.1
                       archived)), w')
              ∧ f_content <$> w_files w' !! storePath
                = Some (JSON_stringify
                          (delete_result (tg_storeKeys target) key
                             (disk_store w storePath)).2)
              ∧ (tg_storeKeys target = [key] →
                   f_content <$> w_files w' !! storePath
                   = Some (JSON_stringify (delete key (disk_store w storePath)))))).
Proof.
  intros key target storePath. split.
  - intros Hmain. unfold sessions_delete. fold key.
    destruct (c_valid c); cbn [negb]; [|by eexists].
    destruct (String.eqb key "") eqn:Hempty; [by eexists|].
    rewrite Hmain, String.eqb_refl. by eexists.
  - intros Hvalid Hkey Hnot Hfree entry Hentry. cbv zeta.
    destruct (loadSessionEntry_frame c key w) as (e & w1 & Hl & Hf & Hlk & Hn).
    rewrite Hl in Hentry. cbn in Hentry. injection Hentry as ->.
    apply String.eqb_neq in Hkey, Hnot.
    split; intros Hstuck; unfold sessions_delete; fold key;
      rewrite Hvalid; cbn [negb]; rewrite Hkey, Hnot;
      unfold bind at 1; rewrite Hl, Hstuck; fold target; fold storePath.
    + unfold ret. by eexists _, _.
    + unfold bind at 1. unfold delete_mutator.
      destruct (updateSessionStore_pure fuel storePath
                  (delete_result (tg_storeKeys target) key) w1)
        as (w2 & Hupd & Hf2 & _); [by rewrite Hlk|].
      rewrite Hupd. unfold ret.
      rewrite (disk_store_ext w w1) in Hf2 by done.
      rewrite (disk_store_ext w w1) by done.
      eexists _, w2. split; [reflexivity|].
      rewrite Hf2, lookup_insert_eq. cbn. split; [done|].
      intros ->. by rewrite delete_result_self.
Qed.


Import StoreSamples InitSamples.

Lemma delete_refuses_main_and_removes_other_witness :
  (∃ msg, sessions_delete 1 (delete_call "agent:main:main" false true) two_session_world
          = (Ok (Failure INVALID_REQUEST msg), two_session_world))
  ∧ (∃ deleted archived w',
       sessions_delete 1 (delete_call "agent:main:work" false true) two_session_world
       = (Ok (Answer (DeletePayload "agent:main:work" deleted archived)), w')
       ∧ deleted = true
       ∧ f_content <$> w_files w' !! sample_path
         = Some (JSON_stringify
                   (delete "agent:main:work" (disk_store two_session_world sample_path)))).
Proof.
  split.
  - destruct (delete_refuses_main_and_removes_other 0
                (delete_call "agent:main:main" false true) two_session_world)
      as [Hmain _].
    apply Hmain. vm_refl.
  - destruct (delete_refuses_main_and_removes_other 0
                (delete_call "agent:main:work" false true) two_session_world)
      as [_ Hother].
    destruct (Hother ltac:(reflexivity) ltac:(vm_compute; discriminate)
                ltac:(vm_compute; discriminate) ltac:(vm_refl)
                (Some work_record) ltac:(vm_refl)) as [_ Hgo].
    destruct (Hgo ltac:(vm_refl)) as (archived & w' & Hrun & _ & Hself).
    eexists _, archived, w'. split; [exact Hrun|]. split; [vm_refl|].
    exact (Hself eq_refl).
Defined.

(** A session whose run does not end is not deleted.  The session
    [agent:main:work] is not the main session and has a record; its run is
    active and does not end within the wait.  The delete request is
    answered with an error and the record is still in the store file. *)
Lemma delete_of_session_with_stuck_run_keeps_record :
  let c := delete_call "agent:main:work" true false in
  let r := sessions_delete 1 c two_session_world in
  "agent:main:work" ≠ c_mainKey c
  ∧ disk_store two_session_world sample_path !! "agent:main:work" = Some work_record
  ∧ r.1 = Ok (Failure UNAVAILABLE
                "Session agent:main:work is still active; try again in a moment.")
  ∧ disk_store r.2 sample_path !! "agent:main:work" = Some work_record.
Proof.
  cbv zeta. split; [vm_compute; discriminate|]. vm_conj.
Qed.

End SessionsBridgeFacts.

(** ** The highest thinking tier on a model without it *)

Module ThinkingFacts.
Import SessionStore SessionStoreSpec SessionStoreFacts StringFacts Thinking.

Lemma set_or_clear_other (p q lvl : string) (e : gmap string jsval) :
  p ≠ q → set_or_clear p lvl e !! q = e !! q.
Proof.
  intros Hne. unfold set_or_clear.
  destruct (String.eqb lvl "off"); by simplify_map_eq.
Qed.

(** With the downgrade in force and no thinking directive, the record
    that [handleDirectiveOnly] persists has [thinkingLevel = "high"]. *)
Lemma apply_directives_downgrade (h : Helpers) (d : DirectiveOnly)
  (sessionEntry : gmap string jsval) :
  (∀ e lvl, applyVerboseOverride h e lvl !! "thinkingLevel" = e !! "thinkingLevel") →
  hasThinkDirective (d_directives d) = false →
  apply_directives h d true sessionEntry !! "thinkingLevel" = Some (JStr "high").
Proof.
  intros Hverbose Hthink. unfold apply_directives. rewrite Hthink. cbn [andb].
  set (e2 := <["thinkingLevel" := JStr "high"]> sessionEntry).
  assert (e2 !! "thinkingLevel" = Some (JStr "high")) as H2 by apply lookup_insert_eq.
  clearbody e2.
  set (e3 := if hasVerboseDirective (d_directives d) && given (verboseLevel (d_directives d))
             then applyVerboseOverride h e2 (default "" (verboseLevel (d_directives d)))
             else e2).
  assert (e3 !! "thinkingLevel" = Some (JStr "high")) as H3.
  { subst e3. case_match; [by rewrite Hverbose|done]. }
  clearbody e3. clear H2 e2.
  set (e4 := if hasReasoningDirective (d_directives d)
                && given (reasoningLevel (d_directives d))
             then set_or_clear "reasoningLevel"
                    (default "" (reasoningLevel (d_directives d))) e3
             else e3).
  assert (e4 !! "thinkingLevel" = Some (JStr "high")) as H4.
  { subst e4. case_match; [by rewrite set_or_clear_other|done]. }
  clearbody e4. clear H3 e3.
  set (e5 := if hasElevatedDirective (d_directives d)
                && given (elevatedLevel (d_directives d))
             then <["elevatedLevel" := JStr (default "" (elevatedLevel (d_directives d)))]> e4
             else e4).
  assert (e5 !! "thinkingLevel" = Some (JStr "high")) as H5.
  { subst e5. case_match; by simplify_map_eq. }
  clearbody e5. clear H4 e4.
  match goal with |- context [match d_modelSelection d with Some _ => _ | None => e5 end] =>
    set (e6 := match d_modelSelection d with Some _ => _ | None => e5 end) end.
  assert (e6 !! "thinkingLevel" = Some (JStr "high")) as H6.
  { subst e6. repeat case_match; by simplify_map_eq. }
  clearbody e6. clear H5 e5.
  repeat case_match; by simplify_map_eq.
Qed.

Lemma downgrade_notice_in_ack (h : Helpers) (d : DirectiveOnly) :
  In (downgrade_notice d) (ack_parts h d true (resolvedProvider d) (resolvedModel d)).
Proof.
  unfold ack_parts.
  do 4 (apply in_or_app; right). apply in_or_app. left. by left.
Qed.

Lemma downgrade_notice_in_reply (h : Helpers) (d : DirectiveOnly) :
  includes
    (trim (js_join " " (ack_parts h d true (resolvedProvider d) (resolvedModel d))))
    (downgrade_notice d) = true.
Proof.
  apply includes_trim_join.
  - done.
  - unfold downgrade_notice. by do 4 apply ends_nonspace_app.
  - apply downgrade_notice_in_ack.
Qed.

Lemma given_some (s : string) : s ≠ "" → given (Some s) = true.
Proof. intros Hne. cbn. by apply negb_true_iff, String.eqb_neq. Qed.

(** Persisting one record: with the lock free the update returns and the
    file holds the store read from disk with the record put under its
    key. *)
Lemma put_entry_persisted (fuel : nat) (path key : string) (e : gmap string jsval)
  (w : World) :
  w_locks w !! lock_path path = None →
  ∃ w', updateSessionStore (S fuel) path (put_entry_mutator key e) w = (Ok tt, w')
    ∧ w_files w' !! path
      = Some (File (JSON_stringify (<[key := e]> (disk_store w path))) (w_now w)).
Proof.
  intros Hfree.
  destruct (updateSessionStore_pure fuel path (λ store, (tt, <[key := e]> store)) w Hfree)
    as (w' & Hupd & Hf & _).
  exists w'. split; [exact Hupd|]. rewrite Hf. apply lookup_insert_eq.
Qed.

(** Inside [runPreparedReply] and [handleDirectiveOnly]. When the level
    a turn resolves to is [xhigh] and the model does not support it: a
    turn whose own [/think] directive asked for it is answered with an
    error text and these two functions write nothing;
    any other turn goes on at [high]. In [runPreparedReply] the lowered
    level is written to the session file when the record stores [xhigh]
    itself, and otherwise nothing is written and no text is produced. In
    [handleDirectiveOnly] the lowered level is written to the record of
    the session and the acknowledgement contains the sentence that
    reports it. *)
Theorem xhigh_unsupported_rejected_or_downgraded (fuel : nat) (h : Helpers) :
  (∀ (p : PreparedReply) (w : World),
     p_dropUnauthorizedControl p = false →
     p_baseBodyTrimmed p ≠ "" →
     is_level (resolve_think_level h p).1 "xhigh" = true →
     supportsXHighThinking h (p_provider p) (p_model p) = false →
     (explicitThink (p_directives p) = true →
      ∃ text, runPreparedReply fuel h p w = (Ok (ReplyText text), w))
     ∧ (explicitThink (p_directives p) = false →
        (∀ e st path,
           p_sessionEntry p = Some e → p_sessionStore p = Some st →
           p_sessionKey p ≠ "" → prop e "thinkingLevel" = JStr "xhigh" →
           p_storePath p = Some path → path ≠ "" →
           w_locks w !! lock_path path = None →
           ∃ e' w',
             runPreparedReply (S fuel) h p w
             = (Ok (RunAgent "high" (resolve_think_level h p).2 (Some e')
                      (Some (<[p_sessionKey p := e']> st))), w')
             ∧ e' !! "thinkingLevel" = Some (JStr "high")
             ∧ w_files w' !! path
               = Some (File (JSON_stringify
                               (<[p_sessionKey p := e']> (disk_store w path)))
                         (w_now w)))
        ∧ ((∀ e, p_sessionEntry p = Some e → prop e "thinkingLevel" ≠ JStr "xhigh") →
           runPreparedReply fuel h p w
           = (Ok (RunAgent "high" (resolve_think_level h p).2
                    (p_sessionEntry p) (p_sessionStore p)), w))))
  ∧ (∀ (d : DirectiveOnly) (w : World),
       early_reply h d = None →
       supportsXHighThinking h (resolvedProvider d) (resolvedModel d) = false →
       (hasThinkDirective (d_directives d) = true →
        is_level (thinkLevel (d_directives d)) "xhigh" = true →
        ∃ text,
          handleDirectiveOnly fuel h d w
          = (Ok (MkDirectiveResult (Some text) (d_sessionEntry d) (d_sessionStore d) []),
             w))
       ∧ (hasThinkDirective (d_directives d) = false →
          is_level (nextThinkLevel d) "xhigh" = true →
          (∀ e lvl, applyVerboseOverride h e lvl !! "thinkingLevel"
                    = e !! "thinkingLevel") →
          ∀ e st path,
            d_sessionEntry d = Some e → d_sessionStore d = Some st →
            d_sessionKey d ≠ "" → d_storePath d = Some path → path ≠ "" →
            w_locks w !! lock_path path = None →
            ∃ e' text events w',
              handleDirectiveOnly (S fuel) h d w
              = (Ok (MkDirectiveResult (Some text) (Some e')
                       (Some (<[d_sessionKey d := e']> st)) events), w')
              ∧ e' !! "thinkingLevel" = Some (JStr "high")
              ∧ w_files w' !! path
                = Some (File (JSON_stringify
                                (<[d_sessionKey d := e']> (disk_store w path)))
                          (w_now w))
              ∧ includes text (downgrade_notice d) = true)).
Proof.
  split.
  - intros p w Hdrop Hbody Hx Hsup. unfold runPreparedReply.
    rewrite Hdrop. apply String.eqb_neq in Hbody. rewrite Hbody.
    destruct (resolve_think_level h p) as [lvl body']. cbn [fst snd] in *.
    rewrite Hx, Hsup. cbn [negb andb]. split.
    + intros ->. by eexists.
    + intros ->. split.
      * intros e st path He Hst Hkey Hprop Hpath Hne Hfree.
        rewrite He, Hst, Hpath, Hprop.
        apply String.eqb_neq in Hkey. rewrite Hkey.
        rewrite bool_decide_eq_true_2 by done. cbn [negb andb].
        rewrite (given_some path Hne). change (default "" (Some path)) with path.
        unfold bind, ret, Date_now, get. cbv beta iota.
        set (e' := <["updatedAt" := JNum (w_now w)]>
                     (<["thinkingLevel" := JStr "high"]> e)).
        destruct (put_entry_persisted fuel path (p_sessionKey p) e' w Hfree)
          as (w' & Hupd & Hf).
        exists e', w'. rewrite Hupd.
        split; [done|]. split; [|exact Hf].
        subst e'. by simplify_map_eq.
      * intros Hno.
        destruct (p_sessionEntry p) as [e|] eqn:He; [|done].
        destruct (p_sessionStore p) as [st|]; [|done].
        rewrite bool_decide_eq_false_2 by by apply Hno.
        by rewrite andb_false_r.
  - intros d w Hearly Hsup. unfold handleDirectiveOnly. rewrite Hearly, Hsup.
    cbn [negb]. split.
    + intros -> ->. by eexists.
    + intros Hthink Hnext Hverbose e st path He Hst Hkey Hpath Hne Hfree.
      assert (shouldDowngradeXHigh h d = true) as Hdown.
      { unfold shouldDowngradeXHigh. by rewrite Hthink, Hnext, Hsup. }
      rewrite Hthink, Hdown, He, Hst, Hpath. cbn [andb].
      apply String.eqb_neq in Hkey. rewrite Hkey. cbn [negb].
      rewrite (given_some path Hne). change (default "" (Some path)) with path.
      unfold bind, ret, Date_now, get. cbv beta iota.
      set (e' := <["updatedAt" := JNum (w_now w)]> (apply_directives h d true e)).
      destruct (put_entry_persisted fuel path (d_sessionKey d) e' w Hfree)
        as (w' & Hupd & Hf).
      rewrite Hupd. cbv beta iota.
      pose proof (downgrade_notice_in_reply h d) as Hin.
      set (ack := trim (js_join " "
                          (ack_parts h d true (resolvedProvider d) (resolvedModel d))))
        in *.
      assert (String.eqb ack "" = false) as Hack.
      { apply String.eqb_neq. intros Hempty. rewrite Hempty in Hin.
        apply includes_nil_inv in Hin. unfold downgrade_notice in Hin. discriminate. }
      rewrite Hack. cbn [andb].
      exists e', ack, (directive_events h d e e'), w'.
      split; [done|]. split; [|by split].
      subst e'. rewrite lookup_insert_ne by done.
      by apply apply_directives_downgrade.
Qed.

(** The four cases of the theorem on the sample turns: [/think xhigh
    hello] and a plain [hello] on a session that stores [xhigh], a plain
    [hello] where [xhigh] is the default of the model, and the
    directive-only messages [/think xhigh] and [/verbose on]. *)
Lemma xhigh_unsupported_rejected_or_downgraded_witness :
  (∃ text,
     runPreparedReply 0 ThinkingSamples.sample_helpers
       ThinkingSamples.explicit_xhigh_turn StoreSamples.sample_world
     = (Ok (ReplyText text), StoreSamples.sample_world))
  ∧ (∃ e' w',
       runPreparedReply 1 ThinkingSamples.sample_helpers
         ThinkingSamples.stored_xhigh_turn ThinkingSamples.stored_xhigh_world
       = (Ok (RunAgent "high" "hello" (Some e')
                (Some (<["agent:main:main" := e']>
                         (<["agent:main:main" := ThinkingSamples.stored_xhigh_record]> ∅)))),
          w')
       ∧ e' !! "thinkingLevel" = Some (JStr "high")
       ∧ w_files w' !! StoreSamples.sample_path
         = Some (File (JSON_stringify
                         (<["agent:main:main" := e']>
                            (disk_store ThinkingSamples.stored_xhigh_world
                               StoreSamples.sample_path)))
                   5000))
  ∧ runPreparedReply 0 ThinkingSamples.sample_helpers
      ThinkingSamples.default_xhigh_turn StoreSamples.sample_world
    = (Ok (RunAgent "high" "hello" (Some StoreSamples.main_record)
             (Some StoreSamples.sample_store)),
       StoreSamples.sample_world)
  ∧ (∃ text,
       handleDirectiveOnly 0 ThinkingSamples.sample_helpers
         (ThinkingSamples.directive_only ThinkingSamples.think_xhigh_directive)
         ThinkingSamples.stored_xhigh_world
       = (Ok (MkDirectiveResult (Some text)
                (Some ThinkingSamples.stored_xhigh_record)
                (Some (<["agent:main:main" := ThinkingSamples.stored_xhigh_record]> ∅))
                []),
          ThinkingSamples.stored_xhigh_world))
  ∧ (∃ e' text events w',
       handleDirectiveOnly 1 ThinkingSamples.sample_helpers
         (ThinkingSamples.directive_only ThinkingSamples.verbose_on_directive)
         ThinkingSamples.stored_xhigh_world
       = (Ok (MkDirectiveResult (Some text) (Some e')
                (Some (<["agent:main:main" := e']>
                         (<["agent:main:main" := ThinkingSamples.stored_xhigh_record]> ∅)))
                events),
          w')
       ∧ e' !! "thinkingLevel" = Some (JStr "high")
       ∧ w_files w' !! StoreSamples.sample_path
         = Some (File (JSON_stringify
                         (<["agent:main:main" := e']>
                            (disk_store ThinkingSamples.stored_xhigh_world
                               StoreSamples.sample_path)))
                   5000)
       ∧ includes text
           (downgrade_notice
              (ThinkingSamples.directive_only ThinkingSamples.verbose_on_directive))
         = true).
Proof.
  destruct (xhigh_unsupported_rejected_or_downgraded 0 ThinkingSamples.sample_helpers)
    as [Hrun Hdirective].
  split; [|split; [|split; [|split]]].
  - refine (proj1 (Hrun ThinkingSamples.explicit_xhigh_turn StoreSamples.sample_world
                     _ _ _ _) _); first [vm_refl | discriminate].
  - refine (proj1 (proj2 (Hrun ThinkingSamples.stored_xhigh_turn
                            ThinkingSamples.stored_xhigh_world _ _ _ _) _)
              ThinkingSamples.stored_xhigh_record _ StoreSamples.sample_path
              _ _ _ _ _ _ _); first [vm_refl | discriminate].
  - refine (proj2 (proj2 (Hrun ThinkingSamples.default_xhigh_turn
                            StoreSamples.sample_world _ _ _ _) _) _);
      first [vm_refl | discriminate | idtac].
    intros e He. injection He as <-. discriminate.
  - refine (proj1 (Hdirective
                     (ThinkingSamples.directive_only ThinkingSamples.think_xhigh_directive)
                     ThinkingSamples.stored_xhigh_world _ _) _ _); vm_refl.
  - refine (proj2 (Hdirective
                     (ThinkingSamples.directive_only ThinkingSamples.verbose_on_directive)
                     ThinkingSamples.stored_xhigh_world _ _) _ _ _
              ThinkingSamples.stored_xhigh_record _ StoreSamples.sample_path
              _ _ _ _ _ _); first [vm_refl | discriminate | idtac].
    intros e lvl. apply lookup_insert_ne. discriminate.
Defined.

(** The downgrade in [runPreparedReply] is silent. A plain message on a
    session that stores no thinking level, for a model whose default
    level is [xhigh] on a provider without support for it: the turn goes
    on at [high], the session file and the record are left as they were
    and [runPreparedReply] produces no text about the change. *)
Lemma default_xhigh_downgrade_neither_persisted_nor_surfaced :
  (resolve_think_level ThinkingSamples.sample_helpers
     ThinkingSamples.default_xhigh_turn).1 = Some "xhigh"
  ∧ supportsXHighThinking ThinkingSamples.sample_helpers "anthropic" "claude-opus-4-5"
    = false
  ∧ explicitThink (p_directives ThinkingSamples.default_xhigh_turn) = false
  ∧ runPreparedReply 1 ThinkingSamples.sample_helpers
      ThinkingSamples.default_xhigh_turn StoreSamples.sample_world
    = (Ok (RunAgent "high" "hello" (Some StoreSamples.main_record)
             (Some StoreSamples.sample_store)),
       StoreSamples.sample_world)
  ∧ StoreSamples.main_record !! "thinkingLevel" = None
  ∧ disk_store StoreSamples.sample_world StoreSamples.sample_path
    = StoreSamples.sample_store.
Proof. vm_conj. Qed.

End ThinkingFacts.

(** ** Fuzzy resolution of a model directive (C7) *)

Module ModelDirectiveFacts.
Import ModelDirective SessionStoreFacts.








(** The scored path of the resolution, on the same allow-list: the
    fragment [gpt] matches both models, and the one without a variant
    token wins, 220 to 190. *)
Example fuzzy_gpt_prefers_base_model :
  fs_score (scoreFuzzyMatch ModelSamples.sample_imports "openai" "gpt-5" "gpt"
              ModelSamples.no_aliases "anthropic" "claude-opus-4-5") = 220
  ∧ fs_score (scoreFuzzyMatch ModelSamples.sample_imports "openai" "gpt-5-mini" "gpt"
                ModelSamples.no_aliases "anthropic" "claude-opus-4-5") = 190
  ∧ resolveModelDirectiveSelection ModelSamples.sample_imports "gpt"
      "anthropic" "claude-opus-4-5" ModelSamples.no_aliases
      ["openai/gpt-5-mini"; "openai/gpt-5"]
    = MkResolution (Some (MkSelection "openai" "gpt-5" false None)) None.
Proof. vm_conj. Qed.

End ModelDirectiveFacts.

(** * Further properties of the session core *)

(** ** The store lock: release *)

Module StoreLockFacts.
Import SessionStore SessionStoreSpec SessionStoreFacts.

(** X2.  The marker never outlives the call.  With no marker in place, the
    call ends as the function ends, also when the function throws, and
    the marker it created is gone afterwards. *)
Theorem withSessionStoreLock_releases_marker {T} (fuel : nat) (storePath : string)
  (fn : M T) (opts : SessionStoreLockOptions) (w : World) :
  w_locks w !! lock_path storePath = None →
  (fn (entered storePath w)).1 ≠ Diverge →
  (withSessionStoreLock (S fuel) storePath fn opts w).1 = (fn (entered storePath w)).1
  ∧ w_locks (withSessionStoreLock (S fuel) storePath fn opts w).2
      !! lock_path storePath = None.
Proof.
  intros Hfree Hends. rewrite withSessionStoreLock_free by done.
  destruct (fn (entered storePath w)) as [[r|e|] w'] eqn:Hfn; cbn in *; try done;
    (split; [done|]);
    destruct (released_frame storePath w') as (_ & _ & _ & _ & ->);
    apply lookup_delete_eq.
Qed.

End StoreLockFacts.

(** ** The read cache of the store *)

Module StoreCacheFacts.
Import SessionStore SessionStoreSpec SessionStoreFacts.

(** A load that the cache does not answer reads the file and, with the
    cache enabled, leaves an entry taken now at the file's modification
    time. *)
Lemma loadSessionStore_miss (storePath : string) (w : World) :
  cache_hit w storePath = None →
  env_cacheEnabled (w_env w) = true →
  ∃ w', loadSessionStore storePath false w = (Ok (disk_store w storePath), w')
    ∧ w_cache w'
      = <[storePath := CacheEntry (disk_store w storePath) (w_now w)
                         (f_mtimeMs <$> w_files w !! storePath)]> (w_cache w)
    ∧ w_files w' = w_files w ∧ w_now w' = w_now w ∧ w_env w' = w_env w
    ∧ w_locks w' = w_locks w.
Proof.
  intros Hmiss Hen. revert Hmiss.
  unfold cache_hit, loadSessionStore, disk_store, readFileSync, JSON5_parse.
  io_unfold. cbn. rewrite Hen. cbn.
  destruct (w_cache w !! storePath) as [c|] eqn:Hc; cbn.
  - destruct (w_now w - c_loadedAt c <=? env_ttlMs (w_env w)); cbn.
    + destruct (decide ((f_mtimeMs <$> w_files w !! storePath) = c_mtimeMs c));
        [done|]. intros _. cbn.
      destruct (w_files w !! storePath) as [[[raw|v|d] t]|] eqn:Hfile; cbn;
        rewrite ?Hfile, ?Hen; cbn; eexists; (split; [reflexivity|]); cbn;
        by rewrite insert_delete_eq.
    + intros _.
      destruct (w_files w !! storePath) as [[[raw|v|d] t]|] eqn:Hfile; cbn;
        rewrite ?Hfile, ?Hen; cbn; eexists; (split; [reflexivity|done]).
  - intros _.
    destruct (w_files w !! storePath) as [[[raw|v|d] t]|] eqn:Hfile; cbn;
      rewrite ?Hfile, ?Hen; cbn; eexists; (split; [reflexivity|done]).
Qed.

(** X3.  With the cache enabled and a TTL that is not negative, the load that
    follows a load is answered by the cache: it returns the same store
    and does not read the file. *)
Theorem second_load_is_a_cache_hit (storePath : string) (w : World) :
  env_cacheEnabled (w_env w) = true →
  0 <= env_ttlMs (w_env w) →
  ∃ s w1,
    loadSessionStore storePath false w = (Ok s, w1)
    ∧ loadSessionStore storePath false w1 = (Ok s, emit (EvCacheHit storePath) w1).
Proof.
  intros Hen Httl.
  destruct (cache_hit w storePath) as [s|] eqn:Hhit.
  - exists s, (emit (EvCacheHit storePath) w).
    split; [by apply loadSessionStore_cached|].
    apply loadSessionStore_cached. by rewrite (cache_hit_ext w).
  - destruct (loadSessionStore_miss storePath w Hhit Hen)
      as (w1 & Hload & Hc & Hf & Hn & He & _).
    exists (disk_store w storePath), w1. split; [done|].
    apply loadSessionStore_cached. unfold cache_hit.
    rewrite He, Hen, Hc, lookup_insert_eq. cbn. rewrite Hn, Hf.
    replace (w_now w - w_now w <=? env_ttlMs (w_env w)) with true
      by (symmetry; apply Z.leb_le; lia).
    by rewrite decide_True.
Qed.

(** X4.  A cache entry that has outlived the TTL, or that was taken at another
    modification time than the file has now, is never served: the load
    returns what is on disk and replaces the entry. *)
Theorem stale_cache_entry_is_not_served (storePath : string) (c : SessionStoreCacheEntry)
  (w : World) :
  env_cacheEnabled (w_env w) = true →
  w_cache w !! storePath = Some c →
  env_ttlMs (w_env w) < w_now w - c_loadedAt c
  ∨ (f_mtimeMs <$> w_files w !! storePath) ≠ c_mtimeMs c →
  ∃ w',
    loadSessionStore storePath false w = (Ok (disk_store w storePath), w')
    ∧ w_cache w' !! storePath
      = Some (CacheEntry (disk_store w storePath) (w_now w)
                (f_mtimeMs <$> w_files w !! storePath)).
Proof.
  intros Hen Hc Hstale.
  assert (cache_hit w storePath = None) as Hmiss.
  { unfold cache_hit. rewrite Hen, Hc.
    destruct (w_now w - c_loadedAt c <=? env_ttlMs (w_env w)) eqn:Httl; [|done].
    apply Z.leb_le in Httl. destruct Hstale as [?|Hm]; [lia|].
    by rewrite decide_False. }
  destruct (loadSessionStore_miss storePath w Hmiss Hen) as (w' & Hload & Hc' & _).
  exists w'. split; [done|]. rewrite Hc'. apply lookup_insert_eq.
Qed.

(** X5.  A load that skips the cache, or that runs with the cache disabled,
    returns what is on disk and leaves the cache as it was. *)
Theorem uncached_load_leaves_cache_alone (storePath : string) (skipCache : bool)
  (w : World) :
  skipCache = true ∨ env_cacheEnabled (w_env w) = false →
  ∃ w',
    loadSessionStore storePath skipCache w = (Ok (disk_store w storePath), w')
    ∧ w_cache w' = w_cache w.
Proof.
  intros [-> | Hoff].
  - rewrite loadSessionStore_skipCache. eexists. split; [done|].
    unfold read_mark. by destruct (w_files w !! storePath).
  - destruct skipCache.
    + rewrite loadSessionStore_skipCache. eexists. split; [done|].
      unfold read_mark. by destruct (w_files w !! storePath).
    + unfold loadSessionStore, disk_store, readFileSync, JSON5_parse.
      io_unfold. cbn. rewrite Hoff. cbn.
      destruct (w_files w !! storePath) as [[[raw|v|d] t]|] eqn:Hfile; cbn;
        rewrite ?Hfile, ?Hoff; cbn; eexists; (split; [reflexivity|done]).
Qed.

(** X6.  Saving under the lock and loading: with no marker in place,
    [saveSessionStore] returns, removes its marker, and every later load,
    cached or not, returns the saved store as JSON keeps it (properties
    whose value is [undefined] are not written) and as the migration
    reads it. *)
Theorem saveSessionStore_then_load (fuel : nat) (storePath : string)
  (store : gmap string (gmap string jsval)) (w : World) :
  w_locks w !! lock_path storePath = None →
  ∃ w1,
    saveSessionStore (S fuel) storePath store w = (Ok tt, w1)
    ∧ w_locks w1 !! lock_path storePath = None
    ∧ ∀ skipCache, ∃ w2,
        loadSessionStore storePath skipCache w1 = (Ok (migrate (json_store store)), w2).
Proof.
  intros Hfree. unfold saveSessionStore.
  rewrite withSessionStoreLock_free by done.
  destruct (saveSessionStoreUnlocked_spec storePath store (entered storePath w))
    as (w0 & -> & Hf & Hc & _).
  cbn [finish].
  destruct (released_frame storePath w0) as (Hf1 & Hc1 & _ & _ & Hl1).
  eexists. split; [done|]. split.
  - rewrite Hl1. apply lookup_delete_eq.
  - intros skipCache.
    apply (load_after_write storePath skipCache _ store (w_now (entered storePath w))).
    + rewrite Hf1, Hf. apply lookup_insert_eq.
    + rewrite Hc1, Hc. apply lookup_delete_eq.
Qed.

(** X7.  The temporary file of a save never stays behind.  On win32 the store
    file is written in place: no temporary file is made and no UUID is
    drawn.  Elsewhere the file named after the path, the process id and a
    fresh UUID is gone when the save returns, and no other temporary file
    is touched. *)
Theorem saveSessionStoreUnlocked_leaves_no_temp_file (storePath : string)
  (store : gmap string (gmap string jsval)) (w : World) :
  ∃ w',
    saveSessionStoreUnlocked storePath store w = (Ok tt, w')
    ∧ (if env_win32 (w_env w)
       then w_tmps w' = w_tmps w ∧ w_drawn w' = w_drawn w
       else w_tmps w'
            = delete (tmp_path storePath (env_pid (w_env w)) (w_entropy w (w_drawn w)))
                (w_tmps w)
            ∧ w_drawn w' = S (w_drawn w)).
Proof.
  unfold saveSessionStoreUnlocked, writeFile, randomUUID, writeTmp, rename.
  io_unfold. cbn.
  destruct (env_win32 (w_env w)) eqn:Hwin; cbn.
  - case_decide as Hin; [|exfalso; apply Hin, dirname_in_after_mkdir].
    eexists. split; [reflexivity|]. done.
  - set (tmp := tmp_path storePath (env_pid (w_env w)) (w_entropy w (w_drawn w))).
    destruct (decide (dirname tmp ∈ {[dirname storePath]} ∪ w_dirs w)) as [Ht|Ht]; cbn.
    + rewrite lookup_insert_eq. cbn.
      case_decide as Hin; [|exfalso; apply Hin, dirname_in_after_mkdir].
      cbn. eexists. split; [reflexivity|]. cbn. split; [|done].
      by rewrite delete_delete_eq, delete_insert_eq.
    + repeat (case_decide; cbn); try done; try (exfalso; set_solver).
      eexists. split; [reflexivity|]. cbn. done.
Qed.

End StoreCacheFacts.

(** ** Updating one record of the store *)

Module StoreEntryFacts.
Import SessionStore SessionStoreSpec SessionStoreFacts.

(** The load that runs under a freshly taken lock returns what a load
    would have returned before, and touches neither files nor markers. *)
Lemma load_under_lock (storePath : string) (w : World)
  (s : gmap string (gmap string jsval)) :
  (loadSessionStore storePath false w).1 = Ok s →
  ∃ w1, loadSessionStore storePath false (entered storePath w) = (Ok s, w1)
    ∧ w_files w1 = w_files w
    ∧ w_now w1 = w_now w
    ∧ w_locks w1 = <[lock_path storePath := w_now w]> (w_locks w).
Proof.
  intros Hs.
  destruct (entered_frame storePath w) as (Hf & Hc & Hn & He & Hl).
  destruct (loadSessionStore_frame storePath false (entered storePath w))
    as (s1 & w1 & Hload & Hf1 & Hlk1 & Hn1 & _).
  pose proof (loadSessionStore_ext w (entered storePath w) storePath false Hf Hc Hn He)
    as Hext.
  rewrite Hload, Hs in Hext. cbn in Hext. injection Hext as ->.
  exists w1. split; [done|]. by rewrite Hf1, Hn1, Hlk1, Hf, Hn, Hl.
Qed.

Section WithMerge.
Variable mergeSessionEntry :
  option (gmap string jsval) → gmap string jsval → M (gmap string jsval).

(** X8.  An entry update that has nothing to merge writes nothing.  With no
    marker in place: when the store has no record under the key the
    update function is not called and the result is [null]; when the
    update function returns [null] the result is the record as it is.  In
    both cases the store file is untouched and the marker is removed. *)
Theorem updateSessionStoreEntry_without_patch_writes_nothing
  (fuel : nat) (storePath sessionKey : string)
  (update : gmap string jsval → M (option (gmap string jsval)))
  (s : gmap string (gmap string jsval)) (w : World) :
  w_locks w !! lock_path storePath = None →
  (loadSessionStore storePath false w).1 = Ok s →
  s !! sessionKey = None
  ∨ (∃ existing, s !! sessionKey = Some existing
                 ∧ ∀ w0, update existing w0 = (Ok None, w0)) →
  ∃ w',
    updateSessionStoreEntry mergeSessionEntry (S fuel) storePath sessionKey update w
    = (Ok (s !! sessionKey), w')
    ∧ w_files w' = w_files w
    ∧ w_locks w' !! lock_path storePath = None.
Proof.
  intros Hfree Hs Hcase. unfold updateSessionStoreEntry.
  rewrite withSessionStoreLock_free by done.
  destruct (load_under_lock storePath w s Hs) as (w1 & Hload & Hf1 & _ & _).
  unfold bind at 1. rewrite Hload.
  destruct Hcase as [Hnone | (existing & Hsome & Hnull)].
  - rewrite Hnone. unfold ret. cbn [finish].
    destruct (released_frame storePath w1) as (Hf2 & _ & _ & _ & Hl2).
    eexists. split; [done|]. rewrite Hf2, Hl2. split; [done|apply lookup_delete_eq].
  - rewrite Hsome. unfold bind at 1. unfold log, modify.
    unfold bind at 1. rewrite Hnull. unfold ret. cbn [finish].
    destruct (released_frame storePath (emit (EvMutator storePath) w1))
      as (Hf2 & _ & _ & _ & Hl2).
    eexists. split; [done|]. rewrite Hf2, Hl2. split; [done|apply lookup_delete_eq].
Qed.

(** X9.  An entry update with a patch persists the merged record.  With no
    marker in place, a record under the key, an update function that
    returns [patch] and a merge that yields [next]: the result is [next],
    the store file holds the loaded store with [next] under the key, no
    other file is touched and the marker is removed. *)
Theorem updateSessionStoreEntry_persists_merged_record
  (fuel : nat) (storePath sessionKey : string)
  (update : gmap string jsval → M (option (gmap string jsval)))
  (s : gmap string (gmap string jsval)) (existing patch next : gmap string jsval)
  (w : World) :
  w_locks w !! lock_path storePath = None →
  (loadSessionStore storePath false w).1 = Ok s →
  s !! sessionKey = Some existing →
  (∀ w0, update existing w0 = (Ok (Some patch), w0)) →
  (∀ w0, mergeSessionEntry (Some existing) patch w0 = (Ok next, w0)) →
  ∃ w',
    updateSessionStoreEntry mergeSessionEntry (S fuel) storePath sessionKey update w
    = (Ok (Some next), w')
    ∧ w_files w'
      = <[storePath := File (JSON_stringify (<[sessionKey := next]> s)) (w_now w)]>
          (w_files w)
    ∧ w_locks w' !! lock_path storePath = None.
Proof.
  intros Hfree Hs Hsome Hupd Hmerge. unfold updateSessionStoreEntry.
  rewrite withSessionStoreLock_free by done.
  destruct (load_under_lock storePath w s Hs) as (w1 & Hload & Hf1 & Hn1 & _).
  unfold bind at 1. rewrite Hload, Hsome.
  unfold bind at 1. unfold log, modify.
  unfold bind at 1. rewrite Hupd.
  unfold bind at 1. rewrite Hmerge.
  unfold bind at 1.
  destruct (saveSessionStoreUnlocked_spec storePath (<[sessionKey := next]> s)
              (emit (EvMutator storePath) w1))
    as (w2 & -> & Hf2 & _ & _ & _).
  unfold ret. cbn [finish].
  destruct (released_frame storePath w2) as (Hf3 & _ & _ & _ & Hl3).
  eexists. split; [done|]. rewrite Hf3, Hl3, Hf2. cbn. rewrite Hf1, Hn1.
  split; [done|apply lookup_delete_eq].
Qed.

End WithMerge.

End StoreEntryFacts.

(** ** The store properties at concrete states *)

Module StoreFactsSamples.
Import SessionStore SessionStoreSpec SessionStoreFacts StoreSamples.

(** A function that throws under the lock. *)
Lemma withSessionStoreLock_releases_marker_witness :
  (withSessionStoreLock 1 sample_path (throw (Error "boom") : M unit)
     no_lock_options sample_world).1
  = (throw (Error "boom") (entered sample_path sample_world)).1
  ∧ w_locks (withSessionStoreLock 1 sample_path (throw (Error "boom") : M unit)
               no_lock_options sample_world).2 !! lock_path sample_path = None.
Proof.
  apply (StoreLockFacts.withSessionStoreLock_releases_marker 0 sample_path
           (throw (Error "boom")) no_lock_options sample_world).
  - vm_refl.
  - discriminate.
Defined.

Lemma second_load_is_a_cache_hit_witness :
  ∃ s w1,
    loadSessionStore sample_path false sample_world = (Ok s, w1)
    ∧ loadSessionStore sample_path false w1 = (Ok s, emit (EvCacheHit sample_path) w1).
Proof.
  apply (StoreCacheFacts.second_load_is_a_cache_hit sample_path sample_world).
  - reflexivity.
  - cbn. lia.
Defined.

(** [racing_world] one minute later: the cached entry is past its TTL. *)
Lemma stale_cache_entry_is_not_served_witness :
  ∃ w',
    loadSessionStore sample_path false (put_now (λ t, t + 60000) racing_world)
    = (Ok (disk_store (put_now (λ t, t + 60000) racing_world) sample_path), w')
    ∧ w_cache w' !! sample_path
      = Some (CacheEntry (disk_store (put_now (λ t, t + 60000) racing_world) sample_path)
                (w_now (put_now (λ t, t + 60000) racing_world))
                (f_mtimeMs <$> w_files (put_now (λ t, t + 60000) racing_world)
                                 !! sample_path)).
Proof.
  apply (StoreCacheFacts.stale_cache_entry_is_not_served sample_path
           (CacheEntry sample_store 4000 (Some 900))
           (put_now (λ t, t + 60000) racing_world)).
  - reflexivity.
  - vm_refl.
  - left. cbn. lia.
Defined.

Lemma uncached_load_leaves_cache_alone_witness :
  ∃ w',
    loadSessionStore sample_path true racing_world
    = (Ok (disk_store racing_world sample_path), w')
    ∧ w_cache w' = w_cache racing_world.
Proof.
  apply (StoreCacheFacts.uncached_load_leaves_cache_alone sample_path true racing_world).
  left. reflexivity.
Defined.

(** A record with a property whose value is [undefined] is saved without
    it. *)
Lemma saveSessionStore_then_load_witness :
  ∃ w1,
    saveSessionStore 1 sample_path
      (<["agent:main:main" := <["label" := JUndef]> main_record]> ∅) sample_world
    = (Ok tt, w1)
    ∧ w_locks w1 !! lock_path sample_path = None
    ∧ ∀ skipCache, ∃ w2,
        loadSessionStore sample_path skipCache w1
        = (Ok (migrate (json_store
                          (<["agent:main:main" := <["label" := JUndef]> main_record]> ∅))),
           w2).
Proof.
  apply (StoreCacheFacts.saveSessionStore_then_load 0 sample_path
           (<["agent:main:main" := <["label" := JUndef]> main_record]> ∅) sample_world).
  vm_refl.
Defined.

(** No record under the key: the update function, which would throw, is
    not called. *)
Lemma updateSessionStoreEntry_without_patch_writes_nothing_witness :
  ∃ w',
    updateSessionStoreEntry mergeSessionEntry_model 1 sample_path "agent:main:nobody"
      (λ _, throw (Error "not called")) sample_world
    = (Ok (sample_store !! "agent:main:nobody"), w')
    ∧ w_files w' = w_files sample_world
    ∧ w_locks w' !! lock_path sample_path = None.
Proof.
  apply (StoreEntryFacts.updateSessionStoreEntry_without_patch_writes_nothing
           mergeSessionEntry_model 0 sample_path "agent:main:nobody"
           (λ _, throw (Error "not called")) sample_store sample_world).
  - vm_refl.
  - vm_refl.
  - left. vm_refl.
Defined.

Lemma updateSessionStoreEntry_persists_merged_record_witness :
  ∃ w',
    updateSessionStoreEntry mergeSessionEntry_model 1 sample_path "agent:main:main"
      touch_update sample_world
    = (Ok (Some (spread main_record (<["updatedAt" := JNum 5000]> ∅))), w')
    ∧ w_files w'
      = <[sample_path :=
            File (JSON_stringify
                    (<["agent:main:main" :=
                         spread main_record (<["updatedAt" := JNum 5000]> ∅)]> sample_store))
              (w_now sample_world)]> (w_files sample_world)
    ∧ w_locks w' !! lock_path sample_path = None.
Proof.
  apply (StoreEntryFacts.updateSessionStoreEntry_persists_merged_record
           mergeSessionEntry_model 0 sample_path "agent:main:main" touch_update
           sample_store main_record (<["updatedAt" := JNum 5000]> ∅)
           (spread main_record (<["updatedAt" := JNum 5000]> ∅)) sample_world).
  - vm_refl.
  - vm_refl.
  - vm_refl.
  - intros w0. reflexivity.
  - intros w0. reflexivity.
Defined.

End StoreFactsSamples.

(** ** Persisting the usage of a run *)

Module SessionUsageFacts.
Import SessionStore SessionStoreSpec SessionStoreFacts SessionUsage SessionUsageSpec.

(** A [try] whose [catch] only logs does not throw. *)
Lemma logged_catch_never_throws (m : M unit) (line : exn → string) (w : World) (e : exn) :
  (try_catch m (λ err, logVerbose (line err)) w).1 ≠ Throw e.
Proof. unfold try_catch, logVerbose, ret. by destruct (m w) as [[[]|e'|] w1]. Qed.

Section WithMerge.
Variable mergeSessionEntry :
  option (gmap string jsval) → gmap string jsval → M (gmap string jsval).

(** X10.  The usage update is best effort: it never throws.  For every set
    of parameters, every merge and every state of the world, whatever
    [persistSessionUsageUpdate] does, it does not end in an exception:
    what the locked entry update throws (a lock that cannot be had in
    time, an error of the file system, an exception of the merge) is
    caught and logged. *)
Theorem persistSessionUsageUpdate_never_throws (fuel : nat) (ui : UsageImports)
  (params : UsageParams) (w : World) (e : exn) :
  (persistSessionUsageUpdate mergeSessionEntry fuel ui params w).1 ≠ Throw e.
Proof.
  unfold persistSessionUsageUpdate.
  destruct (up_storePath params) as [storePath|]; [|done].
  destruct (up_sessionKey params) as [sessionKey|]; [|done].
  destruct (String.eqb storePath "" || String.eqb sessionKey ""); [done|].
  destruct (hasNonzeroUsage ui (up_usage params)).
  - apply (logged_catch_never_throws _
             (λ err, "failed to persist " +:+ _ +:+ "usage update: " +:+ exn_text err)).
  - destruct (truthy (up_modelUsed params) || truthy (up_contextTokensUsed params));
      [|done].
    apply (logged_catch_never_throws _
             (λ err, "failed to persist " +:+ _ +:+ "model/context update: "
                     +:+ exn_text err)).
Qed.

End WithMerge.

(** X11.  The compaction count of the run is added to the stored one.  With
    usage to report, no lock marker in place, a record under the key
    whose [compactionCount] is absent or a number [stored] (zero when
    absent), and a merge [m] without effects: the store file holds the
    loaded store with the merge of the record and a patch under the key.
    The patch is stamped with the current time.  It carries a
    [compactionCount] only when the run reports a positive count, and the
    value is then [stored] plus the count of the run, both and their sum
    being integers that a double holds exactly. *)
Theorem persistSessionUsageUpdate_adds_compactions
  (m : option (gmap string jsval) → gmap string jsval → gmap string jsval)
  (fuel : nat) (ui : UsageImports) (params : UsageParams)
  (storePath sessionKey : string)
  (s : gmap string (gmap string jsval)) (existing : gmap string jsval) (w : World)
  (stored : Z) :
  up_storePath params = Some storePath → storePath ≠ "" →
  up_sessionKey params = Some sessionKey → sessionKey ≠ "" →
  hasNonzeroUsage ui (up_usage params) = true →
  w_locks w !! lock_path storePath = None →
  (loadSessionStore storePath false w).1 = Ok s →
  s !! sessionKey = Some existing →
  nullish (prop existing "compactionCount") (JNum 0) = JNum stored →
  (∀ n, up_compactionCount params = JNum n → 0 < n →
        - MAX_SAFE_INTEGER <= stored ∧ n <= MAX_SAFE_INTEGER
        ∧ stored + n <= MAX_SAFE_INTEGER) →
  ∃ patch w',
    persistSessionUsageUpdate (λ e p, ret (m e p)) (S fuel) ui params w = (Ok tt, w')
    ∧ w_files w'
      = <[storePath :=
            File (JSON_stringify (<[sessionKey := m (Some existing) patch]> s)) (w_now w)]>
          (w_files w)
    ∧ patch !! "updatedAt" = Some (JNum (w_now w))
    ∧ patch !! "compactionCount"
      = match up_compactionCount params with
        | JNum n => if 0 <? n then Some (JNum (stored + n)) else None
        | _ => None
        end.
Proof.
  intros Hpath Hp Hkey Hk Husage Hfree Hs Hsome Hstored _.
  unfold persistSessionUsageUpdate. rewrite Hpath, Hkey, Husage.
  apply String.eqb_neq in Hp, Hk. rewrite Hp, Hk. cbn [orb].
  destruct (StoreEntryFacts.load_under_lock storePath w s Hs)
    as (w1 & Hload & Hf1 & Hn1 & _).
  destruct (usage_update ui params existing (emit (EvMutator storePath) w1))
    as [o w2] eqn:Hupd.
  assert (∃ patch, o = Ok (Some patch) ∧ w2 = emit (EvMutator storePath) w1
                   ∧ patch !! "updatedAt" = Some (JNum (w_now w))
                   ∧ patch !! "compactionCount"
                     = match up_compactionCount params with
                       | JNum n =>
                           if 0 <? n
                           then Some (add_compactions (prop existing "compactionCount") n)
                           else None
                       | _ => None
                       end) as (patch & -> & -> & Hat & Hcc).
  { revert Hupd. unfold usage_update, bind, Date_now, get, ret. cbn [w_now emit].
    rewrite Hn1. intros [= <- <-]. eexists. split; [reflexivity|]. split; [done|].
    unfold with_cli_session.
    destruct (truthy (up_cliSessionId params) && truthy _);
      destruct (up_compactionCount params) as [| |b|n|str|t];
      try destruct (0 <? n); by simplify_map_eq. }
  exists patch.
  unfold try_catch, bind at 1. unfold updateSessionStoreEntry.
  rewrite withSessionStoreLock_free by done.
  unfold bind at 1. rewrite Hload, Hsome.
  unfold bind at 1. unfold log, modify.
  unfold bind at 1. rewrite Hupd.
  unfold bind at 1. unfold ret at 1.
  unfold bind at 1.
  destruct (saveSessionStoreUnlocked_spec storePath
              (<[sessionKey := m (Some existing) patch]> s)
              (emit (EvMutator storePath) w1))
    as (w3 & -> & Hf3 & _ & _ & _).
  unfold ret. cbn [finish].
  destruct (released_frame storePath w3) as (Hf4 & _).
  eexists. split; [done|]. rewrite Hf4, Hf3. cbn. rewrite Hf1, Hn1.
  split; [done|]. split; [done|]. rewrite Hcc.
  unfold add_compactions. by rewrite Hstored.
Qed.

End SessionUsageFacts.

Module SessionUsageSamples.
Import SessionStore SessionStoreSpec SessionStoreFacts StoreSamples.
Import SessionUsage SessionUsageSpec UsageSamples.

(** The lock is held by another process for the whole wait and the merge
    would throw: the update does not throw the timeout error. *)
Lemma persistSessionUsageUpdate_never_throws_witness :
  (persistSessionUsageUpdate failing_merge 403 sample_usage_imports run_params
     held_lock_world).1
  ≠ Throw (Error ("timeout acquiring session store lock: " +:+ lock_path sample_path)).
Proof.
  apply (SessionUsageFacts.persistSessionUsageUpdate_never_throws failing_merge).
Defined.

(** Three compactions stored, two in the run: five. *)
Lemma persistSessionUsageUpdate_adds_compactions_witness :
  ∃ patch w',
    persistSessionUsageUpdate (λ e p, ret (spread (ospread e) p)) 1
      sample_usage_imports run_params compacted_world = (Ok tt, w')
    ∧ w_files w'
      = <[sample_path :=
            File (JSON_stringify
                    (<["agent:main:main" := spread compacted_record patch]>
                       (<["agent:main:main" := compacted_record]> ∅)))
              5000]> (w_files compacted_world)
    ∧ patch !! "updatedAt" = Some (JNum 5000)
    ∧ patch !! "compactionCount" = Some (JNum 5).
Proof.
  apply (SessionUsageFacts.persistSessionUsageUpdate_adds_compactions
           (λ e p, spread (ospread e) p) 0 sample_usage_imports run_params
           sample_path "agent:main:main"
           (<["agent:main:main" := compacted_record]> ∅) compacted_record
           compacted_world 3); first [vm_refl | discriminate | idtac].
  intros n [= <-] _. unfold MAX_SAFE_INTEGER. lia.
Defined.

End SessionUsageSamples.

(** ** More on strings *)

Module StringMore.
Import StringFacts.

Lemma append_cons (c : ascii) (a b : string) : String c a +:+ b = String c (a +:+ b).
Proof. reflexivity. Qed.

Lemma append_nil_r (s : string) : s +:+ "" = s.
Proof. induction s as [|c s IH]; [done|]. rewrite ?append_cons. cbn. by rewrite IH. Qed.

Lemma append_assoc (a b c : string) : (a +:+ b) +:+ c = a +:+ (b +:+ c).
Proof. induction a as [|x a IH]; [done|]. rewrite ?append_cons. cbn. by rewrite IH. Qed.

Lemma length_append (a b : string) :
  String.length (a +:+ b) = (String.length a + String.length b)%nat.
Proof. induction a as [|x a IH]; [done|]. rewrite ?append_cons. cbn. by rewrite IH. Qed.

Lemma list_ascii_of_string_app (a b : string) :
  list_ascii_of_string (a +:+ b)
  = (list_ascii_of_string a ++ list_ascii_of_string b)%list.
Proof. induction a as [|x a IH]; [done|]. rewrite ?append_cons. cbn. by rewrite IH. Qed.

Lemma length_list_ascii_of_string (s : string) :
  List.length (list_ascii_of_string s) = String.length s.
Proof. induction s as [|c s IH]; [done|]. rewrite ?append_cons. cbn. by rewrite IH. Qed.

(** Two texts that end in parts of the same length agree part by part. *)
Lemma append_inj_length (a b x y : string) :
  String.length x = String.length y →
  a +:+ x = b +:+ y → a = b ∧ x = y.
Proof.
  intros Hlen Heq.
  apply (f_equal list_ascii_of_string) in Heq.
  rewrite !list_ascii_of_string_app in Heq.
  apply app_inj_2 in Heq; [|by rewrite !length_list_ascii_of_string].
  destruct Heq as [Ha Hx].
  apply (f_equal string_of_list_ascii) in Ha, Hx.
  by rewrite !string_of_list_ascii_of_string in Ha, Hx.
Qed.

Lemma toLowerCase_app (a b : string) :
  toLowerCase (a +:+ b) = toLowerCase a +:+ toLowerCase b.
Proof. induction a as [|x a IH]; [done|]. rewrite ?append_cons. cbn. by rewrite IH. Qed.

Lemma length_toLowerCase (s : string) : String.length (toLowerCase s) = String.length s.
Proof. induction s as [|c s IH]; [done|]. rewrite ?append_cons. cbn. by rewrite IH. Qed.

Lemma slice_from_app (p t : string) : slice_from (String.length p) (p +:+ t) = t.
Proof. induction p as [|c p IH]; [by destruct t|]. rewrite append_cons. cbn. done. Qed.

Lemma slice_to_app (p t : string) : slice_to (String.length p) (p +:+ t) = p.
Proof. induction p as [|c p IH]; [by destruct t|]. rewrite append_cons. cbn. by rewrite IH. Qed.

Lemma slice_to_from (n : nat) (s : string) : slice_to n s +:+ slice_from n s = s.
Proof.
  revert s. induction n as [|n IH]; intros [|c s]; cbn; try done. rewrite append_cons. by rewrite IH.
Qed.

Lemma trimStart_id (s : string) : starts_nonspace s = true → trimStart s = s.
Proof. destruct s as [|c s]; [done|]. cbn. by destruct (is_space c). Qed.

Lemma trimEnd_id (s : string) : ends_nonspace s = true → trimEnd s = s.
Proof.
  induction s as [|c s IH]; [done|]. intros Hend.
  destruct s as [|d s].
  - cbn in *. by destruct (is_space c).
  - change (ends_nonspace (String d s) = true) in Hend.
    change (trimEnd (String c (String d s)))
      with (match trimEnd (String d s) with
            | EmptyString => if is_space c then EmptyString else String c EmptyString
            | r' => String c r'
            end).
    by rewrite (IH Hend).
Qed.

(** A text that neither starts nor ends with white space is its own
    trim. *)
Lemma trim_id (s : string) :
  starts_nonspace s = true → ends_nonspace s = true → trim s = s.
Proof. intros Hs He. unfold trim. by rewrite trimStart_id, trimEnd_id. Qed.

Lemma starts_nonspace_app (a b : string) :
  starts_nonspace a = true → starts_nonspace (a +:+ b) = true.
Proof. by destruct a. Qed.

Lemma length_trimStart (s : string) : (String.length (trimStart s) ≤ String.length s)%nat.
Proof.
  induction s as [|c s IH]; [done|]. cbn. destruct (is_space c); cbn; lia.
Qed.

Lemma length_trimEnd (s : string) : (String.length (trimEnd s) ≤ String.length s)%nat.
Proof.
  induction s as [|c s IH]; [done|].
  change (trimEnd (String c s))
    with (match trimEnd s with
          | EmptyString => if is_space c then EmptyString else String c EmptyString
          | r' => String c r'
          end).
  destruct (trimEnd s) as [|d r]; [destruct (is_space c); cbn; lia|].
  cbn in *. lia.
Qed.

Lemma length_trim (s : string) : (String.length (trim s) ≤ String.length s)%nat.
Proof.
  unfold trim. pose proof (length_trimEnd (trimStart s)). pose proof (length_trimStart s).
  lia.
Qed.

End StringMore.

(** ** Thread sessions *)

Module SessionThreadFacts.
Import StringFacts StringMore TextSpec SessionThread SessionThreadSpec.

Lemma split_last_colon_none (s : string) :
  no_colon s = true → split_last_colon s = None.
Proof.
  induction s as [|c s IH]; [done|]. cbn. intros [Hc Hs]%andb_prop.
  rewrite (IH Hs). by destruct (Ascii.eqb c ":").
Qed.

Lemma split_last_colon_app (a b : string) :
  no_colon b = true → split_last_colon (a +:+ ":" +:+ b) = Some (a, b).
Proof.
  intros Hb. induction a as [|c a IH].
  - change ("" +:+ ":" +:+ b) with (String ":" b).
    cbn [split_last_colon]. by rewrite split_last_colon_none.
  - change (String c a +:+ ":" +:+ b) with (String c (a +:+ ":" +:+ b)).
    cbn [split_last_colon]. by rewrite IH.
Qed.

(** What [split_last_colon] returns is a decomposition of the text. *)
Lemma split_last_colon_inv (s before after : string) :
  split_last_colon s = Some (before, after) → s = before +:+ ":" +:+ after.
Proof.
  revert before. induction s as [|c s IH]; intros before; [done|]. cbn.
  destruct (split_last_colon s) as [[b a]|].
  - intros [= <- <-]. rewrite append_cons. by rewrite <- (IH b).
  - destruct (Ascii.eqb c ":") eqn:Hc; [|done].
    apply Ascii.eqb_eq in Hc as ->. by intros [= <- <-].
Qed.

Lemma strip_suffix_ci_app (p t suffix : string) :
  toLowerCase t = suffix → strip_suffix_ci (p +:+ t) suffix = Some p.
Proof.
  intros <-. unfold strip_suffix_ci.
  rewrite length_append, length_toLowerCase.
  replace (String.length p + String.length t - String.length t)%nat
    with (String.length p) by lia.
  rewrite slice_from_app, slice_to_app, String.eqb_refl.
  replace (String.length t <=? String.length p + String.length t)%nat with true
    by (symmetry; apply Nat.leb_le; lia).
  done.
Qed.

Lemma strip_suffix_ci_inv (s suffix group : string) :
  strip_suffix_ci s suffix = Some group →
  ∃ t, s = group +:+ t ∧ toLowerCase t = suffix.
Proof.
  unfold strip_suffix_ci.
  destruct (String.length suffix <=? String.length s)%nat; [|done]. cbn.
  destruct (String.eqb _ suffix) eqn:Heq; [|done].
  apply String.eqb_eq in Heq. intros [= <-].
  eexists. split; [|exact Heq]. by rewrite slice_to_from.
Qed.

(** The pattern on a text of the form [group:kind:id]. *)
Lemma regex_exec_app (group kind id : string) :
  toLowerCase kind = "thread" ∨ toLowerCase kind = "topic" →
  no_line_terminator group = true →
  id ≠ "" → no_colon id = true →
  THREAD_SESSION_SUFFIX_REGEX_exec (group +:+ ":" +:+ kind +:+ ":" +:+ id) = Some group.
Proof.
  intros Hkind Hline Hid Hcolon. unfold THREAD_SESSION_SUFFIX_REGEX_exec.
  replace (group +:+ ":" +:+ kind +:+ ":" +:+ id)
    with ((group +:+ ":" +:+ kind) +:+ ":" +:+ id)
    by (by rewrite !append_assoc).
  rewrite split_last_colon_app by done.
  apply String.eqb_neq in Hid. rewrite Hid.
  destruct Hkind as [Hkind|Hkind].
  - rewrite (strip_suffix_ci_app group (":" +:+ kind) ":thread")
      by (by rewrite toLowerCase_app, Hkind).
    by rewrite Hline.
  - rewrite (strip_suffix_ci_app group (":" +:+ kind) ":topic")
      by (by rewrite toLowerCase_app, Hkind).
    destruct (strip_suffix_ci (group +:+ ":" +:+ kind) ":thread") as [g|] eqn:Hthread;
      [|by rewrite Hline].
    exfalso. apply strip_suffix_ci_inv in Hthread as (t & Heq & Ht).
    apply (f_equal toLowerCase) in Heq.
    rewrite !toLowerCase_app, Hkind, Ht in Heq. cbn in Heq.
    replace (toLowerCase g +:+ ":thread") with ((toLowerCase g +:+ ":") +:+ "thread")
      in Heq by (by rewrite append_assoc).
    apply append_inj_length in Heq; [|done]. by destruct Heq.
Qed.

(** X12.  The parent of a thread key.  For a key of ASCII characters of
    the form [parent:thread:id] or [parent:topic:id], the word in any
    case, where [parent] is on one line and has no white space at its
    ends and [id] has no colon and does not end in white space, the
    inferred parent session key is [parent]. *)
Theorem inferParentSessionKey_of_thread_key (parent kind id : string) :
  ascii_only parent = true →
  ascii_only id = true →
  toLowerCase kind = "thread" ∨ toLowerCase kind = "topic" →
  starts_nonspace parent = true →
  ends_nonspace parent = true →
  no_line_terminator parent = true →
  no_colon id = true →
  ends_nonspace id = true →
  inferParentSessionKey (Some (parent +:+ ":" +:+ kind +:+ ":" +:+ id)) = Some parent.
Proof.
  intros _ _ Hkind Hs He Hline Hcolon Hid. unfold inferParentSessionKey.
  rewrite trim_id;
    [|by apply starts_nonspace_app|by do 4 apply ends_nonspace_app].
  destruct parent as [|c parent]; [done|].
  change (String c parent +:+ ":" +:+ kind +:+ ":" +:+ id)
    with (String c (parent +:+ ":" +:+ kind +:+ ":" +:+ id)) at 1.
  cbn [String.eqb].
  rewrite regex_exec_app; [|done|done|by destruct id|done].
  rewrite trim_id by done. done.
Qed.

(** X13.  The inferred parent is never the key itself: it is shorter than the
    trimmed key by at least the thread suffix. *)
Theorem inferParentSessionKey_is_shorter (key parent : string) :
  inferParentSessionKey (Some key) = Some parent →
  (String.length parent + 8 ≤ String.length (trim key))%nat
  ∧ parent ≠ trim key.
Proof.
  unfold inferParentSessionKey.
  destruct (String.eqb (trim key) ""); [done|].
  destruct (THREAD_SESSION_SUFFIX_REGEX_exec (trim key)) as [group|] eqn:Hexec; [|done].
  destruct (String.eqb (trim group) ""); [done|]. intros [= <-].
  assert (String.length group + 8 ≤ String.length (trim key))%nat as Hlen.
  { revert Hexec. unfold THREAD_SESSION_SUFFIX_REGEX_exec.
    destruct (split_last_colon (trim key)) as [[rest last]|] eqn:Hsplit; [|done].
    apply split_last_colon_inv in Hsplit. rewrite Hsplit.
    destruct last as [|l last]; [done|]. cbn [String.eqb].
    rewrite !length_append. cbn [String.length].
    destruct (strip_suffix_ci rest ":thread") as [g|] eqn:Hthread.
    - destruct (no_line_terminator g); [|done]. intros [= ->].
      apply strip_suffix_ci_inv in Hthread as (t & -> & Ht).
      apply (f_equal String.length) in Ht. rewrite length_toLowerCase in Ht.
      rewrite length_append. cbn in Ht. lia.
    - destruct (strip_suffix_ci rest ":topic") as [g|] eqn:Htopic; [|done].
      destruct (no_line_terminator g); [|done]. intros [= ->].
      apply strip_suffix_ci_inv in Htopic as (t & -> & Ht).
      apply (f_equal String.length) in Ht. rewrite length_toLowerCase in Ht.
      rewrite length_append. cbn in Ht. lia. }
  pose proof (length_trim group) as Htrim.
  split; [lia|]. intros Heq. rewrite Heq in Htrim. lia.
Qed.

Lemma filter_keeps_block_idem (blocks : list block) :
  List.filter keeps_block (List.filter keeps_block blocks) = List.filter keeps_block blocks.
Proof.
  induction blocks as [|b blocks IH]; [done|]. cbn.
  destruct (keeps_block b) eqn:Hb; [|done]. cbn. by rewrite Hb, IH.
Qed.

Lemma forallb_filter_keeps_block (blocks : list block) :
  forallb keeps_block (List.filter keeps_block blocks) = true.
Proof.
  induction blocks as [|b blocks IH]; [done|]. cbn.
  destruct (keeps_block b) eqn:Hb; [|done]. cbn. by rewrite Hb.
Qed.

Lemma filter_same_length (blocks : list block) :
  List.length (List.filter keeps_block blocks) = List.length blocks →
  List.filter keeps_block blocks = blocks.
Proof.
  induction blocks as [|b blocks IH]; [done|]. cbn.
  destruct (keeps_block b).
  - cbn. intros [= Hlen]. by rewrite IH.
  - pose proof (List.filter_length_le keeps_block blocks). cbn. lia.
Qed.

(** What a stripped assistant message looks like. *)
Lemma stripAssistantToolCalls_spec (role : jsval) (content : message_content)
  (rest : string) (stripped : agent_message) :
  role_is role "assistant" = true →
  stripAssistantToolCalls role content rest = Some stripped →
  without_tool_traffic stripped = true
  ∧ isPiMessage stripped = true
  ∧ is_user stripped = false
  ∧ ∃ content', stripped = Message role content' rest
                ∧ stripAssistantToolCalls role content' rest = Some stripped.
Proof.
  intros Hrole. unfold stripAssistantToolCalls.
  assert (role_is role "user" = false) as Huser.
  { unfold role_is in *. apply bool_decide_eq_true in Hrole as ->. done. }
  destruct content as [blocks|v].
  - destruct (List.length (List.filter keeps_block blocks) =? 0)%nat eqn:Hempty; [done|].
    destruct (List.length (List.filter keeps_block blocks) =? List.length blocks)%nat
      eqn:Hsame; intros [= <-]; cbn; rewrite Hrole, Huser; cbn.
    + apply Nat.eqb_eq in Hsame. apply filter_same_length in Hsame as Hid.
      rewrite Hid in Hempty. rewrite Hempty. cbn.
      repeat split; try done.
      * rewrite <- Hid. apply forallb_filter_keeps_block.
      * exists (ContentBlocks blocks). split; [done|].
        by rewrite Hid, Hempty, Nat.eqb_refl.
    + rewrite Hempty, forallb_filter_keeps_block. cbn.
      repeat split; try done.
      exists (ContentBlocks (List.filter keeps_block blocks)). split; [done|].
      by rewrite filter_keeps_block_idem, Hempty, Nat.eqb_refl.
  - intros [= <-]. cbn. rewrite Hrole, Huser. cbn.
    repeat split; try done. by exists (ContentValue v).
Qed.

(** X14.  A thread that inherits its parent without tool results sees no tool
    traffic.  With [includeToolResults] the list is handed on as it is.
    Without it, every message of the result is a user message or an
    assistant message whose content array, if any, is not empty and has
    no tool-call block; every one of them is a message that the transcript
    accepts; and the user messages are those of the input, in their
    order. *)
Theorem filterParentMessages_drops_tool_traffic (messages : list agent_message) :
  filterParentMessages messages true = messages
  ∧ forallb without_tool_traffic (filterParentMessages messages false) = true
  ∧ forallb isPiMessage (filterParentMessages messages false) = true
  ∧ List.filter is_user (filterParentMessages messages false)
    = List.filter is_user messages.
Proof.
  split; [done|]. unfold filterParentMessages.
  induction messages as [|[role content rest|v] messages (IH1 & IH2 & IH3)]; [done|..];
    [|done].
  cbn [filter_messages].
  destruct (role_is role "toolResult") eqn:Hresult.
  { repeat split; try done. cbn.
    unfold role_is in *. apply bool_decide_eq_true in Hresult as ->. done. }
  destruct (role_is role "assistant") eqn:Hassistant.
  { assert (role_is role "user" = false) as Huser.
    { unfold role_is in *. apply bool_decide_eq_true in Hassistant as ->. done. }
    destruct (stripAssistantToolCalls role content rest) as [stripped|] eqn:Hstrip.
    - destruct (stripAssistantToolCalls_spec role content rest stripped Hassistant Hstrip)
        as (H1 & H2 & H3 & _).
      cbn. rewrite H1, H2, H3, Huser. done.
    - cbn. rewrite Huser. done. }
  destruct (role_is role "user") eqn:Huser.
  - cbn. rewrite Huser. cbn. rewrite IH1, IH2, IH3. done.
  - cbn. rewrite Huser. done.
Qed.

(** X15.  Filtering is idempotent: a list that was filtered once is left as it
    is by a second pass. *)
Theorem filterParentMessages_idempotent (messages : list agent_message) :
  filterParentMessages (filterParentMessages messages false) false
  = filterParentMessages messages false.
Proof.
  unfold filterParentMessages.
  induction messages as [|[role content rest|v] messages IH]; [done|..]; [|done].
  cbn [filter_messages].
  destruct (role_is role "toolResult") eqn:Hresult; [done|].
  destruct (role_is role "assistant") eqn:Hassistant.
  - destruct (stripAssistantToolCalls role content rest) as [stripped|] eqn:Hstrip;
      [|done].
    destruct (stripAssistantToolCalls_spec role content rest stripped Hassistant Hstrip)
      as (_ & _ & _ & content' & -> & Hagain).
    cbn [filter_messages]. by rewrite Hresult, Hassistant, Hagain, IH.
  - destruct (role_is role "user") eqn:Huser; [|done].
    cbn [filter_messages]. by rewrite Hresult, Hassistant, Huser, IH.
Qed.

End SessionThreadFacts.

Module SessionThreadSamples.
Import SessionThread SessionThreadSpec.

(** A Slack thread under a channel session. *)
Lemma inferParentSessionKey_of_thread_key_witness :
  inferParentSessionKey (Some ("agent:main:slack:channel:c1" +:+ ":" +:+ "thread"
                               +:+ ":" +:+ "1712.55"))
  = Some "agent:main:slack:channel:c1".
Proof.
  apply (SessionThreadFacts.inferParentSessionKey_of_thread_key
           "agent:main:slack:channel:c1" "thread" "1712.55");
    first [by left | reflexivity].
Defined.

(** A Telegram topic, written with padding and in upper case. *)
Lemma inferParentSessionKey_is_shorter_witness :
  (String.length "agent:main:tg:group:7" + 8
   ≤ String.length (trim " agent:main:tg:group:7:TOPIC:9 "))%nat
  ∧ "agent:main:tg:group:7" ≠ trim " agent:main:tg:group:7:TOPIC:9 ".
Proof.
  apply (SessionThreadFacts.inferParentSessionKey_is_shorter
           " agent:main:tg:group:7:TOPIC:9 " "agent:main:tg:group:7").
  reflexivity.
Defined.

(** The sample thread without tool results: the user turn, the text of
    the first assistant turn and the final answer. *)
Lemma filterParentMessages_drops_tool_traffic_witness :
  filterParentMessages sample_thread false
  = [ Message (JStr "user") (ContentValue (JStr "what changed?")) "";
      Message (JStr "assistant") (ContentBlocks [Block (JStr "text") "Let me look."]) "";
      Message (JStr "assistant") (ContentBlocks [Block (JStr "text") "Three commits."]) "" ]
  ∧ forallb without_tool_traffic (filterParentMessages sample_thread false) = true
  ∧ filterParentMessages sample_thread true = sample_thread.
Proof.
  destruct (SessionThreadFacts.filterParentMessages_drops_tool_traffic sample_thread)
    as (Hall & Hclean & _).
  split; [reflexivity|]. by split.
Defined.

Lemma filterParentMessages_idempotent_witness :
  filterParentMessages (filterParentMessages sample_thread false) false
  = filterParentMessages sample_thread false.
Proof. exact (SessionThreadFacts.filterParentMessages_idempotent sample_thread). Defined.

End SessionThreadSamples.

(** ** Session initialisation, later revision *)

Module SessionInitFacts.
Import SessionStore SessionStoreSpec SessionStoreFacts SessionInit SessionInitSpec.

(** Without authorization no trigger matches, whatever the body. *)
Lemma match_reset_trigger_unauthorized (resetTriggers : list string)
  (trimmedBody strippedForReset : string) :
  match_reset_trigger resetTriggers false trimmedBody strippedForReset = None.
Proof.
  induction resetTriggers as [|trigger rest IH]; [done|]. cbn.
  by destruct (String.eqb trigger "").
Qed.

Lemma nullish_same (v : jsval) : nullish v v = v.
Proof. by destruct v. Qed.

(** The turn that continues a session: the store has a record under the
    key that the policy finds fresh, no trigger matched and there is no
    parent to merge from. *)
Lemma initSessionState_reuse (fuel : nat) (t : Turn) (w : World)
  (s : gmap string (gmap string jsval)) (entry : gmap string jsval) (sid : string) :
  (loadSessionStore (t_storePath t) false w).1 = Ok s →
  s !! t_sessionKey t = Some entry →
  reset_match t = None →
  t_fresh t (prop entry "updatedAt") (w_now w) = true →
  parent_entry t s = None →
  prop entry "sessionId" = JStr sid →
  w_locks w !! lock_path (t_storePath t) = None →
  ∃ w',
    initSessionState (S fuel) t w
    = (Ok (InitResult
             (finish_entry t false (entry_literal t true (Some entry) (JStr sid) (w_now w)))
             None
             (<[t_sessionKey t :=
                  spread entry
                    (finish_entry t false
                       (entry_literal t true (Some entry) (JStr sid) (w_now w)))]> s)
             (t_sessionKey t) (JStr sid) false false
             (nullish (prop entry "systemSent") (JBool false))
             (nullish (prop entry "abortedLastRun") (JBool false))
             None), w')
    ∧ w_files w'
      = <[t_storePath t :=
            File (JSON_stringify
                    (<[t_sessionKey t :=
                         spread (ospread (disk_store w (t_storePath t) !! t_sessionKey t))
                           (finish_entry t false
                              (entry_literal t true (Some entry) (JStr sid) (w_now w)))]>
                       (disk_store w (t_storePath t))))
              (w_now w)]> (w_files w).
Proof.
  intros Hload Hentry Hmatch Hfresh Hparent Hsid Hfree.
  destruct (loadSessionStore_frame (t_storePath t) false w)
    as (s0 & w1 & Hl & Hf1 & Hlk1 & Hn1 & He1 & Hen1 & Hd1).
  rewrite Hl in Hload. cbn in Hload. injection Hload as ->.
  unfold initSessionState.
  unfold bind at 1. rewrite Hl.
  rewrite Hmatch, Hentry.
  change (bool_decide (is_Some (@None string))) with false.
  unfold bind at 1. unfold Date_now at 1. unfold get.
  cbn [negb andb freshEntry]. rewrite Hn1, Hfresh, Hparent.
  unfold bind at 1. unfold ret at 1.
  unfold bind at 1. unfold Date_now at 1. unfold get.
  cbn [negb oprop with_transcript]. rewrite Hsid, Hn1.
  unfold bind at 1. unfold merge_mutator.
  set (E := finish_entry t false (entry_literal t true (Some entry) (JStr sid) (w_now w))).
  destruct (updateSessionStore_pure fuel (t_storePath t)
              (λ store0, (tt, <[t_sessionKey t :=
                                  spread (ospread (store0 !! t_sessionKey t)) E]> store0))
              w1) as (w2 & -> & Hf2 & _); [by rewrite Hlk1|].
  cbn [fst snd] in Hf2. cbn [fst sessionId_or_new]. unfold bind at 1. unfold ret.
  exists w2. split; [done|].
  rewrite Hf2, Hn1, Hf1. by rewrite (disk_store_ext w w1).
Qed.

(** One step through the record literal: the property asked for is the
    one written, or the write is skipped. *)
Ltac literal_step p :=
  match goal with
  | |- context [<[?k := ?v]> ?m !! p] =>
      destruct (decide (p = k)) as [->|?];
      [rewrite lookup_insert_eq; cbn; by rewrite ?nullish_same
      |rewrite lookup_insert_ne by done]
  end.

(** On a turn that continues a session, a property that is not computed
    anew and that the metadata patch does not carry has the value of the
    stored record. *)
Lemma entry_literal_reuse_frame (t : Turn) (entry : gmap string jsval)
  (sessionId0 : jsval) (now2 : Z) (p : string) :
  p ∉ recomputed_on_reuse →
  (∀ e patch, t_deriveSessionMetaPatch t e = Some patch → patch !! p = None) →
  prop (finish_entry t false (entry_literal t true (Some entry) sessionId0 now2)) p
  = prop entry p.
Proof.
  intros Hp Hmeta. unfold recomputed_on_reuse in Hp.
  rewrite !not_elem_of_cons in Hp.
  destruct Hp as (? & ? & ? & ? & ? & ? & ? & ? & ? & ? & ? & ? & _).
  assert (prop (entry_literal t true (Some entry) sessionId0 now2) p = prop entry p)
    as Hlit.
  { unfold entry_literal. cbv zeta. cbn [oprop ospread default].
    match goal with
    | |- context [<["lastThreadId" := ?v]> ?m] => set (E1 := <["lastThreadId" := v]> m)
    end.
    assert (prop E1 p = prop entry p) as HE1.
    { subst E1. unfold prop. repeat literal_step p. done. }
    clearbody E1.
    assert (prop (match t_deriveSessionMetaPatch t E1 with
                  | Some metaPatch => spread E1 metaPatch
                  | None => E1
                  end) p = prop entry p) as HE2.
    { destruct (t_deriveSessionMetaPatch t E1) as [patch|] eqn:Hpatch; [|done].
      unfold spread, prop. rewrite lookup_union_r by (by eapply Hmeta). done. }
    unfold prop at 1.
    destruct (truthy (otrim (t_ThreadLabel t)));
      rewrite ?lookup_insert_ne by done;
      destruct (truthy _); rewrite ?lookup_insert_ne by done; done. }
  unfold finish_entry. unfold prop at 1.
  destruct (truthy _); rewrite ?lookup_insert_ne by done; done.
Qed.

(** X16.  A turn that continues a session keeps what the record holds.  Let the
    store have a record under the session key that the reset policy finds
    fresh, let no reset trigger match, let there be no parent session to
    merge from and no lock marker in place.  Then the session is not new,
    its [sessionId] is the stored one, the [systemSent] flag is the stored
    one, and every property of the record that is not computed anew on
    each turn and that the metadata patch does not carry, the model,
    provider, thinking, verbose and reasoning overrides among them, has
    its stored value in the record that is returned and persisted. *)
Theorem initSessionState_continues_fresh_session (fuel : nat) (t : Turn) (w : World)
  (s : gmap string (gmap string jsval)) (entry : gmap string jsval) (sid : string) :
  (loadSessionStore (t_storePath t) false w).1 = Ok s →
  s !! t_sessionKey t = Some entry →
  reset_match t = None →
  t_fresh t (prop entry "updatedAt") (w_now w) = true →
  parent_entry t s = None →
  prop entry "sessionId" = JStr sid →
  w_locks w !! lock_path (t_storePath t) = None →
  ∃ r w',
    initSessionState (S fuel) t w = (Ok r, w')
    ∧ r_isNewSession r = false
    ∧ r_sessionId r = JStr sid
    ∧ r_systemSent r = nullish (prop entry "systemSent") (JBool false)
    ∧ f_content <$> w_files w' !! t_storePath t
      = Some (JSON_stringify
                (<[t_sessionKey t :=
                     spread (ospread (disk_store w (t_storePath t) !! t_sessionKey t))
                       (r_sessionEntry r)]> (disk_store w (t_storePath t))))
    ∧ ∀ p, p ∉ recomputed_on_reuse →
           (∀ e patch, t_deriveSessionMetaPatch t e = Some patch → patch !! p = None) →
           prop (r_sessionEntry r) p = prop entry p.
Proof.
  intros Hload Hentry Hmatch Hfresh Hparent Hsid Hfree.
  destruct (initSessionState_reuse fuel t w s entry sid) as (w' & -> & Hf); try done.
  eexists _, w'. split; [reflexivity|]. cbn.
  repeat split; try done.
  - by rewrite Hf, lookup_insert_eq.
  - intros p Hp Hmeta. by apply entry_literal_reuse_frame.
Qed.

(** X17.  A sender who is not authorized cannot reset a session.  Whatever the
    body of the message and whatever the triggers are, with a fresh
    record under the key the session goes on: no reset is reported, the
    stored [sessionId] is returned and the body is not stripped. *)
Theorem unauthorized_sender_cannot_reset (fuel : nat) (t : Turn) (w : World)
  (s : gmap string (gmap string jsval)) (entry : gmap string jsval) (sid : string) :
  t_resetAuthorized t = false →
  (loadSessionStore (t_storePath t) false w).1 = Ok s →
  s !! t_sessionKey t = Some entry →
  t_fresh t (prop entry "updatedAt") (w_now w) = true →
  parent_entry t s = None →
  prop entry "sessionId" = JStr sid →
  w_locks w !! lock_path (t_storePath t) = None →
  ∃ r w',
    initSessionState (S fuel) t w = (Ok r, w')
    ∧ r_resetTriggered r = false
    ∧ r_isNewSession r = false
    ∧ r_sessionId r = JStr sid
    ∧ r_bodyStripped r = None
    ∧ r_previousSessionEntry r = None.
Proof.
  intros Hauth Hload Hentry Hfresh Hparent Hsid Hfree.
  assert (reset_match t = None) as Hmatch.
  { unfold reset_match. rewrite Hauth. apply match_reset_trigger_unauthorized. }
  destruct (initSessionState_reuse fuel t w s entry sid) as (w' & -> & _); try done.
  by eexists _, w'.
Qed.

(** X18.  A turn that starts a session starts it clean.  Let a reset trigger
    match or let the store have no fresh record under the key, with no
    parent session to fork from and no lock marker in place.  Then the
    session is new, its [sessionId] is the next UUID of the source, the
    [systemSent] and [abortedLastRun] flags are off, the record that is
    returned and persisted has [compactionCount = 0], and the record that
    was there is handed back as [previousSessionEntry] exactly when a
    trigger matched. *)
Theorem initSessionState_starts_new_session (fuel : nat) (t : Turn) (w : World)
  (s : gmap string (gmap string jsval)) :
  (loadSessionStore (t_storePath t) false w).1 = Ok s →
  is_Some (reset_match t) ∨ freshEntry t (s !! t_sessionKey t) (w_now w) = false →
  parent_entry t s = None →
  w_locks w !! lock_path (t_storePath t) = None →
  ∃ r w',
    initSessionState (S fuel) t w = (Ok r, w')
    ∧ r_isNewSession r = true
    ∧ r_sessionId r = JStr (w_entropy w (w_drawn w))
    ∧ r_systemSent r = JBool false
    ∧ r_abortedLastRun r = JBool false
    ∧ r_sessionEntry r !! "compactionCount" = Some (JNum 0)
    ∧ r_bodyStripped r = reset_match t
    ∧ r_previousSessionEntry r
      = (if bool_decide (is_Some (reset_match t)) then s !! t_sessionKey t else None)
    ∧ f_content <$> w_files w' !! t_storePath t
      = Some (JSON_stringify
                (<[t_sessionKey t :=
                     spread (ospread (disk_store w (t_storePath t) !! t_sessionKey t))
                       (r_sessionEntry r)]> (disk_store w (t_storePath t)))).
Proof.
  intros Hload Hnew Hparent Hfree.
  destruct (loadSessionStore_frame (t_storePath t) false w)
    as (s0 & w1 & Hl & Hf1 & Hlk1 & Hn1 & He1 & Hen1 & Hd1).
  rewrite Hl in Hload. cbn in Hload. injection Hload as ->.
  assert (negb (bool_decide (is_Some (reset_match t)))
          && freshEntry t (s !! t_sessionKey t) (w_now w) = false) as Hreuse.
  { destruct Hnew as [Hreset|Hstale].
    - by rewrite bool_decide_eq_true_2.
    - rewrite Hstale. apply andb_false_r. }
  unfold initSessionState.
  unfold bind at 1. rewrite Hl.
  unfold bind at 1. unfold Date_now at 1. unfold get.
  rewrite Hn1, Hreuse, Hparent.
  unfold bind at 1. unfold bind at 1. unfold randomUUID at 1. unfold ret at 1.
  unfold bind at 1. unfold Date_now at 1. unfold get.
  cbn [negb with_transcript]. rewrite Hen1, Hd1.
  unfold bind at 1. unfold merge_mutator.
  set (E := finish_entry t true
              (entry_literal t false (s !! t_sessionKey t)
                 (JStr (w_entropy w (w_drawn w))) (w_now (put_drawn S w1)))).
  destruct (updateSessionStore_pure fuel (t_storePath t)
              (λ store0, (tt, <[t_sessionKey t :=
                                  spread (ospread (store0 !! t_sessionKey t)) E]> store0))
              (put_drawn S w1)) as (w2 & -> & Hf2 & _); [cbn; by rewrite Hlk1|].
  cbn [fst snd] in Hf2. cbn [fst sessionId_or_new]. unfold bind at 1. unfold ret.
  eexists _, w2. split; [reflexivity|].
  cbn [r_isNewSession r_sessionId r_systemSent r_abortedLastRun r_sessionEntry
       r_bodyStripped r_previousSessionEntry].
  repeat split; try done.
  - subst E. unfold finish_entry.
    do 2 rewrite lookup_insert_ne by done. apply lookup_insert_eq.
  - rewrite Hf2, lookup_insert_eq. cbn.
    by rewrite (disk_store_ext w (put_drawn S w1)).
Qed.

End SessionInitFacts.

Module SessionInitSamples.
Import SessionStore SessionStoreSpec SessionStoreFacts SessionInit SessionInitSpec.
Import StoreSamples InitSamples InitSamplesMore.

(** "hello there" on the session that carries the overrides. *)
Lemma initSessionState_continues_fresh_session_witness :
  ∃ r w',
    initSessionState 1 hello_turn override_world = (Ok r, w')
    ∧ r_isNewSession r = false
    ∧ r_sessionId r = JStr "s-main"
    ∧ prop (r_sessionEntry r) "modelOverride" = JStr "foo/bar"
    ∧ prop (r_sessionEntry r) "thinkingLevel" = JStr "high".
Proof.
  destruct (SessionInitFacts.initSessionState_continues_fresh_session 0 hello_turn
              override_world (<["agent:main:main" := override_record]> ∅)
              override_record "s-main")
    as (r & w' & Hrun & Hnew & Hid & _ & _ & Hkeep); try vm_refl.
  exists r, w'.
  refine (conj Hrun (conj Hnew (conj Hid (conj _ _)))).
  - rewrite (Hkeep "modelOverride"); [vm_refl| |discriminate].
    unfold recomputed_on_reuse. rewrite !not_elem_of_cons.
    repeat split; first [discriminate | apply not_elem_of_nil].
  - rewrite (Hkeep "thinkingLevel"); [vm_refl| |discriminate].
    unfold recomputed_on_reuse. rewrite !not_elem_of_cons.
    repeat split; first [discriminate | apply not_elem_of_nil].
Defined.

Lemma unauthorized_sender_cannot_reset_witness :
  ∃ r w',
    initSessionState 1 unauthorized_reset_turn override_world = (Ok r, w')
    ∧ r_resetTriggered r = false
    ∧ r_isNewSession r = false
    ∧ r_sessionId r = JStr "s-main"
    ∧ r_bodyStripped r = None
    ∧ r_previousSessionEntry r = None.
Proof.
  apply (SessionInitFacts.unauthorized_sender_cannot_reset 0 unauthorized_reset_turn
           override_world (<["agent:main:main" := override_record]> ∅)
           override_record "s-main"); vm_refl.
Defined.

(** The authorized "/new". *)
Lemma initSessionState_starts_new_session_witness :
  ∃ r w',
    initSessionState 1 reset_turn override_world = (Ok r, w')
    ∧ r_isNewSession r = true
    ∧ r_sessionId r = JStr "0b9c7e1a-5d38-4c49-9a53-6f0c3c1e2a11"
    ∧ r_systemSent r = JBool false
    ∧ r_sessionEntry r !! "compactionCount" = Some (JNum 0)
    ∧ r_previousSessionEntry r = Some override_record.
Proof.
  destruct (SessionInitFacts.initSessionState_starts_new_session 0 reset_turn
              override_world (<["agent:main:main" := override_record]> ∅))
    as (r & w' & Hrun & Hnew & Hid & Hsys & _ & Hcc & _ & Hprev & _).
  - vm_refl.
  - left. by eexists.
  - vm_refl.
  - vm_refl.
  - exists r, w'. exact (conj Hrun (conj Hnew (conj Hid (conj Hsys (conj Hcc Hprev))))).
Defined.

End SessionInitSamples.

(** ** Resolution of a model directive: shape and allow-list *)

Module ModelDirectiveMore.
Import ModelDirective.

(** Sorting moves elements and neither adds nor drops any. *)
Lemma insert_sorted_In {A : Type} (cmp : A → A → Z) (x y : A) (l : list A) :
  In y (insert_sorted cmp x l) ↔ y = x ∨ In y l.
Proof.
  induction l as [|z l IH]; cbn.
  - split; [intros [->|[]]; by left|intros [->|[]]; by left].
  - destruct (cmp x z <=? 0); cbn.
    + split; [intros [->|H]; [by left|by right]|intros [->|H]; [by left|by right]].
    + rewrite IH. split.
      * intros [->|[->|H]]; [right; by left|by left|right; by right].
      * intros [->|[->|H]]; [right; by left|by left|right; by right].
Qed.

Lemma sort_by_In {A : Type} (cmp : A → A → Z) (y : A) (l : list A) :
  In y (sort_by cmp l) ↔ In y l.
Proof.
  unfold sort_by. induction l as [|x l IH]; [done|]. cbn.
  rewrite insert_sorted_In, IH. split; intros [->|H]; auto.
Qed.

(** A fuzzy resolution never carries an error, and what it selects is
    one of its candidates. *)
Lemma resolveFuzzy_shape (im : Imports) (defaultProvider defaultModel : string)
  (aliasIndex : ModelAliasIndex) (allowedModelKeys : list string)
  (provider_filter : option string) (fragment0 : string) :
  let r := resolveFuzzy im defaultProvider defaultModel aliasIndex allowedModelKeys
             provider_filter fragment0 in
  error r = None
  ∧ ∀ sel, selection r = Some sel →
      ∃ m, In m (fuzzy_candidates im aliasIndex allowedModelKeys provider_filter
                   (toLowerCase (trim fragment0)))
           ∧ sel = buildSelection im aliasIndex defaultProvider defaultModel
                     (ref_provider m) (ref_model m).
Proof.
  cbv zeta. unfold resolveFuzzy.
  destruct (String.eqb (toLowerCase (trim fragment0)) ""); [done|].
  destruct (fuzzy_candidates _ _ _ _ _) as [|m1 [|m2 rest]] eqn:Hc; [done|..].
  - split; [done|]. intros sel [= <-]. exists m1. split; [by left|done].
  - match goal with
    | |- context [sort_by ?cmp ?l] => destruct (sort_by cmp l) as [|[best sc] tl] eqn:Hs
    end; [done|].
    split; [done|]. intros sel [= <-]. exists best. split; [|done].
    assert (In (best, sc) ((best, sc) :: tl)) as Hin by (by left).
    rewrite <- Hs in Hin. apply sort_by_In in Hin.
    apply in_map_iff in Hin as (m & [= <- _] & Hm). exact Hm.
Qed.

(** X19.  A resolution is a selection or an error, never both and never
    neither. *)
Theorem resolveModelDirectiveSelection_selection_xor_error (im : Imports)
  (raw defaultProvider defaultModel : string) (aliasIndex : ModelAliasIndex)
  (allowedModelKeys : list string) :
  let r := resolveModelDirectiveSelection im raw defaultProvider defaultModel
             aliasIndex allowedModelKeys in
  (is_Some (selection r) ∧ error r = None)
  ∨ (selection r = None ∧ ∃ message, error r = Some message ∧ message ≠ "").
Proof.
  cbv zeta. unfold resolveModelDirectiveSelection.
  set (shaped := λ r : Resolution,
         (is_Some (selection r) ∧ error r = None)
         ∨ (selection r = None ∧ ∃ message, error r = Some message ∧ message ≠ "")).
  assert (∀ provider_filter fragment0 (other : Resolution),
            shaped other →
            shaped (if settled (resolveFuzzy im defaultProvider defaultModel aliasIndex
                                  allowedModelKeys provider_filter fragment0)
                    then resolveFuzzy im defaultProvider defaultModel aliasIndex
                           allowedModelKeys provider_filter fragment0
                    else other)) as Hfuzzy.
  { intros provider_filter fragment0 other Hother.
    destruct (resolveFuzzy_shape im defaultProvider defaultModel aliasIndex
                allowedModelKeys provider_filter fragment0) as [Herr _].
    unfold settled. rewrite Herr. cbn [present]. rewrite orb_false_r.
    case_bool_decide as Hsel; [by left|done]. }
  assert (∀ text : string,
            shaped (MkResolution None (Some (String "M" text)))) as Hmodel.
  { intros text. right. split; [done|]. eexists. by split. }
  match goal with |- (is_Some (selection ?r) ∧ _) ∨ _ => change (shaped r) end.
  destruct (resolveModelRefFromString im (trim raw) defaultProvider aliasIndex)
    as [resolved|].
  - destruct (_ || _); [left; by split; [eexists|]|].
    destruct (indexOf_slash (trim raw)) as [slash|]; [destruct (includes _ "/")|];
      repeat apply Hfuzzy; apply Hmodel.
  - apply Hfuzzy. right. split; [done|]. eexists. by split.
Qed.

(** Every candidate of a fuzzy resolution names an allowed model, when
    the keys of the allow-list are the keys of their own provider and
    model. *)
Lemma fuzzy_candidates_allowed (im : Imports) (aliasIndex : ModelAliasIndex)
  (allowedModelKeys : list string) (provider_filter : option string)
  (fragment : string) (m : ModelRef) :
  (∀ key slash, In key allowedModelKeys → indexOf_slash key = Some slash →
     set_has allowedModelKeys
       (modelKey im (normalizeProviderId im (slice_to slash key))
          (slice_from (S slash) key)) = true) →
  In m (fuzzy_candidates im aliasIndex allowedModelKeys provider_filter fragment) →
  set_has allowedModelKeys (modelKey im (ref_provider m) (ref_model m)) = true.
Proof.
  intros Hkeys. unfold fuzzy_candidates.
  set (allowed := λ m : ModelRef,
         set_has allowedModelKeys (modelKey im (ref_provider m) (ref_model m)) = true).
  assert (∀ m, In m (omap (key_candidate im provider_filter fragment) allowedModelKeys) →
               allowed m) as Hfirst.
  { intros m0 Hin. apply list_elem_of_In, list_elem_of_omap in Hin as (key & Hkey & Hc).
    apply list_elem_of_In in Hkey. revert Hc. unfold key_candidate.
    destruct (indexOf_slash key) as [[|slash]|] eqn:Hslash; try done.
    destruct (_ && _); [done|]. destruct (_ || _); [|done].
    intros [= <-]. exact (Hkeys key (S slash) Hkey Hslash). }
  destruct (negb (present provider_filter)); [|by apply Hfirst].
  match goal with
  | |- In m (fold_left _ ?l ?c) → _ =>
      generalize l; revert Hfirst; generalize c
  end.
  intros candidates Hall matches. revert candidates Hall.
  induction matches as [|x matches IH]; intros candidates Hall; [by apply Hall|].
  cbn [fold_left]. apply IH. intros m0. unfold add_alias_match.
  destruct (set_has allowedModelKeys (modelKey im (ref_provider x) (ref_model x)))
    eqn:Hx; cbn [negb]; [|by apply Hall].
  destruct (existsb _ candidates); [by apply Hall|].
  rewrite in_app_iff. intros [Hin|[<-|[]]]; [by apply Hall|done].
Qed.

(** X20.  A resolution never selects a model outside the allow-list.  When the
    allow-list is not empty and its keys are the keys of their own
    provider and model, the model that is selected, directly or by fuzzy
    match, is in the allow-list. *)
Theorem resolveModelDirectiveSelection_selects_allowed_model (im : Imports)
  (raw defaultProvider defaultModel : string) (aliasIndex : ModelAliasIndex)
  (allowedModelKeys : list string) (sel : ModelDirectiveSelection) :
  allowedModelKeys ≠ [] →
  (∀ key slash, In key allowedModelKeys → indexOf_slash key = Some slash →
     set_has allowedModelKeys
       (modelKey im (normalizeProviderId im (slice_to slash key))
          (slice_from (S slash) key)) = true) →
  selection (resolveModelDirectiveSelection im raw defaultProvider defaultModel
               aliasIndex allowedModelKeys) = Some sel →
  set_has allowedModelKeys (modelKey im (sel_provider sel) (sel_model sel)) = true.
Proof.
  intros Hnonempty Hkeys. unfold resolveModelDirectiveSelection.
  set (allowed := λ r : Resolution,
         selection r = Some sel →
         set_has allowedModelKeys (modelKey im (sel_provider sel) (sel_model sel)) = true).
  assert (∀ provider_filter fragment0 (other : Resolution),
            allowed other →
            allowed (if settled (resolveFuzzy im defaultProvider defaultModel aliasIndex
                                   allowedModelKeys provider_filter fragment0)
                     then resolveFuzzy im defaultProvider defaultModel aliasIndex
                            allowedModelKeys provider_filter fragment0
                     else other)) as Hfuzzy.
  { intros provider_filter fragment0 other Hother.
    destruct (settled _); [|done]. intros Hsel.
    destruct (resolveFuzzy_shape im defaultProvider defaultModel aliasIndex
                allowedModelKeys provider_filter fragment0) as [_ Hcand].
    destruct (Hcand sel Hsel) as (m & Hin & ->). cbn.
    by eapply fuzzy_candidates_allowed. }
  match goal with |- selection ?r = Some sel → _ => change (allowed r) end.
  destruct (resolveModelRefFromString im (trim raw) defaultProvider aliasIndex)
    as [resolved|].
  - destruct allowedModelKeys as [|k0 keys]; [done|]. cbn [List.length Nat.eqb orb].
    destruct (set_has (k0 :: keys)
                (modelKey im (ref_provider (rr_ref resolved))
                   (ref_model (rr_ref resolved)))) eqn:Hhas.
    + unfold allowed. intros Heq. cbn in Heq. injection Heq as Heq.
      rewrite <- Heq. exact Hhas.
    + destruct (indexOf_slash (trim raw)) as [slash|]; [destruct (includes _ "/")|];
        repeat apply Hfuzzy; unfold allowed; done.
  - apply Hfuzzy. unfold allowed. done.
Qed.

End ModelDirectiveMore.

Module ModelDirectiveSamples.
Import ModelDirective ModelSamples.

(** The fragment [gpt] on the sample allow-list. *)
Lemma resolveModelDirectiveSelection_selects_allowed_model_witness :
  set_has gpt5_models
    (modelKey sample_imports (sel_provider (MkSelection "openai" "gpt-5" false None))
       (sel_model (MkSelection "openai" "gpt-5" false None))) = true.
Proof.
  apply (ModelDirectiveMore.resolveModelDirectiveSelection_selects_allowed_model
           sample_imports "gpt" "anthropic" "claude-opus-4-5" no_aliases gpt5_models
           (MkSelection "openai" "gpt-5" false None)).
  - discriminate.
  - intros key slash [<-|[<-|[]]] [= <-]; reflexivity.
  - reflexivity.
Defined.

End ModelDirectiveSamples.

(** ** The sessions bridge: legacy keys and reset *)

Module SessionsBridgeMore.
Import SessionStore SessionStoreSpec SessionStoreFacts SessionsBridge SessionsBridgeSpec.

(** X21.  Moving a record to the primary key loses nothing.  The primary key is
    the first store key (the key itself when there is none).  A store
    that has a record under the primary key is left as it is.  Otherwise
    the record of the first store key that has one moves to the primary
    key.  In every case the number of records is the same and records
    under other keys are untouched. *)
Theorem adopt_primary_moves_without_loss (storeKeys : list string) (key : string)
  (store : gmap string (gmap string jsval)) :
  let primaryKey := default key (head storeKeys) in
  let store' := (adopt_primary storeKeys key store).2 in
  (adopt_primary storeKeys key store).1 = primaryKey
  ∧ size store' = size store
  ∧ (is_Some (store !! primaryKey) → store' = store)
  ∧ (∀ k, k ≠ primaryKey → k ∉ storeKeys → store' !! k = store !! k)
  ∧ (∀ existingKey found,
       List.find (λ candidate, bool_decide (is_Some (store !! candidate))) storeKeys
       = Some existingKey →
       store !! existingKey = Some found →
       store !! primaryKey = None →
       existingKey ≠ "" →
       store' !! primaryKey = Some found ∧ store' !! existingKey = None).
Proof.
  cbv zeta. unfold adopt_primary.
  destruct (List.find _ storeKeys) as [ek|] eqn:Hfind; [|by split_and!].
  apply List.find_some in Hfind as [Hin Hsome].
  apply bool_decide_eq_true in Hsome as [found Hfound]. rewrite Hfound.
  destruct (store !! default key (head storeKeys)) as [e|] eqn:Hprimary;
    [split_and!; try done; by intros ? ? [= <-] ? ?; congruence|].
  destruct (String.eqb ek "") eqn:Hempty; cbn [negb andb].
  { apply String.eqb_eq in Hempty as ->.
    split_and!; try done. by intros ek found' [= <-]. }
  destruct (String.eqb ek (default key (head storeKeys))) eqn:Hsame; cbn [negb andb].
  { apply String.eqb_eq in Hsame as ->. congruence. }
  apply String.eqb_neq in Hsame. cbn [fst snd].
  split_and!.
  - done.
  - rewrite map_size_delete_Some by (rewrite lookup_insert_ne; eauto).
    rewrite map_size_insert_None by done. lia.
  - by intros [? ?].
  - intros k Hk Hnot. rewrite lookup_delete_ne; [by rewrite lookup_insert_ne|].
    intros ->. by apply Hnot, list_elem_of_In.
  - intros ek' found' [= <-] Hf _ _. rewrite Hf in Hfound. injection Hfound as ->.
    split; [|apply lookup_delete_eq].
    rewrite lookup_delete_ne by done. apply lookup_insert_eq.
Qed.

(** A record built by the reset mutator, property by property. *)
Lemma reset_mutator_returns (storeKeys : list string) (key : string)
  (store : gmap string (gmap string jsval)) (w : World) :
  let moved := adopt_primary storeKeys key store in
  let entry := moved.2 !! moved.1 in
  ∃ next,
    reset_mutator storeKeys key store w
    = (Ok (next, <[moved.1 := next]> moved.2), put_drawn S w)
    ∧ prop next "sessionId" = JStr (w_entropy w (w_drawn w))
    ∧ prop next "updatedAt" = JNum (w_now w)
    ∧ prop next "systemSent" = JBool false
    ∧ prop next "abortedLastRun" = JBool false
    ∧ (∀ p, p ∈ kept_by_reset → prop next p = oprop entry p)
    ∧ (∀ p, p ∉ kept_by_reset → p ∉ set_by_reset → next !! p = None).
Proof.
  cbv zeta. unfold reset_mutator.
  destruct (adopt_primary storeKeys key store) as [primaryKey store1]. cbn [fst snd].
  unfold bind, ret, Date_now, randomUUID, get. cbv beta iota.
  eexists. split; [reflexivity|].
  split_and!; try done.
  - intros p Hp. unfold kept_by_reset in Hp.
    repeat (apply elem_of_cons in Hp as [->|Hp]; [done|]).
    by apply elem_of_nil in Hp.
  - intros p Hkept Hset. unfold kept_by_reset in Hkept. unfold set_by_reset in Hset.
    repeat (apply not_elem_of_cons in Hkept as [? Hkept]).
    repeat (apply not_elem_of_cons in Hset as [? Hset]).
    repeat (rewrite lookup_insert_ne by done). done.
Qed.

(** X22.  A reset keeps the listed settings and drops everything else.  For a
    well-formed request with a key and the lock free, [sessions.reset]
    answers with the new record and writes it under the primary key.  The
    record has a new session id, the time of the reset, and both flags
    cleared; the sixteen listed properties are those of the record it
    replaces; it has no other property, so token counters, overrides and
    every property outside the list are gone. *)
Theorem sessions_reset_keeps_listed_and_drops_rest (fuel : nat) (c : Call) (w : World) :
  let key := trim (default "" (c_key c)) in
  let target := c_target c key in
  let storePath := tg_storePath target in
  let moved := adopt_primary (tg_storeKeys target) key (disk_store w storePath) in
  let entry := moved.2 !! moved.1 in
  c_valid c = true → key ≠ "" →
  w_locks w !! lock_path storePath = None →
  ∃ next w',
    sessions_reset (S fuel) c w = (Ok (Answer (ResetPayload key next)), w')
    ∧ prop next "sessionId" = JStr (w_entropy w (w_drawn w))
    ∧ prop next "updatedAt" = JNum (w_now w)
    ∧ prop next "systemSent" = JBool false
    ∧ prop next "abortedLastRun" = JBool false
    ∧ (∀ p, p ∈ kept_by_reset → prop next p = oprop entry p)
    ∧ (∀ p, p ∉ kept_by_reset → p ∉ set_by_reset → next !! p = None)
    ∧ f_content <$> w_files w' !! storePath
      = Some (JSON_stringify (<[moved.1 := next]> moved.2)).
Proof.
  intros key target storePath moved entry Hvalid Hkey Hfree.
  apply String.eqb_neq in Hkey.
  unfold sessions_reset. fold key. rewrite Hvalid, Hkey. cbn [negb].
  fold target. fold storePath.
  set (wm := before_mutator storePath (entered storePath w)).
  destruct (reset_mutator_returns (tg_storeKeys target) key (disk_store w storePath) wm)
    as (next & Hmut & Hid & Hat & Hsys & Habort & Hkept & Hrest).
  fold moved in Hmut.
  destruct (updateSessionStore_returns fuel storePath
              (reset_mutator (tg_storeKeys target) key) w _ _ _ Hfree Hmut)
    as (w3 & Hupd & Hf & _).
  unfold bind at 1. rewrite Hupd. unfold ret.
  exists next, w3. split; [done|].
  destruct (disk_store_before_mutator storePath (entered storePath w))
    as (_ & _ & _ & Hn1 & _).
  split_and!; try done.
  - rewrite Hid. subst wm. unfold before_mutator, read_mark.
    by destruct (w_files (entered storePath w) !! storePath).
  - rewrite Hat. subst wm. by rewrite Hn1.
  - by rewrite Hf, lookup_insert_eq.
Qed.

End SessionsBridgeMore.

Module SessionsBridgeSamples.
Import SessionStore SessionStoreSpec SessionStoreFacts SessionsBridge SessionsBridgeSpec.
Import StoreSamples InitSamples.

Lemma sessions_reset_keeps_listed_and_drops_rest_witness :
  ∃ next w',
    sessions_reset 1 reset_call override_world
    = (Ok (Answer (ResetPayload "agent:main:main" next)), w')
    ∧ prop next "thinkingLevel" = JStr "high"
    ∧ next !! "modelOverride" = None
    ∧ next !! "compactionCount" = None.
Proof.
  destruct (SessionsBridgeMore.sessions_reset_keeps_listed_and_drops_rest
              0 reset_call override_world
              ltac:(reflexivity) ltac:(vm_compute; discriminate) ltac:(vm_refl))
    as (next & w' & Hrun & _ & _ & _ & _ & Hkept & Hrest & _).
  exists next, w'. split; [exact Hrun|]. split; [|split].
  - rewrite (Hkept "thinkingLevel") by (unfold kept_by_reset; constructor). vm_refl.
  - apply Hrest; intros Hin;
      repeat (apply elem_of_cons in Hin as [Hin|Hin]; [discriminate|]);
      by apply elem_of_nil in Hin.
  - apply Hrest; intros Hin;
      repeat (apply elem_of_cons in Hin as [Hin|Hin]; [discriminate|]);
      by apply elem_of_nil in Hin.
Defined.

End SessionsBridgeSamples.

(** ** Store targets of the gateway *)

Module GatewayTargetFacts.
Import SessionStore SessionsBridge GatewayTarget.

Lemma set_add_NoDup (k : string) (keys : list string) :
  NoDup keys → NoDup (set_add k keys).
Proof.
  intros Hnd. unfold set_add. case_bool_decide; [done|].
  apply NoDup_app. split_and!; [done| |apply NoDup_singleton].
  intros x Hx Hin. apply list_elem_of_singleton in Hin as ->. done.
Qed.

Lemma set_add_head (k k0 : string) (keys : list string) :
  head (set_add k (k0 :: keys)) = Some k0.
Proof. unfold set_add. by case_bool_decide. Qed.

Lemma set_add_elem (k x : string) (keys : list string) :
  x ∈ set_add k keys ↔ x ∈ keys ∨ x = k.
Proof.
  unfold set_add. case_bool_decide.
  - split; [by left|]. by intros [?| ->].
  - rewrite elem_of_app, list_elem_of_singleton. done.
Qed.

Lemma resolveSessionStoreKey_blank (im : KeyImports) :
  resolveSessionStoreKey im "" = "".
Proof. done. Qed.

(** X23.  The candidate keys of a store target.  Whatever the key and the
    configuration, the list of store keys starts with the canonical key,
    has no key twice, has at most three keys, and holds the key as it was
    sent (trimmed).  The empty string is a store key only when it is the
    canonical key. *)
Theorem resolveGatewaySessionStoreTarget_store_keys (im : KeyImports) (key : string) :
  let target := resolveGatewaySessionStoreTarget im key in
  head (tg_storeKeys target) = Some (tg_canonicalKey target)
  ∧ NoDup (tg_storeKeys target)
  ∧ (List.length (tg_storeKeys target) ≤ 3)%nat
  ∧ trim key ∈ tg_storeKeys target
  ∧ ("" ∈ tg_storeKeys target → tg_canonicalKey target = "").
Proof.
  cbv zeta. unfold resolveGatewaySessionStoreTarget.
  set (k := trim key). set (canonicalKey := resolveSessionStoreKey im k).
  destruct (is_global_or_unknown canonicalKey) eqn:Hglobal.
  - destruct (String.eqb k "") eqn:Hblank; cbn [negb andb tg_storeKeys tg_canonicalKey].
    { apply String.eqb_eq in Hblank. exfalso. subst canonicalKey.
      rewrite Hblank, resolveSessionStoreKey_blank in Hglobal. done. }
    apply String.eqb_neq in Hblank.
    destruct (String.eqb k canonicalKey) eqn:Hsame; cbn [negb tg_storeKeys tg_canonicalKey].
    + apply String.eqb_eq in Hsame. rewrite <- Hsame.
      split_and!; [done|apply NoDup_singleton|cbn; lia|by constructor|].
      by intros ->%list_elem_of_singleton.
    + apply String.eqb_neq in Hsame.
      split_and!; [done| |cbn; lia|by repeat constructor|].
      * apply NoDup_cons. split; [|apply NoDup_singleton].
        by intros ->%list_elem_of_singleton.
      * intros Hin. apply elem_of_cons in Hin as [<-|Hin]; [done|].
        by apply list_elem_of_singleton in Hin.
  - cbn [tg_storeKeys tg_canonicalKey].
    change (set_add canonicalKey []) with [canonicalKey].
    set (keys1 := match parseAgentSessionKey im canonicalKey with
                  | Some (_, rest) =>
                      if negb (String.eqb rest "") then set_add rest [canonicalKey]
                      else [canonicalKey]
                  | None => [canonicalKey]
                  end).
    assert (head keys1 = Some canonicalKey ∧ NoDup keys1 ∧ (List.length keys1 ≤ 2)%nat
            ∧ canonicalKey ∈ keys1 ∧ ("" ∈ keys1 → canonicalKey = "")) as (Hh & Hnd & Hlen & Hc & He).
    { subst keys1. destruct (parseAgentSessionKey im canonicalKey) as [[a rest]|];
        [destruct (String.eqb rest "") eqn:Hrest; cbn [negb]|];
        try (split_and!; [done|apply NoDup_singleton|cbn; lia|by constructor|
                          by intros ->%list_elem_of_singleton]).
      apply String.eqb_neq in Hrest.
      split_and!.
      - apply set_add_head.
      - apply set_add_NoDup, NoDup_singleton.
      - unfold set_add. case_bool_decide; cbn; lia.
      - apply set_add_elem. left. by constructor.
      - intros [Hin|Heq]%set_add_elem; [|congruence].
        by apply list_elem_of_singleton in Hin. }
    destruct (String.eqb k "") eqn:Hblank; cbn [negb andb].
    { apply String.eqb_eq in Hblank.
      assert (canonicalKey = "") as Hcanon
        by (subst canonicalKey; by rewrite Hblank, resolveSessionStoreKey_blank).
      split_and!; try done; [lia|]. by rewrite Hblank, <- Hcanon. }
    apply String.eqb_neq in Hblank.
    destruct (String.eqb k canonicalKey) eqn:Hsame; cbn [negb].
    { apply String.eqb_eq in Hsame. split_and!; try done; [lia|]. by rewrite Hsame. }
    split_and!.
    + destruct keys1 as [|k0 keys1']; [done|]. rewrite set_add_head. done.
    + by apply set_add_NoDup.
    + unfold set_add. case_bool_decide; [lia|]. rewrite length_app. cbn. lia.
    + apply set_add_elem. by right.
    + intros [Hin|Heq]%set_add_elem; [by apply He|congruence].
Qed.

(** X24.  The record is looked for under every variant of the key and ends up
    under the canonical one.  With the target of a key, the prologue of
    the store mutators picks the canonical key as primary key, and if the
    store has a record under any of the target's store keys, it has one
    under the canonical key afterwards. *)
Theorem adopt_primary_settles_on_canonical_key (im : KeyImports) (key : string)
  (store : gmap string (gmap string jsval)) :
  let target := resolveGatewaySessionStoreTarget im key in
  let moved := adopt_primary (tg_storeKeys target) (trim key) store in
  moved.1 = tg_canonicalKey target
  ∧ ∀ k, k ∈ tg_storeKeys target → is_Some (store !! k) →
         is_Some (moved.2 !! tg_canonicalKey target).
Proof.
  cbv zeta.
  destruct (resolveGatewaySessionStoreTarget_store_keys im key)
    as (Hhead & _ & _ & _ & Hempty).
  set (target := resolveGatewaySessionStoreTarget im key) in *.
  unfold adopt_primary. rewrite Hhead. cbn [default]. unfold id.
  destruct (List.find _ (tg_storeKeys target)) as [ek|] eqn:Hfind.
  - apply List.find_some in Hfind as [Hin Hsome].
    apply bool_decide_eq_true in Hsome as [found Hfound]. rewrite Hfound.
    destruct (store !! tg_canonicalKey target) as [e|] eqn:Hprimary;
      [split; [done|]; intros; cbn; by rewrite Hprimary|].
    destruct (String.eqb ek "") eqn:Hblank; cbn [negb andb].
    { apply String.eqb_eq in Hblank. subst ek.
      apply list_elem_of_In, Hempty in Hin. rewrite Hin in Hprimary. congruence. }
    destruct (String.eqb ek (tg_canonicalKey target)) eqn:Hsame; cbn [negb andb].
    { apply String.eqb_eq in Hsame. congruence. }
    apply String.eqb_neq in Hsame. cbn [fst snd]. split; [done|].
    intros k _ _. rewrite lookup_delete_ne by done. rewrite lookup_insert_eq. done.
  - split; [done|]. intros k Hk [e He]. exfalso.
    apply list_elem_of_In in Hk.
    eapply (List.find_none _ _ Hfind) in Hk. cbn in Hk.
    apply bool_decide_eq_false in Hk. apply Hk. by exists e.
Qed.

End GatewayTargetFacts.

Module GatewayTargetSamples.
Import SessionStore SessionStoreFacts SessionsBridge GatewayTarget StoreSamples.

Lemma resolveGatewaySessionStoreTarget_store_keys_witness :
  let target := resolveGatewaySessionStoreTarget sample_key_imports " work " in
  tg_canonicalKey target = "agent:main:work"
  ∧ tg_storeKeys target = ["agent:main:work"; "work"]
  ∧ head (tg_storeKeys target) = Some (tg_canonicalKey target)
  ∧ NoDup (tg_storeKeys target).
Proof.
  cbv zeta. split; [vm_refl|]. split; [vm_refl|].
  destruct (GatewayTargetFacts.resolveGatewaySessionStoreTarget_store_keys
              sample_key_imports " work ") as (Hhead & Hnd & _).
  by split.
Defined.

Lemma adopt_primary_settles_on_canonical_key_witness :
  let target := resolveGatewaySessionStoreTarget sample_key_imports "work" in
  let store : gmap string (gmap string jsval) := <["work" := main_record]> ∅ in
  let moved := adopt_primary (tg_storeKeys target) "work" store in
  moved.1 = "agent:main:work"
  ∧ is_Some (moved.2 !! "agent:main:work")
  ∧ moved.2 !! "work" = None.
Proof.
  cbv zeta.
  destruct (GatewayTargetFacts.adopt_primary_settles_on_canonical_key
              sample_key_imports "work" (<["work" := main_record]> ∅))
    as [Hprimary Hfound].
  split; [exact Hprimary|]. split; [|vm_refl].
  apply (Hfound "work"); [|by eexists].
  assert (tg_storeKeys (resolveGatewaySessionStoreTarget sample_key_imports "work")
          = ["agent:main:work"; "work"]) as -> by vm_refl.
  apply elem_of_cons. right. constructor.
Defined.

End GatewayTargetSamples.

(** ** The model selection state and stored overrides *)

Module ModelSelectionStateFacts.
Import SessionStore SessionStoreSpec SessionStoreFacts ModelDirective ModelSelectionState.

Lemma bind_ok_inv {A B} (m : M A) (k : A → M B) (w w' : World) (b : B) :
  bind m k w = (Ok b, w') → ∃ a w1, m w = (Ok a, w1) ∧ k a w1 = (Ok b, w').
Proof.
  unfold bind. destruct (m w) as [[a| |] w1]; [|done..]. intros Hk. by exists a, w1.
Qed.

Lemma stored_choice_allowed (im : Imports) (ps : Params) (allowedModelKeys : list string)
  (storedProviderOverride storedModelOverride : option string) :
  let choice :=
    stored_choice im ps allowedModelKeys storedProviderOverride storedModelOverride in
  allowedModelKeys ≠ [] →
  choice = (p_provider ps, p_model ps)
  ∨ set_has allowedModelKeys (modelKey im choice.1 choice.2) = true.
Proof.
  cbv zeta. intros Hkeys. unfold stored_choice.
  destruct (nonblank storedModelOverride); [|by left].
  rewrite bool_decide_eq_false_2 by done. cbn [orb].
  destruct (set_has allowedModelKeys _) eqn:Hhas; [by right|by left].
Qed.

(** X25.  A stored override outside the allow-list is never selected.  Whenever
    the function returns and the allow-list is not empty, the provider and
    model of the state are those handed in, or their key is in the
    allow-list. *)
Theorem createModelSelectionState_never_selects_disallowed_override
  {ModelCatalogEntry : Type} (im : Imports) (si : StateImports ModelCatalogEntry)
  (fuel : nat) (ps : Params) (w w' : World) (out : Outcome ModelCatalogEntry) :
  createModelSelectionState im si fuel ps w = (Ok out, w') →
  let st := o_state out in
  st_allowedModelKeys st ≠ [] →
  (st_provider st = p_provider ps ∧ st_model st = p_model ps)
  ∨ set_has (st_allowedModelKeys st) (modelKey im (st_provider st) (st_model st)) = true.
Proof.
  unfold createModelSelectionState. intros Hrun.
  apply bind_ok_inv in Hrun as ([[e1 s1] r] & w1 & _ & Hrun).
  apply bind_ok_inv in Hrun as (spo & w2 & _ & Hrun).
  apply bind_ok_inv in Hrun as (smo & w3 & _ & Hrun).
  apply bind_ok_inv in Hrun as ([e2 s2] & w4 & _ & Hrun).
  unfold ret in Hrun. injection Hrun as <- _. cbn [o_state st_allowedModelKeys st_provider st_model].
  intros Hkeys.
  destruct (stored_choice_allowed im ps _ spo smo Hkeys) as [Heq|Hhas]; [left|by right].
  by rewrite Heq.
Qed.

Lemma persist_entry_free (fuel : nat) (path sessionKey : string)
  (e : gmap string jsval) (w : World) :
  path ≠ "" →
  w_locks w !! lock_path path = None →
  ∃ w', persist_entry (S fuel) (Some path) sessionKey e w = (Ok tt, w')
    ∧ f_content <$> w_files w' !! path
      = Some (JSON_stringify (<[sessionKey := e]> (disk_store w path))).
Proof.
  intros Hpath Hfree. unfold persist_entry. cbn [nonblank default].
  apply String.eqb_neq in Hpath. rewrite Hpath. cbn [negb].
  destruct (updateSessionStore_pure fuel path
              (λ store, (tt, <[sessionKey := e]> store)) w Hfree)
    as (w' & Hupd & Hf & _).
  exists w'. split; [exact Hupd|]. by rewrite Hf, lookup_insert_eq.
Qed.

(** X26.  A stored override that the allow-list does not have is cleared and
    the cleared record is written to the store.  For a session whose
    record has a non-blank [modelOverride], a textual or absent
    [providerOverride] and no auth-profile override, with a non-empty
    allow-list that lacks the key of the override and the lock free: the
    function returns the provider and model handed in, reports the reset,
    hands back the record without both overrides and stamped with the
    current time, and the store file holds that record under the session
    key. *)
Theorem createModelSelectionState_clears_disallowed_override
  {ModelCatalogEntry : Type} (im : Imports) (si : StateImports ModelCatalogEntry)
  (fuel : nat) (ps : Params) (w : World)
  (e : gmap string jsval) (s : gmap string (gmap string jsval))
  (sessionKey path modelOverride : string) (providerOverride : option string) :
  let allowedModelKeys :=
    (buildAllowedModelSet si (loadModelCatalog si)
       (p_defaultProvider ps) (p_defaultModel ps)).2 in
  let cleared :=
    <["updatedAt" := JNum (w_now w)]>
      (delete "modelOverride" (delete "providerOverride" e)) in
  p_sessionEntry ps = Some e → p_sessionStore ps = Some s →
  p_sessionKey ps = Some sessionKey → sessionKey ≠ "" →
  p_storePath ps = Some path → path ≠ "" →
  prop e "modelOverride" = JStr modelOverride → trim modelOverride ≠ "" →
  (∀ w0, optional_trim (prop e "providerOverride") w0 = (Ok providerOverride, w0)) →
  truthy (prop e "authProfileOverride") = false →
  allowedModelKeys ≠ [] →
  set_has allowedModelKeys
    (modelKey im (or_else providerOverride (p_defaultProvider ps)) (trim modelOverride))
  = false →
  w_locks w !! lock_path path = None →
  ∃ w',
    createModelSelectionState im si (S fuel) ps w
    = (Ok (MkOutcome
             (MkState (p_provider ps) (p_model ps) allowedModelKeys
                (buildAllowedModelSet si (loadModelCatalog si)
                   (p_defaultProvider ps) (p_defaultModel ps)).1
                true true)
             (Some cleared) (Some (<[sessionKey := cleared]> s))), w')
    ∧ cleared !! "modelOverride" = None
    ∧ cleared !! "providerOverride" = None
    ∧ f_content <$> w_files w' !! path
      = Some (JSON_stringify (<[sessionKey := cleared]> (disk_store w path))).
Proof.
  intros allowedModelKeys cleared He Hs Hk Hkey Hp Hpath Hmo Hmodel Hpo Hauth
    Hkeys Hhas Hfree.
  destruct (persist_entry_free fuel path sessionKey cleared w Hpath Hfree)
    as (w' & Hpersist & Hfile).
  assert (cleared !! "modelOverride" = None) as Hcm
    by (subst cleared; rewrite lookup_insert_ne by done; apply lookup_delete_eq).
  assert (cleared !! "providerOverride" = None) as Hcp.
  { subst cleared. rewrite lookup_insert_ne by done.
    rewrite lookup_delete_ne by done. apply lookup_delete_eq. }
  assert (prop cleared "authProfileOverride" = prop e "authProfileOverride") as Hca.
  { subst cleared. unfold prop. rewrite lookup_insert_ne by done.
    by rewrite !lookup_delete_ne by done. }
  exists w'. split; [|done].
  apply String.eqb_neq in Hkey, Hmodel.
  unfold createModelSelectionState.
  rewrite He, Hs, Hp. unfold shared_record at 1. rewrite Hk, Hkey.
  cbn [oprop]. rewrite Hmo.
  assert (truthy (JStr modelOverride) = true) as ->.
  { cbn. destruct modelOverride; [done|done]. }
  rewrite !orb_true_l, !orb_true_r. cbv beta iota zeta.
  fold allowedModelKeys.
  unfold bind at 1. unfold bind at 1. rewrite Hpo.
  unfold bind at 1. cbn [optional_trim]. unfold ret at 1. cbv beta iota.
  cbn [nonblank default]. unfold id. rewrite Hmodel. cbn [negb].
  rewrite bool_decide_eq_false_2 by done. rewrite Hhas. cbn [negb andb].
  unfold bind at 1. unfold Date_now, get. cbv beta iota.
  unfold bind at 1. fold cleared. rewrite Hpersist. unfold ret at 1.
  cbv beta iota.
  cbn [oprop].
  assert (prop cleared "providerOverride" = JUndef) as -> by (unfold prop; by rewrite Hcp).
  assert (prop cleared "modelOverride" = JUndef) as -> by (unfold prop; by rewrite Hcm).
  cbn [optional_trim].
  unfold bind at 1. unfold ret at 1. cbv beta iota.
  unfold bind at 1. unfold ret at 1. cbv beta iota.
  unfold stored_choice. cbn [nonblank fst snd].
  unfold shared_record. rewrite Hk, Hkey. rewrite Hca, Hauth.
  unfold bind, ret. done.
Qed.

End ModelSelectionStateFacts.

Module ModelSelectionStateSamples.
Import SessionStore SessionStoreSpec SessionStoreFacts StoreSamples InitSamples.
Import ModelDirective ModelSamples ModelSelectionState SelectionSamples.

Lemma createModelSelectionState_never_selects_disallowed_override_witness :
  let r := createModelSelectionState sample_imports with_foo_bar 1 override_params
             override_world in
  ∃ out, r.1 = Ok out
    ∧ st_provider (o_state out) = "foo" ∧ st_model (o_state out) = "foo/bar"
    ∧ set_has (st_allowedModelKeys (o_state out)) "foo/foo/bar" = true.
Proof.
  cbv zeta.
  destruct (createModelSelectionState sample_imports with_foo_bar 1 override_params
              override_world) as [[out| |] w'] eqn:Hrun;
    [|exfalso; revert Hrun; vm_compute; discriminate..].
  exists out. split; [done|].
  assert (st_provider (o_state out) = "foo" ∧ st_model (o_state out) = "foo/bar")
    as [Hp Hm].
  { assert (Ok out = (createModelSelectionState sample_imports with_foo_bar 1
                        override_params override_world).1) as Hout by (by rewrite Hrun).
    revert Hout. vm_compute. by intros [= ->]. }
  split; [done|]. split; [done|].
  destruct (ModelSelectionStateFacts.createModelSelectionState_never_selects_disallowed_override
              sample_imports with_foo_bar 1 override_params override_world w' out Hrun)
    as [[Heq _]|Hhas].
  - assert (Ok out = (createModelSelectionState sample_imports with_foo_bar 1
                        override_params override_world).1) as Hout by (by rewrite Hrun).
    revert Hout. vm_compute. by intros [= ->].
  - rewrite Hp in Heq. discriminate.
  - by rewrite Hp, Hm in Hhas.
Defined.

Lemma createModelSelectionState_clears_disallowed_override_witness :
  ∃ out w',
    createModelSelectionState sample_imports gpt5_only 1 override_params override_world
    = (Ok out, w')
    ∧ st_provider (o_state out) = "anthropic"
    ∧ st_resetModelOverride (o_state out) = true
    ∧ disk_store w' sample_path !! "agent:main:main"
      = Some (<["updatedAt" := JNum 10000000]>
                (delete "modelOverride" (delete "providerOverride" override_record))).
Proof.
  destruct (ModelSelectionStateFacts.createModelSelectionState_clears_disallowed_override
              sample_imports gpt5_only 0 override_params override_world
              override_record (<["agent:main:main" := override_record]> ∅)
              "agent:main:main" sample_path "foo/bar" (Some "foo")
              eq_refl eq_refl eq_refl ltac:(discriminate) eq_refl ltac:(discriminate)
              ltac:(vm_refl) ltac:(vm_compute; discriminate) ltac:(intros w0; vm_refl)
              ltac:(vm_refl) ltac:(discriminate) ltac:(vm_refl) ltac:(vm_refl))
    as (w' & Hrun & _ & _ & Hfile).
  eexists _, w'. split; [exact Hrun|]. split; [reflexivity|]. split; [reflexivity|].
  unfold disk_store.
  destruct (w_files w' !! sample_path) as [[c t]|]; [|discriminate].
  cbn in Hfile. injection Hfile as ->.
  vm_refl.
Defined.

End ModelSelectionStateSamples.

(** ** Thinking directives on the main path *)

Module ThinkingMore.
Import SessionStore SessionStoreSpec SessionStoreFacts StringFacts Thinking ThinkingSpec.
Import ThinkingFacts.

(** The directives after the thinking level leave it alone. *)
Lemma apply_directives_thinkingLevel (h : Helpers) (d : DirectiveOnly) (downgrade : bool)
  (sessionEntry : gmap string jsval) :
  (∀ e lvl, applyVerboseOverride h e lvl !! "thinkingLevel" = e !! "thinkingLevel") →
  apply_directives h d downgrade sessionEntry !! "thinkingLevel"
  = if downgrade then Some (JStr "high")
    else if hasThinkDirective (d_directives d) && given (thinkLevel (d_directives d))
    then set_or_clear "thinkingLevel" (default "" (thinkLevel (d_directives d)))
           sessionEntry !! "thinkingLevel"
    else sessionEntry !! "thinkingLevel".
Proof.
  intros Hverbose. unfold apply_directives.
  set (e1 := if hasThinkDirective (d_directives d) && given (thinkLevel (d_directives d))
             then set_or_clear "thinkingLevel" (default "" (thinkLevel (d_directives d)))
                    sessionEntry
             else sessionEntry).
  set (v := if downgrade then Some (JStr "high")
            else if hasThinkDirective (d_directives d)
                    && given (thinkLevel (d_directives d))
            then set_or_clear "thinkingLevel" (default "" (thinkLevel (d_directives d)))
                   sessionEntry !! "thinkingLevel"
            else sessionEntry !! "thinkingLevel").
  set (e2 := if downgrade then <["thinkingLevel" := JStr "high"]> e1 else e1).
  assert (e2 !! "thinkingLevel" = v) as H2.
  { subst e2 v e1. destruct downgrade; [apply lookup_insert_eq|]. by case_match. }
  clearbody e2 v. clear e1.
  set (e3 := if hasVerboseDirective (d_directives d) && given (verboseLevel (d_directives d))
             then applyVerboseOverride h e2 (default "" (verboseLevel (d_directives d)))
             else e2).
  assert (e3 !! "thinkingLevel" = v) as H3.
  { subst e3. case_match; [by rewrite Hverbose|done]. }
  clearbody e3. clear H2 e2.
  set (e4 := if hasReasoningDirective (d_directives d)
                && given (reasoningLevel (d_directives d))
             then set_or_clear "reasoningLevel"
                    (default "" (reasoningLevel (d_directives d))) e3
             else e3).
  assert (e4 !! "thinkingLevel" = v) as H4.
  { subst e4. case_match; [by rewrite set_or_clear_other|done]. }
  clearbody e4. clear H3 e3.
  set (e5 := if hasElevatedDirective (d_directives d)
                && given (elevatedLevel (d_directives d))
             then <["elevatedLevel" := JStr (default "" (elevatedLevel (d_directives d)))]> e4
             else e4).
  assert (e5 !! "thinkingLevel" = v) as H5.
  { subst e5. case_match; by simplify_map_eq. }
  clearbody e5. clear H4 e4.
  match goal with |- context [match d_modelSelection d with Some _ => _ | None => e5 end] =>
    set (e6 := match d_modelSelection d with Some _ => _ | None => e5 end) end.
  assert (e6 !! "thinkingLevel" = v) as H6.
  { subst e6. repeat case_match; by simplify_map_eq. }
  clearbody e6. clear H5 e5.
  repeat case_match; by simplify_map_eq.
Qed.

Lemma set_or_clear_same (p lvl : string) (e : gmap string jsval) :
  set_or_clear p lvl e !! p = stored_level lvl.
Proof.
  unfold set_or_clear, stored_level.
  destruct (String.eqb lvl "off"); by simplify_map_eq.
Qed.

Lemma think_sentence_in_ack (h : Helpers) (d : DirectiveOnly) (downgrade : bool)
  (lvl : string) :
  hasThinkDirective (d_directives d) = true →
  thinkLevel (d_directives d) = Some lvl → lvl ≠ "" →
  In (think_sentence lvl) (ack_parts h d downgrade (resolvedProvider d) (resolvedModel d)).
Proof.
  intros Hthink Hlvl Hne. unfold ack_parts. rewrite Hthink, Hlvl, (given_some lvl Hne).
  cbn [andb is_level default]. apply in_or_app. left. by left.
Qed.

(** X27.  A message that is only [/think <level>] stores the level.  When no
    early reply applies and the level is not a highest tier that the model
    lacks, the record handed back has the level as its [thinkingLevel]
    ([off] removes the property), the store file holds that record under
    the session key, and the reply contains the sentence that names the
    level. *)
Theorem handleDirectiveOnly_persists_think_level (fuel : nat) (h : Helpers)
  (d : DirectiveOnly) (w : World) (lvl : string)
  (e : gmap string jsval) (st : gmap string (gmap string jsval)) (path : string) :
  early_reply h d = None →
  hasThinkDirective (d_directives d) = true →
  thinkLevel (d_directives d) = Some lvl → lvl ≠ "" →
  (lvl = "xhigh" → supportsXHighThinking h (resolvedProvider d) (resolvedModel d) = true) →
  (∀ e lvl, applyVerboseOverride h e lvl !! "thinkingLevel" = e !! "thinkingLevel") →
  d_sessionEntry d = Some e → d_sessionStore d = Some st →
  d_sessionKey d ≠ "" → d_storePath d = Some path → path ≠ "" →
  w_locks w !! lock_path path = None →
  ∃ e' text events w',
    handleDirectiveOnly (S fuel) h d w
    = (Ok (MkDirectiveResult (Some text) (Some e')
             (Some (<[d_sessionKey d := e']> st)) events), w')
    ∧ e' !! "thinkingLevel" = stored_level lvl
    ∧ w_files w' !! path
      = Some (File (JSON_stringify (<[d_sessionKey d := e']> (disk_store w path)))
                (w_now w))
    ∧ includes text (think_sentence lvl) = true.
Proof.
  intros Hearly Hthink Hlvl Hne Hsup Hverbose He Hst Hkey Hpath Hpne Hfree.
  unfold handleDirectiveOnly. rewrite Hearly, Hthink, Hlvl. cbn [andb is_level].
  assert (String.eqb lvl "xhigh"
          && negb (supportsXHighThinking h (resolvedProvider d) (resolvedModel d)) = false)
    as ->.
  { destruct (String.eqb lvl "xhigh") eqn:Hx; [|done].
    apply String.eqb_eq in Hx. by rewrite (Hsup Hx). }
  assert (shouldDowngradeXHigh h d = false) as Hdown.
  { unfold shouldDowngradeXHigh. by rewrite Hthink. }
  rewrite Hdown, He, Hst, Hpath.
  apply String.eqb_neq in Hkey. rewrite Hkey. cbn [negb].
  rewrite (given_some path Hpne). change (default "" (Some path)) with path.
  unfold bind, ret, Date_now, get. cbv beta iota.
  set (e' := <["updatedAt" := JNum (w_now w)]> (apply_directives h d false e)).
  destruct (put_entry_persisted fuel path (d_sessionKey d) e' w Hfree)
    as (w' & Hupd & Hf).
  rewrite Hupd. cbv beta iota.
  assert (includes
            (trim (js_join " "
                     (ack_parts h d false (resolvedProvider d) (resolvedModel d))))
            (think_sentence lvl) = true) as Hin.
  { apply includes_trim_join.
    - unfold think_sentence. by destruct (String.eqb lvl "off").
    - unfold think_sentence. destruct (String.eqb lvl "off"); [done|].
      by do 2 apply ends_nonspace_app.
    - by apply think_sentence_in_ack. }
  set (ack := trim (js_join " "
                      (ack_parts h d false (resolvedProvider d) (resolvedModel d))))
    in *.
  assert (String.eqb ack "" = false) as Hack.
  { apply String.eqb_neq. intros Hempty. rewrite Hempty in Hin.
    apply includes_nil_inv in Hin. unfold think_sentence in Hin.
    by destruct (String.eqb lvl "off"). }
  rewrite Hack. cbn [andb].
  exists e', ack, (directive_events h d e e'), w'.
  split; [done|]. split; [|by split].
  subst e'. rewrite lookup_insert_ne by done.
  rewrite apply_directives_thinkingLevel by done.
  rewrite Hthink, Hlvl, (given_some lvl Hne). cbn [andb default].
  apply set_or_clear_same.
Qed.

(** X28.  The agent is never started at a tier the model lacks.  Whenever
    [runPreparedReply] hands the turn to the agent at the highest tier,
    the model supports that tier. *)
Theorem runPreparedReply_runs_at_supported_level (fuel : nat) (h : Helpers)
  (p : PreparedReply) (w w' : World) (lvl body : string)
  (e : option (gmap string jsval)) (st : option (gmap string (gmap string jsval))) :
  runPreparedReply fuel h p w = (Ok (RunAgent lvl body e st), w') →
  lvl = "xhigh" →
  supportsXHighThinking h (p_provider p) (p_model p) = true.
Proof.
  unfold runPreparedReply.
  destruct (p_dropUnauthorizedControl p); [done|].
  destruct (String.eqb (p_baseBodyTrimmed p) ""); [done|].
  destruct (resolve_think_level h p) as [resolved body'].
  destruct (supportsXHighThinking h (p_provider p) (p_model p)); [done|].
  rewrite andb_true_r.
  destruct (is_level resolved "xhigh") eqn:Hx.
  - destruct (explicitThink (p_directives p)); [done|].
    assert (∀ (m : M prepared_outcome),
              (∀ w0 r w1, m w0 = (Ok r, w1) → ∃ b' e' s', r = RunAgent "high" b' e' s') →
              m w = (Ok (RunAgent lvl body e st), w') → lvl = "xhigh" → false = true)
      as Hhigh.
    { intros m Hm Hrun ->. destruct (Hm _ _ _ Hrun) as (b' & e' & s' & [=]). }
    apply Hhigh. intros w0 r w1.
    destruct (p_sessionEntry p) as [se|]; [|unfold ret; intros [= <- _]; by eexists _, _, _].
    destruct (p_sessionStore p) as [ss|]; [|unfold ret; intros [= <- _]; by eexists _, _, _].
    case_match; [|unfold ret; intros [= <- _]; by eexists _, _, _].
    unfold bind at 1. unfold Date_now, get. cbv beta iota.
    unfold bind.
    match goal with |- context [if ?c then _ else _] => destruct c end.
    + match goal with |- context [updateSessionStore ?f ?a ?b w0] =>
        destruct (updateSessionStore f a b w0) as [[[]| |] w2] end;
        unfold ret; [intros [= <- _]; by eexists _, _, _|done..].
    + unfold ret. intros [= <- _]. by eexists _, _, _.
  - unfold ret. intros [= Hl _ _ _] Hxh. rewrite Hxh in Hl.
    destruct resolved as [r|]; [|done]. cbn in Hl. subst r. done.
Qed.

End ThinkingMore.

Module ThinkingMoreSamples.
Import SessionStore SessionStoreSpec SessionStoreFacts StoreSamples.
Import Thinking ThinkingSpec ThinkingSamples ThinkingSamplesMore.

Lemma handleDirectiveOnly_persists_think_level_witness :
  ∃ e' text events w',
    handleDirectiveOnly 1 sample_helpers (directive_only think_off_directive)
      stored_xhigh_world
    = (Ok (MkDirectiveResult (Some text) (Some e')
             (Some (<["agent:main:main" := e']> (<["agent:main:main" := stored_xhigh_record]> ∅)))
             events), w')
    ∧ e' !! "thinkingLevel" = None
    ∧ w_files w' !! sample_path
      = Some (File (JSON_stringify
                      (<["agent:main:main" := e']>
                         (disk_store stored_xhigh_world sample_path))) 5000)
    ∧ includes text "Thinking disabled." = true.
Proof.
  destruct (ThinkingMore.handleDirectiveOnly_persists_think_level 0 sample_helpers
              (directive_only think_off_directive) stored_xhigh_world "off"
              stored_xhigh_record (<["agent:main:main" := stored_xhigh_record]> ∅)
              sample_path
              ltac:(vm_refl) eq_refl eq_refl ltac:(discriminate) ltac:(discriminate)
              ltac:(intros e lvl; apply lookup_insert_ne; discriminate)
              eq_refl eq_refl ltac:(discriminate) eq_refl ltac:(discriminate)
              ltac:(vm_refl))
    as (e' & text & events & w' & Hrun & Hlvl & Hfile & Hin).
  exists e', text, events, w'. split; [exact Hrun|]. split; [exact Hlvl|].
  split; [exact Hfile|exact Hin].
Defined.

Lemma runPreparedReply_runs_at_supported_level_witness :
  runPreparedReply 0 sample_helpers openai_xhigh_turn sample_world
  = (Ok (RunAgent "xhigh" "hello" (Some main_record) (Some sample_store)), sample_world)
  ∧ supportsXHighThinking sample_helpers "openai" "gpt-5.2" = true.
Proof.
  assert (runPreparedReply 0 sample_helpers openai_xhigh_turn sample_world
          = (Ok (RunAgent "xhigh" "hello" (Some main_record) (Some sample_store)),
             sample_world)) as Hrun by vm_refl.
  split; [exact Hrun|].
  exact (ThinkingMore.runPreparedReply_runs_at_supported_level 0 sample_helpers
           openai_xhigh_turn sample_world sample_world "xhigh" "hello"
           (Some main_record) (Some sample_store) Hrun eq_refl).
Defined.

End ThinkingMoreSamples.


(** ** The main session and its alias (C8) *)

Module GatewayBridgeFacts.
Import SessionStore SessionStoreSpec SessionStoreFacts SessionsBridge SessionsBridgeFacts.
Import TextSpec GatewayTarget GatewayBridge.

(** The target of the alias [main]: its canonical key is the main session
    key, and that key is the first store key. *)
Lemma alias_target (im : KeyImports) :
  parseAgentSessionKey im "main" = None →
  resolveMainSessionKey im ≠ "main" →
  let target := resolveGatewaySessionStoreTarget im "main" in
  tg_canonicalKey target = resolveMainSessionKey im
  ∧ head (tg_storeKeys target) = Some (resolveMainSessionKey im).
Proof.
  intros Hparse Hne. cbv zeta. unfold resolveGatewaySessionStoreTarget.
  change (trim "main") with "main".
  assert (resolveSessionStoreKey im "main" = resolveMainSessionKey im) as ->.
  { unfold resolveSessionStoreKey. change (trim "main") with "main".
    change (String.eqb "main" "") with false.
    change (is_global_or_unknown "main") with false.
    change (String.eqb "main" "main") with true.
    cbv iota. by rewrite Hparse. }
  apply not_eq_sym, String.eqb_neq in Hne.
  change (String.eqb "main" "") with false. rewrite Hne. cbn [negb andb].
  destruct (is_global_or_unknown (resolveMainSessionKey im)); [done|].
  cbn [tg_canonicalKey tg_storeKeys]. split; [done|].
  change (set_add (resolveMainSessionKey im) []) with [resolveMainSessionKey im].
  destruct (parseAgentSessionKey im (resolveMainSessionKey im)) as [[a rest]|];
    [destruct (negb (String.eqb rest ""))|]; unfold set_add; by repeat case_match.
Qed.

(** The prologue leaves a store alone that has a record under the
    primary key. *)
Lemma adopt_primary_present (storeKeys : list string) (key primaryKey : string)
  (store : gmap string (gmap string jsval)) :
  head storeKeys = Some primaryKey →
  is_Some (store !! primaryKey) →
  adopt_primary storeKeys key store = (primaryKey, store).
Proof.
  intros Hhead [e He]. unfold adopt_primary. rewrite Hhead. cbn [default]. unfold id.
  rewrite He. by repeat case_match.
Qed.

(** C8 fails in the code: the main session can be deleted by its alias.
    [sessions.delete] compares the key it was sent with the main session
    key before the key is resolved, and the resolver maps the alias
    [main] to the main session key afterwards.  So, for every
    configuration in which [main] is not itself the main session key nor
    an agent key and the main session key is a trimmed text of ASCII
    characters, with a record of the main session in the store, no run
    that stays active and the lock free: the request with the main
    session key is refused and leaves the world as it was, but the
    request with the key [main] is answered with [deleted: true] and the
    store file no longer has the record of the main session. *)
Theorem delete_by_alias_removes_main_session (fuel : nat) (im : KeyImports)
  (deleteTranscript : option bool) (runActive runEnded : jsval → bool)
  (archive : jsval → jsval → list string) (w : World) (e : gmap string jsval) :
  let mainKey := resolveMainSessionKey im in
  let call key :=
    gateway_call im mainKey true "" (Some key) deleteTranscript runActive runEnded
      archive in
  let storePath := tg_storePath (resolveGatewaySessionStoreTarget im "main") in
  parseAgentSessionKey im "main" = None →
  mainKey ≠ "main" → mainKey ≠ "" →
  ascii_only mainKey = true → trim mainKey = mainKey →
  disk_store w storePath !! mainKey = Some e →
  (∀ sessionId, runActive sessionId && negb (runEnded sessionId) = false) →
  w_locks w !! lock_path storePath = None →
  tg_canonicalKey (resolveGatewaySessionStoreTarget im "main") = mainKey
  ∧ sessions_delete (S fuel) (call mainKey) w
    = (Ok (Failure INVALID_REQUEST
             ("Cannot delete the main session (" +:+ mainKey +:+ ").")), w)
  ∧ ∃ archived w',
      sessions_delete (S fuel) (call "main") w
      = (Ok (Answer (DeletePayload "main" true archived)), w')
      ∧ disk_store w' storePath !! mainKey = None.
Proof.
  intros mainKey call storePath Hparse Hne Hnonempty _ Htrim Hmain Hidle Hfree.
  destruct (alias_target im Hparse Hne) as [Hcanon Hhead].
  split; [exact Hcanon|]. split.
  - unfold sessions_delete, call, gateway_call.
    cbn [c_valid c_key c_mainKey negb default]. unfold id. rewrite Htrim.
    apply String.eqb_neq in Hnonempty. rewrite Hnonempty.
    by rewrite String.eqb_refl.
  - destruct (delete_refuses_main_and_removes_other fuel (call "main") w)
      as [_ Hother].
    assert (trim (default "" (c_key (call "main"))) = "main") as Hkey by done.
    rewrite Hkey in Hother.
    change (c_target (call "main") "main")
      with (resolveGatewaySessionStoreTarget im "main") in Hother.
    fold storePath in Hother.
    destruct (loadSessionEntry_frame (call "main") "main" w)
      as (entry & w1 & Hl & _).
    destruct (Hother eq_refl ltac:(discriminate) ltac:(by apply not_eq_sym) Hfree
                entry ltac:(by rewrite Hl)) as [_ Hgo].
    destruct Hgo as (archived & w' & Hrun & Hfile & _).
    { change (c_runActive (call "main")) with runActive.
      change (c_runEnded (call "main")) with runEnded.
      rewrite <- andb_assoc, Hidle. apply andb_false_r. }
    assert (delete_result (tg_storeKeys (resolveGatewaySessionStoreTarget im "main"))
              "main" (disk_store w storePath)
            = ((true, Some e), delete mainKey (disk_store w storePath))) as Hdel.
    { unfold delete_result.
      rewrite (adopt_primary_present _ _ mainKey) by (rewrite ?Hmain; eauto).
      rewrite Hmain. done. }
    rewrite Hdel in Hrun, Hfile. cbn [fst snd] in Hrun, Hfile.
    exists archived, w'. split; [exact Hrun|].
    unfold disk_store.
    destruct (w_files w' !! storePath) as [[c t]|]; [|done].
    cbn in Hfile. injection Hfile as ->. unfold JSON_stringify.
    unfold migrate, json_store. rewrite !lookup_fmap.
    by rewrite lookup_delete_eq.
Qed.

End GatewayBridgeFacts.

Module GatewayBridgeSamples.
Import SessionStore SessionStoreSpec SessionStoreFacts SessionsBridge.
Import StoreSamples InitSamples GatewayTarget GatewayBridge.

(** The store has the main session [agent:main:main] and a second
    session.  The request for [agent:main:main] is refused; the request
    for [main] deletes the record of [agent:main:main]. *)
Lemma delete_by_alias_removes_main_session_witness :
  disk_store two_session_world sample_path !! "agent:main:main" = Some main_record
  ∧ sessions_delete 1 (gateway_delete "agent:main:main") two_session_world
    = (Ok (Failure INVALID_REQUEST "Cannot delete the main session (agent:main:main)."),
       two_session_world)
  ∧ ∃ archived w',
      sessions_delete 1 (gateway_delete "main") two_session_world
      = (Ok (Answer (DeletePayload "main" true archived)), w')
      ∧ disk_store w' sample_path !! "agent:main:main" = None.
Proof.
  split; [vm_refl|].
  destruct (GatewayBridgeFacts.delete_by_alias_removes_main_session
              0 bridge_key_imports None (λ _, false) (λ _, true) (λ _ _, [])
              two_session_world main_record
              eq_refl ltac:(discriminate) ltac:(discriminate) eq_refl eq_refl
              ltac:(vm_refl) ltac:(done) ltac:(vm_refl))
    as (_ & Hrefused & archived & w' & Hrun & Hgone).
  split; [exact Hrefused|]. exists archived, w'. by split.
Defined.

End GatewayBridgeSamples.

(** ** Reading a thinking level back from the store file *)

Module StoredLevelFacts.
Import SessionStore SessionStoreSpec SessionStoreFacts.

(** A level written under a key is read back from the file. *)
Lemma level_read_back (storePath key level : string) (e : gmap string jsval)
  (d : gmap string (gmap string jsval)) (t : Z) (w : World) :
  w_files w !! storePath = Some (File (JSON_stringify (<[key := e]> d)) t) →
  prop e "thinkingLevel" = JStr level →
  ∃ e', disk_store w storePath !! key = Some e'
    ∧ prop e' "thinkingLevel" = JStr level.
Proof.
  intros Hf He. unfold disk_store. rewrite Hf. unfold JSON_stringify.
  exists (migrate_entry (json_entry e)). split.
  - unfold migrate, json_store. by rewrite !lookup_fmap, lookup_insert_eq.
  - unfold prop in *. rewrite migrate_entry_other by done.
    unfold json_entry.
    destruct (e !! "thinkingLevel") as [v|] eqn:Hv; [|done]. cbn in He. subst v.
    by rewrite (map_lookup_filter_Some_2 _ _ _ _ Hv).
Qed.

End StoredLevelFacts.

(** ** An explicit [xhigh] on a model without it (C6) *)

Module AgentCommandFacts.
Import SessionStore SessionStoreSpec SessionStoreFacts TextSpec StoredLevelFacts.
Import AgentCommand.

(** Writing one record with the lock free: the update returns, the file
    holds the store read from disk with the record under its key, and
    the marker is gone again. *)
Lemma put_entry_written (fuel : nat) (storePath key : string) (e : gmap string jsval)
  (w : World) :
  w_locks w !! lock_path storePath = None →
  ∃ w', put_entry (S fuel) storePath key e w = (Ok tt, w')
    ∧ w_files w' !! storePath
      = Some (File (JSON_stringify (<[key := e]> (disk_store w storePath))) (w_now w))
    ∧ w_locks w' = w_locks w
    ∧ w_now w' = w_now w.
Proof.
  intros Hfree.
  destruct (updateSessionStore_pure fuel storePath (λ store, (tt, <[key := e]> store)) w Hfree)
    as (w' & Hupd & Hf & Hl & Hn & _).
  exists w'. split_and!; [exact Hupd| |exact Hl|exact Hn].
  rewrite Hf. apply lookup_insert_eq.
Qed.

(** The record the function starts from has the properties of the one
    it was handed, apart from the two it sets itself. *)
Lemma entry_or_fresh_spec (entry : option (gmap string jsval)) (sessionId : string)
  (w : World) :
  ∃ e, entry_or_fresh entry sessionId w = (Ok e, w)
    ∧ ∀ p, p ≠ "updatedAt" → p ≠ "sessionId" → prop e p = oprop entry p.
Proof.
  destruct entry as [e|]; cbn.
  - by exists e.
  - eexists. split; [reflexivity|]. intros p H1 H2. unfold prop.
    by rewrite !lookup_insert_ne, lookup_empty by done.
Qed.

Lemma nonblank_some (s : string) : s ≠ "" → nonblank (Some s) = true.
Proof. intros Hne. cbn. by apply negb_true_iff, String.eqb_neq. Qed.

(** The checks on the options pass for a request that asks for [xhigh]
    with [--thinking] and leaves the one-shot level, the verbose level
    and the timeout out. *)
Lemma check_opts_thinking {Entry : Type} (im : AgentImports Entry)
  (opts : AgentCommandOpts) (level : string) (w : World) :
  trim (default "" (message opts)) ≠ "" →
  nonblank (to opts) || nonblank (sessionId opts) || nonblank (sessionKey opts) = true →
  normalizeThinkLevel im (thinking opts) = Some level → level ≠ "" →
  thinkingOnce opts = None → normalizeThinkLevel im None = None →
  verbose opts = None → timeout opts = None →
  check_opts im opts w = (Ok (Some level, None, normalizeVerboseLevel im None), w).
Proof.
  intros Hbody Htarget Hthink Hlevel Honce Hnone Hverbose Htimeout.
  unfold check_opts.
  apply String.eqb_neq in Hbody. rewrite Hbody.
  rewrite <- !negb_orb, Htarget. cbn [negb].
  rewrite Hthink, Honce, Hnone, Hverbose, Htimeout, (nonblank_some level Hlevel).
  cbn [nonblank negb andb]. by rewrite andb_false_r.
Qed.

(** C6 fails in the code: [agentCommand] writes an explicitly requested
    [xhigh] to the session store before it checks the model.  Let the
    request pass the checks on its options (a message of ASCII
    characters that is not blank, a target, no one-shot level, verbose
    level, timeout or delivery) and ask for [xhigh] with [--thinking];
    let the session have a key and a store, a record without model,
    provider and auth-profile override, and a free lock; let the
    configured model not support [xhigh].  Then the call ends in the
    error [Thinking level "xhigh" is only supported for ...], and the
    record read from the store file afterwards has [thinkingLevel] set
    to [xhigh]. *)
Theorem explicit_xhigh_is_persisted_before_rejection {Entry : Type} (fuel : nat)
  (im : AgentImports Entry) (opts : AgentCommandOpts) (key : string)
  (store : gmap string (gmap string jsval)) (w : World) :
  let session := resolveSession im opts in
  let storePath := sr_storePath session in
  ascii_only (default "" (message opts)) = true →
  trim (default "" (message opts)) ≠ "" →
  nonblank (to opts) || nonblank (sessionId opts) || nonblank (sessionKey opts) = true →
  normalizeThinkLevel im (thinking opts) = Some "xhigh" →
  thinkingOnce opts = None → normalizeThinkLevel im None = None →
  verbose opts = None → timeout opts = None → deliver opts ≠ Some true →
  sr_sessionKey session = Some key → key ≠ "" →
  sr_sessionStore session = Some store →
  oprop (sr_sessionEntry session) "modelOverride" = JUndef →
  oprop (sr_sessionEntry session) "providerOverride" = JUndef →
  oprop (sr_sessionEntry session) "authProfileOverride" = JUndef →
  supportsXHighThinking im (resolveConfiguredModelRef im).1 (resolveConfiguredModelRef im).2
  = false →
  (∀ e, prop (applyVerboseOverride im e (normalizeVerboseLevel im None)) "thinkingLevel"
        = prop e "thinkingLevel") →
  w_locks w !! lock_path storePath = None →
  ∃ w' e,
    agentCommand im (S fuel) opts w
    = (Throw (Error ("Thinking level " +:+ quoted "xhigh" +:+ " is only supported for "
                     +:+ formatXHighModelHint im +:+ ".")), w')
    ∧ disk_store w' storePath !! key = Some e
    ∧ prop e "thinkingLevel" = JStr "xhigh"
    ∧ w_locks w' = w_locks w.
Proof.
  intros session storePath _ Hbody Htarget Hthink Honce Hnone Hverbose Htimeout Hdeliver
    Hkey Hne Hstore Hmodel Hprovider Hauth Hsupport Hverb Hfree.
  destruct (agentCommand im (S fuel) opts w) as [r w'] eqn:Hrun.
  revert Hrun. unfold agentCommand. unfold bind at 1.
  rewrite (check_opts_thinking im opts "xhigh" w) by done.
  fold session. rewrite Hkey, Hstore. cbn [default]. unfold id.
  rewrite (bool_decide_eq_false_2 _ Hdeliver). cbn [andb].
  rewrite (nonblank_some key Hne).
  intros Hrun.
  (* the skills snapshot *)
  match type of Hrun with
  | bind ?m _ _ = _ =>
      assert (∃ se1 st1 w1, m w = (Ok (se1, Some st1), w1)
                ∧ w_locks w1 = w_locks w
                ∧ oprop se1 "modelOverride" = JUndef
                ∧ oprop se1 "providerOverride" = JUndef
                ∧ oprop se1 "authProfileOverride" = JUndef)
        as (se1 & st1 & w1 & Hm & Hl1 & Hmodel1 & Hprovider1 & Hauth1)
  end.
  { match goal with
    | |- context [<["skillsSnapshot" := ?v]> _] => set (skillsSnapshot := v)
    end.
    match goal with |- context [if ?b then _ else _] => destruct b end.
    - destruct (entry_or_fresh_spec (sr_sessionEntry session) (sr_sessionId session) w)
        as (current & Hcur & Hsame).
      unfold bind at 1. rewrite Hcur. unfold bind at 1. cbn [Date_now get].
      unfold bind at 1.
      match goal with
      | |- context [put_entry _ _ _ ?next w] =>
          destruct (put_entry_written fuel storePath key next w Hfree)
            as (w1 & Hput & _ & Hl & _)
      end.
      subst storePath. rewrite Hput. cbn [ret].
      eexists _, _, w1. split; [reflexivity|]. split; [exact Hl|].
      cbn [oprop].
      assert (∀ p, p ≠ "skillsSnapshot" → p ≠ "updatedAt" → p ≠ "sessionId" →
                   oprop (sr_sessionEntry session) p = JUndef →
                   prop (<["skillsSnapshot" := skillsSnapshot]>
                           (<["updatedAt" := JNum (w_now w)]>
                              (<["sessionId" := JStr (sr_sessionId session)]> current))) p
                   = JUndef) as Hkeep.
      { intros p H1 H2 H3 Hp. rewrite <- Hp, <- Hsame by done. unfold prop.
        by rewrite !lookup_insert_ne by done. }
      split_and!; by apply Hkeep.
    - eexists _, _, w. split_and!; done. }
  unfold bind at 1 in Hrun. rewrite Hm in Hrun. clear Hm.
  (* the overrides of the request *)
  assert (w_locks w1 !! lock_path storePath = None) as Hfree1 by (by rewrite Hl1).
  match type of Hrun with
  | bind ?m _ _ = _ =>
      assert (∃ next w2, m w1 = (Ok (Some (<[key := next]> st1)), w2)
                ∧ w_locks w2 = w_locks w1
                ∧ (∃ d t, w_files w2 !! storePath
                          = Some (File (JSON_stringify (<[key := next]> d)) t))
                ∧ prop next "thinkingLevel" = JStr "xhigh")
        as (next & w2 & Hm & Hl2 & (d & t & Hfile) & Hlevel)
  end.
  { assert (∃ entry, match st1 !! key with
                     | Some e0 => ret e0
                     | None => entry_or_fresh se1 (sr_sessionId session)
                     end w1 = (Ok entry, w1)) as [entry Hentry].
    { destruct (st1 !! key) as [e0|]; [by exists e0|].
      destruct (entry_or_fresh_spec se1 (sr_sessionId session) w1) as (e0 & He0 & _).
      by exists e0. }
    unfold bind at 1. rewrite Hentry. unfold bind at 1. cbn [Date_now get].
    unfold bind at 1.
    match goal with
    | |- context [put_entry _ _ _ ?next w1] =>
        destruct (put_entry_written fuel storePath key next w1 Hfree1)
          as (w2 & Hput & Hf & Hl & _);
        exists next, w2
    end.
    subst storePath. rewrite Hput. cbn [ret].
    split; [reflexivity|]. split; [exact Hl|]. split; [by eexists _, _|].
    rewrite Hverb. cbn. unfold prop. by rewrite lookup_insert_eq. }
  unfold bind at 1 in Hrun. rewrite Hm in Hrun. clear Hm.
  (* the model: no stored override, so the configured one *)
  rewrite Hmodel1, Hprovider1 in Hrun. cbn [truthy orb] in Hrun.
  rewrite andb_false_r in Hrun.
  destruct se1 as [e1|]; cbn [oprop] in Hmodel1, Hprovider1, Hauth1;
    cbn [bind ret throw oprop coalesce] in Hrun;
    rewrite ?Hprovider1, ?Hmodel1 in Hrun;
    cbn [bind ret optional_trim nonblank] in Hrun;
    rewrite ?Hauth1 in Hrun;
    cbn [bind ret truthy] in Hrun;
    change (String.eqb "xhigh" "") with false in Hrun;
    cbn [negb orb andb] in Hrun;
    rewrite bool_decide_eq_true_2, Hsupport in Hrun by done;
    cbn [negb andb throw] in Hrun;
    injection Hrun as <- <-;
    destruct (level_read_back storePath key "xhigh" next d t w2 Hfile Hlevel)
      as (e & Hread & He);
    exists w2, e; (split_and!; [reflexivity|exact Hread|exact He|by rewrite Hl2, Hl1]).
Qed.

End AgentCommandFacts.

Module AgentCommandSamples.
Import SessionStore SessionStoreSpec SessionStoreFacts StoreSamples AgentCommand AgentSamples.

(** The record of the main session stores no thinking level.  The request
    [--thinking xhigh] for the model [anthropic/claude-opus-4-5] ends in
    the error, and the record in the file has [xhigh] afterwards. *)
Lemma explicit_xhigh_is_persisted_before_rejection_witness :
  disk_store sample_world sample_path !! "agent:main:main" = Some main_record
  ∧ prop main_record "thinkingLevel" = JUndef
  ∧ ∃ w' e,
      agentCommand sample_agent_imports 1 xhigh_request sample_world
      = (Throw (Error ("Thinking level " +:+ quoted "xhigh"
                       +:+ " is only supported for openai/gpt-5.2.")), w')
      ∧ disk_store w' sample_path !! "agent:main:main" = Some e
      ∧ prop e "thinkingLevel" = JStr "xhigh".
Proof.
  split; [vm_refl|]. split; [vm_refl|].
  destruct (AgentCommandFacts.explicit_xhigh_is_persisted_before_rejection
              0 sample_agent_imports xhigh_request "agent:main:main" sample_store
              sample_world
              eq_refl ltac:(discriminate) eq_refl eq_refl eq_refl eq_refl eq_refl eq_refl
              ltac:(discriminate) eq_refl ltac:(discriminate) eq_refl
              eq_refl eq_refl eq_refl eq_refl ltac:(done) ltac:(vm_refl))
    as (w' & e & Hrun & Hread & He & _).
  exists w', e. split_and!; [exact Hrun|exact Hread|exact He].
Defined.

End AgentCommandSamples.

(** ** Inline directives are written without a look at the model *)

Module DirectivePersistFacts.
Import SessionStore SessionStoreSpec SessionStoreFacts Thinking ThinkingFacts.
Import ModelDirective DirectivePersist StoredLevelFacts.

Lemma prop_insert_other (p q : string) (v : jsval) (e : gmap string jsval) :
  p ≠ q → prop (<[p := v]> e) q = prop e q.
Proof. intros Hne. unfold prop. by rewrite lookup_insert_ne. Qed.

Lemma prop_set_or_clear_other (p q lvl : string) (e : gmap string jsval) :
  p ≠ q → prop (set_or_clear p lvl e) q = prop e q.
Proof. intros Hne. unfold prop. by rewrite set_or_clear_other. Qed.

(** After the level directives the record has the level of the think
    directive and counts as updated. *)
Lemma persist_levels_think (pi : PersistImports) (ps : PersistParams) (level : string)
  (entry : gmap string jsval) :
  hasThinkDirective (pp_directives ps) = true →
  thinkLevel (pp_directives ps) = Some level → level ≠ "" → level ≠ "off" →
  (∀ e l, prop (applyVerboseOverride pi e l) "thinkingLevel" = prop e "thinkingLevel") →
  g_updated (persist_levels pi ps entry) = true
  ∧ prop (g_entry (persist_levels pi ps entry)) "thinkingLevel" = JStr level.
Proof.
  intros Hhas Hlevel Hne Hoff Hverb. unfold persist_levels.
  rewrite Hhas, Hlevel, (given_some level Hne). cbn [andb default]. unfold id.
  set (e1 := set_or_clear "thinkingLevel" level entry).
  assert (prop e1 "thinkingLevel" = JStr level) as H1.
  { subst e1. unfold set_or_clear, prop.
    apply String.eqb_neq in Hoff. rewrite Hoff. by rewrite lookup_insert_eq. }
  clearbody e1.
  destruct (hasVerboseDirective (pp_directives ps) && given (verboseLevel (pp_directives ps)));
    destruct (hasReasoningDirective (pp_directives ps)
              && given (reasoningLevel (pp_directives ps)));
    destruct (hasElevatedDirective (pp_directives ps)
              && given (elevatedLevel (pp_directives ps))
              && pp_elevatedEnabled ps && pp_elevatedAllowed ps);
    cbn; (split; [done|]);
    rewrite ?prop_insert_other, ?prop_set_or_clear_other, ?Hverb by done; exact H1.
Qed.

(** X29.  [persistInlineDirectives] writes the level of an inline think
    directive to the session without a look at the model.  Let the
    message carry a think directive with a level other than [off] and no
    model directive, let record, store, key and store path be given and
    the lock be free.  Then, whatever the provider and the model are, the
    call returns, the record it hands back has that level, and so has
    the record read from the store file afterwards. *)
Theorem persistInlineDirectives_writes_think_level (fuel : nat) (mi : Imports)
  (pi : PersistImports) (ps : PersistParams) (level key storePath : string)
  (entry : gmap string jsval) (store : gmap string (gmap string jsval)) (w : World) :
  hasThinkDirective (pp_directives ps) = true →
  thinkLevel (pp_directives ps) = Some level → level ≠ "" → level ≠ "off" →
  hasModelDirective (pp_directives ps) = false →
  (∀ e l, prop (applyVerboseOverride pi e l) "thinkingLevel" = prop e "thinkingLevel") →
  pp_sessionEntry ps = Some entry → pp_sessionStore ps = Some store →
  pp_sessionKey ps = Some key → key ≠ "" →
  pp_storePath ps = Some storePath → storePath ≠ "" →
  w_locks w !! lock_path storePath = None →
  ∃ r w' e,
    persistInlineDirectives mi pi (S fuel) ps w = (Ok r, w')
    ∧ pr_provider r = pp_provider ps ∧ pr_model r = pp_model ps
    ∧ oprop (pr_sessionEntry r) "thinkingLevel" = JStr level
    ∧ disk_store w' storePath !! key = Some e
    ∧ prop e "thinkingLevel" = JStr level
    ∧ w_locks w' = w_locks w.
Proof.
  intros Hhas Hlevel Hne Hoff Hmodel Hverb Hentry Hstore Hkey Hkne Hpath Hpne Hfree.
  destruct (persist_levels_think pi ps level entry Hhas Hlevel Hne Hoff Hverb)
    as [Hupd Hlvl].
  unfold persistInlineDirectives.
  rewrite Hentry, Hstore, Hkey, Hpath, (given_some key Hkne), (given_some storePath Hpne).
  cbn [default]. unfold id.
  assert (persist_model mi pi ps (persist_levels pi ps entry) w
          = (Ok (persist_levels pi ps entry), w)) as Hpm.
  { unfold persist_model. by rewrite Hmodel. }
  unfold bind at 1. rewrite Hpm.
  set (g := persist_queue_reset ps (persist_levels pi ps entry)).
  assert (g_updated g = true ∧ prop (g_entry g) "thinkingLevel" = JStr level
          ∧ g_provider g = pp_provider ps ∧ g_model g = pp_model ps)
    as (Hgu & Hgl & Hgp & Hgm).
  { subst g. unfold persist_queue_reset.
    destruct (hasQueueDirective (pp_directives ps) && queueReset (pp_directives ps));
      cbn; (split_and!; try done).
    - unfold prop in *. by rewrite !lookup_delete_ne by done.
    - unfold persist_levels. repeat case_match; done.
    - unfold persist_levels. repeat case_match; done.
    - unfold persist_levels. repeat case_match; done.
    - unfold persist_levels. repeat case_match; done. }
  rewrite Hgu. unfold bind at 1. cbn [Date_now get].
  set (e' := <["updatedAt" := JNum (w_now w)]> (g_entry g)).
  assert (prop e' "thinkingLevel" = JStr level) as He'.
  { subst e'. unfold prop in *. by rewrite lookup_insert_ne. }
  destruct (put_entry_persisted fuel storePath key e' w Hfree) as (w' & Hput & Hfile).
  destruct (level_read_back storePath key level e' _ _ w' Hfile He') as (e & Hread & He).
  assert (w_locks w' = w_locks w) as Hlocks.
  { destruct (updateSessionStore_pure fuel storePath (λ s, (tt, <[key := e']> s)) w Hfree)
      as (w'' & Hupd' & _ & Hl & _).
    unfold put_entry_mutator in Hput. rewrite Hput in Hupd'. by injection Hupd' as <-. }
  unfold bind at 1. rewrite Hput. cbn [ret].
  eexists _, w', e. split; [reflexivity|].
  cbn [pr_provider pr_model pr_sessionEntry oprop]. by split_and!.
Qed.

End DirectivePersistFacts.

Module DirectivePersistSamples.
Import SessionStore SessionStoreSpec SessionStoreFacts StoreSamples Thinking ThinkingSamples.
Import DirectivePersist PersistSamples.

(** The message [/think xhigh hello] on the main session, whose record
    stores no level and whose model [anthropic/claude-opus-4-5] does not
    take [xhigh]: the file has [xhigh] afterwards. *)
Lemma persistInlineDirectives_writes_think_level_witness :
  supportsXHighThinking sample_helpers (pp_provider inline_xhigh) (pp_model inline_xhigh)
  = false
  ∧ prop main_record "thinkingLevel" = JUndef
  ∧ ∃ r w' e,
      persistInlineDirectives no_model_imports sample_persist_imports 1 inline_xhigh
        sample_world = (Ok r, w')
      ∧ disk_store w' sample_path !! "agent:main:main" = Some e
      ∧ prop e "thinkingLevel" = JStr "xhigh".
Proof.
  split; [vm_refl|]. split; [vm_refl|].
  destruct (DirectivePersistFacts.persistInlineDirectives_writes_think_level
              0 no_model_imports sample_persist_imports inline_xhigh
              "xhigh" "agent:main:main" sample_path main_record sample_store sample_world
              eq_refl eq_refl ltac:(discriminate) ltac:(discriminate) eq_refl
              ltac:(intros e l; cbn; unfold prop; by rewrite lookup_insert_ne)
              eq_refl eq_refl eq_refl ltac:(discriminate)
              eq_refl ltac:(discriminate) ltac:(vm_refl))
    as (r & w' & e & Hrun & _ & _ & _ & Hread & He & _).
  exists r, w', e. by split_and!.
Defined.

End DirectivePersistSamples.
